(** * Voltic forecasting core: engine and job-orchestration service

    A shallow embedding of [forecasting/forecast_engine.py],
    [forecasting/models.py], [forecasting/services.py] and the forecast
    trigger endpoint of [forecasting/views.py], with the properties of
    the forecast engine, the model registry, the job-orchestration
    service and the endpoint stated and proved over it.

    Conventions.
    - Python [Decimal] values are pairs coefficient/exponent; arithmetic
      rounds to the default context (28 significant digits, half-even).
    - Python [float] values are binary64 primitive floats.
    - A [datetime] is the number of microseconds on its own wall clock since
      0001-01-01T00:00:00, up to the last microsecond of the year 9999;
      [timedelta] arithmetic is addition, and raises when it leaves that
      range.
    - Exceptions are values of [exn]; fallible code returns [result].
    - The database is SQLite, Django's default: a row holds what a query
      reads back from its columns. *)

From Stdlib Require Import ZArith QArith Qabs Lia List Bool Ascii String Sorting.Sorted.
From Stdlib Require Import PrimFloat SpecFloat FloatOps.
From Stdlib Require Import Sorting.Permutation Structures.OrderedTypeEx.
From stdpp Require Import gmap strings pretty sorting.

Local Open Scope Z_scope.

(* ===================================================================== *)
(** * Exceptions and results                                             *)
(* ===================================================================== *)

(** The exception classes the core raises or catches.  [OverflowError]
    and [decimal.InvalidOperation] are the two arithmetic errors of the
    standard library that reach it; the last four are the service's own
    hierarchy: [ForecastServiceError] and its three subclasses. *)
Inductive exn : Type :=
  | ValueError (msg : string)
  | TypeError (msg : string)
  | OverflowError (msg : string)
  | InvalidOperation (msg : string)
  | IntegrityError (msg : string)
  | DatabaseError (msg : string)
  | Portfolio_DoesNotExist (msg : string)
  | ForecastJob_DoesNotExist (msg : string)
  | OtherException (msg : string)
  | ForecastServiceError (msg : string)
  | PortfolioNotFoundError (msg : string)
  | EmptyPortfolioError (msg : string)
  | JobNotFoundError (msg : string).

(** [str(e)] *)
Definition str_exn (e : exn) : string :=
  match e with
  | ValueError m | TypeError m | OverflowError m | InvalidOperation m
  | IntegrityError m | DatabaseError m
  | Portfolio_DoesNotExist m | ForecastJob_DoesNotExist m | OtherException m
  | ForecastServiceError m | PortfolioNotFoundError m | EmptyPortfolioError m
  | JobNotFoundError m => m
  end.

(** [isinstance(e, ForecastServiceError)] *)
Definition is_ForecastServiceError (e : exn) : bool :=
  match e with
  | ForecastServiceError _ | PortfolioNotFoundError _ | EmptyPortfolioError _
  | JobNotFoundError _ => true
  | _ => false
  end.

(** The engine's input errors are [ValueError]s. *)
Definition is_input_error (e : exn) : bool :=
  match e with ValueError _ => true | _ => false end.

Inductive result (A : Type) : Type :=
  | Ok (a : A)
  | Raise (e : exn).
Arguments Ok {A} a.
Arguments Raise {A} e.

(** [r] followed by [k] on its value; an exception passes through. *)
Definition and_then {A B} (r : result A) (k : A -> result B) : result B :=
  match r with
  | Ok a => k a
  | Raise e => Raise e
  end.

(* ===================================================================== *)
(** * Python's [decimal.Decimal] under the default context               *)
(* ===================================================================== *)

Module Decimal.

(** A finite decimal: [coefficient * 10 ^ exponent].  The sign lives in
    the coefficient; Python's signed zero is not distinguished (every
    use in the engine compares numerically). *)
Record t : Type := Dec { coefficient : Z; exponent : Z }.

Definition eq_dec (a b : t) : {a = b} + {a <> b}.
Proof. decide equality; apply Z.eq_dec. Defined.

(** [getcontext().prec] *)
Definition prec : Z := 28.

(** Number of decimal digits of a non-negative integer ([len(str(n))]). *)
Fixpoint ndigits_fuel (fuel : nat) (n : Z) : Z :=
  match fuel with
  | O => 1
  | S fuel' => if n <? 10 then 1 else 1 + ndigits_fuel fuel' (n / 10)
  end.

Definition ndigits (n : Z) : Z := ndigits_fuel (Z.to_nat (Z.log2 n) + 1) n.

(** ROUND_HALF_EVEN division of a non-negative [c] by a positive [d]. *)
Definition div_half_even (c d : Z) : Z :=
  let q := c / d in
  let r := c mod d in
  if (d <? 2 * r) || ((2 * r =? d) && Z.odd q) then q + 1 else q.

(** Rounding of an exact result to the context precision ([Decimal._fix]):
    coefficients of more than [prec] digits lose their low digits,
    half-even; a carry to [10 ^ prec] is renormalised. *)
Definition context_round (d : t) : t :=
  let c := Z.abs (coefficient d) in
  let n := ndigits c in
  if n <=? prec then d
  else
    let shift := n - prec in
    let q := div_half_even c (10 ^ shift) in
    let '(q, e) := if q =? 10 ^ prec then (10 ^ (prec - 1), exponent d + shift + 1)
                   else (q, exponent d + shift) in
    Dec (Z.sgn (coefficient d) * q) e.

(** [a * b] *)
Definition mul (a b : t) : t :=
  context_round (Dec (coefficient a * coefficient b) (exponent a + exponent b)).

(** Coefficient of [d] rescaled to the exponent [e <= exponent d]. *)
Definition rescale (d : t) (e : Z) : Z := coefficient d * 10 ^ (exponent d - e).

(** [a + b] *)
Definition add (a b : t) : t :=
  let e := Z.min (exponent a) (exponent b) in
  context_round (Dec (rescale a e + rescale b e) e).

(** [a - b] *)
Definition sub (a b : t) : t :=
  let e := Z.min (exponent a) (exponent b) in
  context_round (Dec (rescale a e - rescale b e) e).

(** [a < b], [a <= b], [a == b] (numeric comparison) *)
Definition ltb (a b : t) : bool :=
  let e := Z.min (exponent a) (exponent b) in rescale a e <? rescale b e.
Definition leb (a b : t) : bool :=
  let e := Z.min (exponent a) (exponent b) in rescale a e <=? rescale b e.
Definition eqb (a b : t) : bool :=
  let e := Z.min (exponent a) (exponent b) in rescale a e =? rescale b e.

(** [max(a, b)]: the builtin keeps its first argument unless the second
    is strictly greater. *)
Definition max (a b : t) : t := if ltb a b then b else a.

(** [bool(d)]: a Decimal is falsy exactly when it is zero. *)
Definition truthy (d : t) : bool := negb (coefficient d =? 0).

(** [d._rescale(-3, ROUND_HALF_EVEN)]: the value at the exponent of
    [Decimal('0.001')], which is what [quantize] returns when it returns. *)
Definition quantize_exp : Z := -3.
Definition _rescale (d : t) : t :=
  if quantize_exp <=? exponent d then Dec (rescale d quantize_exp) quantize_exp
  else
    let q := div_half_even (Z.abs (coefficient d)) (10 ^ (quantize_exp - exponent d)) in
    Dec (Z.sgn (coefficient d) * q) quantize_exp.

(** [d.adjusted()]: the exponent of the leading digit. *)
Definition adjusted (d : t) : Z := exponent d + ndigits (Z.abs (coefficient d)) - 1.

(** [str(e)] of the exception the C implementation of [decimal] raises
    for a trapped InvalidOperation. *)
Definition InvalidOperation_message : string := "[<class 'decimal.InvalidOperation'>]".

(** [d.quantize(Decimal('0.001'), context=Context(prec=p))], rounding
    ROUND_HALF_EVEN.  A zero is returned at the new exponent; for any other
    value a result of more than [p] digits signals InvalidOperation, which
    the context traps. *)
Definition quantize_in (p : Z) (d : t) : result t :=
  if coefficient d =? 0 then Ok (Dec 0 quantize_exp)
  else if p <? adjusted d - quantize_exp + 1 then
    Raise (InvalidOperation InvalidOperation_message)
  else
    let ans := _rescale d in
    if p <? ndigits (Z.abs (coefficient ans)) then
      Raise (InvalidOperation InvalidOperation_message)
    else Ok ans.

(** [d.quantize(Decimal('0.001'))] under the default context. *)
Definition quantize (d : t) : result t := quantize_in prec d.

(** The rational number a Decimal denotes. *)
Definition to_Q (d : t) : Q := inject_Z (coefficient d) * (10 # 1) ^ exponent d.

(** Literals used by the engine. *)
Definition d0_0 : t := Dec 0 (-1).      (* Decimal('0.0') *)
Definition d10_0 : t := Dec 100 (-1).   (* Decimal('10.0') *)
Definition d0_2 : t := Dec 2 (-1).      (* Decimal('0.2') *)
Definition d0_25 : t := Dec 25 (-2).    (* Decimal('0.25') *)
Definition d0_30 : t := Dec 30 (-2).    (* Decimal('0.30') *)
Definition d0_20 : t := Dec 20 (-2).    (* Decimal('0.20') *)

(** |d| <= 10 ^ k, read off the representation. *)
Definition le_pow10 (d : t) (k : Z) : Prop :=
  exponent d <= k /\ Z.abs (coefficient d) <= 10 ^ (k - exponent d).

(** The shape of every value the engine generates: the literal 0.0, or a
    positive number of thousandths (of at most [bound] thousandths). *)
Definition generated (p : t) (bound : Z) : Prop :=
  p = d0_0 \/ (exponent p = -3 /\ 0 < coefficient p <= bound).

End Decimal.

(* ===================================================================== *)
(** * Python [float]: conversions to and from [Decimal]                  *)
(* ===================================================================== *)

Module PyFloat.
Import Decimal.

(** Exact comparison of [a * 10^q] with [b * 2^e], for [a, b >= 0]. *)
Definition cmp_dec_bin (a q b e : Z) : comparison :=
  (a * 10 ^ Z.max q 0 * 2 ^ Z.max (- e) 0) ?= (b * 2 ^ Z.max e 0 * 10 ^ Z.max (- q) 0).

(** [floor (b * 2^e / 10^q)] *)
Definition floor_scaled (b e q : Z) : Z :=
  (b * 2 ^ Z.max e 0 * 10 ^ Z.max (- q) 0) / (10 ^ Z.max q 0 * 2 ^ Z.max (- e) 0).

(** Least [j >= 1] (within the fuel) with [b * 2^e * 10^j >= 1]. *)
Fixpoint first_digit_pos (fuel : nat) (b e j : Z) : Z :=
  match fuel with
  | O => j
  | S fuel' => if 1 <=? floor_scaled b e (- j) then j else first_digit_pos fuel' b e (j + 1)
  end.

(** [floor (log10 (b * 2^e))] for [b > 0]; doubles start at 5e-324. *)
Definition exp10 (b e : Z) : Z :=
  let i := floor_scaled b e 0 in
  if 1 <=? i then ndigits i - 1 else - first_digit_pos 400 b e 1.

(** The shortest decimal [D * 10^q] that reads back as the double
    [m * 2^e], which is what [repr] prints: for 1, 2, ... 17 digits the
    two digit strings around the double are tried in turn. *)
Section Shortest.
Variables (m e : Z).

(** The double and the midpoints to its neighbours, in units of
    [2^(e-2)]; below a power of two the lower neighbour is closer. *)
Definition x4 : Z := 4 * m.
Definition hi4 : Z := 4 * m + 2.
Definition lo4 : Z := if (m =? 2 ^ 52) && (-1074 <? e) then 4 * m - 1 else 4 * m - 2.

Definition reads_back (D q : Z) : bool :=
  match cmp_dec_bin D q lo4 (e - 2), cmp_dec_bin D q hi4 (e - 2) with
  | Gt, Lt => true
  | Eq, _ | _, Eq => Z.even m
  | _, _ => false
  end.

(** Is [D * 10^q] at least as near to the double as [(D+1) * 10^q]? *)
Definition nearer_low (D q : Z) : bool :=
  match cmp_dec_bin (2 * D + 1) q (2 * x4) (e - 2) with
  | Gt => true
  | Eq => Z.even D
  | Lt => false
  end.

Definition candidate (k nd : Z) : option (Z * Z) :=
  let q := k - (nd - 1) in
  let D := floor_scaled x4 (e - 2) q in
  let lo_ok := reads_back D q in
  let hi_ok := reads_back (D + 1) q in
  if lo_ok && (negb hi_ok || nearer_low D q) then Some (D, q)
  else if hi_ok then
    (if D + 1 =? 10 ^ nd then Some (1, q + nd) else Some (D + 1, q))
  else None.

Fixpoint search (fuel : nat) (k nd : Z) : Z * Z :=
  match fuel with
  | O => (floor_scaled x4 (e - 2) (k - 16), k - 16)
  | S fuel' =>
      match candidate k nd with
      | Some r => r
      | None => search fuel' k (nd + 1)
      end
  end.

Definition shortest : Z * Z := search 17 (exp10 x4 (e - 2)) 1.
End Shortest.

(** [Decimal(str(x))] for a finite float [x].  [repr] switches to
    exponent notation below 1e-4 and from 1e16 on, and prints integral
    values positionally with a trailing [.0].  Infinities and NaN (which
    no computation of the engine produces) are sent to zero. *)
Definition Decimal_of_str (x : float) : Decimal.t :=
  match Prim2SF x with
  | S754_finite s m e =>
      let '(D, q) := shortest (Zpos m) e in
      let k := q + ndigits D - 1 in
      let sgn := if s then -1 else 1 in
      if (-4 <=? k) && (k <? 16) && (0 <=? q) then Dec (sgn * D * 10 ^ (q + 1)) (-1)
      else Dec (sgn * D) q
  | _ => Dec 0 (-1)
  end.

(** [float(d)]: the double nearest to the decimal, ties to even. *)
Definition float_of_Decimal (d : Decimal.t) : float :=
  let c := coefficient d in
  let q := exponent d in
  if 0 <=? q then SF2Prim (binary_normalize FloatOps.prec FloatOps.emax (c * 10 ^ q) 0 false)
  else
    match c with
    | Z0 => zero
    | _ =>
        let '(mz, ez, lz) := SFdiv_core_binary FloatOps.prec FloatOps.emax (Z.abs c) 0 (10 ^ (- q)) 0 in
        SF2Prim (binary_round_aux FloatOps.prec FloatOps.emax (c <? 0) mz ez lz)
    end.

(** [float(0)], the value the read side substitutes for a missing or
    zero bound. *)
Definition float_of_int_0 : float := zero.
End PyFloat.

(* ===================================================================== *)
(** * [datetime]                                                         *)
(* ===================================================================== *)

Module Datetime.
(** Microseconds since 0001-01-01T00:00:00 on the datetime's own wall
    clock. *)
Definition t : Type := Z.

Definition HOUR : Z := 3600000000.
Definition DAY : Z := 24 * HOUR.

(** [datetime.min] and [datetime.max]: 0001-01-01T00:00:00 and
    9999-12-31T23:59:59.999999, the day 3652059 of the calendar. *)
Definition MIN : t := 0.
Definition MAX : t := 3652059 * DAY - 1.

Definition valid (dt : t) : Prop := MIN <= dt <= MAX.

(** [timedelta(days=days, hours=hours)], in microseconds.  The constructor
    refuses a duration of more than 999999999 days, with another message
    when the number of days does not fit a C int. *)
Definition timedelta (days hours : Z) : result Z :=
  let microseconds := days * DAY + hours * HOUR in
  let d := microseconds / DAY in
  if (d <? - 2 ^ 31) || (2 ^ 31 <=? d) then
    Raise (OverflowError "Python int too large to convert to C int")
  else if (d <? -999999999) || (999999999 <? d) then
    Raise (OverflowError ("days=" +:+ pretty d +:+ "; must have magnitude <= 999999999"))
  else Ok microseconds.

(** The result of datetime arithmetic, which must be a date of the years
    1 to 9999. *)
Definition in_range (dt : Z) : result t :=
  if (dt <? MIN) || (MAX <? dt) then Raise (OverflowError "date value out of range")
  else Ok dt.

(** [dt.hour] *)
Definition hour (dt : t) : Z := (dt / HOUR) mod 24.

(** [dt.replace(minute=0, second=0, microsecond=0)] *)
Definition replace_minute_second_microsecond_0 (dt : t) : t := dt - dt mod HOUR.

(** [dt + timedelta(hours=h)] *)
Definition add_hours (dt : t) (h : Z) : result t :=
  and_then (timedelta 0 h) (fun delta => in_range (dt + delta)).

(** [dt - timedelta(days=d)] *)
Definition sub_days (dt : t) (d : Z) : result t :=
  and_then (timedelta d 0) (fun delta => in_range (dt - delta)).

(** [dt.month], by the civil-calendar conversion of the day number
    (proleptic Gregorian; years are counted from 1 March). *)
Definition month (dt : t) : Z :=
  let z := dt / DAY + 306 in
  let doe := z mod 146097 in
  let yoe := (doe - doe / 1460 + doe / 36524 - doe / 146096) / 365 in
  let doy := doe - (365 * yoe + yoe / 4 - yoe / 100) in
  let mp := (5 * doy + 2) / 153 in
  if mp <? 10 then mp + 3 else mp - 9.

(** [datetime(y, mo, d, h, mi)] for dates of the years 2001-2099 (used to
    write sample inputs). *)
Definition of_21st_century (y mo d h mi : Z) : t :=
  let a := if mo <=? 2 then 1 else 0 in
  let y' := y - a in
  let m' := mo + 12 * a - 3 in
  let days := 365 * y' + y' / 4 - y' / 100 + y' / 400 + (153 * m' + 2) / 5 + d - 1 - 306 in
  days * DAY + h * HOUR + mi * 60000000.
End Datetime.

(* ===================================================================== *)
(** * [str]                                                              *)
(* ===================================================================== *)

Module PyStr.
(** [c.lower()] on ASCII: 'A'..'Z' move to 'a'..'z'. *)
Definition is_upper (c : ascii) : bool :=
  ((65 <=? nat_of_ascii c) && (nat_of_ascii c <=? 90))%nat.
Definition lower_char (c : ascii) : ascii :=
  if is_upper c then ascii_of_nat (nat_of_ascii c + 32) else c.

(** [s.lower()]; site-type keys are ASCII text. *)
Fixpoint lower (s : string) : string :=
  match s with
  | EmptyString => EmptyString
  | String c s' => String (lower_char c) (lower s')
  end.

(** Two characters, two strings that differ at most in letter case. *)
Definition same_letter (c1 c2 : ascii) : Prop :=
  c1 = c2
  \/ (is_upper c1 = true /\ nat_of_ascii c2 = (nat_of_ascii c1 + 32)%nat)
  \/ (is_upper c2 = true /\ nat_of_ascii c1 = (nat_of_ascii c2 + 32)%nat).

Inductive eq_ignoring_case : string -> string -> Prop :=
  | eic_nil : eq_ignoring_case EmptyString EmptyString
  | eic_cons c1 c2 s1 s2 :
      same_letter c1 c2 -> eq_ignoring_case s1 s2 ->
      eq_ignoring_case (String c1 s1) (String c2 s2).
End PyStr.

(* ===================================================================== *)
(** * The random source                                                  *)
(* ===================================================================== *)

(** What [random.Random] is seeded from: the integer given, or operating
    system entropy when the seed is [None]. *)
Inductive seed_source : Type :=
  | SeedInt (s : Z)
  | SeedEntropy (urandom : Z).

(** The Mersenne Twister of the standard library, taken as given: its state,
    its seeding and [random()], which returns a double in [0, 1) and the
    next state. *)
Class Mersenne : Type := {
  mt_state : Type;
  mt_init : seed_source -> mt_state;
  mt_random : mt_state -> float * mt_state;
}.

(* ===================================================================== *)
(** * forecast_engine.py                                                 *)
(* ===================================================================== *)

Module Engine.
Import Decimal.

(** The fields of [models.Site] the core reads. *)
Record Site : Type := {
  site_id : Z;
  site_name : string;
  site_type : string;
  capacity_mw : option Decimal.t;
}.

Record ForecastPoint : Type := {
  datetime : Datetime.t;
  predicted_generation_mwh : Decimal.t;
  confidence_interval_lower : option Decimal.t;
  confidence_interval_upper : option Decimal.t;
}.

(** [math.sin(math.pi * daylight_hour / 12)] in binary64, for the values
    0..12 that [daylight_hour] takes (the C library's results:
    0.0, 0.25881904510252074, 0.49999999999999994, 0.7071067811865475,
    0.8660254037844386, 0.9659258262890683, 1.0, 0.9659258262890683,
    0.8660254037844387, 0.7071067811865476, 0.49999999999999994,
    0.258819045102521, 1.2246467991473532e-16). *)
Definition sin_pi_twelfths (daylight_hour : Z) : float :=
  match daylight_hour with
  | 0 => 0x0.0p+0
  | 1 => 0x1.0907dc1930690p-2
  | 2 => 0x1.fffffffffffffp-2
  | 3 => 0x1.6a09e667f3bccp-1
  | 4 => 0x1.bb67ae8584caap-1
  | 5 => 0x1.ee8dd4748bf15p-1
  | 6 => 0x1.0000000000000p+0
  | 7 => 0x1.ee8dd4748bf15p-1
  | 8 => 0x1.bb67ae8584cabp-1
  | 9 => 0x1.6a09e667f3bcdp-1
  | 10 => 0x1.fffffffffffffp-2
  | 11 => 0x1.0907dc1930695p-2
  | _ => 0x1.1a62633145c07p-53
  end%float.

(** Float literals of the source, as the doubles they denote. *)
Definition f0_5 : float := 0x1.0000000000000p-1.   (* 0.5 *)
Definition f0_6 : float := 0x1.3333333333333p-1.   (* 0.6 *)
Definition f1_0 : float := 0x1.0000000000000p+0.   (* 1.0 *)
Definition f1_2 : float := 0x1.3333333333333p+0.   (* 1.2 *)

Section RandomForecastModel.
Context `{Mersenne}.

Record RandomForecastModel : Type := { _random : mt_state }.

(** [RandomForecastModel.__init__]: [self._random = random.Random(seed)];
    [urandom] is what the operating system would supply. *)
Definition __init__ (seed : option Z) (urandom : Z) : RandomForecastModel :=
  {| _random := mt_init match seed with
                        | Some s => SeedInt s
                        | None => SeedEntropy urandom
                        end |}.

(** [self._random.random()] *)
Definition random (self : RandomForecastModel) : float * RandomForecastModel :=
  let '(r, st) := mt_random (_random self) in (r, {| _random := st |}).

(** [max(Decimal('0.0'), generation.quantize(Decimal('0.001')))] *)
Definition max_0_quantize (generation : Decimal.t) : result Decimal.t :=
  and_then (quantize generation) (fun q => Ok (max d0_0 q)).

Definition _generate_solar_prediction (self : RandomForecastModel)
    (base_capacity : Decimal.t) (forecast_datetime : Datetime.t) (hour : Z)
  : result Decimal.t * RandomForecastModel :=
  let hour_of_day := Datetime.hour forecast_datetime in
  if (hour_of_day <? 6) || (18 <? hour_of_day) then (Ok d0_0, self)
  else
    let daylight_hour := hour_of_day - 6 in
    let base_pattern := sin_pi_twelfths daylight_hour in
    let '(r, self) := random self in
    let random_factor := (1 + (r - f0_5) * f0_6)%float in
    let generation :=
      mul (mul (mul base_capacity (PyFloat.Decimal_of_str base_pattern)) d0_25)
          (PyFloat.Decimal_of_str random_factor) in
    (max_0_quantize generation, self).

Definition _generate_wind_prediction (self : RandomForecastModel)
    (base_capacity : Decimal.t) (forecast_datetime : Datetime.t) (hour : Z)
  : result Decimal.t * RandomForecastModel :=
  let base_factor := d0_30 in
  let '(r, self) := random self in
  let random_factor := (1 + (r - f0_5) * f1_0)%float in
  let month := Datetime.month forecast_datetime in
  let seasonal_factor :=
    if existsb (Z.eqb month) [11; 12; 1; 2; 3] then f1_2 else f1_0 in
  let generation :=
    mul (mul (mul base_capacity base_factor) (PyFloat.Decimal_of_str random_factor))
        (PyFloat.Decimal_of_str seasonal_factor) in
  (max_0_quantize generation, self).

Definition _generate_generic_prediction (self : RandomForecastModel)
    (base_capacity : Decimal.t) : result Decimal.t * RandomForecastModel :=
  let '(random_factor, self) := random self in
  let generation :=
    mul (mul base_capacity d0_20) (PyFloat.Decimal_of_str random_factor) in
  (max_0_quantize generation, self).

(** The [if]/[elif]/[else] of [predict] on the type of the site. *)
Definition generate_prediction (self : RandomForecastModel) (site : Site)
    (base_capacity : Decimal.t) (forecast_datetime : Datetime.t) (hour : Z)
  : result Decimal.t * RandomForecastModel :=
  if String.eqb (site_type site) "solar" then
    _generate_solar_prediction self base_capacity forecast_datetime hour
  else if String.eqb (site_type site) "wind" then
    _generate_wind_prediction self base_capacity forecast_datetime hour
  else _generate_generic_prediction self base_capacity.

(** The point of a prediction: its confidence bounds are 20% below,
    floored at zero, and 20% above. *)
Definition point_of (forecast_datetime : Datetime.t) (predicted_mwh : Decimal.t)
  : ForecastPoint :=
  let confidence_range := mul predicted_mwh d0_2 in
  let lower_bound := max d0_0 (sub predicted_mwh confidence_range) in
  let upper_bound := add predicted_mwh confidence_range in
  {| datetime := forecast_datetime;
     predicted_generation_mwh := predicted_mwh;
     confidence_interval_lower := Some lower_bound;
     confidence_interval_upper := Some upper_bound |}.

(** One iteration of the loop of [predict]: the timestamp is computed
    first, then the prediction, then its bounds; an exception of either
    step leaves the iteration with the random source as it then is. *)
Definition predict_point (self : RandomForecastModel) (site : Site)
    (base_capacity : Decimal.t) (start_time : Datetime.t) (hour : Z)
  : result ForecastPoint * RandomForecastModel :=
  match Datetime.add_hours start_time hour with
  | Raise e => (Raise e, self)
  | Ok forecast_datetime =>
      let '(predicted_mwh, self) :=
        generate_prediction self site base_capacity forecast_datetime hour in
      (and_then predicted_mwh (fun predicted_mwh =>
         Ok (point_of forecast_datetime predicted_mwh)), self)
  end.

(** [for hour in range(forecast_horizon): ... forecast_points.append(...)];
    the loop ends at the first iteration that raises. *)
Fixpoint predict_loop (self : RandomForecastModel) (site : Site)
    (base_capacity : Decimal.t) (start_time : Datetime.t) (hours : list Z)
  : result (list ForecastPoint) * RandomForecastModel :=
  match hours with
  | [] => (Ok [], self)
  | hour :: rest =>
      match predict_point self site base_capacity start_time hour with
      | (Raise e, self) => (Raise e, self)
      | (Ok p, self) =>
          let '(ps, self) := predict_loop self site base_capacity start_time rest in
          (and_then ps (fun ps => Ok (p :: ps)), self)
      end
  end.

(** [range(n)] *)
Definition range (n : Z) : list Z := map Z.of_nat (seq 0 (Z.to_nat n)).

(** [RandomForecastModel.predict]; [now] is the reading of
    [timezone.now()], [site = None] the absent site. *)
Definition predict (self : RandomForecastModel) (site : option Site)
    (forecast_horizon : Z) (now : Datetime.t)
  : result (list ForecastPoint) * RandomForecastModel :=
  match site with
  | None => (Raise (ValueError "Site cannot be None"), self)
  | Some site =>
      if forecast_horizon <=? 0 then
        (Raise (ValueError "Forecast horizon must be positive"), self)
      else
        let base_capacity :=
          match capacity_mw site with
          | Some c => if truthy c then c else d10_0
          | None => d10_0
          end in
        let start_time := Datetime.replace_minute_second_microsecond_0 now in
        predict_loop self site base_capacity start_time (range forecast_horizon)
  end.

Definition get_model_name (self : RandomForecastModel) : string :=
  "Random Generator v1.0".

(** [capacity_mw] is a DecimalField(max_digits=10, decimal_places=2): when
    set, its magnitude is below 10^8. *)
Definition capacity_in_column (site : Site) : Prop :=
  match capacity_mw site with
  | Some c => le_pow10 c 8
  | None => True
  end.

(** The decimals the engine derives from one draw [r] of the random source
    (the solar factor, the wind factor, the draw itself) are at most 10 in
    magnitude -- as they are for every double of [0, 1). *)
Definition factors_bounded (r : float) : Prop :=
  le_pow10 (PyFloat.Decimal_of_str (1 + (r - f0_5) * f0_6)%float) 1
  /\ le_pow10 (PyFloat.Decimal_of_str (1 + (r - f0_5) * f1_0)%float) 1
  /\ le_pow10 (PyFloat.Decimal_of_str r) 1.

Definition random_source_bounded : Prop :=
  forall st : mt_state, factors_bounded (fst (mt_random st)).

(** The relation between a point's prediction and its confidence bounds. *)
Definition band_invariant (p : ForecastPoint) : Prop :=
  (0 <= to_Q (predicted_generation_mwh p))%Q
  /\ exists lower upper,
       confidence_interval_lower p = Some lower
       /\ confidence_interval_upper p = Some upper
       /\ (0 <= to_Q lower)%Q
       /\ (to_Q lower <= to_Q (predicted_generation_mwh p))%Q
       /\ (to_Q (predicted_generation_mwh p) <= to_Q upper)%Q
       /\ (to_Q upper == to_Q (predicted_generation_mwh p) * (12 # 10))%Q.

(** An instance of a [ForecastModel] subclass: the random model, or any
    other implementation, given by its name and its [predict]. *)
Inductive ForecastModel : Type :=
  | RandomModel (m : RandomForecastModel)
  | CustomModel (name : string)
      (predict_fn : option Site -> Z -> Datetime.t -> result (list ForecastPoint)).

(** [model.predict(site, forecast_horizon)], with the model's new state. *)
Definition model_predict (model : ForecastModel) (site : option Site)
    (forecast_horizon : Z) (now : Datetime.t)
  : result (list ForecastPoint) * ForecastModel :=
  match model with
  | RandomModel m =>
      let '(r, m) := predict m site forecast_horizon now in (r, RandomModel m)
  | CustomModel name predict_fn =>
      (predict_fn site forecast_horizon now, model)
  end.

(** A Python object handed to the registry: a [ForecastModel] instance
    or anything else. *)
Inductive PyObject : Type :=
  | ModelInstance (m : ForecastModel)
  | OtherObject (repr : string).

(** [ModelRegistry]: [self._models] is a dict from lower-cased site type
    to model. *)
Record ModelRegistry : Type := {
  _models : gmap string ForecastModel;
  _default_model : ForecastModel;
}.

Definition register_model (self : ModelRegistry) (site_type : string)
    (model : PyObject) : result ModelRegistry :=
  match model with
  | OtherObject _ => Raise (TypeError "Model must be an instance of ForecastModel")
  | ModelInstance m =>
      Ok {| _models := <[PyStr.lower site_type := m]> (_models self);
            _default_model := _default_model self |}
  end.

Definition get_model (self : ModelRegistry) (site_type : string) : ForecastModel :=
  default (_default_model self) (_models self !! PyStr.lower site_type).

Definition unregister_model (self : ModelRegistry) (site_type : string)
  : bool * ModelRegistry :=
  match _models self !! PyStr.lower site_type with
  | Some _ =>
      (true, {| _models := delete (PyStr.lower site_type) (_models self);
                _default_model := _default_model self |})
  | None => (false, self)
  end.

Definition set_default_model (self : ModelRegistry) (model : PyObject)
  : result ModelRegistry :=
  match model with
  | OtherObject _ => Raise (TypeError "Model must be an instance of ForecastModel")
  | ModelInstance m => Ok {| _models := _models self; _default_model := m |}
  end.

(** [ModelRegistry.__init__]: three unseeded random models, one as the
    default and one each for 'solar' and 'wind'. *)
Definition ModelRegistry__init__ (urandom0 urandom1 urandom2 : Z) : ModelRegistry :=
  {| _models :=
       <["wind" := RandomModel (__init__ None urandom2)]>
         (<["solar" := RandomModel (__init__ None urandom1)]> ∅);
     _default_model := RandomModel (__init__ None urandom0) |}.

(** The model object a lookup returned is mutated by [predict]; the
    registry entry it came from holds the new state. *)
Definition store_model (self : ModelRegistry) (site_type : string)
    (m : ForecastModel) : ModelRegistry :=
  match _models self !! PyStr.lower site_type with
  | Some _ => {| _models := <[PyStr.lower site_type := m]> (_models self);
                 _default_model := _default_model self |}
  | None => {| _models := _models self; _default_model := m |}
  end.
End RandomForecastModel.
End Engine.

(* ===================================================================== *)
(** * models.py and services.py                                          *)
(* ===================================================================== *)

(** The database's [SUM] over a decimal column, taken as given: what the
    query returns for the values of the rows it ranges over ([None] for a
    NULL), itself NULL when no row has a value. *)
Class SqlAggregates : Type := {
  Sum : list (option Decimal.t) -> option Decimal.t;
}.

Module Service.
Import Decimal.

(** ** The tables of models.py *)

Inductive JobStatus : Type := pending | running | completed | failed.

Definition JobStatus_eqb (a b : JobStatus) : bool :=
  match a, b with
  | pending, pending | running, running | completed, completed | failed, failed => true
  | _, _ => false
  end.

(** A portfolio with its [PortfolioSite] rows (the ids of its sites). *)
Record Portfolio : Type := {
  portfolio_id : Z;
  portfolio_name : string;
  portfolio_site_ids : list Z;
}.

Record ForecastJob : Type := {
  job_id : Z;                          (* the UUID primary key *)
  job_portfolio_id : Z;
  status : JobStatus;
  forecast_horizon : Z;
  created_at : Datetime.t;
  completed_at : option Datetime.t;
  error_message : string;
}.

Record ForecastResult : Type := {
  result_job_id : Z;
  result_site_id : Z;
  forecast_datetime : Datetime.t;
  predicted_generation_mwh : Decimal.t;
  confidence_interval_lower : option Decimal.t;
  confidence_interval_upper : option Decimal.t;
  result_created_at : Datetime.t;
}.

Record Database : Type := {
  sites : list Engine.Site;
  portfolios : list Portfolio;
  jobs : list ForecastJob;
  results : list ForecastResult;
}.

(** [ForecastJob.is_complete], [ForecastJob.is_successful] *)
Definition is_complete (job : ForecastJob) : bool :=
  match status job with completed | failed => true | _ => false end.
Definition is_successful (job : ForecastJob) : bool :=
  JobStatus_eqb (status job) completed.

(** [Site.Meta.ordering = ['name']] *)
Definition site_name_le (a b : Engine.Site) : Prop :=
  String.leb (Engine.site_name a) (Engine.site_name b) = true.

#[global] Instance site_name_le_dec : RelDecision site_name_le.
Proof. intros a b. unfold site_name_le. apply _. Defined.

(** [portfolio.sites.all()] *)
Definition portfolio_sites_all (d : Database) (p : Portfolio) : list Engine.Site :=
  merge_sort site_name_le
    (List.filter (fun s => existsb (Z.eqb (Engine.site_id s)) (portfolio_site_ids p)) (sites d)).

(** [portfolio.get_site_count()] *)
Definition get_site_count (d : Database) (p : Portfolio) : nat :=
  length (portfolio_sites_all d p).

(** [Portfolio.objects.get(id=...)] *)
Definition Portfolio_objects_get (d : Database) (pid : Z) : result Portfolio :=
  match find (fun p => portfolio_id p =? pid) (portfolios d) with
  | Some p => Ok p
  | None => Raise (Portfolio_DoesNotExist "Portfolio matching query does not exist.")
  end.

(** What a [PositiveIntegerField] column does with a value written to
    it: an integer outside the 64 bits of an SQLite INTEGER is refused by
    the driver, a negative one by the column's check [>= 0]. *)
Definition PositiveIntegerField_write (column : string) (value : Z) : result Z :=
  if (value <? - 2 ^ 63) || (2 ^ 63 <=? value) then
    Raise (OverflowError "Python int too large to convert to SQLite INTEGER")
  else if value <? 0 then
    Raise (IntegrityError ("CHECK constraint failed: " +:+ column))
  else Ok value.

(** What a [DecimalField(max_digits=10, decimal_places=3)] column holds
    for a value written to it: the value quantized to three places under a
    precision of ten digits, which raises for a value of more digits; a
    query reads the column back at three places. *)
Definition DecimalField_10_3_write (value : Decimal.t) : result Decimal.t :=
  quantize_in 10 value.

(** A column with [null=True]: [None] is written as NULL. *)
Definition nullable {A} (write : A -> result A) (value : option A) : result (option A) :=
  match value with
  | None => Ok None
  | Some v => and_then (write v) (fun x => Ok (Some x))
  end.

Section ForecastService.
Context `{Mersenne} `{SqlAggregates}.

(** ** The world the service runs in: the database, the module-level
    [model_registry], and the clock ([clock n] is the n-th reading of
    [timezone.now()]). *)
Record World : Type := {
  db : Database;
  model_registry : Engine.ModelRegistry;
  clock : nat -> Datetime.t;
  ticks : nat;
}.

Definition set_db (d : Database) (w : World) : World :=
  {| db := d; model_registry := model_registry w; clock := clock w; ticks := ticks w |}.
Definition set_model_registry (r : Engine.ModelRegistry) (w : World) : World :=
  {| db := db w; model_registry := r; clock := clock w; ticks := ticks w |}.

(** Code that reads and writes the world and may raise. *)
Definition M (A : Type) : Type := World -> result A * World.
Definition ret {A} (a : A) : M A := fun w => (Ok a, w).
Definition raise {A} (e : exn) : M A := fun w => (Raise e, w).
Definition bind {A B} (m : M A) (k : A -> M B) : M B :=
  fun w => match m w with
           | (Ok a, w') => k a w'
           | (Raise e, w') => (Raise e, w')
           end.
Definition lift {A} (r : result A) : M A := fun w => (r, w).

(** [try: m  except Exception as e: handler e] *)
Definition try_except {A} (m : M A) (handler : exn -> M A) : M A :=
  fun w => match m w with
           | (Ok a, w') => (Ok a, w')
           | (Raise e, w') => handler e w'
           end.

(** [with transaction.atomic(): m] -- an exception leaving the block
    rolls the database back to its state on entry. *)
Definition atomic {A} (m : M A) : M A :=
  fun w => match m w with
           | (Ok a, w') => (Ok a, w')
           | (Raise e, w') => (Raise e, set_db (db w) w')
           end.

(** [timezone.now()] *)
Definition timezone_now : M Datetime.t :=
  fun w => (Ok (clock w (ticks w)),
            {| db := db w; model_registry := model_registry w;
               clock := clock w; ticks := S (ticks w) |}).

Notation "x <- m ;; k" := (bind m (fun x => k))
  (at level 100, m at next level, right associativity).
Notation "m ;;; k" := (bind m (fun _ => k))
  (at level 100, right associativity).

(** ** Table operations *)

(** [uuid.uuid4()], modelled as a supply of identifiers not yet used. *)
Definition uuid4 (d : Database) : Z :=
  1 + fold_right Z.max 0 (map job_id (jobs d)).

(** [ForecastJob.objects.create(portfolio=..., status=..., forecast_horizon=...)]:
    [created_at] is set from the clock, then the row is inserted, unless
    the column of [forecast_horizon] refuses the value. *)
Definition ForecastJob_objects_create (portfolio : Portfolio) (st : JobStatus)
    (horizon : Z) : M ForecastJob :=
  now <- timezone_now ;;
  fun w =>
    match PositiveIntegerField_write "forecast_horizon" horizon with
    | Raise e => (Raise e, w)
    | Ok horizon =>
        let job := {| job_id := uuid4 (db w);
                      job_portfolio_id := portfolio_id portfolio;
                      status := st;
                      forecast_horizon := horizon;
                      created_at := now;
                      completed_at := None;
                      error_message := "" |} in
        (Ok job,
         set_db {| sites := sites (db w); portfolios := portfolios (db w);
                   jobs := jobs (db w) ++ [job]; results := results (db w) |} w)
    end.

Inductive JobField : Type := f_status | f_completed_at | f_error_message.

Definition JobField_eqb (a b : JobField) : bool :=
  match a, b with
  | f_status, f_status | f_completed_at, f_completed_at
  | f_error_message, f_error_message => true
  | _, _ => false
  end.

(** The row [row] with the listed columns taken from [job]. *)
Definition update_fields (fields : list JobField) (job row : ForecastJob) : ForecastJob :=
  let takes f := existsb (JobField_eqb f) fields in
  {| job_id := job_id row;
     job_portfolio_id := job_portfolio_id row;
     status := if takes f_status then status job else status row;
     forecast_horizon := forecast_horizon row;
     created_at := created_at row;
     completed_at := if takes f_completed_at then completed_at job else completed_at row;
     error_message := if takes f_error_message then error_message job
                      else error_message row |}.

(** [job.save(update_fields=[...])]: an UPDATE of the row with the job's
    primary key; Django raises when no row was affected. *)
Definition save (job : ForecastJob) (fields : list JobField) : M unit :=
  fun w =>
    if existsb (fun row => job_id row =? job_id job) (jobs (db w)) then
      (Ok tt,
       set_db {| sites := sites (db w); portfolios := portfolios (db w);
                 jobs := map (fun row => if job_id row =? job_id job
                                         then update_fields fields job row else row)
                             (jobs (db w));
                 results := results (db w) |} w)
    else (Raise (DatabaseError "Save with update_fields did not affect any rows."), w).

(** [unique_together = ['job', 'site', 'forecast_datetime']] *)
Definition same_key (job_id' site_id' : Z) (dt : Datetime.t) (r : ForecastResult) : bool :=
  (result_job_id r =? job_id') && (result_site_id r =? site_id')
  && (forecast_datetime r =? dt).

(** [ForecastResult.objects.create(...)]: the three decimals are
    prepared for their columns, in the order of the fields; [created_at]
    is then set from the clock; and the row is inserted, unless the table
    has a row of the same job, site and timestamp. *)
Definition ForecastResult_objects_create (job : ForecastJob) (site : Engine.Site)
    (prediction : Engine.ForecastPoint) : M unit :=
  predicted <- lift (DecimalField_10_3_write
                       (Engine.predicted_generation_mwh prediction)) ;;
  lower <- lift (nullable DecimalField_10_3_write
                   (Engine.confidence_interval_lower prediction)) ;;
  upper <- lift (nullable DecimalField_10_3_write
                   (Engine.confidence_interval_upper prediction)) ;;
  now <- timezone_now ;;
  fun w =>
    if existsb (same_key (job_id job) (Engine.site_id site) (Engine.datetime prediction))
               (results (db w)) then
      (Raise (IntegrityError
         "UNIQUE constraint failed: forecasting_forecastresult.job_id, forecasting_forecastresult.site_id, forecasting_forecastresult.forecast_datetime"),
       w)
    else
      let row := {| result_job_id := job_id job;
                    result_site_id := Engine.site_id site;
                    forecast_datetime := Engine.datetime prediction;
                    predicted_generation_mwh := predicted;
                    confidence_interval_lower := lower;
                    confidence_interval_upper := upper;
                    result_created_at := now |} in
      (Ok tt,
       set_db {| sites := sites (db w); portfolios := portfolios (db w);
                 jobs := jobs (db w); results := results (db w) ++ [row] |} w).

(** [model = model_registry.get_model(site.site_type);
     predictions = model.predict(site, forecast_horizon)] *)
Definition registry_predict (site : Engine.Site) (forecast_horizon : Z)
  : M (list Engine.ForecastPoint) :=
  now <- timezone_now ;;
  fun w =>
    let model := Engine.get_model (model_registry w) (Engine.site_type site) in
    let '(r, model') := Engine.model_predict model (Some site) forecast_horizon now in
    (r, set_model_registry
          (Engine.store_model (model_registry w) (Engine.site_type site) model') w).

(** [for x in xs: body x] *)
Fixpoint for_each {A} (xs : list A) (body : A -> M unit) : M unit :=
  match xs with
  | [] => ret tt
  | x :: rest => body x ;;; for_each rest body
  end.

(** ** ForecastService *)

Record ForecastService : Type := { self_forecast_horizon : Z }.

(** [ForecastService.__init__(forecast_horizon=24)] *)
Definition ForecastService__init__ (forecast_horizon : option Z) : ForecastService :=
  {| self_forecast_horizon := default 24 forecast_horizon |}.

(** [_get_portfolio_with_sites] *)
Definition _get_portfolio_with_sites (portfolio_id : Z) : M Portfolio :=
  fun w => (Portfolio_objects_get (db w) portfolio_id, w).

(** The job object after the assignments
    [job.status = st; job.completed_at = t; job.error_message = msg]. *)
Definition with_state (job : ForecastJob) (st : JobStatus) (t : option Datetime.t)
    (msg : string) : ForecastJob :=
  {| job_id := job_id job; job_portfolio_id := job_portfolio_id job;
     status := st; forecast_horizon := Service.forecast_horizon job;
     created_at := created_at job; completed_at := t; error_message := msg |}.

(** [job.status = 'running'] *)
Definition mark_running (job : ForecastJob) : ForecastJob :=
  with_state job running (completed_at job) (error_message job).

(** [for site in sites:] look the model up, predict, and create one
    [ForecastResult] per prediction. *)
Definition forecast_site (job : ForecastJob) (forecast_horizon : Z) (site : Engine.Site)
  : M unit :=
  predictions <- registry_predict site forecast_horizon ;;
  for_each predictions (fun prediction => ForecastResult_objects_create job site prediction).

Definition forecast_sites (job : ForecastJob) (forecast_horizon : Z)
    (sites : list Engine.Site) : M unit :=
  for_each sites (forecast_site job forecast_horizon).

(** The body of the [try] of [_process_forecast_job]; it returns the job
    object as the block leaves it. *)
Definition process_try (job : ForecastJob) (forecast_horizon : Z) : M ForecastJob :=
  let job := mark_running job in
  save job [f_status] ;;;
  portfolio <- (fun w => (Portfolio_objects_get (db w) (job_portfolio_id job), w)) ;;
  sites <- (fun w => (Ok (portfolio_sites_all (db w) portfolio), w)) ;;
  match sites with
  | [] => raise (EmptyPortfolioError "Portfolio has no sites")
  | _ =>
      atomic (
        forecast_sites job forecast_horizon sites ;;;
        now <- timezone_now ;;
        let job := with_state job completed (Some now) (error_message job) in
        save job [f_status; f_completed_at] ;;;
        ret job)
  end.

(** [_process_forecast_job]: the result, and the job object afterwards. *)
Definition _process_forecast_job (self : ForecastService) (job : ForecastJob)
    (forecast_horizon : Z) : World -> result unit * ForecastJob * World :=
  fun w =>
    match process_try job forecast_horizon w with
    | (Ok job', w') => (Ok tt, job', w')
    | (Raise e, w') =>
        let error_message := str_exn e in
        let now := clock w' (ticks w') in
        let job' := with_state job failed (Some now) error_message in
        match (timezone_now ;;;
               save job' [f_status; f_completed_at; f_error_message]) w' with
        | (Ok _, w'') =>
            (Raise (ForecastServiceError
                      ("Forecast processing failed: " +:+ error_message)), job', w'')
        | (Raise e', w'') => (Raise e', job', w'')
        end
    end.

(** [trigger_portfolio_forecast]; [forecast_horizon = None] is the
    omitted argument. *)
Definition trigger_portfolio_forecast (self : ForecastService) (portfolio_id : Z)
    (forecast_horizon : option Z) : M ForecastJob :=
  try_except
    (portfolio <- _get_portfolio_with_sites portfolio_id ;;
     n <- (fun w => (Ok (get_site_count (db w) portfolio), w)) ;;
     if (n =? 0)%nat then
       raise (EmptyPortfolioError
                ("Portfolio '" +:+ portfolio_name portfolio +:+ "' (ID: "
                 +:+ pretty portfolio_id +:+ ") has no sites"))
     else
       (* horizon = forecast_horizon or self.forecast_horizon *)
       let horizon :=
         match forecast_horizon with
         | Some h => if h =? 0 then self_forecast_horizon self else h
         | None => self_forecast_horizon self
         end in
       job <- atomic (ForecastJob_objects_create portfolio pending horizon) ;;
       fun w =>
         match _process_forecast_job self job horizon w with
         | (Ok _, job', w') => (Ok job', w')
         | (Raise e, _, w') => (Raise e, w')
         end)
    (fun e =>
       match e with
       | Portfolio_DoesNotExist _ =>
           raise (PortfolioNotFoundError
                    ("Portfolio with ID " +:+ pretty portfolio_id +:+ " not found"))
       | EmptyPortfolioError _ | PortfolioNotFoundError _ => raise e
       | _ => raise (ForecastServiceError ("Failed to trigger forecast: " +:+ str_exn e))
       end).

(** [ForecastJob.objects.get(id=job_id)] *)
Definition ForecastJob_objects_get (d : Database) (jid : Z) : result ForecastJob :=
  match find (fun j => job_id j =? jid) (jobs d) with
  | Some j => Ok j
  | None => Raise (ForecastJob_DoesNotExist "ForecastJob matching query does not exist.")
  end.

(** [cancel_forecast_job] *)
Definition cancel_forecast_job (self : ForecastService) (jid : Z) : M bool :=
  try_except
    (job <- (fun w => (ForecastJob_objects_get (db w) jid, w)) ;;
     match status job with
     | pending | running =>
         now <- timezone_now ;;
         let job := with_state job failed (Some now) "Job cancelled by user" in
         save job [f_status; f_completed_at; f_error_message] ;;;
         ret true
     | _ => ret false
     end)
    (fun e =>
       match e with
       | ForecastJob_DoesNotExist _ =>
           raise (JobNotFoundError
                    ("Forecast job with ID " +:+ pretty jid +:+ " not found"))
       | _ => raise e
       end).

(** [cleanup_old_jobs]: [timedelta(days=days_old)] before now is the
    cutoff, when there is such a date; deleting a job cascades to its
    results. *)
Definition cleanup_old_jobs (self : ForecastService) (days_old : Z) : M nat :=
  now <- timezone_now ;;
  cutoff_date <- lift (Datetime.sub_days now days_old) ;;
  fun w =>
    let old (j : ForecastJob) : bool :=
      is_complete j
      && match completed_at j with
         | Some t => t <? cutoff_date
         | None => false
         end in
    let old_jobs := List.filter old (jobs (db w)) in
    let job_count := length old_jobs in
    (Ok job_count,
     set_db {| sites := sites (db w); portfolios := portfolios (db w);
               jobs := List.filter (fun j => negb (old j)) (jobs (db w));
               results := List.filter (fun r => negb (existsb (fun j => job_id j =? result_job_id r)
                                                         old_jobs))
                                 (results (db w)) |} w).

(** ** The read side: [get_portfolio_forecast_results] *)

(** The dicts built for the caller. *)
Record ForecastData : Type := {
  fd_datetime : Datetime.t;
  fd_predicted_generation_mwh : float;
  fd_confidence_interval_lower : float;
  fd_confidence_interval_upper : float;
}.

Record SiteForecast : Type := {
  sf_site_id : Z;
  sf_site_name : string;
  sf_site_type : string;
  sf_capacity_mw : float;
  sf_forecasts : list ForecastData;
}.

Record PortfolioTotal : Type := {
  pt_datetime : Datetime.t;
  total_predicted_mwh : float;
  total_confidence_lower : float;
  total_confidence_upper : float;
}.

Record PortfolioForecast : Type := {
  pf_job_id : Z;
  pf_portfolio_id : Z;
  pf_portfolio_name : string;
  forecast_generated_at : option Datetime.t;
  site_count : nat;
  total_capacity_mw : float;
  site_forecasts : list SiteForecast;
  portfolio_totals : list PortfolioTotal;
}.

(** [float(x or 0)] *)
Definition float_or_0 (x : option Decimal.t) : float :=
  match x with
  | Some d => if truthy d then PyFloat.float_of_Decimal d else PyFloat.float_of_int_0
  | None => PyFloat.float_of_int_0
  end.

(** A result row joined with its site ([select_related('site')]). *)
Definition Row : Type := ForecastResult * Engine.Site.

(** [order_by('site__name', 'forecast_datetime')] *)
Definition row_le (a b : Row) : Prop :=
  match String.compare (Engine.site_name (snd a)) (Engine.site_name (snd b)) with
  | Lt => True
  | Eq => forecast_datetime (fst a) <= forecast_datetime (fst b)
  | Gt => False
  end.

#[global] Instance row_le_dec : RelDecision row_le.
Proof.
  intros a b. unfold row_le.
  destruct (String.compare _ _); apply _.
Defined.

(** [ForecastResult.objects.filter(job=job).select_related('site')
      .order_by('site__name', 'forecast_datetime')] *)
Definition job_results (d : Database) (job : ForecastJob) : list Row :=
  merge_sort row_le
    (flat_map (fun r =>
                 if result_job_id r =? job_id job then
                   match find (fun s => Engine.site_id s =? result_site_id r) (sites d) with
                   | Some s => [(r, s)]
                   | None => []
                   end
                 else [])
              (results d)).

(** Python dicts keep insertion order: association lists, with the
    update in place of an existing key and the insertion of a new one. *)
Definition dict_get {K V} (eqb : K -> K -> bool) (k : K) (d : list (K * V)) : option V :=
  option_map snd (find (fun kv => eqb (fst kv) k) d).
Definition dict_update {K V} (eqb : K -> K -> bool) (k : K) (f : V -> V)
    (d : list (K * V)) : list (K * V) :=
  map (fun kv => if eqb (fst kv) k then (fst kv, f (snd kv)) else kv) d.
Definition dict_setdefault {K V} (eqb : K -> K -> bool) (k : K) (v : V)
    (d : list (K * V)) : list (K * V) :=
  match dict_get eqb k d with
  | Some _ => d
  | None => d ++ [(k, v)]
  end.

(** One iteration of [for result in results]. *)
Definition aggregate_step
    (acc : list (string * SiteForecast) * list (Datetime.t * PortfolioTotal))
    (result : Row)
  : list (string * SiteForecast) * list (Datetime.t * PortfolioTotal) :=
  let '(site_forecasts, total_by_datetime) := acc in
  let site := snd result in
  let result := fst result in
  let site_name := Engine.site_name site in
  let site_forecasts :=
    dict_setdefault String.eqb site_name
      {| sf_site_id := Engine.site_id site;
         sf_site_name := site_name;
         sf_site_type := Engine.site_type site;
         sf_capacity_mw := float_or_0 (Engine.capacity_mw site);
         sf_forecasts := [] |} site_forecasts in
  let forecast_data :=
    {| fd_datetime := forecast_datetime result;
       fd_predicted_generation_mwh :=
         PyFloat.float_of_Decimal (predicted_generation_mwh result);
       fd_confidence_interval_lower := float_or_0 (confidence_interval_lower result);
       fd_confidence_interval_upper := float_or_0 (confidence_interval_upper result) |} in
  let site_forecasts :=
    dict_update String.eqb site_name
      (fun sf => {| sf_site_id := sf_site_id sf; sf_site_name := sf_site_name sf;
                    sf_site_type := sf_site_type sf; sf_capacity_mw := sf_capacity_mw sf;
                    sf_forecasts := sf_forecasts sf ++ [forecast_data] |})
      site_forecasts in
  let dt_key := forecast_datetime result in
  let total_by_datetime :=
    dict_setdefault Z.eqb dt_key
      {| pt_datetime := dt_key;
         total_predicted_mwh := PyFloat.float_of_int_0;
         total_confidence_lower := PyFloat.float_of_int_0;
         total_confidence_upper := PyFloat.float_of_int_0 |} total_by_datetime in
  let total_by_datetime :=
    dict_update Z.eqb dt_key
      (fun pt =>
         {| pt_datetime := pt_datetime pt;
            total_predicted_mwh :=
              (total_predicted_mwh pt + fd_predicted_generation_mwh forecast_data)%float;
            total_confidence_lower :=
              (total_confidence_lower pt + fd_confidence_interval_lower forecast_data)%float;
            total_confidence_upper :=
              (total_confidence_upper pt + fd_confidence_interval_upper forecast_data)%float |})
      total_by_datetime in
  (site_forecasts, total_by_datetime).

Definition pt_le (a b : PortfolioTotal) : Prop := pt_datetime a <= pt_datetime b.

#[global] Instance pt_le_dec : RelDecision pt_le.
Proof. intros a b. unfold pt_le. apply _. Defined.

(** The job the results are read from: the one named, or the portfolio's
    most recently completed one ([order_by('-completed_at').first()]). *)
Definition later_completed (best : option ForecastJob) (j : ForecastJob)
  : option ForecastJob :=
  match best with
  | None => Some j
  | Some b =>
      match completed_at b, completed_at j with
      | Some tb, Some tj => if tb <? tj then Some j else Some b
      | None, Some _ => Some j
      | _, _ => Some b
      end
  end.

Definition select_job (d : Database) (portfolio : Portfolio) (job_id' : option Z)
  : result ForecastJob :=
  match job_id' with
  | Some jid =>
      match find (fun j => (job_id j =? jid)
                           && (job_portfolio_id j =? portfolio_id portfolio)) (jobs d) with
      | Some j => Ok j
      | None => Raise (ForecastJob_DoesNotExist "ForecastJob matching query does not exist.")
      end
  | None =>
      match fold_left later_completed
              (List.filter (fun j => (job_portfolio_id j =? portfolio_id portfolio)
                                     && JobStatus_eqb (status j) completed) (jobs d))
              None with
      | Some j => Ok j
      | None =>
          Raise (JobNotFoundError
                   ("No completed forecast jobs found for portfolio "
                    +:+ pretty (portfolio_id portfolio)))
      end
  end.

(** [portfolio.get_total_capacity()]: the database's [Sum('capacity_mw')]
    over the portfolio's sites, or [Decimal('0.00')] when that is NULL or
    zero. *)
Definition get_total_capacity (d : Database) (p : Portfolio) : Decimal.t :=
  match Sum (map Engine.capacity_mw (portfolio_sites_all d p)) with
  | Some total => if truthy total then total else Dec 0 (-2)
  | None => Dec 0 (-2)
  end.

Definition get_portfolio_forecast_results (self : ForecastService) (portfolio_id' : Z)
    (job_id' : option Z) (w : World) : result PortfolioForecast :=
  let body : result PortfolioForecast :=
    match Portfolio_objects_get (db w) portfolio_id' with
    | Raise e => Raise e
    | Ok portfolio =>
        match select_job (db w) portfolio job_id' with
        | Raise e => Raise e
        | Ok job =>
            let results := job_results (db w) job in
            match results with
            | [] => Raise (JobNotFoundError
                             ("No forecast results found for job " +:+ pretty (job_id job)))
            | _ =>
                let '(site_forecasts, total_by_datetime) :=
                  fold_left aggregate_step results ([], []) in
                let portfolio_totals := merge_sort pt_le (map snd total_by_datetime) in
                Ok {| pf_job_id := job_id job;
                      pf_portfolio_id := portfolio_id portfolio;
                      pf_portfolio_name := portfolio_name portfolio;
                      forecast_generated_at := completed_at job;
                      site_count := length site_forecasts;
                      total_capacity_mw :=
                        PyFloat.float_of_Decimal (get_total_capacity (db w) portfolio);
                      site_forecasts := map snd site_forecasts;
                      portfolio_totals := portfolio_totals |}
            end
        end
    end in
  match body with
  | Raise (Portfolio_DoesNotExist _) =>
      Raise (PortfolioNotFoundError
               ("Portfolio with ID " +:+ pretty portfolio_id' +:+ " not found"))
  | Raise (ForecastJob_DoesNotExist _) => Raise (JobNotFoundError "Forecast job not found")
  | r => r
  end.
End ForecastService.
End Service.

(* ===================================================================== *)
(** * models.py and services.py: validation and the other queries        *)
(* ===================================================================== *)

Module Queries.
Import Decimal Service.

(** ** [ForecastResult.clean] *)

(** What a [clean] method does: it returns, or raises a
    [ValidationError] that names a field. *)
Inductive cleaned : Type :=
  | Clean
  | ValidationError (field message : string).

(** [ForecastResult.clean]: a lower bound above the upper bound, or a
    prediction outside the bounds, is refused when both bounds are set. *)
Definition ForecastResult_clean (self : ForecastResult) : cleaned :=
  match confidence_interval_lower self, confidence_interval_upper self with
  | Some lower, Some upper =>
      if ltb upper lower then
        ValidationError "confidence_interval_lower"
          "Lower bound cannot be greater than upper bound"
      else if negb (leb lower (predicted_generation_mwh self)
                    && leb (predicted_generation_mwh self) upper) then
        ValidationError "predicted_generation_mwh"
          "Predicted value must be within confidence interval"
      else Clean
  | _, _ => Clean
  end.

(** The instance [ForecastResult(job=job, site=site, ...)] built from a
    prediction, as [_process_forecast_job] builds it. *)
Definition result_of_prediction (job : ForecastJob) (site : Engine.Site)
    (prediction : Engine.ForecastPoint) (now : Datetime.t) : ForecastResult :=
  {| result_job_id := job_id job;
     result_site_id := Engine.site_id site;
     forecast_datetime := Engine.datetime prediction;
     predicted_generation_mwh := Engine.predicted_generation_mwh prediction;
     confidence_interval_lower := Engine.confidence_interval_lower prediction;
     confidence_interval_upper := Engine.confidence_interval_upper prediction;
     result_created_at := now |}.

Section Reads.
Context `{Mersenne}.

(** ** [get_forecast_status] *)

(** The keys added for a successful job. *)
Record SuccessInfo : Type := {
  result_count : nat;
  si_site_count : nat;
  expected_results : Z;
  results_complete : bool;
  si_forecast_horizon : Z;
}.

Record StatusInfo : Type := {
  si_job_id : Z;
  si_portfolio_id : Z;
  si_portfolio_name : string;
  si_status : JobStatus;
  si_created_at : Datetime.t;
  si_completed_at : option Datetime.t;
  si_error_message : string;
  si_is_complete : bool;
  si_is_successful : bool;
  si_success : option SuccessInfo;
}.

(** [job.results.count()] *)
Definition job_results_count (d : Database) (job : ForecastJob) : nat :=
  length (List.filter (fun r => result_job_id r =? job_id job) (results d)).

(** [ForecastJob.objects.select_related('portfolio').get(id=job_id)]: the
    job joined with its portfolio. *)
Definition ForecastJob_objects_select_related_get (d : Database) (jid : Z)
  : result (ForecastJob * Portfolio) :=
  match find (fun j => job_id j =? jid) (jobs d) with
  | Some j =>
      match find (fun p => portfolio_id p =? job_portfolio_id j) (portfolios d) with
      | Some p => Ok (j, p)
      | None => Raise (ForecastJob_DoesNotExist "ForecastJob matching query does not exist.")
      end
  | None => Raise (ForecastJob_DoesNotExist "ForecastJob matching query does not exist.")
  end.

Definition get_forecast_status (self : ForecastService) (jid : Z) (w : World)
  : result StatusInfo :=
  match ForecastJob_objects_select_related_get (db w) jid with
  | Raise (ForecastJob_DoesNotExist _) =>
      Raise (JobNotFoundError ("Forecast job with ID " +:+ pretty jid +:+ " not found"))
  | Raise e => Raise e
  | Ok (job, portfolio) =>
      Ok {| si_job_id := job_id job;
            si_portfolio_id := portfolio_id portfolio;
            si_portfolio_name := portfolio_name portfolio;
            si_status := status job;
            si_created_at := created_at job;
            si_completed_at := completed_at job;
            si_error_message := error_message job;
            si_is_complete := is_complete job;
            si_is_successful := is_successful job;
            si_success :=
              if is_successful job then
                let result_count := job_results_count (db w) job in
                let site_count := get_site_count (db w) portfolio in
                let expected_results := Z.of_nat site_count * forecast_horizon job in
                Some {| result_count := result_count;
                        si_site_count := site_count;
                        expected_results := expected_results;
                        results_complete := expected_results <=? Z.of_nat result_count;
                        si_forecast_horizon := forecast_horizon job |}
              else None |}
  end.

(** ** [get_site_forecast_results] *)

(** The two exceptions that leave [get_site_forecast_results]. *)
Inductive site_results_error : Type :=
  | Site_DoesNotExist (message : string)
  | Site_JobNotFoundError (message : string).

Record SiteResults : Type := {
  sr_site_id : Z;
  sr_site_name : string;
  sr_site_type : string;
  sr_capacity_mw : float;
  forecast_count : nat;
  sr_forecasts : list ForecastData;
}.

(** [order_by('forecast_datetime')] *)
Definition result_le (a b : ForecastResult) : Prop :=
  forecast_datetime a <= forecast_datetime b.

#[global] Instance result_le_dec : RelDecision result_le.
Proof. intros a b. unfold result_le. apply _. Defined.

(** [ForecastJob.objects.filter(portfolio__sites=site, status='completed')
      .order_by('-completed_at').first()] *)
Definition latest_job_for_site (d : Database) (site : Engine.Site) : option ForecastJob :=
  fold_left later_completed
    (List.filter
       (fun j =>
          existsb (fun p => (portfolio_id p =? job_portfolio_id j)
                            && existsb (Z.eqb (Engine.site_id site)) (portfolio_site_ids p))
                  (portfolios d)
          && JobStatus_eqb (status j) completed)
       (jobs d))
    None.

(** The [forecasts] entry of a result row. *)
Definition forecast_entry (r : ForecastResult) : ForecastData :=
  {| fd_datetime := forecast_datetime r;
     fd_predicted_generation_mwh := PyFloat.float_of_Decimal (predicted_generation_mwh r);
     fd_confidence_interval_lower := float_or_0 (confidence_interval_lower r);
     fd_confidence_interval_upper := float_or_0 (confidence_interval_upper r) |}.

Definition get_site_forecast_results (self : ForecastService) (site_id' : Z)
    (job_id' : option Z) (w : World) : site_results_error + SiteResults :=
  match find (fun s => Engine.site_id s =? site_id') (sites (db w)) with
  | None => inl (Site_DoesNotExist ("Site with ID " +:+ pretty site_id' +:+ " not found"))
  | Some site =>
      let of_job (jid : Z) : site_results_error + SiteResults :=
        let results :=
          merge_sort result_le
            (List.filter (fun r => (result_site_id r =? Engine.site_id site)
                                   && (result_job_id r =? jid))
                         (results (db w))) in
        match results with
        | [] => inl (Site_JobNotFoundError
                       ("No forecast results found for site " +:+ pretty site_id'))
        | _ =>
            let forecasts := map forecast_entry results in
            inr {| sr_site_id := Engine.site_id site;
                   sr_site_name := Engine.site_name site;
                   sr_site_type := Engine.site_type site;
                   sr_capacity_mw := float_or_0 (Engine.capacity_mw site);
                   forecast_count := length forecasts;
                   sr_forecasts := forecasts |}
        end in
      match job_id' with
      | Some jid => of_job jid
      | None =>
          match latest_job_for_site (db w) site with
          | None => inl (Site_JobNotFoundError
                           ("No completed forecast jobs found for site "
                            +:+ pretty site_id'))
          | Some latest_job => of_job (job_id latest_job)
          end
      end
  end.

End Reads.
End Queries.

(* ===================================================================== *)
(** * views.py: the endpoint that triggers a forecast                    *)
(* ===================================================================== *)

Module Views.
Import Service.

(** [rest_framework.status] *)
Definition HTTP_201_CREATED : Z := 201.
Definition HTTP_400_BAD_REQUEST : Z := 400.
Definition HTTP_404_NOT_FOUND : Z := 404.
Definition HTTP_500_INTERNAL_SERVER_ERROR : Z := 500.

(** The two shapes of the dict a response carries: an error with its
    optional details, or the description of the job created.  The job's
    UUID stands for its rendering [str(job.id)]. *)
Inductive ResponseData : Type :=
  | ErrorData (error : string) (details : option string)
  | JobCreated (job_id' : Z) (portfolio_id' : Z) (portfolio_name' : string)
      (status' : JobStatus) (created_at' : Datetime.t) (message : string).

(** [Response(data, status=...)] *)
Record Response : Type := { data : ResponseData; status_code : Z }.

(** The quotation mark around the name in the message. *)
Definition double_quote : string := String (ascii_of_nat 34) EmptyString.

Section ForecastViewSet.
Context `{Mersenne}.

(** The values a request carries (the body's [forecast_horizon], the
    [portfolio_id] of the URL) and the builtin [int] on them, taken as
    given: [int] returns an integer or raises. *)
Context {PyValue : Type} (int : PyValue -> result Z).

Record ForecastViewSet : Type := { forecast_service : ForecastService }.

(** [ForecastViewSet.__init__]: [self.forecast_service = ForecastService()] *)
Definition ForecastViewSet__init__ : ForecastViewSet :=
  {| forecast_service := ForecastService__init__ None |}.

(** The [except] clauses of the view, in their order. *)
Definition on_exception (e : exn) : result Response :=
  Ok match e with
     | ValueError _ =>
         {| data := ErrorData "Invalid portfolio ID" None;
            status_code := HTTP_400_BAD_REQUEST |}
     | PortfolioNotFoundError _ =>
         {| data := ErrorData "Portfolio not found" (Some (str_exn e));
            status_code := HTTP_404_NOT_FOUND |}
     | EmptyPortfolioError _ =>
         {| data := ErrorData "Empty portfolio" (Some (str_exn e));
            status_code := HTTP_400_BAD_REQUEST |}
     | ForecastServiceError _ | JobNotFoundError _ =>
         {| data := ErrorData "Forecast service error" (Some (str_exn e));
            status_code := HTTP_500_INTERNAL_SERVER_ERROR |}
     | _ =>
         {| data := ErrorData "Unexpected error" (Some (str_exn e));
            status_code := HTTP_500_INTERNAL_SERVER_ERROR |}
     end.

(** [ForecastViewSet.trigger_portfolio_forecast]: [forecast_horizon] is
    [request.data.get('forecast_horizon')], [portfolio_id] the argument
    of the URL; [job.portfolio] is the job's row of the table of
    portfolios. *)
Definition trigger_portfolio_forecast (self : ForecastViewSet)
    (forecast_horizon : option PyValue) (portfolio_id : PyValue) : M Response :=
  fun w =>
    let trigger (forecast_horizon : option Z) : result Response * World :=
      match int portfolio_id with
      | Raise e => (on_exception e, w)
      | Ok pid =>
          match Service.trigger_portfolio_forecast (forecast_service self) pid
                  forecast_horizon w with
          | (Raise e, w') => (on_exception e, w')
          | (Ok job, w') =>
              match Portfolio_objects_get (db w') (job_portfolio_id job) with
              | Raise e => (on_exception e, w')
              | Ok portfolio =>
                  (Ok {| data :=
                           JobCreated (job_id job) (Service.portfolio_id portfolio)
                             (portfolio_name portfolio) (status job) (created_at job)
                             ("Forecast job created for portfolio " +:+ double_quote
                              +:+ portfolio_name portfolio +:+ double_quote);
                         status_code := HTTP_201_CREATED |}, w')
              end
          end
      end in
    match forecast_horizon with
    | None => trigger None
    | Some v =>
        match int v with
        | Ok h =>
            if h <=? 0 then
              (Ok {| data := ErrorData "Invalid forecast horizon"
                               (Some "Forecast horizon must be a positive integer");
                     status_code := HTTP_400_BAD_REQUEST |}, w)
            else trigger (Some h)
        | Raise (ValueError _) | Raise (TypeError _) =>
            (Ok {| data := ErrorData "Invalid forecast horizon"
                             (Some "Forecast horizon must be a valid integer");
                   status_code := HTTP_400_BAD_REQUEST |}, w)
        | Raise e => (on_exception e, w)
        end
    end.

(** The horizon the view hands to the service for a request it accepts:
    none, or the positive integer [int] read. *)
Definition horizon_accepted (forecast_horizon : option PyValue) (hz : option Z) : Prop :=
  match forecast_horizon with
  | None => hz = None
  | Some v => exists h, int v = Ok h /\ 0 < h /\ hz = Some h
  end.

End ForecastViewSet.
End Views.

(* ===================================================================== *)
(** * Vocabulary of the properties                                       *)
(* ===================================================================== *)

(** ** Jobs and the steps of the service *)

Section ServiceVocabulary.
Context `{Mersenne}.
Import Service.

(** The row [row] after the job [jid] reached the status [st] at time [t];
    [msg] is the error message written, if one is. *)
Definition finish (jid : Z) (st : JobStatus) (t : Datetime.t) (msg : option string)
    (row : ForecastJob) : ForecastJob :=
  if job_id row =? jid then
    {| job_id := job_id row; job_portfolio_id := job_portfolio_id row;
       status := st; forecast_horizon := forecast_horizon row;
       created_at := created_at row; completed_at := Some t;
       error_message := default (error_message row) msg |}
  else row.

Definition has_row (jid : Z) (w : World) : bool :=
  existsb (fun row => job_id row =? jid) (jobs (db w)).

Definition same_jobs (w w' : World) : Prop := jobs (db w') = jobs (db w).

Definition started (job : ForecastJob) (row : ForecastJob) : ForecastJob :=
  if job_id row =? job_id job
  then update_fields [f_status] (mark_running job) row
  else row.

(** The three ways [_process_forecast_job] ends. *)
Inductive process_outcome (job : ForecastJob) (h : Z) (w : World)
  : result unit -> ForecastJob -> World -> Prop :=
  | outcome_no_row t m m' w' :
      has_row (job_id job) w = false ->
      db w' = db w ->
      process_outcome job h w (Raise (DatabaseError m))
        (with_state job failed (Some t) m') w'
  | outcome_completed t w' :
      has_row (job_id job) w = true ->
      jobs (db w') = map (finish (job_id job) completed t None) (jobs (db w)) ->
      process_outcome job h w (Ok tt)
        (with_state job completed (Some t) (error_message job)) w'
  | outcome_failed e w1 w' :
      has_row (job_id job) w = true ->
      process_try job h w = (Raise e, w1) ->
      jobs (db w')
      = map (finish (job_id job) failed (clock w1 (ticks w1)) (Some (str_exn e)))
            (jobs (db w)) ->
      results (db w') = results (db w) ->
      process_outcome job h w
        (Raise (ForecastServiceError ("Forecast processing failed: " +:+ str_exn e)))
        (with_state job failed (Some (clock w1 (ticks w1))) (str_exn e)) w'.

(** [completed_at] is null exactly while the job is pending or running. *)
Definition job_inv (j : ForecastJob) : Prop :=
  completed_at j = None <-> (status j = pending \/ status j = running).

Definition db_inv (d : Database) : Prop := Forall job_inv (jobs d).

(** The operations of the service that write the table of jobs. *)
Inductive service_step (self : ForecastService) : World -> World -> Prop :=
  | step_create portfolio horizon r w w' :
      atomic (ForecastJob_objects_create portfolio pending horizon) w = (r, w') ->
      service_step self w w'
  | step_process job horizon r job' w w' :
      _process_forecast_job self job horizon w = (r, job', w') ->
      service_step self w w'
  | step_trigger portfolio_id horizon r w w' :
      trigger_portfolio_forecast self portfolio_id horizon w = (r, w') ->
      service_step self w w'
  | step_cancel jid r w w' :
      cancel_forecast_job self jid w = (r, w') ->
      service_step self w w'
  | step_cleanup days_old r w w' :
      cleanup_old_jobs self days_old w = (r, w') ->
      service_step self w w'.

(** A computation that keeps the invariant of the table. *)
Definition preserves {A} (m : M A) : Prop :=
  forall w r w', m w = (r, w') -> db_inv (db w) -> db_inv (db w').

(** The row [ForecastJob.objects.create] writes for a trigger. *)
Definition new_job (portfolio : Portfolio) (horizon : Z) (w : World) : ForecastJob :=
  {| job_id := uuid4 (db w); job_portfolio_id := portfolio_id portfolio;
     status := pending; forecast_horizon := horizon;
     created_at := clock w (ticks w); completed_at := None; error_message := "" |}.

(** The horizons the column of [forecast_horizon] takes: the
    non-negative integers of 64 bits. *)
Definition horizon_in_column (horizon : Z) : Prop := 0 <= horizon < 2 ^ 63.

(** The message of the exception the column raises for a horizon it
    refuses. *)
Definition refusal_message (horizon : Z) : string :=
  if (horizon <? - 2 ^ 63) || (2 ^ 63 <=? horizon)
  then "Python int too large to convert to SQLite INTEGER"
  else "CHECK constraint failed: forecast_horizon".

(** The horizon [forecast_horizon or self.forecast_horizon]. *)
Definition horizon_or_default (self : ForecastService) (forecast_horizon : option Z) : Z :=
  match forecast_horizon with
  | Some h => if h =? 0 then self_forecast_horizon self else h
  | None => self_forecast_horizon self
  end.

End ServiceVocabulary.

(** ** The solar window *)

Section SolarVocabulary.
Import Engine.

Definition solar_dark (capacity_ok : Prop) (p : ForecastPoint) : Prop :=
  (Datetime.hour (datetime p) < 6 \/ 18 < Datetime.hour (datetime p)
   \/ Datetime.hour (datetime p) = 6
   \/ (capacity_ok /\ Datetime.hour (datetime p) = 18)) ->
  predicted_generation_mwh p = Decimal.d0_0.

End SolarVocabulary.

(** ** Grouping rows by key *)

(** The keys of a list in the order of their first occurrence: the keys
    of a Python dict filled from the list. *)
Fixpoint first_keys {K} (eqb : K -> K -> bool) (l : list K) : list K :=
  match l with
  | [] => []
  | x :: l => x :: List.filter (fun y => negb (eqb y x)) (first_keys eqb l)
  end.

Section GroupByVocabulary.
Context {K V R : Type} (eqb : K -> K -> bool).
Context (key : R -> K) (new : R -> V) (upd : R -> V -> V).

(** [if k not in d: d[k] = new(r)] followed by [d[k] = upd(r, d[k])]. *)
Definition group_step (d : list (K * V)) (r : R) : list (K * V) :=
  Service.dict_update eqb (key r) (upd r) (Service.dict_setdefault eqb (key r) (new r) d).

Context (P : K -> list R -> V -> Prop).

Definition grouped (rows : list R) (d : list (K * V)) : Prop :=
  map fst d = first_keys eqb (map key rows)
  /\ Forall (fun kv => P (fst kv) (List.filter (fun r => eqb (key r) (fst kv)) rows) (snd kv)) d.

End GroupByVocabulary.

(** ** The read side: series and totals *)

Module Aggregation.
Import Service.

Definition row_name (r : Row) : string := Engine.site_name (snd r).
Definition row_datetime (r : Row) : Datetime.t := forecast_datetime (fst r).

(** The [forecast_data] dict of a row. *)
Definition forecast_data_of (r : Row) : ForecastData :=
  {| fd_datetime := forecast_datetime (fst r);
     fd_predicted_generation_mwh := PyFloat.float_of_Decimal (predicted_generation_mwh (fst r));
     fd_confidence_interval_lower := float_or_0 (confidence_interval_lower (fst r));
     fd_confidence_interval_upper := float_or_0 (confidence_interval_upper (fst r)) |}.

(** The entries of the per-site series at a timestamp, site after site. *)
Definition entries_at (ts : Datetime.t) (series : list SiteForecast) : list ForecastData :=
  flat_map (fun sf => List.filter (fun fd => fd_datetime fd =? ts) (sf_forecasts sf)) series.

(** [0 + x1 + x2 + ...], added from the left as the loop adds them. *)
Definition float_sum (xs : list float) : float :=
  fold_left PrimFloat.add xs PyFloat.float_of_int_0.

(** The two dicts of the loop, each filled by a [group_step]. *)
Definition new_site (r : Row) : SiteForecast :=
  {| sf_site_id := Engine.site_id (snd r);
     sf_site_name := Engine.site_name (snd r);
     sf_site_type := Engine.site_type (snd r);
     sf_capacity_mw := float_or_0 (Engine.capacity_mw (snd r));
     sf_forecasts := [] |}.

Definition add_forecast (r : Row) (sf : SiteForecast) : SiteForecast :=
  {| sf_site_id := sf_site_id sf; sf_site_name := sf_site_name sf;
     sf_site_type := sf_site_type sf; sf_capacity_mw := sf_capacity_mw sf;
     sf_forecasts := sf_forecasts sf ++ [forecast_data_of r] |}.

Definition new_total (r : Row) : PortfolioTotal :=
  {| pt_datetime := forecast_datetime (fst r);
     total_predicted_mwh := PyFloat.float_of_int_0;
     total_confidence_lower := PyFloat.float_of_int_0;
     total_confidence_upper := PyFloat.float_of_int_0 |}.

Definition add_total (r : Row) (pt : PortfolioTotal) : PortfolioTotal :=
  {| pt_datetime := pt_datetime pt;
     total_predicted_mwh :=
       (total_predicted_mwh pt + fd_predicted_generation_mwh (forecast_data_of r))%float;
     total_confidence_lower :=
       (total_confidence_lower pt + fd_confidence_interval_lower (forecast_data_of r))%float;
     total_confidence_upper :=
       (total_confidence_upper pt + fd_confidence_interval_upper (forecast_data_of r))%float |}.

Definition site_step := group_step String.eqb row_name new_site add_forecast.
Definition total_step := group_step Z.eqb row_datetime new_total add_total.

(** What the entry of a site name, and of a timestamp, holds after the
    rows [rs] of that key. *)
Definition site_holds (k : string) (rs : list Row) (sf : SiteForecast) : Prop :=
  sf_site_name sf = k /\ sf_forecasts sf = map forecast_data_of rs.

Definition total_holds (t : Datetime.t) (rs : list Row) (pt : PortfolioTotal) : Prop :=
  pt_datetime pt = t
  /\ total_predicted_mwh pt
     = float_sum (map fd_predicted_generation_mwh (map forecast_data_of rs))
  /\ total_confidence_lower pt
     = float_sum (map fd_confidence_interval_lower (map forecast_data_of rs))
  /\ total_confidence_upper pt
     = float_sum (map fd_confidence_interval_upper (map forecast_data_of rs)).

(** The order of site names: [String.compare] is not [Gt]. *)
Definition name_le (a b : string) : Prop := String.compare a b <> Gt.

(** *** The result set and its values, in the words of the specification *)

(** The stored results of a job, each with the site it refers to, in the
    order of the table: the result set. *)
Definition result_set (d : Database) (jid : Z) : list Row :=
  flat_map (fun r =>
              match find (fun s => Engine.site_id s =? result_site_id r) (sites d) with
              | Some s => [(r, s)]
              | None => []
              end)
           (List.filter (fun r => result_job_id r =? jid) (results d)).

(** Ordered by site name, then timestamp. *)
Definition name_then_time (a b : Row) : Prop :=
  String.compare (row_name a) (row_name b) = Lt
  \/ (row_name a = row_name b /\ row_datetime a <= row_datetime b).

(** The number a stored value is reported as: the double nearest to it,
    and zero for a bound that is missing. *)
Definition reported (x : option Decimal.t) : float :=
  match x with
  | Some d => PyFloat.float_of_Decimal d
  | None => 0%float
  end.

(** The entry of a series that reports a stored row. *)
Definition entry_of (r : Row) : ForecastData :=
  {| fd_datetime := forecast_datetime (fst r);
     fd_predicted_generation_mwh := reported (Some (predicted_generation_mwh (fst r)));
     fd_confidence_interval_lower := reported (confidence_interval_lower (fst r));
     fd_confidence_interval_upper := reported (confidence_interval_upper (fst r)) |}.

End Aggregation.

(** ** What the write side touches *)

Section WriteVocabulary.
Context `{Mersenne}.
Import Service.

(** The world after [ForecastJob.objects.create] wrote the row of a
    trigger: one reading of the clock, one more row. *)
Definition created_world (portfolio : Portfolio) (horizon : Z) (w : World) : World :=
  {| db := {| sites := sites (db w); portfolios := portfolios (db w);
              jobs := jobs (db w) ++ [new_job portfolio horizon w];
              results := results (db w) |};
     model_registry := model_registry w; clock := clock w; ticks := S (ticks w) |}.

(** The tables of sites and portfolios are the same in both worlds. *)
Definition same_catalog (w w' : World) : Prop :=
  sites (db w') = sites (db w) /\ portfolios (db w') = portfolios (db w).

(** From [w] to [w'] the table of results only grew, by rows of the job
    [jid] for sites of [among]; sites, portfolios and jobs are as before. *)
Definition appended (jid : Z) (among : list Engine.Site) (w w' : World) : Prop :=
  same_catalog w w'
  /\ jobs (db w') = jobs (db w)
  /\ exists added,
       results (db w') = results (db w) ++ added
       /\ Forall (fun x => result_job_id x = jid
                           /\ In (result_site_id x) (map Engine.site_id among)) added.

(** Every lookup in the registry yields a [RandomForecastModel]. *)
Definition random_registry (reg : Engine.ModelRegistry) : Prop :=
  forall t, exists m, Engine.get_model reg t = Engine.RandomModel m.

(** The cutoff of [cleanup_old_jobs] and the jobs it deletes. *)
Definition cutoff_date (days_old : Z) (w : World) : Datetime.t :=
  clock w (ticks w) - days_old * Datetime.DAY.

Definition is_old (cutoff : Datetime.t) (j : ForecastJob) : bool :=
  is_complete j
  && match completed_at j with
     | Some t => t <? cutoff
     | None => false
     end.

End WriteVocabulary.

(** ** Tables and rows of the read side *)

Section ReadVocabulary.
Import Service.

(** No result refers to a job that is not in the table (the foreign key
    of [ForecastResult.job]). *)
Definition results_have_jobs (d : Database) : Prop :=
  Forall (fun x => existsb (fun row => job_id row =? result_job_id x) (jobs d) = true)
         (results d).

(** The completed jobs of a portfolio. *)
Definition completed_jobs_of (d : Database) (portfolio : Portfolio) : list ForecastJob :=
  List.filter (fun j => (job_portfolio_id j =? portfolio_id portfolio)
                        && JobStatus_eqb (status j) completed) (jobs d).

(** No job of [l] with a completion time was completed after [best]. *)
Definition latest_among (best : ForecastJob) (l : list ForecastJob) : Prop :=
  forall j t, In j l -> completed_at j = Some t ->
              exists t', completed_at best = Some t' /\ t <= t'.

(** The rows [get_site_forecast_results] reads for a site and a job. *)
Definition site_job_rows (d : Database) (sid jid : Z) : list ForecastResult :=
  List.filter (fun r => (result_site_id r =? sid) && (result_job_id r =? jid)) (results d).

(** [unique_together = ['job', 'site', 'forecast_datetime']] as a
    property of the table. *)
Definition results_unique (d : Database) : Prop :=
  List.NoDup (map (fun r => (result_job_id r, result_site_id r, forecast_datetime r))
                  (results d)).

(** No two sites of the table have the same name. *)
Definition site_names_unique (d : Database) : Prop :=
  forall s1 s2, In s1 (sites d) -> In s2 (sites d) ->
                Engine.site_name s1 = Engine.site_name s2 ->
                Engine.site_id s1 = Engine.site_id s2.

End ReadVocabulary.

(** ** What a forecast takes from the random source and from the site *)

Section EngineVocabulary.
Context `{Mersenne}.
Import Engine.

(** The state of the random source after [n] calls of [random()]. *)
Definition advance (n : nat) (st : mt_state) : mt_state :=
  Nat.iter n (fun s => snd (mt_random s)) st.

(** The values the next [n] calls of [random()] return. *)
Fixpoint next_draws (n : nat) (st : mt_state) : list float :=
  match n with
  | O => []
  | S n' => fst (mt_random st) :: next_draws n' (snd (mt_random st))
  end.

(** Is the hour [hour] after [start] one of the hours 6..18 of its day? *)
Definition in_daylight (start : Datetime.t) (hour : Z) : bool :=
  negb ((Datetime.hour (start + hour * Datetime.HOUR) <? 6)
        || (18 <? Datetime.hour (start + hour * Datetime.HOUR))).

(** The number of draws a forecast over [hours] makes: one per hour, for
    a solar site one per hour of daylight. *)
Definition draws (site : Site) (start : Datetime.t) (hours : list Z) : nat :=
  if String.eqb (site_type site) "solar"
  then length (List.filter (in_daylight start) hours)
  else length hours.

(** A site with no usable capacity: the field is NULL or zero. *)
Definition capacity_unset (site : Site) : Prop :=
  capacity_mw site = None
  \/ exists c, capacity_mw site = Some c /\ Decimal.coefficient c = 0.

End EngineVocabulary.

(* ===================================================================== *)
(** * Sample data                                                        *)
(* ===================================================================== *)

(** A random source for the worked examples: it replays a fixed table of
    eight doubles of [0, 1) (0.5, 0.0, 0.25, 0.9999999999999999, 0.75,
    0.125, 0.6180339887498949, 0.3), starting at the seed modulo 8. *)
Definition sample_draws : list float :=
  [0x1.0000000000000p-1; 0x0.0p+0; 0x1.0000000000000p-2; 0x1.fffffffffffffp-1;
   0x1.8000000000000p-1; 0x1.0000000000000p-3; 0x1.3c6ef372fe950p-1;
   0x1.3333333333333p-2]%float.

#[global] Instance SampleMersenne : Mersenne := {|
  mt_state := Z;
  mt_init := fun src => match src with
                        | SeedInt s => s mod 8
                        | SeedEntropy u => (u + 1) mod 8
                        end;
  mt_random := fun s =>
    (nth (Z.to_nat (s mod 8)) sample_draws 0x1.0000000000000p-1%float, (s + 1) mod 8);
|}.

Definition sample_registry : Engine.ModelRegistry := Engine.ModelRegistry__init__ 1 2 3.

Definition mock_model : Engine.ForecastModel :=
  Engine.CustomModel "Mock Model v1.0"
    (fun _ h now =>
       Ok (map (fun i => {| Engine.datetime :=
                              i * Datetime.HOUR
                              + Datetime.replace_minute_second_microsecond_0 now;
                            Engine.predicted_generation_mwh := Decimal.Dec 50 (-1);
                            Engine.confidence_interval_lower := Some (Decimal.Dec 40 (-1));
                            Engine.confidence_interval_upper := Some (Decimal.Dec 60 (-1)) |})
               (Engine.range h))).

Definition sample_solar_site : Engine.Site :=
  {| Engine.site_id := 1; Engine.site_name := "Test Solar Site";
     Engine.site_type := "solar"; Engine.capacity_mw := Some (Decimal.Dec 500 (-1)) |}.

(** 2024-11-04 06:30 *)
Definition sample_now : Datetime.t := Datetime.of_21st_century 2024 11 4 6 30.

(** 9999-12-31 22:30, ninety minutes before the last date of the
    calendar. *)
Definition sample_last_evening : Datetime.t := Datetime.MAX - 5399999999.

(** A site whose capacity, 1E+30, is no value of its column. *)
Definition sample_giant_site : Engine.Site :=
  {| Engine.site_id := 9; Engine.site_name := "Giant Hydro";
     Engine.site_type := "hydro"; Engine.capacity_mw := Some (Decimal.Dec 1 30) |}.

(** A [SUM] for the worked examples: the values added exactly, at the
    smallest of their exponents. *)
Definition SampleAggregates : SqlAggregates := {|
  Sum := fun values =>
    fold_left (fun acc v =>
                 match v, acc with
                 | None, _ => acc
                 | Some c, None => Some c
                 | Some c, Some a =>
                     let e := Z.min (Decimal.exponent a) (Decimal.exponent c) in
                     Some (Decimal.Dec (Decimal.rescale a e + Decimal.rescale c e) e)
                 end)
              values None;
|}.

(** The points the seeded sample model returns for the sample site. *)
Definition sample_forecast (h : Z) : list Engine.ForecastPoint :=
  match fst (Engine.predict (Engine.__init__ (Some 42) 0) (Some sample_solar_site) h
               sample_now) with
  | Ok pts => pts
  | Raise _ => []
  end.

Definition sample_point (h : Z) (i : nat) : Engine.ForecastPoint :=
  nth i (sample_forecast h)
    {| Engine.datetime := 0; Engine.predicted_generation_mwh := Decimal.d0_0;
       Engine.confidence_interval_lower := None;
       Engine.confidence_interval_upper := None |}.

Definition sample_wind_site : Engine.Site :=
  {| Engine.site_id := 2; Engine.site_name := "West Ridge Wind";
     Engine.site_type := "wind"; Engine.capacity_mw := Some (Decimal.Dec 2000 (-2)) |}.

Definition sample_portfolio : Service.Portfolio :=
  {| Service.portfolio_id := 1; Service.portfolio_name := "Test Portfolio";
     Service.portfolio_site_ids := [1; 2] |}.

Definition sample_db : Service.Database :=
  {| Service.sites := [sample_solar_site; sample_wind_site];
     Service.portfolios := [sample_portfolio];
     Service.jobs := []; Service.results := [] |}.

(** A clock that advances one second per reading. *)
Definition sample_clock (n : nat) : Datetime.t := Z.of_nat n * 1000000 + sample_now.

Definition sample_world : Service.World :=
  {| Service.db := sample_db; Service.model_registry := sample_registry;
     Service.clock := sample_clock; Service.ticks := 0 |}.

Definition sample_service : Service.ForecastService := Service.ForecastService__init__ None.

(** A model whose [predict] raises, registered for wind sites, and a
    pending job of the portfolio. *)
Definition failing_model : Engine.ForecastModel :=
  Engine.CustomModel "Failing Model" (fun _ _ _ => Raise (OtherException "Model failed")).

Definition failing_registry : Engine.ModelRegistry :=
  match Engine.register_model sample_registry "wind" (Engine.ModelInstance failing_model) with
  | Ok r => r
  | Raise _ => sample_registry
  end.

Definition sample_job : Service.ForecastJob :=
  {| Service.job_id := 7; Service.job_portfolio_id := 1; Service.status := Service.pending;
     Service.forecast_horizon := 2; Service.created_at := sample_now;
     Service.completed_at := None; Service.error_message := "" |}.

Definition failing_world : Service.World :=
  {| Service.db := {| Service.sites := [sample_solar_site; sample_wind_site];
                      Service.portfolios := [sample_portfolio];
                      Service.jobs := [sample_job]; Service.results := [] |};
     Service.model_registry := failing_registry;
     Service.clock := sample_clock; Service.ticks := 0 |}.

(** The worlds the failing run goes through: the job marked running, the
    solar site forecast, the wind site's model raising. *)
Definition failing_run : Service.World :=
  snd (Service.save (Service.mark_running sample_job) [Service.f_status] failing_world).
Definition failing_mid : Service.World :=
  snd (Service.forecast_sites (Service.mark_running sample_job) 2 [sample_solar_site]
         failing_run).
Definition failing_end : Service.World :=
  snd (Service.forecast_site (Service.mark_running sample_job) 2 sample_wind_site failing_mid).

Section ServiceSamples.
Import Service.

(** The job the trigger returns for the sample portfolio and horizon 0. *)
Definition zero_horizon_job : ForecastJob :=
  {| job_id := 1; job_portfolio_id := 1; status := completed; forecast_horizon := 24;
     created_at := sample_clock 0; completed_at := Some (sample_clock 51);
     error_message := "" |}.

(** The sample world after a forecast of two hours for the portfolio. *)
Definition forecast_world : World :=
  snd (trigger_portfolio_forecast sample_service 1 (Some 2) sample_world).

End ServiceSamples.

(** ** More sample data *)

Section MoreSamples.
Import Service.

Definition empty_portfolio : Portfolio :=
  {| portfolio_id := 2; portfolio_name := "Empty Portfolio"; portfolio_site_ids := [] |}.

(** The sample world with the empty portfolio beside the sample one. *)
Definition catalog_world : World :=
  {| db := {| sites := [sample_solar_site; sample_wind_site];
              portfolios := [sample_portfolio; empty_portfolio];
              jobs := []; results := [] |};
     model_registry := sample_registry; clock := sample_clock; ticks := 0 |}.

(** The sample world with the pending job [sample_job] in its table. *)
Definition pending_world : World :=
  {| db := {| sites := [sample_solar_site; sample_wind_site];
              portfolios := [sample_portfolio];
              jobs := [sample_job]; results := [] |};
     model_registry := sample_registry; clock := sample_clock; ticks := 0 |}.

(** [failing_world] after the cancellation of its pending job. *)
Definition cancelled_world : World :=
  snd (cancel_forecast_job sample_service 7 failing_world).

(** A hydro site without capacity, and one of 10.0 MW. *)
Definition sample_hydro_site : Engine.Site :=
  {| Engine.site_id := 3; Engine.site_name := "Mill Creek Hydro";
     Engine.site_type := "hydro"; Engine.capacity_mw := None |}.

Definition sample_hydro_site_10 : Engine.Site :=
  {| Engine.site_id := 4; Engine.site_name := "Lower Falls Hydro";
     Engine.site_type := "hydro"; Engine.capacity_mw := Some Decimal.d10_0 |}.

(** [int] on the strings of the worked examples: decimal numerals with
    an optional minus sign are read, anything else is a [ValueError]. *)
Fixpoint digits_value (s : string) (acc : Z) : option Z :=
  match s with
  | EmptyString => Some acc
  | String c s' =>
      let n := Z.of_nat (nat_of_ascii c) in
      if (48 <=? n) && (n <=? 57) then digits_value s' (10 * acc + (n - 48)) else None
  end.

Definition sample_int (s : string) : result Z :=
  let invalid := Raise (ValueError ("invalid literal for int() with base 10: '" +:+ s +:+ "'")) in
  match s with
  | EmptyString => invalid
  | String "-" EmptyString => invalid
  | String "-" s' =>
      match digits_value s' 0 with
      | Some n => Ok (- n)
      | None => invalid
      end
  | _ =>
      match digits_value s 0 with
      | Some n => Ok n
      | None => invalid
      end
  end.

End MoreSamples.

(* ===================================================================== *)
(** * Tactics                                                            *)
(* ===================================================================== *)

Ltac le_pow10_by_computation :=
  unfold Decimal.le_pow10; vm_compute; split; discriminate.

(** Closes [l = r] between closed terms by evaluating both sides. *)
Ltac by_evaluation :=
  lazymatch goal with
  | |- @eq ?A _ ?r => vm_cast_no_check (@eq_refl A r)
  end.

(* ===================================================================== *)
(** * Properties of the registry                                         *)
(* ===================================================================== *)

Section RegistryFacts.
Context `{Mersenne}.
Import PyStr.

Lemma lower_char_not_upper (c : ascii) :
  is_upper c = true -> is_upper (ascii_of_nat (nat_of_ascii c + 32)) = false.
Proof.
  unfold is_upper. intros Hc.
  apply andb_true_iff in Hc as [H1 H2].
  apply Nat.leb_le in H1, H2.
  rewrite nat_ascii_embedding by lia.
  apply andb_false_iff. right. apply Nat.leb_gt. lia.
Qed.

Lemma same_letter_lower (c1 c2 : ascii) :
  same_letter c1 c2 -> lower_char c1 = lower_char c2.
Proof.
  assert (Hone : forall a b, is_upper a = true ->
                   nat_of_ascii b = (nat_of_ascii a + 32)%nat ->
                   lower_char a = lower_char b).
  { intros a b Ha Hb. unfold lower_char. rewrite Ha.
    assert (Eb : b = ascii_of_nat (nat_of_ascii a + 32)).
    { rewrite <- Hb. symmetry. apply ascii_nat_embedding. }
    pose proof (lower_char_not_upper a Ha) as Hn. rewrite <- Eb in Hn.
    rewrite Hn. symmetry. exact Eb. }
  intros [-> | [[Hu He] | [Hu He]]]; [reflexivity | eauto | symmetry; eauto].
Qed.

Lemma eq_ignoring_case_lower (s t : string) :
  eq_ignoring_case s t -> lower s = lower t.
Proof.
  induction 1 as [| c1 c2 s1 s2 Hc _ IH]; simpl; [reflexivity |].
  rewrite (same_letter_lower _ _ Hc), IH. reflexivity.
Qed.

Lemma eq_ignoring_case_refl (s : string) : eq_ignoring_case s s.
Proof. induction s; constructor; [left; reflexivity | assumption]. Qed.

End RegistryFacts.

Section RegistryTheorems.
Context `{Mersenne}.
Import PyStr.

(** C9.  Registering a model under a site type makes every spelling of
    that type that differs only in letter case resolve to the model, and a
    type with no entry resolves to the registry's default model. *)
Theorem registry_case_insensitive_with_default
    (reg : Engine.ModelRegistry) (t : string) (M : Engine.ForecastModel) :
  (forall t', eq_ignoring_case t t' ->
     exists reg', Engine.register_model reg t (Engine.ModelInstance M) = Ok reg'
                  /\ Engine.get_model reg' t' = M)
  /\ (forall u, Engine._models reg !! lower u = None ->
                Engine.get_model reg u = Engine._default_model reg).
Proof.
  split.
  - intros t' Ht. eexists. split; [reflexivity |].
    unfold Engine.get_model. simpl.
    rewrite <- (eq_ignoring_case_lower _ _ Ht), lookup_insert_eq. reflexivity.
  - intros u Hu. unfold Engine.get_model. rewrite Hu. reflexivity.
Qed.
End RegistryTheorems.

Lemma registry_case_insensitive_with_default_witness :
  PyStr.eq_ignoring_case "Solar" "SOLAR"
  /\ (exists reg', Engine.register_model sample_registry "Solar" (Engine.ModelInstance mock_model) = Ok reg'
                   /\ Engine.get_model reg' "SOLAR" = mock_model)
  /\ Engine._models sample_registry !! PyStr.lower "Hydro" = None
  /\ Engine.get_model sample_registry "Hydro" = Engine._default_model sample_registry.
Proof.
  assert (E : PyStr.eq_ignoring_case "Solar" "SOLAR").
  { repeat constructor;
      solve [ left; reflexivity
            | right; right; split; reflexivity ]. }
  assert (N : Engine._models sample_registry !! PyStr.lower "Hydro" = None)
    by (vm_compute; reflexivity).
  destruct (registry_case_insensitive_with_default sample_registry "Solar" mock_model)
    as [H1 H2].
  exact (conj E (conj (H1 "SOLAR" E) (conj N (H2 "Hydro" N)))).
Defined.

(* ===================================================================== *)
(** * Facts about Decimal arithmetic                                     *)
(* ===================================================================== *)

Module DecimalFacts.
Import Decimal.

Lemma ndigits_fuel_spec (fuel : nat) : forall n,
  0 <= n < 2 ^ Z.of_nat fuel ->
  1 <= ndigits_fuel fuel n
  /\ n < 10 ^ ndigits_fuel fuel n
  /\ (1 <= n -> 10 ^ (ndigits_fuel fuel n - 1) <= n).
Proof.
  induction fuel as [| f IH]; intros n Hn.
  - simpl in *. assert (n = 0) by lia. subst. repeat split; lia.
  - cbn [ndigits_fuel]. destruct (n <? 10) eqn:E.
    + apply Z.ltb_lt in E. repeat split; simpl; lia.
    + apply Z.ltb_ge in E.
      assert (Hq : 0 <= n / 10 < 2 ^ Z.of_nat f).
      { split; [apply Z.div_pos; lia |].
        apply Z.div_lt_upper_bound; [lia |].
        rewrite Nat2Z.inj_succ, Z.pow_succ_r in Hn by lia. lia. }
      destruct (IH _ Hq) as (H1 & H2 & H3).
      assert (H4 : 1 <= n / 10) by (apply Z.div_le_lower_bound; lia).
      specialize (H3 H4).
      pose proof (Z.div_mod n 10 ltac:(lia)) as Hdm.
      pose proof (Z.mod_pos_bound n 10 ltac:(lia)) as Hmb.
      set (d := ndigits_fuel f (n / 10)) in *.
      replace (1 + d - 1) with (Z.succ (d - 1)) by lia.
      replace (1 + d) with (Z.succ d) by lia.
      rewrite !Z.pow_succ_r by lia.
      repeat split; lia.
Qed.

Lemma ndigits_spec (n : Z) :
  0 <= n ->
  1 <= ndigits n /\ n < 10 ^ ndigits n /\ (1 <= n -> 10 ^ (ndigits n - 1) <= n).
Proof.
  intros Hn. unfold ndigits. apply ndigits_fuel_spec.
  split; [exact Hn |].
  rewrite Nat2Z.inj_add, Z2Nat.id by apply Z.log2_nonneg.
  destruct (Z.eq_dec n 0) as [-> | Hz]; [reflexivity |].
  change (Z.of_nat 1) with 1. rewrite Z.add_1_r.
  apply Z.log2_spec. lia.
Qed.

(** A coefficient of at most [k] digits. *)
Lemma ndigits_le (n k : Z) : 0 <= n < 10 ^ k -> 1 <= k -> ndigits n <= k.
Proof.
  intros Hn Hk. destruct (ndigits_spec n ltac:(lia)) as (H1 & _ & H3).
  destruct (Z.eq_dec n 0) as [-> | Hz]; [change (ndigits 0) with 1; lia |].
  specialize (H3 ltac:(lia)).
  destruct (Z_le_gt_dec (ndigits n) k) as [Hle | Hgt]; [exact Hle | exfalso].
  assert (10 ^ k <= 10 ^ (ndigits n - 1)) by (apply Z.pow_le_mono_r; lia).
  lia.
Qed.

Lemma context_round_small (d : t) :
  Z.abs (coefficient d) < 10 ^ prec -> context_round d = d.
Proof.
  intros Hc. unfold context_round.
  pose proof (ndigits_le (Z.abs (coefficient d)) prec
                ltac:(split; [apply Z.abs_nonneg | exact Hc]) ltac:(unfold prec; lia)) as Hd.
  apply Z.leb_le in Hd. rewrite Hd. reflexivity.
Qed.

Lemma div_half_even_bounds (c d : Z) :
  0 <= c -> 0 < d -> c / d <= div_half_even c d <= c / d + 1.
Proof.
  intros Hc Hd. unfold div_half_even.
  destruct ((d <? 2 * (c mod d)) || ((2 * (c mod d) =? d) && Z.odd (c / d))); lia.
Qed.

Lemma div_half_even_le (c d B : Z) :
  0 <= c -> 0 < d -> c <= d * B -> div_half_even c d <= B.
Proof.
  intros Hc Hd HB. unfold div_half_even.
  pose proof (Z.div_mod c d ltac:(lia)) as Hdm.
  pose proof (Z.mod_pos_bound c d Hd) as Hmb.
  destruct (Z.eq_dec c (d * B)) as [-> | Hne].
  - replace (d * B) with (B * d) by lia. rewrite Z.mod_mul, Z.div_mul by lia.
    replace (d <? 2 * 0) with false by (symmetry; apply Z.ltb_ge; lia).
    replace (2 * 0 =? d) with false by (symmetry; apply Z.eqb_neq; lia).
    simpl. lia.
  - assert (c / d < B) by (apply Z.div_lt_upper_bound; lia).
    destruct ((d <? 2 * (c mod d)) || ((2 * (c mod d) =? d) && Z.odd (c / d))); lia.
Qed.

Lemma div_half_even_zero (c d : Z) : 0 <= c -> 2 * c < d -> div_half_even c d = 0.
Proof.
  intros Hc Hd. unfold div_half_even.
  rewrite Z.div_small, Z.mod_small by lia.
  replace (d <? 2 * c) with false by (symmetry; apply Z.ltb_ge; lia).
  replace (2 * c =? d) with false by (symmetry; apply Z.eqb_neq; lia).
  reflexivity.
Qed.

Lemma pow10_pos (k : Z) : 0 <= k -> 0 < 10 ^ k.
Proof. intros. apply Z.pow_pos_nonneg; lia. Qed.

Lemma pow10_split (a b : Z) : 0 <= a -> 0 <= b -> 10 ^ (a + b) = 10 ^ a * 10 ^ b.
Proof. intros. apply Z.pow_add_r; lia. Qed.

(** Rounding to the context keeps a bound by a power of ten. *)
Lemma context_round_le_pow10 (d : t) (k : Z) :
  le_pow10 d k -> le_pow10 (context_round d) k.
Proof.
  intros [He Hc]. unfold context_round.
  set (c := Z.abs (coefficient d)) in *.
  assert (Hc0 : 0 <= c) by apply Z.abs_nonneg.
  destruct (ndigits c <=? prec) eqn:E; [split; assumption |].
  apply Z.leb_gt in E.
  destruct (ndigits_spec c Hc0) as (_ & _ & Hlow).
  assert (Hc1 : 1 <= c).
  { destruct (Z.eq_dec c 0) as [Hz | Hz]; [| lia].
    rewrite Hz in E. vm_compute in E. discriminate. }
  specialize (Hlow Hc1).
  set (s := ndigits c - prec) in *.
  assert (Hs : 1 <= s) by lia.
  (* c has prec + s digits, so k - exponent d >= prec + s - 1 *)
  assert (Hk : prec + s - 1 <= k - exponent d).
  { destruct (Z_le_gt_dec (prec + s - 1) (k - exponent d)) as [Hle | Hgt]; [exact Hle |].
    exfalso.
    assert (10 ^ (k - exponent d) < 10 ^ (ndigits c - 1)).
    { apply Z.pow_lt_mono_r; lia. }
    lia. }
  assert (Hq : div_half_even c (10 ^ s) <= 10 ^ (k - exponent d - s)).
  { apply div_half_even_le; [lia | apply pow10_pos; lia |].
    rewrite <- pow10_split by (pose proof (eq_refl : prec = 28); lia).
    replace (s + (k - exponent d - s)) with (k - exponent d) by lia. exact Hc. }
  pose proof (div_half_even_bounds c (10 ^ s) Hc0 (pow10_pos s ltac:(lia))) as [Hq0 _].
  assert (Hq1 : 0 <= c / 10 ^ s) by (apply Z.div_pos; [lia | apply pow10_pos; lia]).
  assert (Hsg : Z.abs (Z.sgn (coefficient d)) = 1).
  { subst c. destruct (coefficient d); simpl in *; lia. }
  pose proof (eq_refl : prec = 28) as Hp.
  destruct (div_half_even c (10 ^ s) =? 10 ^ prec) eqn:E2; cbn [coefficient exponent].
  - apply Z.eqb_eq in E2. rewrite E2 in Hq.
    assert (Hpk : prec <= k - exponent d - s).
    { destruct (Z_le_gt_dec prec (k - exponent d - s)) as [Hle | Hgt]; [exact Hle |].
      exfalso.
      assert (Hlt : 10 ^ (k - exponent d - s) < 10 ^ prec)
        by (apply Z.pow_lt_mono_r; lia).
      apply (Z.lt_irrefl (10 ^ prec)). eapply Z.le_lt_trans; eassumption. }
    unfold le_pow10; cbn [coefficient exponent]. split; [lia |].
    rewrite Z.abs_mul, Hsg, Z.mul_1_l, Z.abs_eq by (apply Z.pow_nonneg; lia).
    apply Z.pow_le_mono_r; lia.
  - unfold le_pow10; cbn [coefficient exponent]. split; [lia |].
    rewrite Z.abs_mul, Hsg, Z.mul_1_l, Z.abs_eq by lia.
    replace (k - (exponent d + s)) with (k - exponent d - s) by lia. exact Hq.
Qed.

Lemma mul_le_pow10 (a b : t) (ka kb : Z) :
  le_pow10 a ka -> le_pow10 b kb -> le_pow10 (mul a b) (ka + kb).
Proof.
  intros [Ha1 Ha2] [Hb1 Hb2]. unfold mul. apply context_round_le_pow10.
  unfold le_pow10; cbn [coefficient exponent]. split; [lia |].
  rewrite Z.abs_mul.
  replace (ka + kb - (exponent a + exponent b))
    with ((ka - exponent a) + (kb - exponent b)) by lia.
  rewrite pow10_split by lia.
  apply Z.mul_le_mono_nonneg; try apply Z.abs_nonneg; assumption.
Qed.

Lemma context_round_zero (e : Z) : context_round (Dec 0 e) = Dec 0 e.
Proof. apply context_round_small. simpl. reflexivity. Qed.

Lemma mul_zero_l (a b : t) : coefficient a = 0 -> coefficient (mul a b) = 0.
Proof.
  intros Ha. unfold mul. rewrite Ha, Z.mul_0_l, context_round_zero. reflexivity.
Qed.

Lemma mul_zero_r (a b : t) : coefficient b = 0 -> coefficient (mul a b) = 0.
Proof.
  intros Hb. unfold mul. rewrite Hb, Z.mul_0_r, context_round_zero. reflexivity.
Qed.

Lemma rescale_exponent (d : t) : exponent (_rescale d) = -3.
Proof. unfold _rescale. destruct (quantize_exp <=? exponent d); reflexivity. Qed.

Lemma rescale_zero (d : t) : coefficient d = 0 -> _rescale d = Dec 0 (-3).
Proof.
  intros Hd. unfold _rescale, rescale. rewrite Hd.
  destruct (quantize_exp <=? exponent d); simpl; reflexivity.
Qed.

(** Rescaling to three places keeps a bound by a power of ten... *)
Lemma rescale_le_pow10 (d : t) (k : Z) :
  le_pow10 d k -> -3 <= k -> Z.abs (coefficient (_rescale d)) <= 10 ^ (k + 3).
Proof.
  intros [He Hc] Hk. unfold _rescale, quantize_exp, rescale.
  destruct (-3 <=? exponent d) eqn:E; cbn [coefficient].
  - apply Z.leb_le in E. rewrite Z.abs_mul.
    rewrite (Z.abs_eq (10 ^ _)) by (apply Z.pow_nonneg; lia).
    replace (k + 3) with ((k - exponent d) + (exponent d - -3)) by lia.
    rewrite pow10_split by lia.
    apply Z.mul_le_mono_nonneg_r; [apply Z.pow_nonneg; lia | exact Hc].
  - apply Z.leb_gt in E.
    pose proof (div_half_even_bounds (Z.abs (coefficient d)) (10 ^ (-3 - exponent d))
                  (Z.abs_nonneg _) (pow10_pos (-3 - exponent d) ltac:(lia))) as [Hq0 _].
    assert (0 <= Z.abs (coefficient d) / 10 ^ (-3 - exponent d))
      by (apply Z.div_pos; [apply Z.abs_nonneg | apply pow10_pos; lia]).
    rewrite Z.abs_mul, (Z.abs_eq (div_half_even _ _)) by lia.
    assert (Hq : div_half_even (Z.abs (coefficient d)) (10 ^ (-3 - exponent d))
                 <= 10 ^ (k + 3)).
    { apply div_half_even_le; [apply Z.abs_nonneg | apply pow10_pos; lia |].
      rewrite <- pow10_split by lia.
      replace (-3 - exponent d + (k + 3)) with (k - exponent d) by lia. exact Hc. }
    destruct (coefficient d); simpl; lia.
Qed.

(** ... and sends anything of magnitude at most 10^-4 to zero. *)
Lemma rescale_tiny (d : t) (k : Z) :
  le_pow10 d k -> k <= -4 -> _rescale d = Dec 0 (-3).
Proof.
  intros [He Hc] Hk. unfold _rescale, quantize_exp.
  destruct (-3 <=? exponent d) eqn:E; [apply Z.leb_le in E; lia |].
  apply Z.leb_gt in E.
  rewrite div_half_even_zero; [f_equal; lia | apply Z.abs_nonneg |].
  assert (H1 : 10 ^ (k - exponent d) <= 10 ^ (-4 - exponent d))
    by (apply Z.pow_le_mono_r; lia).
  replace (-3 - exponent d) with (Z.succ (-4 - exponent d)) by lia.
  rewrite Z.pow_succ_r by lia.
  pose proof (pow10_pos (-4 - exponent d) ltac:(lia)). lia.
Qed.

(** [max(Decimal('0.0'), x)] is [x] when [x] is positive and the literal
    [Decimal('0.0')] otherwise. *)
Lemma max_zero (x : t) :
  exponent x <= -1 ->
  max d0_0 x = if 0 <? coefficient x then x else d0_0.
Proof.
  intros He. unfold max, ltb, rescale, d0_0. cbn [coefficient exponent].
  rewrite Z.min_r by lia. rewrite Z.sub_diag, Z.mul_0_l, Z.mul_1_r. reflexivity.
Qed.

Lemma max_rescale_generated (g : t) (k : Z) :
  le_pow10 g k -> -3 <= k -> generated (max d0_0 (_rescale g)) (10 ^ (k + 3)).
Proof.
  intros Hg Hk.
  pose proof (rescale_le_pow10 g k Hg Hk) as Hq.
  pose proof (rescale_exponent g) as He.
  rewrite max_zero by lia.
  destruct (0 <? coefficient (_rescale g)) eqn:E; [| left; reflexivity].
  apply Z.ltb_lt in E. right. repeat split; [exact He | exact E | lia].
Qed.

Lemma le_pow10_weaken (d : t) (k k' : Z) : le_pow10 d k -> k <= k' -> le_pow10 d k'.
Proof.
  intros [He Hc] Hk. split; [lia |].
  eapply Z.le_trans; [exact Hc |]. apply Z.pow_le_mono_r; lia.
Qed.

(** ** [quantize]: when it returns, and what *)

(** Whatever [quantize] returns is the rescaled value. *)
Lemma quantize_in_inv (p : Z) (d q : t) : quantize_in p d = Ok q -> q = _rescale d.
Proof.
  unfold quantize_in. destruct (coefficient d =? 0) eqn:E.
  - apply Z.eqb_eq in E. intros [= <-]. symmetry. apply rescale_zero. exact E.
  - destruct (p <? adjusted d - quantize_exp + 1); [discriminate |].
    destruct (p <? ndigits (Z.abs (coefficient (_rescale d)))); [discriminate |].
    intros [= <-]. reflexivity.
Qed.

(** The only exception of [quantize] is InvalidOperation. *)
Lemma quantize_in_raise (p : Z) (d : t) (e : exn) :
  quantize_in p d = Raise e -> e = InvalidOperation InvalidOperation_message.
Proof.
  unfold quantize_in. destruct (coefficient d =? 0); [discriminate |].
  destruct (p <? adjusted d - quantize_exp + 1); [intros [= <-]; reflexivity |].
  destruct (p <? ndigits (Z.abs (coefficient (_rescale d))));
    [intros [= <-]; reflexivity | discriminate].
Qed.

(** A value below [10 ^ (p - 3)] in magnitude has a place at three
    decimals under the precision [p]. *)
Lemma quantize_in_ok (p : Z) (d : t) (k : Z) :
  le_pow10 d k -> -3 <= k -> k + 4 <= p -> quantize_in p d = Ok (_rescale d).
Proof.
  intros Hd Hk Hp. unfold quantize_in.
  destruct (coefficient d =? 0) eqn:E.
  { apply Z.eqb_eq in E. rewrite (rescale_zero d E). reflexivity. }
  destruct Hd as [He Hc].
  assert (Hdig : ndigits (Z.abs (coefficient d)) <= k - exponent d + 1).
  { apply ndigits_le; [| lia]. split; [apply Z.abs_nonneg |].
    eapply Z.le_lt_trans; [exact Hc |]. apply Z.pow_lt_mono_r; lia. }
  replace (p <? adjusted d - quantize_exp + 1) with false
    by (symmetry; apply Z.ltb_ge; unfold adjusted, quantize_exp; lia).
  pose proof (rescale_le_pow10 d k (conj He Hc) Hk) as Hq.
  assert (Hdq : ndigits (Z.abs (coefficient (_rescale d))) <= k + 4).
  { apply ndigits_le; [| lia]. split; [apply Z.abs_nonneg |].
    eapply Z.le_lt_trans; [exact Hq |]. apply Z.pow_lt_mono_r; lia. }
  replace (p <? ndigits (Z.abs (coefficient (_rescale d)))) with false
    by (symmetry; apply Z.ltb_ge; lia).
  reflexivity.
Qed.

(** The confidence band around a generated value, computed exactly:
    80% and 120% of it. *)
Lemma band_of_generated (p : t) :
  generated p (10 ^ 20) ->
  let confidence_range := mul p d0_2 in
  (p = d0_0 /\ max d0_0 (sub p confidence_range) = d0_0
            /\ add p confidence_range = Dec 0 (-2))
  \/ (exists n, 0 < n /\ p = Dec n (-3)
               /\ max d0_0 (sub p confidence_range) = Dec (8 * n) (-4)
               /\ add p confidence_range = Dec (12 * n) (-4)).
Proof.
  intros [-> | (He & Hc1 & Hc2)]; [left; repeat split; reflexivity | right].
  destruct p as [n e]. cbn [coefficient exponent] in *. subst e.
  exists n. split; [exact Hc1 |]. split; [reflexivity |].
  assert (Hmul : mul (Dec n (-3)) d0_2 = Dec (n * 2) (-4)).
  { unfold mul, d0_2. cbn [coefficient exponent]. apply context_round_small.
    cbn [coefficient]. unfold prec. rewrite Z.abs_eq by lia.
    change (10 ^ 20) with 100000000000000000000 in Hc2.
    change (10 ^ 28) with 10000000000000000000000000000. lia. }
  rewrite Hmul. split.
  - assert (Hsub : sub (Dec n (-3)) (Dec (n * 2) (-4)) = Dec (8 * n) (-4)).
    { unfold sub, rescale. cbn [coefficient exponent].
      change (Z.min (-3) (-4)) with (-4).
      change (10 ^ (-3 - -4)) with 10. change (10 ^ (-4 - -4)) with 1.
      replace (n * 10 - n * 2 * 1) with (8 * n) by lia.
      apply context_round_small. cbn [coefficient]. unfold prec.
      rewrite Z.abs_eq by lia.
      change (10 ^ 20) with 100000000000000000000 in Hc2.
      change (10 ^ 28) with 10000000000000000000000000000. lia. }
    rewrite Hsub, max_zero by (simpl; lia). cbn [coefficient].
    replace (0 <? 8 * n) with true by (symmetry; apply Z.ltb_lt; lia). reflexivity.
  - unfold add, rescale. cbn [coefficient exponent].
    change (Z.min (-3) (-4)) with (-4).
    change (10 ^ (-3 - -4)) with 10. change (10 ^ (-4 - -4)) with 1.
    replace (n * 10 + n * 2 * 1) with (12 * n) by lia.
    apply context_round_small. cbn [coefficient]. unfold prec.
    rewrite Z.abs_eq by lia.
    change (10 ^ 20) with 100000000000000000000 in Hc2.
    change (10 ^ 28) with 10000000000000000000000000000. lia.
Qed.

(** Values of the decimals that occur, as rationals. *)
Lemma to_Q_thousandths (n : Z) : (to_Q (Dec n (-3)) == n # 1000)%Q.
Proof. unfold to_Q. cbn. unfold Qeq, Qmult, inject_Z. simpl. lia. Qed.

Lemma to_Q_ten_thousandths (n : Z) : (to_Q (Dec n (-4)) == n # 10000)%Q.
Proof. unfold to_Q. cbn. unfold Qeq, Qmult, inject_Z. simpl. lia. Qed.

Lemma to_Q_zero (e : Z) : (to_Q (Dec 0 e) == 0)%Q.
Proof. unfold to_Q. cbn [coefficient]. apply Qmult_0_l. Qed.

End DecimalFacts.

(* ===================================================================== *)
(** * Properties of the forecast engine                                  *)
(* ===================================================================== *)

Section DatetimeFacts.

Lemma timedelta_hours (h : Z) :
  -999999999 * 24 <= h < 1000000000 * 24 ->
  Datetime.timedelta 0 h = Ok (h * Datetime.HOUR).
Proof.
  intros Hh. unfold Datetime.timedelta. cbv zeta.
  rewrite Z.mul_0_l, Z.add_0_l.
  assert (Hd : h * Datetime.HOUR / Datetime.DAY = h / 24).
  { unfold Datetime.DAY. apply Z.div_mul_cancel_r; unfold Datetime.HOUR; lia. }
  rewrite Hd.
  assert (Hq : -999999999 <= h / 24 < 1000000000).
  { split; [apply Z.div_le_lower_bound; lia | apply Z.div_lt_upper_bound; lia]. }
  change (2 ^ 31) with 2147483648.
  destruct ((h / 24 <? _) || (_ <=? h / 24)) eqn:E1.
  { exfalso. apply orb_true_iff in E1 as [E | E];
      [apply Z.ltb_lt in E | apply Z.leb_le in E]; lia. }
  destruct ((h / 24 <? _) || (_ <? h / 24)) eqn:E2; [exfalso | reflexivity].
  apply orb_true_iff in E2 as [E | E]; apply Z.ltb_lt in E; lia.
Qed.

Lemma timedelta_days (d : Z) :
  -999999999 <= d <= 999999999 ->
  Datetime.timedelta d 0 = Ok (d * Datetime.DAY).
Proof.
  intros Hd. unfold Datetime.timedelta. cbv zeta.
  rewrite Z.mul_0_l, Z.add_0_r.
  rewrite Z.div_mul by (unfold Datetime.DAY, Datetime.HOUR; lia).
  change (2 ^ 31) with 2147483648.
  destruct ((d <? _) || (_ <=? d)) eqn:E1.
  { exfalso. apply orb_true_iff in E1 as [E | E];
      [apply Z.ltb_lt in E | apply Z.leb_le in E]; lia. }
  destruct ((d <? _) || (_ <? d)) eqn:E2; [exfalso | reflexivity].
  apply orb_true_iff in E2 as [E | E]; apply Z.ltb_lt in E; lia.
Qed.

(** The only exception of [timedelta] and of datetime arithmetic is
    [OverflowError]. *)
Lemma timedelta_raise (days hours : Z) (e : exn) :
  Datetime.timedelta days hours = Raise e -> exists m, e = OverflowError m.
Proof.
  unfold Datetime.timedelta. cbv zeta.
  destruct (_ || _); [intros [= <-]; eexists; reflexivity |].
  destruct (_ || _); [intros [= <-]; eexists; reflexivity | discriminate].
Qed.

Lemma in_range_inv (x : Z) (dt : Datetime.t) :
  Datetime.in_range x = Ok dt -> dt = x /\ Datetime.valid dt.
Proof.
  unfold Datetime.in_range.
  destruct ((x <? Datetime.MIN) || (Datetime.MAX <? x)) eqn:E; [discriminate |].
  intros [= <-]. apply orb_false_iff in E as [E1 E2]. apply Z.ltb_ge in E1, E2.
  split; [reflexivity | split; assumption].
Qed.

Lemma in_range_valid (x : Z) : Datetime.valid x -> Datetime.in_range x = Ok x.
Proof.
  intros [H0 H1]. unfold Datetime.in_range.
  replace ((x <? Datetime.MIN) || (Datetime.MAX <? x)) with false; [reflexivity |].
  symmetry. apply orb_false_iff. split; apply Z.ltb_ge; assumption.
Qed.

Lemma in_range_raise (x : Z) (e : exn) :
  Datetime.in_range x = Raise e -> e = OverflowError "date value out of range".
Proof.
  unfold Datetime.in_range. destruct (_ || _); [intros [= <-]; reflexivity | discriminate].
Qed.

Lemma add_hours_ok (start : Datetime.t) (h : Z) :
  Datetime.valid start -> Datetime.valid (start + h * Datetime.HOUR) ->
  Datetime.add_hours start h = Ok (start + h * Datetime.HOUR).
Proof.
  intros Hs Hr. unfold Datetime.add_hours.
  rewrite timedelta_hours.
  - cbn [and_then]. apply in_range_valid. exact Hr.
  - unfold Datetime.valid, Datetime.MIN, Datetime.MAX, Datetime.DAY, Datetime.HOUR in *. lia.
Qed.

Lemma add_hours_inv (start : Datetime.t) (h : Z) (dt : Datetime.t) :
  Datetime.add_hours start h = Ok dt ->
  dt = start + h * Datetime.HOUR /\ Datetime.valid (start + h * Datetime.HOUR).
Proof.
  unfold Datetime.add_hours.
  destruct (Datetime.timedelta 0 h) as [delta |] eqn:Ed; [| discriminate].
  cbn [and_then]. intros Hr. apply in_range_inv in Hr as [-> Hv].
  revert Ed Hv. unfold Datetime.timedelta. cbv zeta.
  destruct (_ || _); [discriminate |]. destruct (_ || _); [discriminate |].
  intros [= <-]. rewrite Z.mul_0_l, Z.add_0_l. intros Hv. split; [reflexivity | exact Hv].
Qed.

Lemma add_hours_raise (start : Datetime.t) (h : Z) (e : exn) :
  Datetime.add_hours start h = Raise e -> exists m, e = OverflowError m.
Proof.
  unfold Datetime.add_hours.
  destruct (Datetime.timedelta 0 h) as [delta | e0] eqn:Ed; cbn [and_then].
  - intros Hr. apply in_range_raise in Hr. eexists. exact Hr.
  - intros [= <-]. eapply timedelta_raise. exact Ed.
Qed.

Lemma sub_days_ok (now : Datetime.t) (d : Z) :
  Datetime.valid now -> Datetime.valid (now - d * Datetime.DAY) ->
  Datetime.sub_days now d = Ok (now - d * Datetime.DAY).
Proof.
  intros Hs Hr. unfold Datetime.sub_days.
  rewrite timedelta_days.
  - cbn [and_then]. apply in_range_valid. exact Hr.
  - unfold Datetime.valid, Datetime.MIN, Datetime.MAX, Datetime.DAY, Datetime.HOUR in *. lia.
Qed.

Lemma sub_days_inv (now : Datetime.t) (d : Z) (dt : Datetime.t) :
  Datetime.sub_days now d = Ok dt ->
  dt = now - d * Datetime.DAY /\ Datetime.valid (now - d * Datetime.DAY).
Proof.
  unfold Datetime.sub_days.
  destruct (Datetime.timedelta d 0) as [delta |] eqn:Ed; [| discriminate].
  cbn [and_then]. intros Hr. apply in_range_inv in Hr as [-> Hv].
  revert Ed Hv. unfold Datetime.timedelta. cbv zeta.
  destruct (_ || _); [discriminate |]. destruct (_ || _); [discriminate |].
  intros [= <-]. rewrite Z.mul_0_l, Z.add_0_r. intros Hv. split; [reflexivity | exact Hv].
Qed.

Lemma sub_days_raise (now : Datetime.t) (d : Z) (e : exn) :
  Datetime.sub_days now d = Raise e -> exists m, e = OverflowError m.
Proof.
  unfold Datetime.sub_days.
  destruct (Datetime.timedelta d 0) as [delta | e0] eqn:Ed; cbn [and_then].
  - intros Hr. apply in_range_raise in Hr. eexists. exact Hr.
  - intros [= <-]. eapply timedelta_raise. exact Ed.
Qed.

Lemma top_of_hour (now : Datetime.t) :
  let start := Datetime.replace_minute_second_microsecond_0 now in
  start mod Datetime.HOUR = 0 /\ start <= now < start + Datetime.HOUR
  /\ (Datetime.valid now -> Datetime.valid start).
Proof.
  cbv zeta. unfold Datetime.replace_minute_second_microsecond_0.
  pose proof (Z.mod_pos_bound now Datetime.HOUR eq_refl) as Hm.
  split; [| split; [lia |]].
  - rewrite Zminus_mod, Z.mod_mod, Z.sub_diag by (unfold Datetime.HOUR; lia). reflexivity.
  - intros [H0 H1]. unfold Datetime.valid, Datetime.MIN in *.
    pose proof (Z.mod_le now Datetime.HOUR H0 eq_refl) as Hle. lia.
Qed.

End DatetimeFacts.

Section EngineFacts.
Context `{Mersenne}.
Import Engine.

Lemma range_length n : length (range n) = Z.to_nat n.
Proof. unfold range. rewrite length_map, length_seq. reflexivity. Qed.

Lemma random_spec (self : RandomForecastModel) :
  random self = (fst (mt_random (_random self)), {| _random := snd (mt_random (_random self)) |}).
Proof. unfold random. destruct (mt_random (_random self)). reflexivity. Qed.

(** ** The loop of [predict], iteration by iteration *)

(** An iteration that returns has computed its timestamp and its
    prediction. *)
Lemma predict_point_ok self site cap start hour p self' :
  predict_point self site cap start hour = (Ok p, self') ->
  exists v,
    Datetime.valid (start + hour * Datetime.HOUR)
    /\ generate_prediction self site cap (start + hour * Datetime.HOUR) hour = (Ok v, self')
    /\ p = point_of (start + hour * Datetime.HOUR) v.
Proof.
  unfold predict_point.
  destruct (Datetime.add_hours start hour) as [dt | e] eqn:Ea; [| discriminate].
  destruct (add_hours_inv _ _ _ Ea) as [-> Hv].
  destruct (generate_prediction self site cap (start + hour * Datetime.HOUR) hour)
    as [[v | e] s1]; cbn [and_then]; [| discriminate].
  intros [= <- <-]. exists v. split; [exact Hv | split; reflexivity].
Qed.

Lemma max_0_quantize_raise g e :
  max_0_quantize g = Raise e -> e = InvalidOperation Decimal.InvalidOperation_message.
Proof.
  unfold max_0_quantize, Decimal.quantize.
  destruct (Decimal.quantize_in Decimal.prec g) as [q | e0] eqn:Eq; cbn [and_then];
    [discriminate |].
  intros [= <-]. eapply DecimalFacts.quantize_in_raise. exact Eq.
Qed.

Lemma max_0_quantize_inv g v :
  max_0_quantize g = Ok v -> v = Decimal.max Decimal.d0_0 (Decimal._rescale g).
Proof.
  unfold max_0_quantize, Decimal.quantize.
  destruct (Decimal.quantize_in Decimal.prec g) as [q | e0] eqn:Eq; cbn [and_then];
    [| discriminate].
  intros [= <-]. rewrite (DecimalFacts.quantize_in_inv _ _ _ Eq). reflexivity.
Qed.

Lemma max_0_quantize_ok g k :
  Decimal.le_pow10 g k -> -3 <= k <= 24 ->
  max_0_quantize g = Ok (Decimal.max Decimal.d0_0 (Decimal._rescale g)).
Proof.
  intros Hg Hk. unfold max_0_quantize, Decimal.quantize.
  rewrite (DecimalFacts.quantize_in_ok Decimal.prec g k Hg) by (unfold Decimal.prec; lia).
  reflexivity.
Qed.

(** The generators raise nothing but InvalidOperation. *)
Lemma generate_prediction_raise self site cap dt hour e :
  fst (generate_prediction self site cap dt hour) = Raise e ->
  e = InvalidOperation Decimal.InvalidOperation_message.
Proof.
  unfold generate_prediction, _generate_solar_prediction, _generate_wind_prediction,
    _generate_generic_prediction.
  rewrite random_spec.
  destruct (String.eqb (site_type site) "solar").
  - destruct ((Datetime.hour dt <? 6) || (18 <? Datetime.hour dt)); [discriminate |].
    cbn [fst]. apply max_0_quantize_raise.
  - destruct (String.eqb (site_type site) "wind"); cbn [fst]; apply max_0_quantize_raise.
Qed.

Lemma predict_point_raise self site cap start hour e self' :
  predict_point self site cap start hour = (Raise e, self') -> is_input_error e = false.
Proof.
  unfold predict_point.
  destruct (Datetime.add_hours start hour) as [dt | e0] eqn:Ea.
  - pose proof (generate_prediction_raise self site cap dt hour) as Hg.
    destruct (generate_prediction self site cap dt hour) as [[v | e1] s1]; cbn [and_then];
      [discriminate |].
    intros [= <- <-]. rewrite (Hg e1 eq_refl). reflexivity.
  - intros [= <- <-]. destruct (add_hours_raise _ _ _ Ea) as [m ->]. reflexivity.
Qed.

Lemma predict_loop_cons self site cap start hour rest pts self' :
  predict_loop self site cap start (hour :: rest) = (Ok pts, self') ->
  exists p self1 ps,
    predict_point self site cap start hour = (Ok p, self1)
    /\ predict_loop self1 site cap start rest = (Ok ps, self')
    /\ pts = p :: ps.
Proof.
  cbn [predict_loop].
  destruct (predict_point self site cap start hour) as [[p | e] self1]; [| discriminate].
  destruct (predict_loop self1 site cap start rest) as [[ps | e] self2] eqn:El;
    cbn [and_then]; [| discriminate].
  intros [= <- <-]. exists p, self1, ps. split; [reflexivity | split; [exact El | reflexivity]].
Qed.

Lemma predict_loop_raise site cap start hours : forall self e self',
  predict_loop self site cap start hours = (Raise e, self') -> is_input_error e = false.
Proof.
  induction hours as [| hour rest IH]; intros self e self'; cbn [predict_loop];
    [discriminate |].
  destruct (predict_point self site cap start hour) as [[p | e0] self1] eqn:Ep.
  - specialize (IH self1).
    destruct (predict_loop self1 site cap start rest) as [[ps | e1] self2]; cbn [and_then];
      [discriminate |].
    intros [= <- <-]. eapply IH. reflexivity.
  - intros [= <- <-]. eapply predict_point_raise. exact Ep.
Qed.

Lemma predict_loop_Forall (P : ForecastPoint -> Prop) site cap start :
  (forall self hour p self', predict_point self site cap start hour = (Ok p, self') -> P p) ->
  forall hours self pts self',
    predict_loop self site cap start hours = (Ok pts, self') -> Forall P pts.
Proof.
  intros HP. induction hours as [| hour rest IH]; intros self pts self' Hl.
  - injection Hl as <- _. constructor.
  - apply predict_loop_cons in Hl as (p & self1 & ps & Hp & Hr & ->).
    constructor; [eapply HP; exact Hp | eapply IH; exact Hr].
Qed.

(** A loop that returns has stamped one point per hour, each with a date
    of the calendar. *)
Lemma predict_loop_datetimes site cap start hours : forall self pts self',
  predict_loop self site cap start hours = (Ok pts, self') ->
  map datetime pts = map (fun hour => start + hour * Datetime.HOUR) hours
  /\ Forall (fun hour => Datetime.valid (start + hour * Datetime.HOUR)) hours.
Proof.
  induction hours as [| hour rest IH]; intros self pts self' Hl.
  - injection Hl as <- _. split; [reflexivity | constructor].
  - apply predict_loop_cons in Hl as (p & self1 & ps & Hp & Hr & ->).
    apply predict_point_ok in Hp as (v & Hv & _ & ->).
    destruct (IH _ _ _ Hr) as [Hd Hall].
    split; [cbn [map point_of datetime]; rewrite Hd; reflexivity |].
    constructor; assumption.
Qed.

Lemma predict_loop_length site cap start hours self pts self' :
  predict_loop self site cap start hours = (Ok pts, self') -> length pts = length hours.
Proof.
  intros Hl. apply predict_loop_datetimes in Hl as [Hd _].
  rewrite <- (length_map datetime), Hd, length_map. reflexivity.
Qed.

(** What [predict] has done when it returns. *)
Lemma predict_returns self site h now pts self' :
  predict self site h now = (Ok pts, self') ->
  exists s, site = Some s
    /\ 0 < h
    /\ length pts = Z.to_nat h
    /\ map datetime pts
       = map (fun hour => Datetime.replace_minute_second_microsecond_0 now
                          + hour * Datetime.HOUR) (range h)
    /\ Forall (fun hour => Datetime.valid (Datetime.replace_minute_second_microsecond_0 now
                                            + hour * Datetime.HOUR)) (range h).
Proof.
  unfold predict. destruct site as [s |]; [| discriminate].
  destruct (h <=? 0) eqn:E; [discriminate |]. apply Z.leb_gt in E.
  intros Hl. exists s. split; [reflexivity |]. split; [exact E |].
  pose proof (predict_loop_length _ _ _ _ _ _ _ Hl) as Hlen.
  rewrite range_length in Hlen.
  destruct (predict_loop_datetimes _ _ _ _ _ _ _ Hl) as [Hd Hv].
  repeat split; assumption.
Qed.

Lemma hourly_strictly_increasing start n :
  StronglySorted Z.lt (map (fun hour => start + hour * Datetime.HOUR) (range n)).
Proof.
  unfold range. rewrite map_map.
  generalize 0%nat as k. induction (Z.to_nat n) as [| m IH]; intros k; simpl.
  - constructor.
  - constructor; [apply IH |].
    apply List.Forall_forall. intros x Hx.
    apply in_map_iff in Hx as [j [<- Hj]]. apply in_seq in Hj.
    unfold Datetime.HOUR. lia.
Qed.

End EngineFacts.

Section EngineValues.
Context `{Mersenne}.
Import Engine.

Lemma generated_weaken p b b' : Decimal.generated p b -> b <= b' -> Decimal.generated p b'.
Proof. intros [-> | (He & H1 & H2)] Hb; [left; reflexivity | right; repeat split; lia]. Qed.

Lemma sin_pi_twelfths_bounded k :
  0 <= k <= 12 ->
  Decimal.le_pow10 (PyFloat.Decimal_of_str (sin_pi_twelfths k)) 0.
Proof.
  intros Hk.
  assert (Hcases : k = 0 \/ k = 1 \/ k = 2 \/ k = 3 \/ k = 4 \/ k = 5 \/ k = 6 \/ k = 7
                   \/ k = 8 \/ k = 9 \/ k = 10 \/ k = 11 \/ k = 12) by lia.
  repeat (destruct Hcases as [-> | Hcases]; [le_pow10_by_computation |]).
  subst k. le_pow10_by_computation.
Qed.

Lemma base_capacity_bounded (site : Site) :
  capacity_in_column site ->
  Decimal.le_pow10 match capacity_mw site with
                   | Some c => if Decimal.truthy c then c else Decimal.d10_0
                   | None => Decimal.d10_0
                   end 8.
Proof.
  unfold capacity_in_column. destruct (capacity_mw site) as [c |]; intros Hc.
  - destruct (Decimal.truthy c); [exact Hc | le_pow10_by_computation].
  - le_pow10_by_computation.
Qed.

(** With a capacity of the column and draws of [0, 1) every generator
    returns, and returns 0.0 or a positive number of thousandths. *)
Lemma quantized_generated g k :
  Decimal.le_pow10 g k -> -3 <= k <= 17 ->
  exists p, max_0_quantize g = Ok p /\ Decimal.generated p (10 ^ 20).
Proof.
  intros Hg Hk. eexists. split; [apply (max_0_quantize_ok g k Hg); lia |].
  eapply generated_weaken.
  - apply (DecimalFacts.max_rescale_generated g k Hg). lia.
  - apply Z.pow_le_mono_r; lia.
Qed.

Lemma solar_generated self cap dt hour :
  random_source_bounded -> Decimal.le_pow10 cap 8 ->
  exists p, fst (_generate_solar_prediction self cap dt hour) = Ok p
            /\ Decimal.generated p (10 ^ 20).
Proof.
  intros Hr Hc. unfold _generate_solar_prediction.
  destruct ((Datetime.hour dt <? 6) || (18 <? Datetime.hour dt)) eqn:Eh.
  { exists Decimal.d0_0. split; [reflexivity | left; reflexivity]. }
  apply orb_false_iff in Eh as [E6 E18].
  apply Z.ltb_ge in E6, E18.
  rewrite random_spec. cbn [fst snd].
  destruct (Hr (_random self)) as (Hs & _ & _).
  apply (quantized_generated _ 9); [| lia].
  change 9 with (8 + 0 + 0 + 1).
  apply DecimalFacts.mul_le_pow10; [| exact Hs].
  apply DecimalFacts.mul_le_pow10; [| le_pow10_by_computation].
  apply DecimalFacts.mul_le_pow10; [exact Hc | apply sin_pi_twelfths_bounded; lia].
Qed.

Lemma wind_generated self cap dt hour :
  random_source_bounded -> Decimal.le_pow10 cap 8 ->
  exists p, fst (_generate_wind_prediction self cap dt hour) = Ok p
            /\ Decimal.generated p (10 ^ 20).
Proof.
  intros Hr Hc. unfold _generate_wind_prediction.
  rewrite random_spec. cbn [fst snd].
  destruct (Hr (_random self)) as (_ & Hw & _).
  apply (quantized_generated _ 10); [| lia].
  change 10 with (8 + 0 + 1 + 1).
  apply DecimalFacts.mul_le_pow10.
  - apply DecimalFacts.mul_le_pow10; [| exact Hw].
    apply DecimalFacts.mul_le_pow10; [exact Hc | le_pow10_by_computation].
  - destruct (existsb _ _); le_pow10_by_computation.
Qed.

Lemma generic_generated self cap :
  random_source_bounded -> Decimal.le_pow10 cap 8 ->
  exists p, fst (_generate_generic_prediction self cap) = Ok p
            /\ Decimal.generated p (10 ^ 20).
Proof.
  intros Hr Hc. unfold _generate_generic_prediction.
  rewrite random_spec. cbn [fst snd].
  destruct (Hr (_random self)) as (_ & _ & Hg).
  apply (quantized_generated _ 9); [| lia].
  change 9 with (8 + 0 + 1).
  apply DecimalFacts.mul_le_pow10; [| exact Hg].
  apply DecimalFacts.mul_le_pow10; [exact Hc | le_pow10_by_computation].
Qed.

Lemma generate_prediction_generated self site cap dt hour :
  random_source_bounded -> Decimal.le_pow10 cap 8 ->
  exists p, fst (generate_prediction self site cap dt hour) = Ok p
            /\ Decimal.generated p (10 ^ 20).
Proof.
  intros Hr Hc. unfold generate_prediction.
  destruct (String.eqb (site_type site) "solar"); [apply solar_generated; assumption |].
  destruct (String.eqb (site_type site) "wind");
    [apply wind_generated | apply generic_generated]; assumption.
Qed.

Lemma band_invariant_of_generated (dt : Datetime.t) (p : Decimal.t) :
  Decimal.generated p (10 ^ 20) -> band_invariant (point_of dt p).
Proof.
  intros Hg. unfold band_invariant, point_of. cbn [predicted_generation_mwh
    confidence_interval_lower confidence_interval_upper].
  destruct (DecimalFacts.band_of_generated p Hg) as [(-> & Hl & Hu) | (n & Hn & -> & Hl & Hu)].
  - split; [unfold Decimal.to_Q, Qle; simpl; lia |].
    eexists _, _. split; [reflexivity |]. split; [reflexivity |].
    rewrite Hl, Hu.
    repeat split; unfold Decimal.to_Q, Qle, Qeq; simpl; lia.
  - split; [unfold Decimal.to_Q, Qle; simpl; lia |].
    eexists _, _. split; [reflexivity |]. split; [reflexivity |].
    rewrite Hl, Hu.
    repeat split; unfold Decimal.to_Q, Qle, Qeq; simpl; lia.
Qed.

(** The value of a returned point is a generated one. *)
Lemma predict_point_generated self site cap start hour p self' :
  random_source_bounded -> Decimal.le_pow10 cap 8 ->
  predict_point self site cap start hour = (Ok p, self') ->
  exists v, p = point_of (start + hour * Datetime.HOUR) v /\ Decimal.generated v (10 ^ 20).
Proof.
  intros Hr Hc Hp. apply predict_point_ok in Hp as (v & _ & Hg & ->).
  destruct (generate_prediction_generated self site cap (start + hour * Datetime.HOUR) hour
              Hr Hc) as (v' & Hv' & Hgen).
  rewrite Hg in Hv'. injection Hv' as <-.
  exists v. split; [reflexivity | exact Hgen].
Qed.

Lemma predict_point_band self site cap start hour p self' :
  random_source_bounded -> Decimal.le_pow10 cap 8 ->
  predict_point self site cap start hour = (Ok p, self') -> band_invariant p.
Proof.
  intros Hr Hc Hp.
  destruct (predict_point_generated _ _ _ _ _ _ _ Hr Hc Hp) as (v & -> & Hg).
  apply band_invariant_of_generated. exact Hg.
Qed.

(** With a capacity of the column and draws of [0, 1), the loop returns
    when all its timestamps are dates of the calendar. *)
Lemma predict_loop_returns site cap start hours :
  random_source_bounded -> Decimal.le_pow10 cap 8 -> Datetime.valid start ->
  Forall (fun hour => Datetime.valid (start + hour * Datetime.HOUR)) hours ->
  forall self, exists pts self', predict_loop self site cap start hours = (Ok pts, self').
Proof.
  intros Hr Hc Hs. induction 1 as [| hour rest Hv _ IH]; intros self.
  - eexists _, _. reflexivity.
  - cbn [predict_loop]. unfold predict_point.
    rewrite (add_hours_ok start hour Hs Hv).
    destruct (generate_prediction_generated self site cap (start + hour * Datetime.HOUR) hour
                Hr Hc) as (v & Hv' & _).
    destruct (generate_prediction self site cap (start + hour * Datetime.HOUR) hour)
      as [r s1]. cbn [fst] in Hv'. subst r. cbn [and_then].
    destruct (IH s1) as (ps & s2 & ->). cbn [and_then]. eexists _, _. reflexivity.
Qed.

(** C5 (amended).  For a site and a positive horizon [h], whenever
    [predict] returns it returns exactly [h] points, the i-th stamped [i]
    hours after the current time truncated to the top of the hour, so that
    the stamps are strictly increasing and one hour apart.  It does return
    when the last of these stamps is still a date of the year 9999, the
    site's capacity is a value of its column and the draws lie in [0, 1);
    when the last stamp is past the year 9999 it raises, and what it raises
    is not an input error.  An absent site or a horizon [h <= 0] raises an
    input error ([ValueError]). *)
Theorem predict_contract (self : RandomForecastModel) (site : Site) (h : Z)
    (now : Datetime.t) :
  let start := Datetime.replace_minute_second_microsecond_0 now in
  (0 < h -> Datetime.valid now -> start + (h - 1) * Datetime.HOUR <= Datetime.MAX ->
   capacity_in_column site -> random_source_bounded ->
   exists pts, fst (predict self (Some site) h now) = Ok pts)
  /\ (forall pts,
        fst (predict self (Some site) h now) = Ok pts ->
        0 < h
        /\ Z.of_nat (length pts) = h
        /\ map datetime pts
           = map (fun i => start + Z.of_nat i * Datetime.HOUR) (seq 0 (Z.to_nat h))
        /\ StronglySorted Z.lt (map datetime pts)
        /\ start mod Datetime.HOUR = 0 /\ start <= now < start + Datetime.HOUR)
  /\ (0 < h -> Datetime.MAX < start + (h - 1) * Datetime.HOUR ->
      exists e, fst (predict self (Some site) h now) = Raise e /\ is_input_error e = false)
  /\ (h <= 0 ->
      exists e, fst (predict self (Some site) h now) = Raise e /\ is_input_error e = true)
  /\ (exists e, fst (predict self None h now) = Raise e /\ is_input_error e = true).
Proof.
  intros start.
  destruct (top_of_hour now) as (Hmod & Hnow & Hvalid). fold start in Hmod, Hnow, Hvalid.
  assert (Hret : forall pts,
            fst (predict self (Some site) h now) = Ok pts ->
            0 < h
            /\ length pts = Z.to_nat h
            /\ map datetime pts = map (fun hour => start + hour * Datetime.HOUR) (range h)
            /\ Forall (fun hour => Datetime.valid (start + hour * Datetime.HOUR)) (range h)).
  { intros pts Hp.
    destruct (predict self (Some site) h now) as [r self'] eqn:Ep. cbn [fst] in Hp. subst r.
    destruct (predict_returns _ _ _ _ _ _ Ep) as (s & _ & Hh & Hlen & Hd & Hv).
    repeat split; assumption. }
  split; [| split; [| split; [| split]]].
  - intros Hh Hn Hlast Hc Hr. unfold predict. fold start.
    destruct (h <=? 0) eqn:E; [apply Z.leb_le in E; lia |].
    assert (Hall : Forall (fun hour => Datetime.valid (start + hour * Datetime.HOUR))
                     (range h)).
    { apply List.Forall_forall. intros hour Hin. unfold range in Hin.
      apply in_map_iff in Hin as (i & <- & Hi). apply in_seq in Hi.
      destruct (Hvalid Hn) as [H0 H1].
      unfold Datetime.valid, Datetime.MIN, Datetime.HOUR in *. split; lia. }
    match goal with
    | |- context [predict_loop ?s ?si ?c start ?hs] =>
        destruct (predict_loop_returns si c start hs Hr (base_capacity_bounded site Hc)
                    (Hvalid Hn) Hall s) as (pts & self' & Hl)
    end.
    rewrite Hl. exists pts. reflexivity.
  - intros pts Hp. destruct (Hret pts Hp) as (Hh & Hlen & Hd & _).
    split; [exact Hh |]. split; [rewrite Hlen; lia |].
    split; [rewrite Hd; unfold range; rewrite map_map; reflexivity |].
    split; [rewrite Hd; apply hourly_strictly_increasing |].
    split; assumption.
  - intros Hh Hlate.
    destruct (predict self (Some site) h now) as [[pts | e] self'] eqn:Ep; cbn [fst].
    + exfalso. destruct (Hret pts eq_refl) as (_ & _ & _ & Hv).
      rewrite List.Forall_forall in Hv.
      assert (Hin : In (h - 1) (range h)).
      { unfold range. apply in_map_iff. exists (Z.to_nat (h - 1)).
        split; [lia | apply in_seq; lia]. }
      destruct (Hv _ Hin) as [_ Hmax]. lia.
    + exists e. split; [reflexivity |].
      unfold predict in Ep. destruct (h <=? 0) eqn:E; [apply Z.leb_le in E; lia |].
      eapply predict_loop_raise. exact Ep.
  - intros Hh. unfold predict.
    destruct (h <=? 0) eqn:E; [| apply Z.leb_gt in E; lia].
    eexists. split; reflexivity.
  - eexists. split; reflexivity.
Qed.

(** ** The draws a forecast consumes *)

Lemma next_draws_S n (st : mt_state) :
  next_draws (S n) st = fst (mt_random st) :: next_draws n (snd (mt_random st)).
Proof. reflexivity. Qed.

Lemma next_draws_prefix n : forall st1 st2 : mt_state,
  next_draws (S n) st1 = next_draws (S n) st2 -> next_draws n st1 = next_draws n st2.
Proof.
  induction n as [| n IH]; intros st1 st2 Hd; [reflexivity |].
  rewrite (next_draws_S (S n) st1), (next_draws_S (S n) st2) in Hd.
  pose proof (f_equal (hd 0%float) Hd) as H1. pose proof (f_equal (@tl _) Hd) as H2.
  cbn [hd tl] in H1, H2.
  rewrite (next_draws_S n st1), (next_draws_S n st2).
  f_equal; [exact H1 | apply IH; exact H2].
Qed.

(** A generator takes from the random source the value of its next draw,
    if any, and nothing else. *)
Lemma generate_prediction_agree site cap dt hour n (m1 m2 : RandomForecastModel) :
  next_draws (S n) (_random m1) = next_draws (S n) (_random m2) ->
  fst (generate_prediction m1 site cap dt hour) = fst (generate_prediction m2 site cap dt hour)
  /\ next_draws n (_random (snd (generate_prediction m1 site cap dt hour)))
     = next_draws n (_random (snd (generate_prediction m2 site cap dt hour))).
Proof.
  intros Hd. pose proof (next_draws_prefix n _ _ Hd) as Hpre.
  rewrite !next_draws_S in Hd. injection Hd as Hr Ht.
  unfold generate_prediction, _generate_solar_prediction, _generate_wind_prediction,
    _generate_generic_prediction.
  rewrite !random_spec.
  destruct (String.eqb (site_type site) "solar").
  - destruct ((Datetime.hour dt <? 6) || (18 <? Datetime.hour dt)); cbn [fst snd _random].
    + split; [reflexivity | exact Hpre].
    + rewrite Hr. split; [reflexivity | exact Ht].
  - destruct (String.eqb (site_type site) "wind"); cbn [fst snd _random];
      rewrite Hr; (split; [reflexivity | exact Ht]).
Qed.

Lemma predict_point_agree site cap start hour n (m1 m2 : RandomForecastModel) :
  next_draws (S n) (_random m1) = next_draws (S n) (_random m2) ->
  fst (predict_point m1 site cap start hour) = fst (predict_point m2 site cap start hour)
  /\ next_draws n (_random (snd (predict_point m1 site cap start hour)))
     = next_draws n (_random (snd (predict_point m2 site cap start hour))).
Proof.
  intros Hd. unfold predict_point.
  destruct (Datetime.add_hours start hour) as [dt | e].
  - destruct (generate_prediction_agree site cap dt hour n m1 m2 Hd) as [Hf Hs].
    destruct (generate_prediction m1 site cap dt hour) as [r1 s1].
    destruct (generate_prediction m2 site cap dt hour) as [r2 s2].
    cbn [fst snd] in *. subst r2. split; [reflexivity | exact Hs].
  - cbn [fst snd]. split; [reflexivity | apply next_draws_prefix; exact Hd].
Qed.

Lemma predict_loop_agree site cap start hours : forall m1 m2 : RandomForecastModel,
  next_draws (length hours) (_random m1) = next_draws (length hours) (_random m2) ->
  fst (predict_loop m1 site cap start hours) = fst (predict_loop m2 site cap start hours).
Proof.
  induction hours as [| hour rest IH]; intros m1 m2 Hd; [reflexivity |].
  cbn [predict_loop length] in *.
  destruct (predict_point_agree site cap start hour (length rest) m1 m2 Hd) as [Hf Hs].
  destruct (predict_point m1 site cap start hour) as [r1 s1].
  destruct (predict_point m2 site cap start hour) as [r2 s2].
  cbn [fst snd] in *. subst r2.
  destruct r1 as [p | e]; [| reflexivity].
  specialize (IH s1 s2 Hs).
  destruct (predict_loop s1 site cap start rest) as [ps1 t1].
  destruct (predict_loop s2 site cap start rest) as [ps2 t2].
  cbn [fst] in *. subst ps2. reflexivity.
Qed.

(** C6.  Two models constructed with the same seed, asked for the same
    site, horizon and clock reading, return the same points (and are left
    in the same state), whatever entropy the system had on offer.  More
    generally, a forecast takes nothing from the model but the values of
    its next [h] draws: two models whose random sources are about to yield
    the same [h] values -- as two sources seeded alike are -- return the same
    points, or raise the same exception, even when their states differ. *)
Theorem same_seed_same_forecast (s : Z) (urandom1 urandom2 : Z)
    (m1 m2 : RandomForecastModel) (site : option Site) (h : Z) (now : Datetime.t) :
  predict (__init__ (Some s) urandom1) site h now
  = predict (__init__ (Some s) urandom2) site h now
  /\ (next_draws (Z.to_nat h) (_random m1) = next_draws (Z.to_nat h) (_random m2) ->
      fst (predict m1 site h now) = fst (predict m2 site h now)).
Proof.
  split; [reflexivity |].
  intros Hd. unfold predict.
  destruct site as [site |]; [| reflexivity].
  destruct (h <=? 0); [reflexivity |].
  apply predict_loop_agree. rewrite range_length. exact Hd.
Qed.

(** C7.  Every point [predict] returns has a non-negative prediction and
    both confidence bounds, with [0 <= lower <= predicted <= upper] and
    [upper = predicted * 1.2] -- for any site type, seed and horizon, the
    site's capacity being a value of its column and the random source
    yielding draws of [0, 1). *)
Theorem prediction_band (self : RandomForecastModel) (site : Site) (h : Z)
    (now : Datetime.t) (pts : list ForecastPoint) (p : ForecastPoint) :
  capacity_in_column site ->
  random_source_bounded ->
  fst (predict self (Some site) h now) = Ok pts ->
  In p pts ->
  band_invariant p.
Proof.
  intros Hc Hr Hp Hin. unfold predict in Hp.
  destruct (h <=? 0); [discriminate |].
  match type of Hp with
  | context [predict_loop ?s ?si ?c ?st ?hs] =>
      destruct (predict_loop s si c st hs) as [r self'] eqn:El; cbn [fst] in Hp; subst r;
      pose proof (predict_loop_Forall band_invariant si c st
                    (fun self hour p self' =>
                       predict_point_band self si c st hour p self' Hr
                         (base_capacity_bounded site Hc)) hs s pts self' El) as HF
  end.
  rewrite List.Forall_forall in HF. exact (HF p Hin).
Qed.

End EngineValues.

Section SolarWindow.
Context `{Mersenne}.
Import Engine.

Lemma solar_zero_outside self cap dt hour :
  Datetime.hour dt < 6 \/ 18 < Datetime.hour dt ->
  fst (_generate_solar_prediction self cap dt hour) = Ok Decimal.d0_0.
Proof.
  intros Hh. unfold _generate_solar_prediction.
  replace ((Datetime.hour dt <? 6) || (18 <? Datetime.hour dt)) with true; [reflexivity |].
  symmetry. apply orb_true_iff.
  destruct Hh; [left; apply Z.ltb_lt | right; apply Z.ltb_lt]; assumption.
Qed.

(** At 06:00 the half-sine is [sin 0 = 0.0]: the product is zero whatever
    the capacity and the random factor. *)
Lemma solar_zero_at_6 self cap dt hour :
  Datetime.hour dt = 6 ->
  fst (_generate_solar_prediction self cap dt hour) = Ok Decimal.d0_0.
Proof.
  intros Hh. unfold _generate_solar_prediction. rewrite Hh.
  change ((6 <? 6) || (18 <? 6)) with false. cbn iota.
  change (6 - 6) with 0.
  rewrite random_spec. cbn [fst snd].
  unfold max_0_quantize, Decimal.quantize, Decimal.quantize_in.
  match goal with
  | |- context [Decimal.coefficient ?g =? 0] =>
      assert (Hz : Decimal.coefficient g = 0)
  end.
  { apply DecimalFacts.mul_zero_l, DecimalFacts.mul_zero_l, DecimalFacts.mul_zero_r.
    vm_compute. reflexivity. }
  rewrite Hz. reflexivity.
Qed.

(** At 18:00 the half-sine is the double nearest to [sin pi],
    1.2246467991473532e-16: for a capacity of the column the product is far
    below half a thousandth and quantizes to zero. *)
Lemma solar_zero_at_18 self cap dt hour :
  random_source_bounded -> Decimal.le_pow10 cap 8 ->
  Datetime.hour dt = 18 ->
  fst (_generate_solar_prediction self cap dt hour) = Ok Decimal.d0_0.
Proof.
  intros Hr Hc Hh. unfold _generate_solar_prediction. rewrite Hh.
  change ((18 <? 6) || (18 <? 18)) with false. cbn iota.
  change (18 - 6) with 12.
  rewrite random_spec. cbn [fst snd].
  destruct (Hr (_random self)) as (Hs & _ & _).
  match goal with
  | |- max_0_quantize ?g = _ => assert (Hg : Decimal.le_pow10 g (-6))
  end.
  { change (-6) with (8 + -15 + 0 + 1).
    apply DecimalFacts.mul_le_pow10; [| exact Hs].
    apply DecimalFacts.mul_le_pow10; [| le_pow10_by_computation].
    apply DecimalFacts.mul_le_pow10; [exact Hc | le_pow10_by_computation]. }
  rewrite (max_0_quantize_ok _ 0); [| eapply DecimalFacts.le_pow10_weaken; [exact Hg | lia] | lia].
  rewrite (DecimalFacts.rescale_tiny _ (-6)); [reflexivity | exact Hg | lia].
Qed.

Lemma predict_point_solar_dark self site cap start hour p self' :
  site_type site = "solar" ->
  predict_point self site cap start hour = (Ok p, self') ->
  solar_dark (random_source_bounded /\ Decimal.le_pow10 cap 8) p.
Proof.
  intros Hs Hp. apply predict_point_ok in Hp as (v & _ & Hg & ->).
  unfold generate_prediction in Hg. rewrite Hs in Hg.
  change (String.eqb "solar" "solar") with true in Hg. cbn iota in Hg.
  pose proof (solar_zero_outside self cap (start + hour * Datetime.HOUR) hour) as H1.
  pose proof (solar_zero_at_6 self cap (start + hour * Datetime.HOUR) hour) as H2.
  pose proof (solar_zero_at_18 self cap (start + hour * Datetime.HOUR) hour) as H3.
  rewrite Hg in H1, H2, H3. cbn [fst] in H1, H2, H3.
  unfold solar_dark, point_of. cbn [datetime predicted_generation_mwh].
  assert (Hv : Ok v = Ok Decimal.d0_0 -> v = Decimal.d0_0) by (intros [= ->]; reflexivity).
  intros [Hlt | [Hgt | [H6 | [[Hr Hc] H18]]]]; apply Hv; auto.
Qed.

(** C2 (amended).  For a solar site, whatever the seed: every point whose
    hour of day is below 6 or above 18 has a predicted generation of exactly
    [Decimal('0.0')]; so has the point at hour 6, where the half-sine is
    [sin 0]; and so has the point at hour 18 when the site's capacity is a
    value of its column and the draws lie in [0, 1). *)
Theorem solar_zero_outside_daylight (self : RandomForecastModel) (site : Site) (h : Z)
    (now : Datetime.t) (pts : list ForecastPoint) (p : ForecastPoint) :
  site_type site = "solar" ->
  fst (predict self (Some site) h now) = Ok pts ->
  In p pts ->
  ((Datetime.hour (datetime p) < 6 \/ 18 < Datetime.hour (datetime p)) ->
   predicted_generation_mwh p = Decimal.d0_0)
  /\ (Datetime.hour (datetime p) = 6 -> predicted_generation_mwh p = Decimal.d0_0)
  /\ (capacity_in_column site -> random_source_bounded ->
      Datetime.hour (datetime p) = 18 -> predicted_generation_mwh p = Decimal.d0_0).
Proof.
  intros Hs Hp Hin. unfold predict in Hp.
  destruct (h <=? 0); [discriminate |].
  match type of Hp with
  | context [predict_loop ?s ?si ?c ?st ?hs] =>
      destruct (predict_loop s si c st hs) as [r self'] eqn:El; cbn [fst] in Hp; subst r;
      pose proof (predict_loop_Forall _ si c st
                    (fun self hour p self' =>
                       predict_point_solar_dark self si c st hour p self' Hs)
                    hs s pts self' El) as HF
  end.
  rewrite List.Forall_forall in HF. specialize (HF p Hin). unfold solar_dark in HF.
  repeat split.
  - intros [Hlt | Hgt]; apply HF; auto.
  - intros H6. apply HF; auto.
  - intros Hc Hr H18. apply HF. right. right. right.
    split; [split; [exact Hr | apply base_capacity_bounded; exact Hc] | exact H18].
Qed.

End SolarWindow.

(** ** Worked examples with the sample random source *)

Lemma sample_source_bounded : @Engine.random_source_bounded SampleMersenne.
Proof.
  intros st. cbn [mt_random SampleMersenne fst].
  pose proof (Z.mod_pos_bound st 8 eq_refl) as Hb.
  assert (Hc : st mod 8 = 0 \/ st mod 8 = 1 \/ st mod 8 = 2 \/ st mod 8 = 3
               \/ st mod 8 = 4 \/ st mod 8 = 5 \/ st mod 8 = 6 \/ st mod 8 = 7) by lia.
  repeat (destruct Hc as [-> | Hc];
          [unfold Engine.factors_bounded; repeat split; vm_compute; discriminate |]).
  rewrite Hc. unfold Engine.factors_bounded; repeat split; vm_compute; discriminate.
Qed.

Lemma sample_solar_capacity : Engine.capacity_in_column sample_solar_site.
Proof. le_pow10_by_computation. Qed.

Lemma sample_now_valid : Datetime.valid sample_now.
Proof. split; vm_compute; discriminate. Qed.

(** C2 as stated fails: on the solar site, at 06:00 and at 18:00 the
    formula yields a prediction of zero, not a nonzero one. *)
Lemma solar_boundary_hours_predict_zero :
  exists pts p6 p18,
    fst (Engine.predict (Engine.__init__ (Some 42) 0) (Some sample_solar_site) 13 sample_now)
    = Ok pts
    /\ In p6 pts /\ Datetime.hour (Engine.datetime p6) = 6
    /\ (Decimal.to_Q (Engine.predicted_generation_mwh p6) == 0)%Q
    /\ In p18 pts /\ Datetime.hour (Engine.datetime p18) = 18
    /\ (Decimal.to_Q (Engine.predicted_generation_mwh p18) == 0)%Q.
Proof.
  eexists _, _, _. split; [vm_compute; reflexivity |].
  split; [apply in_eq |]. split; [vm_compute; reflexivity |].
  split; [vm_compute; reflexivity |].
  split; [do 12 apply in_cons; apply in_eq |]. split; [vm_compute; reflexivity |].
  vm_compute; reflexivity.
Qed.

(** C5 as stated fails.  On the last evening of the year 9999 a forecast
    of three hours raises [OverflowError] at the hour past midnight, which
    is not an input error; and a site whose capacity is 1E+30 makes
    [quantize] raise InvalidOperation at the first hour. *)
Lemma predict_raises_for_positive_horizon :
  0 < 3
  /\ Datetime.valid sample_last_evening
  /\ fst (Engine.predict (Engine.__init__ (Some 42) 0) (Some sample_solar_site) 3
            sample_last_evening)
     = Raise (OverflowError "date value out of range")
  /\ is_input_error (OverflowError "date value out of range") = false
  /\ 0 < 1
  /\ fst (Engine.predict (Engine.__init__ (Some 42) 0) (Some sample_giant_site) 1 sample_now)
     = Raise (InvalidOperation "[<class 'decimal.InvalidOperation'>]").
Proof.
  split; [lia |]. split; [split; vm_compute; discriminate |].
  split; [vm_compute; reflexivity |]. split; [reflexivity |].
  split; [lia |]. vm_compute; reflexivity.
Qed.

Lemma sample_forecast_ok (h : Z) :
  0 < h -> h <= 1000 ->
  fst (Engine.predict (Engine.__init__ (Some 42) 0) (Some sample_solar_site) h sample_now)
  = Ok (sample_forecast h).
Proof.
  intros Hh Hk. unfold sample_forecast.
  destruct (predict_contract (Engine.__init__ (Some 42) 0) sample_solar_site h sample_now)
    as (Hret & _).
  destruct Hret as (pts & Hp);
    [exact Hh | exact sample_now_valid | | exact sample_solar_capacity
    | exact sample_source_bounded |].
  - assert (Hs : Datetime.replace_minute_second_microsecond_0 sample_now = 63866296800000000)
      by (vm_compute; reflexivity).
    rewrite Hs. unfold Datetime.MAX, Datetime.DAY, Datetime.HOUR. lia.
  - rewrite Hp. reflexivity.
Qed.

Lemma sample_point_In (h : Z) (i : nat) :
  Nat.ltb i (length (sample_forecast h)) = true -> In (sample_point h i) (sample_forecast h).
Proof. intros Hi. apply nth_In. apply Nat.ltb_lt. exact Hi. Qed.

Lemma solar_zero_outside_daylight_witness :
  Engine.site_type sample_solar_site = "solar"
  /\ fst (Engine.predict (Engine.__init__ (Some 42) 0) (Some sample_solar_site) 14 sample_now)
     = Ok (sample_forecast 14)
  /\ In (sample_point 14 13) (sample_forecast 14)
  /\ 18 < Datetime.hour (Engine.datetime (sample_point 14 13))
  /\ Engine.predicted_generation_mwh (sample_point 14 13) = Decimal.d0_0.
Proof.
  assert (Hs : Engine.site_type sample_solar_site = "solar") by reflexivity.
  assert (Hp := sample_forecast_ok 14 eq_refl ltac:(lia)).
  assert (Hin := sample_point_In 14 13 ltac:(vm_compute; reflexivity)).
  assert (Hh : 18 < Datetime.hour (Engine.datetime (sample_point 14 13)))
    by (vm_compute; reflexivity).
  exact (conj Hs (conj Hp (conj Hin (conj Hh
           (proj1 (solar_zero_outside_daylight _ _ _ _ _ _ Hs Hp Hin) (or_intror Hh)))))).
Defined.

Lemma prediction_band_witness :
  Engine.capacity_in_column sample_solar_site
  /\ Engine.random_source_bounded
  /\ fst (Engine.predict (Engine.__init__ (Some 42) 0) (Some sample_solar_site) 3 sample_now)
     = Ok (sample_forecast 3)
  /\ In (sample_point 3 1) (sample_forecast 3)
  /\ Engine.band_invariant (sample_point 3 1).
Proof.
  assert (Hp := sample_forecast_ok 3 eq_refl ltac:(lia)).
  assert (Hin := sample_point_In 3 1 ltac:(vm_compute; reflexivity)).
  exact (conj sample_solar_capacity (conj sample_source_bounded (conj Hp (conj Hin
           (prediction_band _ _ _ _ _ _ sample_solar_capacity sample_source_bounded Hp Hin))))).
Defined.

Lemma predict_contract_witness :
  let start := Datetime.replace_minute_second_microsecond_0 sample_now in
  (0 < 3 /\ Datetime.valid sample_now /\ start + (3 - 1) * Datetime.HOUR <= Datetime.MAX
   /\ Engine.capacity_in_column sample_solar_site /\ Engine.random_source_bounded)
  /\ (exists pts,
        fst (Engine.predict (Engine.__init__ (Some 42) 0) (Some sample_solar_site) 3 sample_now)
        = Ok pts
        /\ Z.of_nat (length pts) = 3
        /\ map Engine.datetime pts = [start; start + Datetime.HOUR; start + 2 * Datetime.HOUR])
  /\ -1 <= 0
  /\ (exists e,
        fst (Engine.predict (Engine.__init__ (Some 42) 0) (Some sample_solar_site) (-1) sample_now)
        = Raise e /\ is_input_error e = true).
Proof.
  cbv zeta.
  pose proof (predict_contract (Engine.__init__ (Some 42) 0) sample_solar_site 3 sample_now)
    as (Hret & Hshape & _).
  pose proof (predict_contract (Engine.__init__ (Some 42) 0) sample_solar_site (-1) sample_now)
    as (_ & _ & _ & Hneg & _).
  cbv zeta in Hret, Hshape.
  assert (L3 : 0 < 3) by lia. assert (Lneg : -1 <= 0) by lia.
  assert (Llast : Datetime.replace_minute_second_microsecond_0 sample_now
                  + (3 - 1) * Datetime.HOUR <= Datetime.MAX) by (vm_compute; discriminate).
  split.
  { exact (conj L3 (conj sample_now_valid (conj Llast
             (conj sample_solar_capacity sample_source_bounded)))). }
  split.
  - destruct (Hret L3 sample_now_valid Llast sample_solar_capacity sample_source_bounded)
      as (pts & Hp).
    destruct (Hshape pts Hp) as (_ & Hlen & Hd & _).
    exists pts. split; [exact Hp |]. split; [exact Hlen |].
    rewrite Hd. vm_compute. reflexivity.
  - split; [exact Lneg | exact (Hneg Lneg)].
Defined.

Lemma same_seed_same_forecast_witness :
  {| Engine._random := 0 |} <> {| Engine._random := 8 |}
  /\ next_draws (Z.to_nat 3) (Engine._random {| Engine._random := 0 |})
     = next_draws (Z.to_nat 3) (Engine._random {| Engine._random := 8 |})
  /\ fst (Engine.predict {| Engine._random := 0 |} (Some sample_wind_site) 3 sample_now)
     = fst (Engine.predict {| Engine._random := 8 |} (Some sample_wind_site) 3 sample_now)
  /\ (exists pts, fst (Engine.predict {| Engine._random := 0 |} (Some sample_wind_site) 3
                         sample_now) = Ok pts /\ length pts = 3%nat)
  /\ fst (Engine.predict (Engine.__init__ None 0) (Some sample_wind_site) 3 sample_now)
     <> fst (Engine.predict (Engine.__init__ None 1) (Some sample_wind_site) 3 sample_now).
Proof.
  assert (Hd : next_draws (Z.to_nat 3) (Engine._random {| Engine._random := 0 |})
               = next_draws (Z.to_nat 3) (Engine._random {| Engine._random := 8 |}))
    by (vm_compute; reflexivity).
  split; [discriminate |]. split; [exact Hd |].
  split.
  { exact (proj2 (same_seed_same_forecast 0 0 0 {| Engine._random := 0 |}
                    {| Engine._random := 8 |} (Some sample_wind_site) 3 sample_now) Hd). }
  split; [eexists; split; [vm_compute; reflexivity | reflexivity] |].
  vm_compute. discriminate.
Defined.

(* ===================================================================== *)
(** * Properties of the service                                          *)
(* ===================================================================== *)

Section ServiceFacts.
Context `{Mersenne}.
Import Service.

Lemma PositiveIntegerField_write_ok column (value : Z) :
  horizon_in_column value -> PositiveIntegerField_write column value = Ok value.
Proof.
  unfold horizon_in_column, PositiveIntegerField_write. intros Hv.
  destruct ((value <? _) || (_ <=? value)) eqn:E1.
  { exfalso. apply orb_true_iff in E1 as [E | E];
      [apply Z.ltb_lt in E | apply Z.leb_le in E]; lia. }
  replace (value <? 0) with false by (symmetry; apply Z.ltb_ge; lia). reflexivity.
Qed.

Lemma PositiveIntegerField_write_inv column (value written : Z) :
  PositiveIntegerField_write column value = Ok written ->
  written = value /\ horizon_in_column value.
Proof.
  unfold horizon_in_column, PositiveIntegerField_write.
  destruct ((value <? _) || (_ <=? value)) eqn:E1; [discriminate |].
  destruct (value <? 0) eqn:E2; [discriminate |]. intros [= <-].
  apply orb_false_iff in E1 as [_ E]. apply Z.leb_gt in E. apply Z.ltb_ge in E2.
  split; [reflexivity | lia].
Qed.

(** A horizon outside the column is refused: out of the 64 bits by the
    driver, below zero by the check. *)
Lemma PositiveIntegerField_write_refused column (value : Z) :
  ~ horizon_in_column value ->
  PositiveIntegerField_write column value
  = Raise (if (value <? - 2 ^ 63) || (2 ^ 63 <=? value)
           then OverflowError "Python int too large to convert to SQLite INTEGER"
           else IntegrityError ("CHECK constraint failed: " +:+ column)).
Proof.
  unfold horizon_in_column, PositiveIntegerField_write. intros Hv.
  destruct ((value <? _) || (_ <=? value)) eqn:E1; [reflexivity |].
  apply orb_false_iff in E1 as [_ E]. apply Z.leb_gt in E.
  replace (value <? 0) with true by (symmetry; apply Z.ltb_lt; lia). reflexivity.
Qed.

Lemma timezone_now_spec (w : World) :
  timezone_now w = (Ok (clock w (ticks w)),
                    {| db := db w; model_registry := model_registry w;
                       clock := clock w; ticks := S (ticks w) |}).
Proof. reflexivity. Qed.

Lemma save_absent job fields w :
  has_row (job_id job) w = false ->
  save job fields w
  = (Raise (DatabaseError "Save with update_fields did not affect any rows."), w).
Proof. unfold has_row, save. intros ->. reflexivity. Qed.

Lemma save_present job fields w :
  has_row (job_id job) w = true ->
  save job fields w
  = (Ok tt,
     set_db {| sites := sites (db w); portfolios := portfolios (db w);
               jobs := map (fun row => if job_id row =? job_id job
                                       then update_fields fields job row else row)
                           (jobs (db w));
               results := results (db w) |} w).
Proof. unfold has_row, save. intros ->. reflexivity. Qed.

Lemma existsb_map_id (f : ForecastJob -> ForecastJob) (jid : Z) (l : list ForecastJob) :
  (forall row, job_id (f row) = job_id row) ->
  existsb (fun row => job_id row =? jid) (map f l)
  = existsb (fun row => job_id row =? jid) l.
Proof.
  intros Hf. induction l as [| x l IH]; simpl; [reflexivity |].
  rewrite Hf, IH. reflexivity.
Qed.

Lemma update_fields_id fields job row : job_id (update_fields fields job row) = job_id row.
Proof. reflexivity. Qed.

(** What [ForecastResult.objects.create] does: it raises and writes
    nothing, or appends the row of the prediction, its decimals as their
    columns hold them. *)
Lemma create_result_spec job site prediction w r w' :
  ForecastResult_objects_create job site prediction w = (r, w') ->
  model_registry w' = model_registry w
  /\ ((exists e, r = Raise e /\ db w' = db w)
      \/ (exists row,
            r = Ok tt
            /\ db w' = {| sites := sites (db w); portfolios := portfolios (db w);
                          jobs := jobs (db w); results := results (db w) ++ [row] |}
            /\ result_job_id row = job_id job
            /\ result_site_id row = Engine.site_id site
            /\ forecast_datetime row = Engine.datetime prediction
            /\ DecimalField_10_3_write (Engine.predicted_generation_mwh prediction)
               = Ok (predicted_generation_mwh row)
            /\ nullable DecimalField_10_3_write (Engine.confidence_interval_lower prediction)
               = Ok (confidence_interval_lower row)
            /\ nullable DecimalField_10_3_write (Engine.confidence_interval_upper prediction)
               = Ok (confidence_interval_upper row))).
Proof.
  unfold ForecastResult_objects_create, bind, lift.
  destruct (DecimalField_10_3_write (Engine.predicted_generation_mwh prediction))
    as [predicted | e]; [| intros [= <- <-]; split; [reflexivity | left; eauto]].
  destruct (nullable DecimalField_10_3_write (Engine.confidence_interval_lower prediction))
    as [lower | e]; [| intros [= <- <-]; split; [reflexivity | left; eauto]].
  destruct (nullable DecimalField_10_3_write (Engine.confidence_interval_upper prediction))
    as [upper | e]; [| intros [= <- <-]; split; [reflexivity | left; eauto]].
  rewrite timezone_now_spec. cbn [db results].
  destruct (existsb _ _); intros [= <- <-]; (split; [reflexivity |]).
  - left. eexists. split; reflexivity.
  - right. eexists. split; [reflexivity |]. split; [reflexivity |].
    cbn [result_job_id result_site_id forecast_datetime predicted_generation_mwh
         confidence_interval_lower confidence_interval_upper].
    repeat split.
Qed.

(** The per-site loop writes results and model state only. *)
Lemma create_result_jobs job site prediction w r w' :
  ForecastResult_objects_create job site prediction w = (r, w') ->
  jobs (db w') = jobs (db w).
Proof.
  intros Hc.
  destruct (create_result_spec _ _ _ _ _ _ Hc) as (_ & [(e & _ & Hd) | (row & _ & Hd & _)]);
    rewrite Hd; reflexivity.
Qed.

Lemma for_each_invariant {A} (R : World -> World -> Prop) (body : A -> M unit) :
  (forall w, R w w) ->
  (forall w1 w2 w3, R w1 w2 -> R w2 w3 -> R w1 w3) ->
  (forall x w r w', body x w = (r, w') -> R w w') ->
  forall xs w r w', for_each xs body w = (r, w') -> R w w'.
Proof.
  intros Hrefl Htrans Hbody. induction xs as [| x xs IH]; intros w r w'; simpl.
  - unfold ret. intros [= <- <-]. apply Hrefl.
  - unfold bind. destruct (body x w) as [[[] | e] w1] eqn:Eb.
    + intros Hrest. eapply Htrans; [eapply Hbody; exact Eb | eapply IH; exact Hrest].
    + intros [= <- <-]. eapply Hbody; exact Eb.
Qed.

Lemma registry_predict_db site h w r w' :
  registry_predict site h w = (r, w') -> db w' = db w.
Proof.
  unfold registry_predict, bind. rewrite timezone_now_spec.
  destruct (Engine.model_predict _ _ _ _) as [r0 m']. intros [= <- <-]. reflexivity.
Qed.

Lemma forecast_site_jobs job h site w r w' :
  forecast_site job h site w = (r, w') -> same_jobs w w'.
Proof.
  unfold forecast_site, bind.
  destruct (registry_predict site h w) as [[predictions | e] w1] eqn:Ep.
  - intros Hloop. apply registry_predict_db in Ep.
    assert (Hj : same_jobs w1 w').
    { eapply (for_each_invariant same_jobs); [| | | exact Hloop].
      - reflexivity.
      - unfold same_jobs. intros. congruence.
      - intros x w2 r2 w2' Hc. eapply create_result_jobs. exact Hc. }
    unfold same_jobs in *. rewrite Hj, Ep. reflexivity.
  - intros [= <- <-]. apply registry_predict_db in Ep. unfold same_jobs. rewrite Ep.
    reflexivity.
Qed.

Lemma forecast_sites_jobs job h sites w r w' :
  forecast_sites job h sites w = (r, w') -> jobs (db w') = jobs (db w).
Proof.
  unfold forecast_sites. intros Hl.
  eapply (for_each_invariant same_jobs); [| | | exact Hl].
  - reflexivity.
  - unfold same_jobs. intros. congruence.
  - intros x w2 r2 w2' Hc. eapply forecast_site_jobs. exact Hc.
Qed.

Lemma has_row_started job jid w d :
  jobs d = map (started job) (jobs (db w)) ->
  existsb (fun row => job_id row =? jid) (jobs d) = has_row jid w.
Proof.
  intros ->. unfold has_row. apply existsb_map_id.
  intros row. unfold started. destruct (job_id row =? job_id job); reflexivity.
Qed.

(** What the [try] block of [_process_forecast_job] leaves behind. *)
Lemma process_try_outcome job h w :
  has_row (job_id job) w = true ->
  match process_try job h w with
  | (Ok job', w') =>
      exists t, job' = with_state job completed (Some t) (error_message job)
                /\ jobs (db w')
                   = map (fun row => if job_id row =? job_id job
                                     then update_fields [f_status; f_completed_at] job' row
                                     else row)
                         (map (started job) (jobs (db w)))
  | (Raise e, w') =>
      jobs (db w') = map (started job) (jobs (db w)) /\ results (db w') = results (db w)
  end.
Proof.
  intros Hrow. unfold process_try, bind.
  rewrite (save_present (mark_running job) _ w) by exact Hrow.
  change (job_id (mark_running job)) with (job_id job).
  change (job_portfolio_id (mark_running job)) with (job_portfolio_id job).
  cbn [db set_db jobs portfolios sites results].
  destruct (Portfolio_objects_get _ _) as [portfolio | e]; [| split; reflexivity].
  destruct (portfolio_sites_all _ portfolio) as [| s0 sites0]; [split; reflexivity |].
  unfold atomic, bind.
  match goal with
  | |- context [forecast_sites ?j ?hh ?ss ?ww] =>
      destruct (forecast_sites j hh ss ww) as [[[] | e] w2] eqn:El;
      pose proof (forecast_sites_jobs _ _ _ _ _ _ El) as Hj
  end.
  - rewrite timezone_now_spec.
    cbn [db set_db jobs] in Hj. fold (started job) in Hj.
    match goal with
    | |- context [save ?j ?f ?ww] =>
        assert (Hr2 : has_row (job_id j) ww = true)
    end.
    { unfold has_row. change (job_id (with_state _ _ _ _)) with (job_id job).
      cbn [db]. rewrite (has_row_started job (job_id job) w (db w2) Hj). exact Hrow. }
    rewrite (save_present _ _ _ Hr2). unfold ret.
    eexists. split; [reflexivity |].
    cbn [db set_db jobs]. rewrite Hj. reflexivity.
  - split; reflexivity.
Qed.

Lemma finish_completed job t msg (l : list ForecastJob) :
  map (fun row => if job_id row =? job_id job
                  then update_fields [f_status; f_completed_at]
                         (with_state job completed (Some t) msg) row
                  else row)
      (map (started job) l)
  = map (finish (job_id job) completed t None) l.
Proof.
  rewrite map_map. apply map_ext. intros row. unfold started, finish.
  destruct (job_id row =? job_id job) eqn:E; cbn [update_fields job_id]; rewrite E;
    reflexivity.
Qed.

Lemma finish_failed job t msg (l : list ForecastJob) :
  map (fun row => if job_id row =? job_id job
                  then update_fields [f_status; f_completed_at; f_error_message]
                         (with_state job failed (Some t) msg) row
                  else row)
      (map (started job) l)
  = map (finish (job_id job) failed t (Some msg)) l.
Proof.
  rewrite map_map. apply map_ext. intros row. unfold started, finish.
  destruct (job_id row =? job_id job) eqn:E; cbn [update_fields job_id]; rewrite E;
    reflexivity.
Qed.

Lemma process_forecast_job_outcome self job h w :
  let '(r, job', w') := _process_forecast_job self job h w in
  process_outcome job h w r job' w'.
Proof.
  unfold _process_forecast_job.
  destruct (has_row (job_id job) w) eqn:Hrow.
  - pose proof (process_try_outcome job h w Hrow) as Ht.
    destruct (process_try job h w) as [[job1 | e] w1] eqn:Et.
    + destruct Ht as (t & -> & Hj). rewrite finish_completed in Hj.
      apply outcome_completed; assumption.
    + destruct Ht as [Hj Hres]. unfold bind. rewrite timezone_now_spec.
      match goal with
      | |- context [save ?j ?f ?ww] =>
          assert (Hr2 : has_row (job_id j) ww = true)
      end.
      { unfold has_row. change (job_id (with_state _ _ _ _)) with (job_id job).
        cbn [db]. rewrite (has_row_started job (job_id job) w (db w1) Hj). exact Hrow. }
      rewrite (save_present _ _ _ Hr2).
      eapply (outcome_failed job h w e w1); [exact Hrow | exact Et | | exact Hres].
      cbn [db set_db jobs job_id]. rewrite Hj.
      apply (finish_failed job (clock w1 (ticks w1)) (str_exn e)).
  - unfold process_try, bind at 1.
    rewrite (save_absent (mark_running job) _ w) by exact Hrow.
    unfold bind. rewrite timezone_now_spec.
    rewrite save_absent by exact Hrow.
    eapply outcome_no_row; [exact Hrow | reflexivity].
Qed.

Lemma for_each_app {A} (xs ys : list A) (body : A -> M unit) w :
  for_each (xs ++ ys) body w
  = match for_each xs body w with
    | (Ok _, w1) => for_each ys body w1
    | (Raise e, w1) => (Raise e, w1)
    end.
Proof.
  revert w. induction xs as [| x xs IH]; intros w; simpl.
  - reflexivity.
  - unfold bind. destruct (body x w) as [[[] | e] w1]; [apply IH | reflexivity].
Qed.

(** The loop stops at the first element whose body raises. *)
Lemma for_each_raise_at {A} (pre : list A) x post (body : A -> M unit) w w_mid e w_fail :
  for_each pre body w = (Ok tt, w_mid) ->
  body x w_mid = (Raise e, w_fail) ->
  for_each (pre ++ x :: post) body w = (Raise e, w_fail).
Proof.
  intros Hp Hx. rewrite for_each_app, Hp. simpl. unfold bind. rewrite Hx. reflexivity.
Qed.

Lemma save_ok_inv job fields w w1 :
  save job fields w = (Ok tt, w1) ->
  has_row (job_id job) w = true
  /\ w1 = set_db {| sites := sites (db w); portfolios := portfolios (db w);
                    jobs := map (fun row => if job_id row =? job_id job
                                            then update_fields fields job row else row)
                                (jobs (db w));
                    results := results (db w) |} w.
Proof.
  unfold save, has_row. destruct (existsb _ _); [| discriminate].
  intros [= <-]. split; reflexivity.
Qed.

Lemma find_finish jid st t msg (l : list ForecastJob) :
  find (fun j => job_id j =? jid) (map (finish jid st t msg) l)
  = option_map (finish jid st t msg) (find (fun j => job_id j =? jid) l).
Proof.
  induction l as [| x l IH]; simpl; [reflexivity |].
  assert (Hid : job_id (finish jid st t msg x) = job_id x).
  { unfold finish. destruct (job_id x =? jid); reflexivity. }
  rewrite Hid. destruct (job_id x =? jid); [reflexivity | exact IH].
Qed.

Lemma has_row_find jid w :
  has_row jid w = true ->
  exists row, find (fun j => job_id j =? jid) (jobs (db w)) = Some row /\ job_id row = jid.
Proof.
  unfold has_row. induction (jobs (db w)) as [| x l IH]; simpl; [discriminate |].
  destruct (job_id x =? jid) eqn:E.
  - intros _. exists x. split; [reflexivity | lia].
  - simpl. exact IH.
Qed.

(** The [try] block raises what the failing site raised, with the
    database as it was on entry to the [atomic] block. *)
Lemma process_try_raise job h w w_run portfolio pre site post w_mid e w_fail :
  save (mark_running job) [f_status] w = (Ok tt, w_run) ->
  Portfolio_objects_get (db w_run) (job_portfolio_id job) = Ok portfolio ->
  portfolio_sites_all (db w_run) portfolio = pre ++ site :: post ->
  forecast_sites (mark_running job) h pre w_run = (Ok tt, w_mid) ->
  forecast_site (mark_running job) h site w_mid = (Raise e, w_fail) ->
  process_try job h w = (Raise e, set_db (db w_run) w_fail).
Proof.
  intros Hsave Hp Hs Hpre Hsite.
  unfold process_try, bind. rewrite Hsave.
  change (job_portfolio_id (mark_running job)) with (job_portfolio_id job).
  rewrite Hp, Hs.
  assert (Hloop : forecast_sites (mark_running job) h (pre ++ site :: post) w_run
                  = (Raise e, w_fail)).
  { unfold forecast_sites in *. eapply for_each_raise_at; eassumption. }
  destruct (pre ++ site :: post) as [| s0 rest] eqn:El.
  { destruct pre; discriminate. }
  unfold atomic, bind. rewrite Hloop. reflexivity.
Qed.

End ServiceFacts.

Section ServiceTheorems.
Context `{Mersenne}.
Import Service.

(** C3.  When the prediction or the persistence of results raises [e] for
    a site of the job's portfolio (the sites before it went through),
    [_process_forecast_job] raises a [ForecastServiceError] carrying the
    message of [e]; the table of results is what it was before the call,
    and the job, object and row, is [failed], with its completion time set
    and the message of [e] as its error message. *)
Theorem process_failure_rolls_back self job h w w_run portfolio pre site post w_mid e w_fail :
  save (mark_running job) [f_status] w = (Ok tt, w_run) ->
  Portfolio_objects_get (db w_run) (job_portfolio_id job) = Ok portfolio ->
  portfolio_sites_all (db w_run) portfolio = pre ++ site :: post ->
  forecast_sites (mark_running job) h pre w_run = (Ok tt, w_mid) ->
  forecast_site (mark_running job) h site w_mid = (Raise e, w_fail) ->
  exists t w' row,
    _process_forecast_job self job h w
    = (Raise (ForecastServiceError ("Forecast processing failed: " +:+ str_exn e)),
       with_state job failed (Some t) (str_exn e), w')
    /\ results (db w') = results (db w)
    /\ ForecastJob_objects_get (db w') (job_id job) = Ok row
    /\ status row = failed
    /\ completed_at row = Some t
    /\ error_message row = str_exn e.
Proof.
  intros Hsave Hp Hs Hpre Hsite.
  pose proof (process_try_raise job h w w_run portfolio pre site post w_mid e w_fail
                Hsave Hp Hs Hpre Hsite) as Htry.
  destruct (save_ok_inv _ _ _ _ Hsave) as [Hrow Hrun].
  change (job_id (mark_running job)) with (job_id job) in Hrow, Hrun.
  fold (started job) in Hrun.
  destruct (has_row_find _ _ Hrow) as (row0 & Hfind & Hid).
  unfold _process_forecast_job. rewrite Htry.
  unfold bind. rewrite timezone_now_spec.
  match goal with
  | |- context [save ?j ?f ?ww] => assert (Hr2 : has_row (job_id j) ww = true)
  end.
  { unfold has_row. change (job_id (with_state _ _ _ _)) with (job_id job).
    rewrite Hrun. cbn [db set_db jobs].
    rewrite existsb_map_id; [exact Hrow |].
    intros row. unfold started. destruct (_ =? _); reflexivity. }
  rewrite (save_present _ _ _ Hr2).
  exists (clock w_fail (ticks w_fail)). eexists.
  exists (finish (job_id job) failed (clock w_fail (ticks w_fail)) (Some (str_exn e)) row0).
  split; [reflexivity |].
  rewrite Hrun. cbn [db set_db results jobs clock ticks].
  split; [reflexivity |]. split.
  { unfold ForecastJob_objects_get. cbn [jobs].
    change (job_id (with_state job failed _ _)) with (job_id job).
    rewrite (finish_failed job (clock w_fail (ticks w_fail)) (str_exn e)).
    rewrite find_finish, Hfind. reflexivity. }
  unfold finish. rewrite Hid, Z.eqb_refl. cbn. repeat split; reflexivity.
Qed.

(** ** The invariant of [ForecastJob] *)

Lemma preserves_ret {A} (a : A) : preserves (ret a).
Proof. intros w r w' [= <- <-] Hi. exact Hi. Qed.

Lemma preserves_raise {A} e : preserves (@raise _ A e).
Proof. intros w r w' [= <- <-] Hi. exact Hi. Qed.

Lemma preserves_read {A} (f : World -> result A) : preserves (fun w => (f w, w)).
Proof. intros w r w' [= <- <-] Hi. exact Hi. Qed.

Lemma preserves_now : preserves timezone_now.
Proof. intros w r w' [= <- <-] Hi. exact Hi. Qed.

Lemma preserves_bind {A B} (m : M A) (k : A -> M B) :
  preserves m -> (forall a, preserves (k a)) -> preserves (bind m k).
Proof.
  intros Hm Hk w r w'. unfold bind.
  destruct (m w) as [[a | e] w1] eqn:Em.
  - intros Hr Hi. eapply Hk; [exact Hr |]. eapply Hm; eassumption.
  - intros [= <- <-] Hi. eapply Hm; eassumption.
Qed.

Lemma preserves_try_except {A} (m : M A) handler :
  preserves m -> (forall e, preserves (handler e)) -> preserves (try_except m handler).
Proof.
  intros Hm Hh w r w'. unfold try_except.
  destruct (m w) as [[a | e] w1] eqn:Em.
  - intros [= <- <-] Hi. eapply Hm; eassumption.
  - intros Hr Hi. eapply Hh; [exact Hr |]. eapply Hm; eassumption.
Qed.

Lemma preserves_atomic {A} (m : M A) : preserves m -> preserves (atomic m).
Proof.
  intros Hm w r w'. unfold atomic.
  destruct (m w) as [[a | e] w1] eqn:Em.
  - intros [= <- <-] Hi. eapply Hm; eassumption.
  - intros [= <- <-] Hi. exact Hi.
Qed.

Lemma job_inv_terminal j t :
  status j = completed \/ status j = failed -> completed_at j = Some t -> job_inv j.
Proof.
  intros Hs Ht. unfold job_inv. rewrite Ht. split; [discriminate |].
  intros [Hp | Hr]; destruct Hs as [Hs | Hs]; congruence.
Qed.

Lemma finish_inv jid st t msg row :
  st = completed \/ st = failed -> job_inv row -> job_inv (finish jid st t msg row).
Proof.
  intros Hst Hi. unfold finish. destruct (job_id row =? jid); [| exact Hi].
  apply (job_inv_terminal _ t); [exact Hst | reflexivity].
Qed.

Lemma db_inv_finish jid st t msg l :
  st = completed \/ st = failed ->
  Forall job_inv l -> Forall job_inv (map (finish jid st t msg) l).
Proof.
  intros Hst Hl. apply List.Forall_forall. intros row Hin.
  apply in_map_iff in Hin as (row0 & <- & Hin0).
  apply finish_inv; [exact Hst |].
  exact (proj1 (List.Forall_forall _ _) Hl row0 Hin0).
Qed.

(** Creation: the new row is pending with no completion time. *)
Lemma preserves_create portfolio horizon :
  preserves (ForecastJob_objects_create portfolio pending horizon).
Proof.
  intros w r w'. unfold ForecastJob_objects_create, bind. rewrite timezone_now_spec.
  cbn [db]. destruct (PositiveIntegerField_write "forecast_horizon" horizon) as [hz | e].
  - intros [= <- <-] Hi. unfold db_inv in *. cbn [db set_db jobs].
    apply Forall_app. split; [exact Hi |].
    constructor; [| constructor].
    unfold job_inv. cbn. split; [intros _; left; reflexivity | reflexivity].
  - intros [= <- <-] Hi. exact Hi.
Qed.

(** Processing, whichever way it ends. *)
Lemma process_keeps_inv self job horizon w r job' w' :
  _process_forecast_job self job horizon w = (r, job', w') ->
  db_inv (db w) -> db_inv (db w').
Proof.
  intros Hp Hi. pose proof (process_forecast_job_outcome self job horizon w) as Hout.
  rewrite Hp in Hout. unfold db_inv in *.
  inversion Hout as [t m m' w0 Hrow Hdb | t w0 Hrow Hj | e w1 w0 Hrow Ht Hj Hres]; subst.
  - rewrite Hdb. exact Hi.
  - rewrite Hj. apply db_inv_finish; [left; reflexivity | exact Hi].
  - rewrite Hj. apply db_inv_finish; [right; reflexivity | exact Hi].
Qed.

Lemma process_job_object_inv self job horizon w r job' w' :
  _process_forecast_job self job horizon w = (r, job', w') -> job_inv job'.
Proof.
  intros Hp. pose proof (process_forecast_job_outcome self job horizon w) as Hout.
  rewrite Hp in Hout.
  inversion Hout; subst; eapply job_inv_terminal; cbn;
    first [reflexivity | left; reflexivity | right; reflexivity].
Qed.

(** A save that writes both the status and the completion time of a job
    object that satisfies the invariant. *)
Lemma preserves_save_terminal job fields :
  job_inv job ->
  existsb (JobField_eqb f_status) fields = true ->
  existsb (JobField_eqb f_completed_at) fields = true ->
  preserves (save job fields).
Proof.
  intros Hj Hs Hc w r w'. unfold save.
  destruct (existsb _ (jobs (db w))).
  - intros [= <- <-] Hi. unfold db_inv in *. cbn [db set_db jobs].
    apply List.Forall_forall. intros row Hin.
    apply in_map_iff in Hin as (row0 & <- & Hin0).
    destruct (job_id row0 =? job_id job).
    + unfold job_inv, update_fields. cbn [status completed_at]. rewrite Hs, Hc. exact Hj.
    + exact (proj1 (List.Forall_forall _ _) Hi row0 Hin0).
  - intros [= <- <-] Hi. exact Hi.
Qed.

Lemma preserves_trigger self portfolio_id horizon :
  preserves (trigger_portfolio_forecast self portfolio_id horizon).
Proof.
  unfold trigger_portfolio_forecast.
  apply preserves_try_except.
  - apply preserves_bind; [apply preserves_read |]. intros portfolio.
    apply preserves_bind; [apply (preserves_read (fun w => Ok _)) |]. intros n.
    destruct (n =? 0)%nat; [apply preserves_raise |].
    apply preserves_bind; [apply preserves_atomic, preserves_create |]. intros job.
    intros w r w'.
    destruct (_process_forecast_job _ _ _ w) as [[[[] | e] job'] w1] eqn:Ep;
      intros [= <- <-]; eapply process_keeps_inv; exact Ep.
  - intros e. destruct e; apply preserves_raise.
Qed.

Lemma preserves_cancel self jid : preserves (cancel_forecast_job self jid).
Proof.
  unfold cancel_forecast_job.
  apply preserves_try_except.
  - apply preserves_bind; [apply preserves_read |]. intros job.
    assert (Hc : preserves
              (bind timezone_now (fun now =>
                 bind (save (with_state job failed (Some now) "Job cancelled by user")
                         [f_status; f_completed_at; f_error_message])
                      (fun _ => ret true)))).
    { apply preserves_bind; [apply preserves_now |]. intros now.
      apply preserves_bind; [| intros; apply preserves_ret].
      apply preserves_save_terminal; [| reflexivity | reflexivity].
      apply (job_inv_terminal _ now); [right; reflexivity | reflexivity]. }
    destruct (status job); first [exact Hc | apply preserves_ret].
  - intros e. destruct e; apply preserves_raise.
Qed.

Lemma preserves_cleanup self days_old : preserves (cleanup_old_jobs self days_old).
Proof.
  unfold cleanup_old_jobs. apply preserves_bind; [apply preserves_now |]. intros now.
  apply preserves_bind; [apply (preserves_read (fun _ => _)) |]. intros cutoff_date.
  intros w r w' [= <- <-] Hi. unfold db_inv in *. cbn [db set_db jobs].
  apply List.Forall_forall. intros row Hin. apply filter_In in Hin as [Hin _].
  exact (proj1 (List.Forall_forall _ _) Hi row Hin).
Qed.

(** C8.  Every operation of the service that writes jobs (the creation of
    a job, [_process_forecast_job] whether it succeeds or fails,
    [trigger_portfolio_forecast], [cancel_forecast_job] and
    [cleanup_old_jobs]) leaves a table in which every job has a null
    [completed_at] exactly when its status is pending or running, when it
    starts from such a table. *)
Theorem job_invariant_preserved self w w' :
  db_inv (db w) -> service_step self w w' -> db_inv (db w').
Proof.
  intros Hi Hstep. destruct Hstep as [portfolio horizon r w w' Hs | job horizon r job' w w' Hs
    | pid horizon r w w' Hs | jid r w w' Hs | days_old r w w' Hs].
  - eapply (preserves_atomic _ (preserves_create portfolio horizon)); eassumption.
  - eapply process_keeps_inv; eassumption.
  - eapply preserves_trigger; eassumption.
  - eapply preserves_cancel; eassumption.
  - eapply preserves_cleanup; eassumption.
Qed.

(** ** Horizons that are not positive *)

Lemma job_ids_below (l : list ForecastJob) row :
  In row l -> job_id row <= fold_right Z.max 0 (map job_id l).
Proof.
  induction l as [| x l IH]; simpl; [intros [] |].
  intros [-> | Hin]; [lia |]. specialize (IH Hin). lia.
Qed.

(** The identifier of a new job is not that of a row of the table. *)
Lemma uuid4_fresh d : existsb (fun row => job_id row =? uuid4 d) (jobs d) = false.
Proof.
  apply not_true_is_false. intros Hex. apply existsb_exists in Hex as (row & Hin & Heq).
  pose proof (job_ids_below _ _ Hin). unfold uuid4 in Heq. lia.
Qed.

(** What the handlers of [trigger_portfolio_forecast] raise. *)
Lemma trigger_handler_raises (pid : Z) e w :
  exists e',
    match e with
    | Portfolio_DoesNotExist _ =>
        raise (PortfolioNotFoundError
                 ("Portfolio with ID " +:+ pretty pid +:+ " not found"))
    | EmptyPortfolioError _ | PortfolioNotFoundError _ => raise e
    | _ => raise (ForecastServiceError ("Failed to trigger forecast: " +:+ str_exn e))
    end w = (@Raise ForecastJob e', w)
    /\ is_ForecastServiceError e' = true /\ is_input_error e' = false.
Proof. destruct e; eexists; (split; [reflexivity | split; reflexivity]). Qed.

(** C1, as the code has it.  A negative horizon makes
    [trigger_portfolio_forecast] fail with an error of the service's own
    hierarchy, which is not an input error, and the database is left as it
    was: no job row and no result is written. *)
Theorem negative_horizon_rejected self pid h w :
  h < 0 ->
  exists e w',
    trigger_portfolio_forecast self pid (Some h) w = (Raise e, w')
    /\ is_ForecastServiceError e = true
    /\ is_input_error e = false
    /\ db w' = db w.
Proof.
  intros Hneg.
  assert (Hz : (h =? 0) = false) by lia.
  assert (Hn : ~ horizon_in_column h) by (unfold horizon_in_column; lia).
  unfold trigger_portfolio_forecast, try_except, bind, _get_portfolio_with_sites.
  rewrite Hz.
  destruct (Portfolio_objects_get (db w) pid) as [portfolio | e0].
  - destruct (get_site_count (db w) portfolio =? 0)%nat.
    + unfold raise. eexists _, _. repeat split; reflexivity.
    + unfold atomic, ForecastJob_objects_create, bind. rewrite timezone_now_spec.
      rewrite (PositiveIntegerField_write_refused _ h Hn).
      destruct ((h <? - 2 ^ 63) || (2 ^ 63 <=? h)); cbv beta iota; unfold raise;
        eexists _, _; repeat split; reflexivity.
  - destruct (trigger_handler_raises pid e0 w) as (e' & He & Hs & Hi).
    exists e', w. split; [exact He |]. repeat split; assumption.
Qed.

(** For a portfolio with sites and a horizon the column accepts, the
    trigger appends one row, which processing then brings to an end. *)
Lemma trigger_jobs self pid forecast_horizon w portfolio :
  Portfolio_objects_get (db w) pid = Ok portfolio ->
  portfolio_sites_all (db w) portfolio <> [] ->
  horizon_in_column (horizon_or_default self forecast_horizon) ->
  exists st t msg,
    jobs (db (snd (trigger_portfolio_forecast self pid forecast_horizon w)))
    = map (finish (uuid4 (db w)) st t msg)
          (jobs (db w) ++ [new_job portfolio (horizon_or_default self forecast_horizon) w]).
Proof.
  intros Hget Hsites Hdefault.
  assert (Hc : (get_site_count (db w) portfolio =? 0)%nat = false).
  { unfold get_site_count. destruct (portfolio_sites_all (db w) portfolio);
      [contradiction | reflexivity]. }
  unfold trigger_portfolio_forecast, try_except, bind, _get_portfolio_with_sites.
  fold (horizon_or_default self forecast_horizon).
  rewrite Hget, Hc.
  unfold atomic, ForecastJob_objects_create, bind. rewrite timezone_now_spec.
  rewrite (PositiveIntegerField_write_ok _ _ Hdefault). cbn [db]. fold (new_job portfolio (horizon_or_default self forecast_horizon) w).
  set (job := new_job portfolio (horizon_or_default self forecast_horizon) w).
  match goal with
  | |- context [_process_forecast_job self job ?hz ?w1] =>
      pose proof (process_forecast_job_outcome self job hz w1) as Hout;
      assert (Hrow : has_row (job_id job) w1 = true);
      [| destruct (_process_forecast_job self job hz w1) as [[r job'] w2] eqn:Ep ]
  end.
  { unfold has_row. cbn [db set_db jobs].
    rewrite existsb_app. cbn [existsb]. rewrite Z.eqb_refl.
    rewrite orb_true_r. reflexivity. }
  assert (Hsnd : forall (r0 : result ForecastJob * World), snd r0 = w2 ->
            exists st t msg,
              jobs (db (snd r0)) = map (finish (uuid4 (db w)) st t msg) (jobs (db w) ++ [job])).
  { intros r0 ->.
    inversion Hout as [t m m' w0 Hno Hdb | t w0 Hyes Hj | e w1 w0 Hyes Ht Hj Hres]; subst.
    - congruence.
    - eexists _, _, _. exact Hj.
    - eexists _, _, _. exact Hj. }
  apply Hsnd.
  destruct r as [[] | e]; [reflexivity |].
  destruct e; reflexivity.
Qed.

(** C10.  A horizon of 0 is taken as no horizon: the call is the call with
    the argument left out, the service made with no argument has the
    default 24, and, for a portfolio that exists and has sites and a
    default that the column of [forecast_horizon] takes (a non-negative
    integer of 64 bits), one new job row is written, which carries the
    service's default horizon. *)
Theorem zero_horizon_uses_default self pid w portfolio :
  Portfolio_objects_get (db w) pid = Ok portfolio ->
  portfolio_sites_all (db w) portfolio <> [] ->
  horizon_in_column (self_forecast_horizon self) ->
  trigger_portfolio_forecast self pid (Some 0) w
  = trigger_portfolio_forecast self pid None w
  /\ self_forecast_horizon (ForecastService__init__ None) = 24
  /\ exists row,
       let w' := snd (trigger_portfolio_forecast self pid (Some 0) w) in
       In row (jobs (db w'))
       /\ has_row (job_id row) w = false
       /\ job_portfolio_id row = portfolio_id portfolio
       /\ forecast_horizon row = self_forecast_horizon self
       /\ length (jobs (db w')) = S (length (jobs (db w))).
Proof.
  intros Hget Hsites Hdefault.
  split; [reflexivity |]. split; [reflexivity |].
  destruct (trigger_jobs self pid (Some 0) w portfolio Hget Hsites Hdefault)
    as (st & t & msg & Hj).
  change (horizon_or_default self (Some 0)) with (self_forecast_horizon self) in Hj.
  exists (finish (uuid4 (db w)) st t msg (new_job portfolio (self_forecast_horizon self) w)).
  cbv zeta. rewrite Hj.
  assert (Hfields : forall row,
            job_id (finish (uuid4 (db w)) st t msg row) = job_id row
            /\ job_portfolio_id (finish (uuid4 (db w)) st t msg row) = job_portfolio_id row
            /\ forecast_horizon (finish (uuid4 (db w)) st t msg row) = forecast_horizon row).
  { intros row. unfold finish. destruct (job_id row =? uuid4 (db w)); repeat split. }
  destruct (Hfields (new_job portfolio (self_forecast_horizon self) w)) as (-> & -> & ->).
  split.
  { apply in_map, in_or_app. right. left. reflexivity. }
  split; [apply uuid4_fresh |].
  split; [reflexivity |]. split; [reflexivity |].
  rewrite length_map, length_app. cbn. lia.
Qed.

End ServiceTheorems.

(** ** A portfolio of two sites *)

Section ServiceWitnesses.
Import Service.

Lemma process_failure_rolls_back_witness :
  length (results (db failing_mid)) = 2%nat
  /\ exists t w' row,
    _process_forecast_job sample_service sample_job 2 failing_world
    = (Raise (ForecastServiceError ("Forecast processing failed: " +:+ "Model failed")),
       with_state sample_job failed (Some t) "Model failed", w')
    /\ results (db w') = results (db failing_world)
    /\ ForecastJob_objects_get (db w') (job_id sample_job) = Ok row
    /\ status row = failed
    /\ completed_at row = Some t
    /\ error_message row = "Model failed".
Proof.
  split; [by_evaluation |].
  apply (process_failure_rolls_back sample_service sample_job 2 failing_world failing_run
           sample_portfolio [sample_solar_site] sample_wind_site [] failing_mid
           (OtherException "Model failed") failing_end);
    by_evaluation.
Defined.

Lemma job_invariant_preserved_witness :
  db_inv (db failing_world)
  /\ service_step sample_service failing_world
       (snd (trigger_portfolio_forecast sample_service 1 (Some 2) failing_world))
  /\ db_inv (db (snd (trigger_portfolio_forecast sample_service 1 (Some 2) failing_world))).
Proof.
  assert (Hi : db_inv (db failing_world)).
  { constructor; [| constructor]. unfold job_inv. simpl.
    split; [intros _; left; reflexivity | reflexivity]. }
  assert (Hs : service_step sample_service failing_world
                 (snd (trigger_portfolio_forecast sample_service 1 (Some 2) failing_world))).
  { eapply step_trigger. apply surjective_pairing. }
  split; [exact Hi |]. split; [exact Hs |].
  exact (job_invariant_preserved sample_service _ _ Hi Hs).
Defined.

(** C1 does not hold for the horizon 0: the trigger returns a job, made
    with the default horizon of 24 hours, and its row is in the table
    with the 48 results of the two sites. *)
Lemma trigger_zero_horizon_creates_job :
  let run := trigger_portfolio_forecast sample_service 1 (Some 0) sample_world in
  fst run = Ok zero_horizon_job
  /\ forecast_horizon zero_horizon_job = 24
  /\ jobs (db sample_world) = []
  /\ jobs (db (snd run)) = [zero_horizon_job]
  /\ length (results (db (snd run))) = 48%nat.
Proof.
  cbv zeta. repeat split; by_evaluation.
Qed.

Lemma negative_horizon_rejected_witness :
  -1 < 0
  /\ exists e w',
       trigger_portfolio_forecast sample_service 1 (Some (-1)) sample_world = (Raise e, w')
       /\ is_ForecastServiceError e = true
       /\ is_input_error e = false
       /\ db w' = db sample_world.
Proof.
  split; [lia |]. apply (negative_horizon_rejected sample_service 1 (-1) sample_world). lia.
Defined.

Lemma zero_horizon_uses_default_witness :
  Portfolio_objects_get (db sample_world) 1 = Ok sample_portfolio
  /\ portfolio_sites_all (db sample_world) sample_portfolio <> []
  /\ horizon_in_column (self_forecast_horizon sample_service)
  /\ trigger_portfolio_forecast sample_service 1 (Some 0) sample_world
     = trigger_portfolio_forecast sample_service 1 None sample_world
  /\ self_forecast_horizon (ForecastService__init__ None) = 24
  /\ exists row,
       let w' := snd (trigger_portfolio_forecast sample_service 1 (Some 0) sample_world) in
       In row (jobs (db w'))
       /\ has_row (job_id row) sample_world = false
       /\ job_portfolio_id row = portfolio_id sample_portfolio
       /\ forecast_horizon row = self_forecast_horizon sample_service
       /\ length (jobs (db w')) = S (length (jobs (db sample_world))).
Proof.
  assert (H1 : Portfolio_objects_get (db sample_world) 1 = Ok sample_portfolio)
    by reflexivity.
  assert (H2 : portfolio_sites_all (db sample_world) sample_portfolio <> [])
    by (vm_compute; discriminate).
  assert (H3 : horizon_in_column (self_forecast_horizon sample_service))
    by (split; vm_compute; [discriminate | reflexivity]).
  split; [exact H1 |]. split; [exact H2 |]. split; [exact H3 |].
  exact (zero_horizon_uses_default sample_service 1 sample_world sample_portfolio H1 H2 H3).
Defined.

End ServiceWitnesses.

(* ===================================================================== *)
(** * Grouping rows by key                                               *)
(* ===================================================================== *)

Lemma StronglySorted_filter_keep {A} (R : A -> A -> Prop) (f : A -> bool) (l : list A) :
  StronglySorted R l -> StronglySorted R (List.filter f l).
Proof.
  induction l as [| a l IH]; simpl; [constructor |].
  intros Hs. apply StronglySorted_inv in Hs as [Hl Hall].
  destruct (f a); [| apply IH; exact Hl].
  constructor; [apply IH; exact Hl |].
  apply List.Forall_forall. intros y Hy. apply filter_In in Hy as [Hy _].
  exact (proj1 (List.Forall_forall _ _) Hall y Hy).
Qed.

Section GroupBy.
Context {K V R : Type} (eqb : K -> K -> bool).
Hypothesis eqb_eq : forall a b, eqb a b = true <-> a = b.
Context (key : R -> K) (new : R -> V) (upd : R -> V -> V).

Lemma eqb_refl' k : eqb k k = true.
Proof. apply eqb_eq. reflexivity. Qed.

Lemma eqb_neq a b : eqb a b = false <-> a <> b.
Proof.
  split.
  - intros E Heq. apply eqb_eq in Heq. congruence.
  - intros Hne. destruct (eqb a b) eqn:E; [| reflexivity]. apply eqb_eq in E. contradiction.
Qed.

Lemma first_keys_In x (l : list K) : In x (first_keys eqb l) <-> In x l.
Proof.
  induction l as [| a l IH]; simpl; [tauto |].
  rewrite filter_In, IH. split.
  - intros [-> | [Hin _]]; auto.
  - intros [-> | Hin]; [auto |].
    destruct (eqb x a) eqn:E.
    + left. symmetry. apply eqb_eq. exact E.
    + right. split; [exact Hin | reflexivity].
Qed.

Lemma first_keys_NoDup (l : list K) : List.NoDup (first_keys eqb l).
Proof.
  induction l as [| a l IH]; simpl; [apply List.NoDup_nil |].
  apply List.NoDup_cons.
  - intros Hin. apply filter_In in Hin as [_ Hne]. rewrite eqb_refl' in Hne. discriminate.
  - apply List.NoDup_filter. exact IH.
Qed.

Lemma existsb_first_keys x (l : list K) :
  existsb (fun y => eqb y x) (first_keys eqb l) = existsb (fun y => eqb y x) l.
Proof.
  apply eq_true_iff_eq. rewrite !existsb_exists. split.
  - intros (y & Hin & E). exists y. split; [apply first_keys_In; exact Hin | exact E].
  - intros (y & Hin & E). exists y. split; [apply first_keys_In; exact Hin | exact E].
Qed.

Lemma first_keys_snoc (l : list K) x :
  first_keys eqb (l ++ [x])
  = if existsb (fun y => eqb y x) (first_keys eqb l) then first_keys eqb l
    else first_keys eqb l ++ [x].
Proof.
  induction l as [| a l IH]; simpl; [reflexivity |].
  rewrite IH. destruct (eqb a x) eqn:Eax; simpl.
  - apply eqb_eq in Eax. subst a.
    destruct (existsb _ (first_keys eqb l)); [reflexivity |].
    rewrite List.filter_app. simpl. rewrite eqb_refl'. simpl. rewrite app_nil_r. reflexivity.
  - assert (Exa : eqb x a = false).
    { apply eqb_neq. apply eqb_neq in Eax. congruence. }
    assert (Hex : existsb (fun y => eqb y x)
                    (List.filter (fun y => negb (eqb y a)) (first_keys eqb l))
                  = existsb (fun y => eqb y x) (first_keys eqb l)).
    { apply eq_true_iff_eq. rewrite !existsb_exists. split.
      - intros (y & Hin & E). apply filter_In in Hin as [Hin _]. exists y. auto.
      - intros (y & Hin & E). exists y. split; [| exact E].
        apply filter_In. split; [exact Hin |].
        apply eqb_eq in E. subst y. rewrite Exa. reflexivity. }
    rewrite Hex. destruct (existsb _ (first_keys eqb l)); [reflexivity |].
    rewrite List.filter_app. simpl. rewrite Exa. reflexivity.
Qed.

Lemma dict_update_keys k (f : V -> V) (d : list (K * V)) :
  map fst (Service.dict_update eqb k f d) = map fst d.
Proof.
  unfold Service.dict_update. rewrite map_map. apply map_ext.
  intros [k' v]. simpl. destruct (eqb k' k); reflexivity.
Qed.

Lemma dict_get_keys k (d : list (K * V)) :
  match Service.dict_get eqb k d with
  | Some _ => existsb (fun y => eqb y k) (map fst d) = true
  | None => existsb (fun y => eqb y k) (map fst d) = false
  end.
Proof.
  unfold Service.dict_get. induction d as [| [k' v] d IH]; simpl; [reflexivity |].
  destruct (eqb k' k); simpl; [reflexivity | exact IH].
Qed.

(** What a dict filled by [group_step] holds: its keys are the keys of the
    rows in the order of their first occurrence, and the value under a key
    satisfies [P] for the rows of that key. *)
Context (P : K -> list R -> V -> Prop).
Hypothesis P_new : forall r, P (key r) [] (new r).
Hypothesis P_upd : forall r rs v, P (key r) rs v -> P (key r) (rs ++ [r]) (upd r v).

Lemma filter_absent k (rows : list R) :
  existsb (fun y => eqb y k) (map key rows) = false ->
  List.filter (fun r => eqb (key r) k) rows = [].
Proof.
  induction rows as [| r rows IH]; simpl; [reflexivity |].
  destruct (eqb (key r) k); simpl; [discriminate | exact IH].
Qed.

Lemma grouped_step rows d r : grouped eqb key P rows d ->
  grouped eqb key P (rows ++ [r]) (group_step eqb key new upd d r).
Proof.
  intros [Hk Hv]. unfold grouped, group_step. split.
  - rewrite dict_update_keys, map_app. simpl. rewrite first_keys_snoc, <- Hk.
    unfold Service.dict_setdefault.
    pose proof (dict_get_keys (key r) d) as Hg.
    destruct (Service.dict_get eqb (key r) d); rewrite Hg; [reflexivity |].
    rewrite map_app. reflexivity.
  - assert (Hd : Forall (fun kv =>
                    P (fst kv) (List.filter (fun r0 => eqb (key r0) (fst kv)) rows) (snd kv))
                   (Service.dict_setdefault eqb (key r) (new r) d)).
    { unfold Service.dict_setdefault.
      pose proof (dict_get_keys (key r) d) as Hg.
      destruct (Service.dict_get eqb (key r) d); [exact Hv |].
      apply Forall_app. split; [exact Hv |]. constructor; [| constructor]. simpl.
      rewrite Hk, existsb_first_keys in Hg. rewrite (filter_absent _ _ Hg). apply P_new. }
    unfold Service.dict_update. apply List.Forall_forall. intros kv Hin.
    apply in_map_iff in Hin as ([k v] & <- & Hin).
    pose proof (proj1 (List.Forall_forall _ _) Hd _ Hin) as Hp. simpl in Hp.
    rewrite List.filter_app. simpl.
    destruct (eqb k (key r)) eqn:E; simpl.
    + apply eqb_eq in E. subst k. rewrite eqb_refl'. apply P_upd. exact Hp.
    + assert (E' : eqb (key r) k = false).
      { apply eqb_neq. apply eqb_neq in E. congruence. }
      rewrite E', app_nil_r. exact Hp.
Qed.

Lemma grouped_fold rows :
  grouped eqb key P rows (fold_left (group_step eqb key new upd) rows []).
Proof.
  induction rows as [| r rows IH] using rev_ind.
  - split; [reflexivity | constructor].
  - rewrite fold_left_app. simpl. apply grouped_step. exact IH.
Qed.

(** ** Rows sorted by key lie in one block per key *)

Context (kle : K -> K -> Prop).
Hypothesis kle_antisym : forall a b, kle a b -> kle b a -> a = b.

Lemma filter_filter_neg x (l : list K) :
  List.filter (fun y => negb (eqb y x)) (List.filter (fun y => negb (eqb y x)) l)
  = List.filter (fun y => negb (eqb y x)) l.
Proof.
  induction l as [| a l IH]; simpl; [reflexivity |].
  destruct (negb (eqb a x)) eqn:E; simpl; [rewrite E, IH; reflexivity | exact IH].
Qed.

Lemma filter_all (f : K -> bool) (l : list K) :
  (forall y, In y l -> f y = true) -> List.filter f l = l.
Proof.
  induction l as [| a l IH]; simpl; [reflexivity |].
  intros Hall. rewrite (Hall a (or_introl eq_refl)), IH; [reflexivity |].
  intros y Hy. apply Hall. right. exact Hy.
Qed.

Lemma flat_map_ext_in {A B} (f g : A -> list B) (l : list A) :
  (forall a, In a l -> f a = g a) -> flat_map f l = flat_map g l.
Proof.
  induction l as [| a l IH]; simpl; [reflexivity |].
  intros Hfg. rewrite (Hfg a (or_introl eq_refl)), IH; [reflexivity |].
  intros y Hy. apply Hfg. right. exact Hy.
Qed.

Lemma blocks_of_sorted (rows : list R) :
  StronglySorted (fun a b => kle (key a) (key b)) rows ->
  flat_map (fun k => List.filter (fun r => eqb (key r) k) rows) (first_keys eqb (map key rows))
  = rows.
Proof.
  induction rows as [| r rest IH]; [reflexivity |].
  intros Hs. apply StronglySorted_inv in Hs as [Hrest Hall].
  specialize (IH Hrest).
  change (first_keys eqb (map key (r :: rest)))
    with (key r :: List.filter (fun y => negb (eqb y (key r))) (first_keys eqb (map key rest))).
  cbn [flat_map List.filter]. rewrite eqb_refl'. cbn [app]. f_equal.
  rewrite (flat_map_ext_in
             (fun k => List.filter (fun r0 => eqb (key r0) k) (r :: rest))
             (fun k => List.filter (fun r0 => eqb (key r0) k) rest)).
  2:{ intros k Hk. apply filter_In in Hk as [_ Hne]. simpl.
      destruct (eqb (key r) k) eqn:E; [| reflexivity].
      apply eqb_eq in E. subst k. rewrite eqb_refl' in Hne. discriminate. }
  destruct rest as [| r1 rest']; [reflexivity |].
  destruct (eqb (key r1) (key r)) eqn:E1.
  - apply eqb_eq in E1.
    rewrite <- IH at 3.
    change (first_keys eqb (map key (r1 :: rest')))
      with (key r1 :: List.filter (fun y => negb (eqb y (key r1)))
                        (first_keys eqb (map key rest'))).
    rewrite E1. cbn [List.filter]. rewrite eqb_refl'. cbn [negb].
    rewrite filter_filter_neg. reflexivity.
  - assert (Hnone : existsb (fun y => eqb y (key r)) (map key (r1 :: rest')) = false).
    { apply not_true_is_false. intros Hex.
      apply existsb_exists in Hex as (k & Hin & Ek). apply eqb_eq in Ek. subst k.
      apply in_map_iff in Hin as (r2 & Hk2 & Hin2).
      assert (Hr1 : kle (key r) (key r1)).
      { exact (proj1 (List.Forall_forall _ _) Hall r1 (or_introl eq_refl)). }
      assert (H12 : kle (key r1) (key r)).
      { destruct Hin2 as [<- | Hin2]; [rewrite Hk2 in Hr1; rewrite Hk2; exact Hr1 |].
        apply StronglySorted_inv in Hrest as [_ Hall1].
        rewrite <- Hk2. exact (proj1 (List.Forall_forall _ _) Hall1 r2 Hin2). }
      pose proof (kle_antisym _ _ Hr1 H12) as Heq.
      rewrite <- Heq, eqb_refl' in E1. discriminate. }
    rewrite (filter_absent _ _ Hnone). cbn [app].
    rewrite filter_all; [exact IH |].
    intros y Hy. apply (proj1 (first_keys_In _ _)) in Hy.
    destruct (eqb y (key r)) eqn:Ey; [| reflexivity].
    apply eqb_eq in Ey. subst y.
    assert (existsb (fun y => eqb y (key r)) (map key (r1 :: rest')) = true).
    { apply existsb_exists. exists (key r). split; [exact Hy | apply eqb_refl']. }
    congruence.
Qed.

(** The first occurrences of sorted keys are strictly sorted. *)
Lemma first_keys_sorted (l : list K) :
  StronglySorted kle l ->
  StronglySorted (fun a b => kle a b /\ a <> b) (first_keys eqb l).
Proof.
  induction l as [| x l IH]; simpl; [constructor |].
  intros Hs. apply StronglySorted_inv in Hs as [Hl Hall].
  constructor.
  - apply StronglySorted_filter_keep. apply IH. exact Hl.
  - apply List.Forall_forall. intros y Hy. apply filter_In in Hy as [Hy Hne].
    apply (proj1 (first_keys_In _ _)) in Hy. split.
    + exact (proj1 (List.Forall_forall _ _) Hall y Hy).
    + intros ->. rewrite eqb_refl' in Hne. discriminate.
Qed.

End GroupBy.

(* ===================================================================== *)
(** * The read side: series and totals                                   *)
(* ===================================================================== *)

Module AggregationFacts.
Import Service Aggregation.

Lemma aggregate_step_groups s t r :
  aggregate_step (s, t) r = (site_step s r, total_step t r).
Proof. reflexivity. Qed.

Lemma fold_aggregate rows : forall s t,
  fold_left aggregate_step rows (s, t)
  = (fold_left site_step rows s, fold_left total_step rows t).
Proof.
  induction rows as [| r rows IH]; intros s t; [reflexivity |].
  cbn [fold_left]. rewrite aggregate_step_groups. apply IH.
Qed.

Lemma float_sum_snoc xs x : float_sum (xs ++ [x]) = (float_sum xs + x)%float.
Proof. unfold float_sum. rewrite fold_left_app. reflexivity. Qed.

Lemma sites_grouped rows :
  grouped String.eqb row_name site_holds rows (fold_left site_step rows []).
Proof.
  apply grouped_fold.
  - apply String.eqb_eq.
  - intros r. split; reflexivity.
  - intros r rs v [Hn Hf]. split; [exact Hn |].
    cbn [add_forecast sf_forecasts]. rewrite Hf, map_app. reflexivity.
Qed.

Lemma totals_grouped rows :
  grouped Z.eqb row_datetime total_holds rows (fold_left total_step rows []).
Proof.
  apply grouped_fold.
  - apply Z.eqb_eq.
  - intros r. repeat split.
  - intros r rs v (Hd & Hp & Hl & Hu). unfold total_holds.
    rewrite !map_app. cbn [map]. rewrite !float_sum_snoc.
    cbn [add_total pt_datetime total_predicted_mwh total_confidence_lower
         total_confidence_upper].
    rewrite Hp, Hl, Hu. repeat split. exact Hd.
Qed.

(** ** The order of the rows *)

Lemma compare_Lt_trans a b c :
  String.compare a b = Lt -> String.compare b c = Lt -> String.compare a c = Lt.
Proof.
  intros Hab Hbc.
  apply String_as_OT.cmp_lt. apply String_as_OT.cmp_lt in Hab, Hbc.
  eapply String_as_OT.lt_trans; eassumption.
Qed.

Lemma compare_refl a : String.compare a a = Eq.
Proof. apply (proj2 (String_as_OT.cmp_eq a a)). reflexivity. Qed.

Lemma name_le_antisym a b : name_le a b -> name_le b a -> a = b.
Proof.
  unfold name_le. intros Hab Hba. rewrite String.compare_antisym in Hba.
  destruct (String.compare a b) eqn:E.
  - apply String.compare_eq_iff. exact E.
  - simpl in Hba. congruence.
  - congruence.
Qed.

Lemma row_le_total : Total row_le.
Proof.
  intros a b. unfold row_le.
  rewrite (String.compare_antisym (Engine.site_name (snd b))).
  destruct (String.compare (Engine.site_name (snd a)) (Engine.site_name (snd b)));
    simpl; [lia | left; exact I | right; exact I].
Qed.

Lemma row_le_trans : Transitive row_le.
Proof.
  intros a b c. unfold row_le.
  destruct (String.compare (Engine.site_name (snd a)) (Engine.site_name (snd b))) eqn:Eab;
    [| | intros []].
  - apply String.compare_eq_iff in Eab. rewrite Eab.
    destruct (String.compare (Engine.site_name (snd b)) (Engine.site_name (snd c)));
      [lia | tauto | tauto].
  - intros _.
    destruct (String.compare (Engine.site_name (snd b)) (Engine.site_name (snd c))) eqn:Ebc;
      [| | intros []].
    + apply String.compare_eq_iff in Ebc. rewrite <- Ebc, Eab. tauto.
    + rewrite (compare_Lt_trans _ _ _ Eab Ebc). tauto.
Qed.

Lemma pt_le_total : Total pt_le.
Proof. intros a b. unfold pt_le. lia. Qed.

Lemma pt_le_trans : Transitive pt_le.
Proof. intros a b c. unfold pt_le. lia. Qed.

Lemma row_le_name a b : row_le a b -> name_le (row_name a) (row_name b).
Proof.
  unfold row_le, name_le, row_name.
  destruct (String.compare _ _); [discriminate | discriminate | intros []].
Qed.

Lemma StronglySorted_weaken {A} (R S : A -> A -> Prop) (l : list A) :
  (forall a b, R a b -> S a b) -> StronglySorted R l -> StronglySorted S l.
Proof.
  intros HRS. induction l as [| a l IH]; [constructor |].
  intros Hs. apply StronglySorted_inv in Hs as [Hl Hall].
  constructor; [apply IH; exact Hl |].
  apply List.Forall_forall. intros y Hy. apply HRS.
  exact (proj1 (List.Forall_forall _ _) Hall y Hy).
Qed.

Lemma StronglySorted_map {A B} (f : A -> B) (S : B -> B -> Prop) (l : list A) :
  StronglySorted (fun a b => S (f a) (f b)) l -> StronglySorted S (map f l).
Proof.
  induction l as [| a l IH]; [constructor |].
  intros Hs. apply StronglySorted_inv in Hs as [Hl Hall]. cbn [map].
  constructor; [apply IH; exact Hl |].
  apply List.Forall_forall. intros y Hy. apply in_map_iff in Hy as (x & <- & Hx).
  exact (proj1 (List.Forall_forall _ _) Hall x Hx).
Qed.

(** The rows of one site name are in the order of their timestamps. *)
Lemma site_rows_by_datetime k (rows : list Row) :
  StronglySorted row_le rows ->
  StronglySorted Z.le
    (map row_datetime (List.filter (fun r => String.eqb (row_name r) k) rows)).
Proof.
  intros Hs. apply StronglySorted_map.
  induction rows as [| r rows IH]; [constructor |].
  apply StronglySorted_inv in Hs as [Hl Hall]. cbn [List.filter].
  destruct (String.eqb (row_name r) k) eqn:E; [| apply IH; exact Hl].
  constructor; [apply IH; exact Hl |].
  apply List.Forall_forall. intros y Hy. apply filter_In in Hy as [Hy Ey].
  pose proof (proj1 (List.Forall_forall _ _) Hall y Hy) as Hle.
  apply String.eqb_eq in E, Ey. unfold row_le in Hle. unfold row_name in E, Ey.
  rewrite E, Ey, compare_refl in Hle. exact Hle.
Qed.

Lemma job_results_sorted d job : StronglySorted row_le (job_results d job).
Proof.
  unfold job_results.
  exact (@StronglySorted_merge_sort _ row_le _ row_le_trans row_le_total _).
Qed.

End AggregationFacts.

Section ReadSide.
Context `{Mersenne} {aggregates : SqlAggregates}.
Import Service Aggregation AggregationFacts.

Lemma flat_map_map {A B C} (f : B -> list C) (g : A -> B) (l : list A) :
  flat_map f (map g l) = flat_map (fun a => f (g a)) l.
Proof. induction l as [| a l IH]; simpl; [| rewrite IH]; reflexivity. Qed.

Lemma filter_map_swap {A B} (f : B -> bool) (g : A -> B) (l : list A) :
  List.filter f (map g l) = map g (List.filter (fun a => f (g a)) l).
Proof.
  induction l as [| a l IH]; simpl; [reflexivity |].
  destruct (f (g a)); simpl; rewrite IH; reflexivity.
Qed.

Lemma filter_flat_map {A B} (f : B -> bool) (g : A -> list B) (l : list A) :
  List.filter f (flat_map g l) = flat_map (fun a => List.filter f (g a)) l.
Proof.
  induction l as [| a l IH]; simpl; [reflexivity |].
  rewrite List.filter_app, IH. reflexivity.
Qed.

Lemma map_flat_map {A B C} (f : B -> C) (g : A -> list B) (l : list A) :
  map f (flat_map g l) = flat_map (fun a => map f (g a)) l.
Proof.
  induction l as [| a l IH]; simpl; [reflexivity |].
  rewrite map_app, IH. reflexivity.
Qed.

(** The entries of the series at a timestamp are the rows of that
    timestamp, in the order of the rows. *)
Lemma entries_at_rows ts (rows : list Row) (d : list (string * SiteForecast)) :
  StronglySorted row_le rows ->
  grouped String.eqb row_name site_holds rows d ->
  entries_at ts (map snd d)
  = map forecast_data_of (List.filter (fun r => row_datetime r =? ts) rows).
Proof.
  intros Hs [Hk Hv]. unfold entries_at.
  rewrite flat_map_map.
  rewrite (flat_map_ext_in _
             (fun kv => map forecast_data_of
                          (List.filter (fun r => row_datetime r =? ts)
                             (List.filter (fun r => String.eqb (row_name r) (fst kv)) rows)))).
  2:{ intros kv Hin.
      destruct (proj1 (List.Forall_forall _ _) Hv kv Hin) as [_ Hf].
      rewrite Hf, filter_map_swap. reflexivity. }
  assert (Hb : flat_map (fun k => List.filter (fun r => String.eqb (row_name r) k) rows)
                 (first_keys String.eqb (map row_name rows)) = rows).
  { apply (blocks_of_sorted String.eqb String.eqb_eq row_name name_le name_le_antisym).
    eapply StronglySorted_weaken; [| exact Hs]. intros a b. apply row_le_name. }
  transitivity
    (map forecast_data_of
       (List.filter (fun r => row_datetime r =? ts)
          (flat_map (fun k => List.filter (fun r => String.eqb (row_name r) k) rows)
             (first_keys String.eqb (map row_name rows))))).
  - rewrite filter_flat_map, map_flat_map, <- Hk, flat_map_map. reflexivity.
  - rewrite Hb. reflexivity.
Qed.

Lemma name_lt_of_le a b : name_le a b /\ a <> b -> String.compare a b = Lt.
Proof.
  unfold name_le. intros [Hle Hne].
  destruct (String.compare a b) eqn:E; [| reflexivity | congruence].
  apply String.compare_eq_iff in E. contradiction.
Qed.

(** What [get_portfolio_forecast_results] returns, in full. *)
Lemma read_side_full self pid jid w out :
  get_portfolio_forecast_results self pid jid w = Ok out ->
  exists portfolio job,
    Portfolio_objects_get (db w) pid = Ok portfolio
    /\ select_job (db w) portfolio jid = Ok job
    /\ job_results (db w) job <> []
    /\ pf_job_id out = job_id job
    /\ pf_portfolio_id out = portfolio_id portfolio
    /\ forecast_generated_at out = completed_at job
    /\ site_count out = length (site_forecasts out)
    /\ site_forecasts out = map snd (fold_left site_step (job_results (db w) job) [])
    /\ portfolio_totals out
       = merge_sort pt_le (map snd (fold_left total_step (job_results (db w) job) [])).
Proof.
  unfold get_portfolio_forecast_results.
  destruct (Portfolio_objects_get (db w) pid) as [portfolio | e] eqn:Hget.
  2:{ destruct e; discriminate. }
  destruct (select_job (db w) portfolio jid) as [job | e] eqn:Hsel.
  2:{ destruct e; discriminate. }
  destruct (job_results (db w) job) as [| r rows] eqn:Er; [discriminate |].
  rewrite fold_aggregate. intros [= <-]. exists portfolio, job. rewrite Er.
  cbn [pf_job_id pf_portfolio_id forecast_generated_at site_count site_forecasts
       portfolio_totals].
  split; [reflexivity |]. split; [exact Hsel |]. split; [discriminate |].
  repeat split; try reflexivity.
  symmetry. apply length_map.
Qed.

Lemma flat_map_filter {A B} (p : A -> bool) (g : A -> list B) (l : list A) :
  flat_map g (List.filter p l) = flat_map (fun a => if p a then g a else []) l.
Proof.
  induction l as [| a l IH]; [reflexivity |]. cbn [List.filter flat_map].
  destruct (p a); cbn [flat_map app]; rewrite IH; reflexivity.
Qed.

(** The rows of the query are the result set of the job, each once. *)
Lemma job_results_result_set d job :
  Permutation (job_results d job) (result_set d (job_id job)).
Proof.
  unfold job_results, result_set. rewrite flat_map_filter.
  apply merge_sort_Permutation.
Qed.

Lemma row_le_name_then_time a b : row_le a b -> name_then_time a b.
Proof.
  unfold row_le, name_then_time, row_name, row_datetime.
  destruct (String.compare (Engine.site_name (snd a)) (Engine.site_name (snd b))) eqn:E.
  - intros Hle. right. split; [apply String.compare_eq_iff; exact E | exact Hle].
  - intros _. left. reflexivity.
  - intros [].
Qed.

(** A decimal zero is the float zero, whatever its exponent. *)
Lemma float_of_Decimal_zero d :
  Decimal.coefficient d = 0 -> PyFloat.float_of_Decimal d = PyFloat.float_of_int_0.
Proof.
  destruct d as [c q]. cbn [Decimal.coefficient]. intros ->.
  unfold PyFloat.float_of_Decimal. cbn [Decimal.coefficient Decimal.exponent].
  destruct (0 <=? q); [| reflexivity].
  rewrite Z.mul_0_l. vm_compute. reflexivity.
Qed.

(** [float(x or 0)] reports the stored value. *)
Lemma float_or_0_reported x : float_or_0 x = reported x.
Proof.
  destruct x as [d |]; [| reflexivity]. cbn [float_or_0 reported].
  unfold Decimal.truthy. destruct (Decimal.coefficient d =? 0) eqn:E; cbn [negb].
  - apply Z.eqb_eq in E. symmetry. apply float_of_Decimal_zero. exact E.
  - reflexivity.
Qed.

Lemma forecast_data_of_entry r : forecast_data_of r = entry_of r.
Proof.
  unfold forecast_data_of, entry_of. rewrite !float_or_0_reported. reflexivity.
Qed.

Lemma map_forecast_data_of rows : map forecast_data_of rows = map entry_of rows.
Proof. apply map_ext. exact forecast_data_of_entry. Qed.

(** C4.  What [get_portfolio_forecast_results] returns is computed from
    the stored results of the job it reports (the job asked for, when one
    is named), each joined with its site.  Listed by site name and then
    timestamp, these rows are not empty and give: one series per site
    name, in the order of the names, whose entries are the rows of that
    name in the order of their timestamps, each value reported as the
    nearest float and a missing bound as 0; and one total per timestamp of
    a row, whose predicted value and bounds are the sums (added from the
    left, starting at 0, in the order of the rows) of the values of the
    rows at that exact timestamp.  Hence each total is, for its timestamp,
    the sum of the predicted values, and of each confidence bound, of the
    entries of the per-site series at that timestamp; every timestamp of a
    series has its total and no timestamp has two; the series come in the
    strict order of their site names, the entries of each series in the
    order of their timestamps, and the totals in the order of theirs. *)
Theorem portfolio_totals_are_sums self pid jid w out :
  get_portfolio_forecast_results self pid jid w = Ok out ->
  (forall j, jid = Some j -> pf_job_id out = j)
  /\ (exists rows : list Row,
        Permutation rows (result_set (db w) (pf_job_id out))
        /\ StronglySorted name_then_time rows
        /\ rows <> []
        /\ map sf_site_name (site_forecasts out) = first_keys String.eqb (map row_name rows)
        /\ (forall sf, In sf (site_forecasts out) ->
              sf_forecasts sf
              = map entry_of
                  (List.filter (fun r => String.eqb (row_name r) (sf_site_name sf)) rows))
        /\ (forall t, In t (map pt_datetime (portfolio_totals out))
                      <-> In t (map row_datetime rows))
        /\ (forall pt, In pt (portfolio_totals out) ->
              let values :=
                map entry_of
                  (List.filter (fun r => row_datetime r =? pt_datetime pt) rows) in
              total_predicted_mwh pt = float_sum (map fd_predicted_generation_mwh values)
              /\ total_confidence_lower pt
                 = float_sum (map fd_confidence_interval_lower values)
              /\ total_confidence_upper pt
                 = float_sum (map fd_confidence_interval_upper values)))
  /\ (forall pt, In pt (portfolio_totals out) ->
        let entries := entries_at (pt_datetime pt) (site_forecasts out) in
        total_predicted_mwh pt = float_sum (map fd_predicted_generation_mwh entries)
        /\ total_confidence_lower pt = float_sum (map fd_confidence_interval_lower entries)
        /\ total_confidence_upper pt = float_sum (map fd_confidence_interval_upper entries))
  /\ (forall sf fd, In sf (site_forecasts out) -> In fd (sf_forecasts sf) ->
        exists pt, In pt (portfolio_totals out) /\ pt_datetime pt = fd_datetime fd)
  /\ List.NoDup (map pt_datetime (portfolio_totals out))
  /\ StronglySorted (fun a b => String.compare a b = Lt)
       (map sf_site_name (site_forecasts out))
  /\ (forall sf, In sf (site_forecasts out) ->
        StronglySorted Z.le (map fd_datetime (sf_forecasts sf)))
  /\ StronglySorted Z.le (map pt_datetime (portfolio_totals out)).
Proof.
  intros Hout.
  destruct (read_side_full _ _ _ _ _ Hout)
    as (portfolio & job & _ & Hsel & Hne & Hjid & _ & _ & _ & Hsf & Hpt).
  rewrite Hsf, Hpt, Hjid. clear Hsf Hpt Hjid Hout.
  set (rows := job_results (db w) job) in *.
  pose proof (job_results_sorted (db w) job) as Hs. fold rows in Hs.
  pose proof (sites_grouped rows) as Hsites.
  pose proof (totals_grouped rows) as Htotals.
  set (sd := fold_left site_step rows []) in *.
  set (td := fold_left total_step rows []) in *.
  pose proof (merge_sort_Permutation pt_le (map snd td)) as Hperm.
  destruct Htotals as [Htk Htv].
  assert (Hdt : map pt_datetime (map snd td) = map fst td).
  { rewrite map_map. apply map_ext_in. intros kv Hin.
    exact (proj1 (proj1 (List.Forall_forall _ _) Htv kv Hin)). }
  assert (Hn : map sf_site_name (map snd sd) = map fst sd).
  { destruct Hsites as [_ Hsv]. rewrite map_map. apply map_ext_in. intros kv Hin.
    exact (proj1 (proj1 (List.Forall_forall _ _) Hsv kv Hin)). }
  assert (Hkeys : forall t, In t (map pt_datetime (merge_sort pt_le (map snd td)))
                            <-> In t (map row_datetime rows)).
  { intros t. split; intros Ht.
    - apply (Permutation_in _ (Permutation_map pt_datetime Hperm)) in Ht.
      rewrite Hdt, Htk in Ht. exact (proj1 (first_keys_In Z.eqb Z.eqb_eq _ _) Ht).
    - apply (Permutation_in _ (Permutation_map pt_datetime (Permutation_sym Hperm))).
      rewrite Hdt, Htk. apply first_keys_In; [apply Z.eqb_eq | exact Ht]. }
  split; [| split; [| split; [| split; [| split; [| split; [| split]]]]]].
  - intros j ->. unfold select_job in Hsel.
    destruct (find _ (jobs (db w))) as [j' |] eqn:Ef; [| discriminate].
    injection Hsel as ->. apply find_some in Ef as [_ Ej]. lia.
  - exists rows. split; [apply job_results_result_set |].
    split; [eapply StronglySorted_weaken; [exact row_le_name_then_time | exact Hs] |].
    split; [exact Hne |].
    split; [rewrite Hn; exact (proj1 Hsites) |].
    split; [| split; [exact Hkeys |]].
    + intros sf Hsf. apply in_map_iff in Hsf as (kv & <- & Hin).
      destruct (proj1 (List.Forall_forall _ _) (proj2 Hsites) kv Hin) as [Hname Hf].
      rewrite Hf, Hname. apply map_forecast_data_of.
    + intros pt Hpt. cbv zeta.
      apply (Permutation_in _ Hperm) in Hpt.
      apply in_map_iff in Hpt as (kv & <- & Hin).
      destruct (proj1 (List.Forall_forall _ _) Htv kv Hin) as (Hd & Hp & Hl & Hu).
      rewrite Hd, Hp, Hl, Hu, map_forecast_data_of. repeat split.
  - intros pt Hpt. cbv zeta.
    apply (Permutation_in _ Hperm) in Hpt.
    apply in_map_iff in Hpt as (kv & <- & Hin).
    destruct (proj1 (List.Forall_forall _ _) Htv kv Hin) as (Hd & Hp & Hl & Hu).
    rewrite (entries_at_rows _ rows sd Hs Hsites), Hd.
    rewrite Hp, Hl, Hu. repeat split.
  - intros sf fd Hsf Hfd.
    apply in_map_iff in Hsf as (kv & <- & Hin).
    destruct (proj1 (List.Forall_forall _ _) (proj2 Hsites) kv Hin) as [_ Hf].
    rewrite Hf in Hfd. apply in_map_iff in Hfd as (r & <- & Hr).
    apply filter_In in Hr as [Hr _].
    assert (Hkey : In (row_datetime r) (map pt_datetime (merge_sort pt_le (map snd td)))).
    { apply Hkeys. apply in_map. exact Hr. }
    apply in_map_iff in Hkey as (pt & Hfst & Hint).
    exists pt. split; [exact Hint | exact Hfst].
  - apply (Permutation_NoDup (Permutation_map pt_datetime (Permutation_sym Hperm))).
    rewrite Hdt, Htk. apply first_keys_NoDup. apply Z.eqb_eq.
  - rewrite Hn, (proj1 Hsites).
    eapply StronglySorted_weaken; [exact name_lt_of_le |].
    apply (first_keys_sorted String.eqb String.eqb_eq).
    apply StronglySorted_map.
    eapply StronglySorted_weaken; [| exact Hs]. intros a b. apply row_le_name.
  - intros sf Hsf. apply in_map_iff in Hsf as (kv & <- & Hin).
    destruct (proj1 (List.Forall_forall _ _) (proj2 Hsites) kv Hin) as [_ Hf].
    rewrite Hf, map_map. apply (site_rows_by_datetime (fst kv) rows Hs).
  - apply StronglySorted_map.
    exact (@StronglySorted_merge_sort _ pt_le _ pt_le_trans pt_le_total _).
Qed.

End ReadSide.

Section ReadSideWitness.
Import Service Aggregation.
#[local] Existing Instance SampleAggregates.

(** The forecast of two hours for the sample portfolio: the stored
    predictions 0.000 and 3.721 (solar), 9.000 and 4.500 (wind) are the
    series, and the totals are 9 with the band 7.2 to 10.8 for the first
    hour and 8.221 with the band 6.577 to 9.865 for the second (the floats
    are written in hexadecimal). *)
Lemma portfolio_totals_are_sums_witness :
  exists out,
    get_portfolio_forecast_results sample_service 1 None forecast_world = Ok out
    /\ map predicted_generation_mwh (results (db forecast_world))
       = [Decimal.Dec 0 (-3); Decimal.Dec 3721 (-3); Decimal.Dec 9000 (-3);
          Decimal.Dec 4500 (-3)]
    /\ map (fun sf => (sf_site_name sf, map fd_predicted_generation_mwh (sf_forecasts sf)))
         (site_forecasts out)
       = [("Test Solar Site", [0; 0x1.dc49ba5e353f8p+1]%float);
          ("West Ridge Wind", [9; 4.5]%float)]
    /\ portfolio_totals out
       = [{| pt_datetime := Datetime.replace_minute_second_microsecond_0 sample_now;
             total_predicted_mwh := 9;
             total_confidence_lower := 0x1.ccccccccccccdp+2;
             total_confidence_upper := 0x1.599999999999ap+3 |};
          {| pt_datetime :=
               Datetime.replace_minute_second_microsecond_0 sample_now + Datetime.HOUR;
             total_predicted_mwh := 0x1.07126e978d4fep+3;
             total_confidence_lower := 0x1.a4ed916872b02p+2;
             total_confidence_upper := 0x1.3bae147ae147bp+3 |}]
    /\ (forall j, @None Z = Some j -> pf_job_id out = j)
    /\ (exists rows : list Row,
          Permutation rows (result_set (db forecast_world) (pf_job_id out))
          /\ StronglySorted name_then_time rows
          /\ rows <> []
          /\ map sf_site_name (site_forecasts out)
             = first_keys String.eqb (map row_name rows)
          /\ (forall sf, In sf (site_forecasts out) ->
                sf_forecasts sf
                = map entry_of
                    (List.filter (fun r => String.eqb (row_name r) (sf_site_name sf)) rows))
          /\ (forall t, In t (map pt_datetime (portfolio_totals out))
                        <-> In t (map row_datetime rows))
          /\ (forall pt, In pt (portfolio_totals out) ->
                let values :=
                  map entry_of
                    (List.filter (fun r => row_datetime r =? pt_datetime pt) rows) in
                total_predicted_mwh pt = float_sum (map fd_predicted_generation_mwh values)
                /\ total_confidence_lower pt
                   = float_sum (map fd_confidence_interval_lower values)
                /\ total_confidence_upper pt
                   = float_sum (map fd_confidence_interval_upper values)))
    /\ (forall pt, In pt (portfolio_totals out) ->
          let entries := entries_at (pt_datetime pt) (site_forecasts out) in
          total_predicted_mwh pt = float_sum (map fd_predicted_generation_mwh entries)
          /\ total_confidence_lower pt = float_sum (map fd_confidence_interval_lower entries)
          /\ total_confidence_upper pt = float_sum (map fd_confidence_interval_upper entries))
    /\ (forall sf fd, In sf (site_forecasts out) -> In fd (sf_forecasts sf) ->
          exists pt, In pt (portfolio_totals out) /\ pt_datetime pt = fd_datetime fd)
    /\ List.NoDup (map pt_datetime (portfolio_totals out))
    /\ StronglySorted (fun a b => String.compare a b = Lt)
         (map sf_site_name (site_forecasts out))
    /\ (forall sf, In sf (site_forecasts out) ->
          StronglySorted Z.le (map fd_datetime (sf_forecasts sf)))
    /\ StronglySorted Z.le (map pt_datetime (portfolio_totals out)).
Proof.
  assert (Hex : exists out,
             get_portfolio_forecast_results sample_service 1 None forecast_world = Ok out
             /\ map (fun sf => (sf_site_name sf,
                                map fd_predicted_generation_mwh (sf_forecasts sf)))
                  (site_forecasts out)
                = [("Test Solar Site", [0; 0x1.dc49ba5e353f8p+1]%float);
                   ("West Ridge Wind", [9; 4.5]%float)]
             /\ portfolio_totals out
                = [{| pt_datetime := Datetime.replace_minute_second_microsecond_0 sample_now;
                      total_predicted_mwh := 9;
                      total_confidence_lower := 0x1.ccccccccccccdp+2;
                      total_confidence_upper := 0x1.599999999999ap+3 |};
                   {| pt_datetime :=
                        Datetime.replace_minute_second_microsecond_0 sample_now
                        + Datetime.HOUR;
                      total_predicted_mwh := 0x1.07126e978d4fep+3;
                      total_confidence_lower := 0x1.a4ed916872b02p+2;
                      total_confidence_upper := 0x1.3bae147ae147bp+3 |}]).
  { eexists. split; [vm_compute; reflexivity |]. split; vm_compute; reflexivity. }
  destruct Hex as (out & Hout & Hs & Ht).
  exists out. split; [exact Hout |].
  split; [vm_compute; reflexivity |]. split; [exact Hs |]. split; [exact Ht |].
  exact (portfolio_totals_are_sums sample_service 1 None forecast_world out Hout).
Defined.

End ReadSideWitness.

(* ===================================================================== *)
(** * The write side: what it changes and what it leaves                 *)
(* ===================================================================== *)

Section WriteSide.
Context `{Mersenne}.
Import Service.

Lemma appended_refl jid among w : appended jid among w w.
Proof.
  repeat split. exists []. rewrite app_nil_r. split; [reflexivity | constructor].
Qed.

Lemma appended_same_db jid among w w' : db w' = db w -> appended jid among w w'.
Proof.
  intros Hd. unfold appended, same_catalog. rewrite Hd.
  repeat split. exists []. rewrite app_nil_r. split; [reflexivity | constructor].
Qed.

Lemma appended_trans jid among w1 w2 w3 :
  appended jid among w1 w2 -> appended jid among w2 w3 -> appended jid among w1 w3.
Proof.
  intros ([Hs1 Hp1] & Hj1 & a1 & Hr1 & Ha1) ([Hs2 Hp2] & Hj2 & a2 & Hr2 & Ha2).
  repeat split; try congruence.
  exists (a1 ++ a2). split.
  - rewrite Hr2, Hr1, app_assoc. reflexivity.
  - apply Forall_app. split; assumption.
Qed.

Lemma appended_weaken jid among among' w w' :
  (forall s, In s among -> In s among') -> appended jid among w w' -> appended jid among' w w'.
Proof.
  intros Hsub (Hc & Hj & added & Hr & Ha). split; [exact Hc |]. split; [exact Hj |].
  exists added. split; [exact Hr |].
  apply List.Forall_forall. intros x Hx.
  destruct (proj1 (List.Forall_forall _ _) Ha x Hx) as [Hid Hin]. split; [exact Hid |].
  apply in_map_iff in Hin as (s & <- & Hs). apply in_map. apply Hsub. exact Hs.
Qed.

Lemma create_result_appended job site prediction w r w' :
  ForecastResult_objects_create job site prediction w = (r, w') ->
  appended (job_id job) [site] w w'.
Proof.
  intros Hc.
  destruct (create_result_spec _ _ _ _ _ _ Hc)
    as (_ & [(e & _ & Hd) | (row & _ & Hd & Hj & Hs & _)]).
  - apply appended_same_db. exact Hd.
  - unfold appended, same_catalog. rewrite Hd. cbn [sites portfolios jobs results].
    split; [split; reflexivity |]. split; [reflexivity |].
    exists [row]. split; [reflexivity |].
    constructor; [| constructor]. split; [exact Hj | left; symmetry; exact Hs].
Qed.

Lemma forecast_site_appended job h site w r w' :
  forecast_site job h site w = (r, w') -> appended (job_id job) [site] w w'.
Proof.
  unfold forecast_site, bind.
  destruct (registry_predict site h w) as [[predictions | e] w1] eqn:Ep.
  - intros Hloop. apply registry_predict_db in Ep.
    assert (Ha : appended (job_id job) [site] w1 w').
    { eapply (for_each_invariant (appended (job_id job) [site])); [| | | exact Hloop].
      - apply appended_refl.
      - apply appended_trans.
      - intros x w2 r2 w2' Hc. eapply create_result_appended. exact Hc. }
    unfold appended, same_catalog in *. rewrite <- Ep. exact Ha.
  - intros [= <- <-]. apply registry_predict_db in Ep.
    apply appended_same_db. exact Ep.
Qed.

Lemma forecast_sites_appended job h sites w r w' :
  forecast_sites job h sites w = (r, w') -> appended (job_id job) sites w w'.
Proof.
  unfold forecast_sites. revert w r w'.
  induction sites as [| site rest IH]; intros w r w'; simpl.
  - unfold ret. intros [= <- <-]. apply appended_refl.
  - unfold bind. destruct (forecast_site job h site w) as [[[] | e] w1] eqn:Es.
    + intros Hrest. eapply appended_trans.
      * eapply appended_weaken; [| eapply forecast_site_appended; exact Es].
        intros s [<- | []]. left. reflexivity.
      * eapply appended_weaken; [| eapply IH; exact Hrest].
        intros s Hs. right. exact Hs.
    + intros [= <- <-].
      eapply appended_weaken; [| eapply forecast_site_appended; exact Es].
      intros s [<- | []]. left. reflexivity.
Qed.

(** What the [try] block of [_process_forecast_job] does to the other
    tables: nothing to sites and portfolios; the results grow by rows of
    this job when the block succeeds, and are as before when it raises. *)
Lemma process_try_frame job h w r w1 :
  process_try job h w = (r, w1) ->
  same_catalog w w1
  /\ match r with
     | Ok _ =>
         exists portfolio added,
           Portfolio_objects_get (db w) (job_portfolio_id job) = Ok portfolio
           /\ results (db w1) = results (db w) ++ added
           /\ Forall (fun x => result_job_id x = job_id job
                               /\ In (result_site_id x)
                                    (map Engine.site_id (portfolio_sites_all (db w) portfolio)))
                     added
     | Raise _ => results (db w1) = results (db w)
     end.
Proof.
  unfold process_try, bind.
  destruct (save (mark_running job) [f_status] w) as [[[] | e] w0] eqn:Es.
  2:{ unfold save in Es. destruct (existsb _ _); [discriminate |].
      injection Es as <- <-. intros [= <- <-]. repeat split. }
  destruct (save_ok_inv _ _ _ _ Es) as [_ ->].
  cbn [db set_db sites portfolios results].
  change (job_portfolio_id (mark_running job)) with (job_portfolio_id job).
  change (Portfolio_objects_get _ (job_portfolio_id job))
    with (Portfolio_objects_get (db w) (job_portfolio_id job)).
  destruct (Portfolio_objects_get (db w) (job_portfolio_id job)) as [portfolio | e] eqn:Ep.
  2:{ intros [= <- <-]. repeat split. }
  change (portfolio_sites_all _ portfolio) with (portfolio_sites_all (db w) portfolio).
  destruct (portfolio_sites_all (db w) portfolio) as [| s0 rest] eqn:Esites.
  { unfold raise. intros [= <- <-]. repeat split. }
  unfold atomic, bind.
  match goal with
  | |- context [forecast_sites ?j ?hh ?ss ?ww] =>
      destruct (forecast_sites j hh ss ww) as [[[] | e] w2] eqn:El;
      pose proof (forecast_sites_appended _ _ _ _ _ _ El) as Ha
  end.
  - rewrite timezone_now_spec.
    destruct Ha as ([Hs Hp] & Hj & added & Hr & Ha).
    cbn [db set_db sites portfolios results jobs] in Hs, Hp, Hr, Hj.
    match goal with
    | |- context [save ?j ?f ?ww] => destruct (save j f ww) as [[[] | e] w3] eqn:Es2
    end.
    + destruct (save_ok_inv _ _ _ _ Es2) as [_ ->]. unfold ret. intros [= <- <-].
      cbn [db set_db sites portfolios results].
      split; [split; assumption |].
      exists portfolio, added. split; [reflexivity |]. split; [exact Hr |].
      rewrite ?Esites. exact Ha.
    + unfold save in Es2. destruct (existsb _ _); [discriminate |].
      injection Es2 as <- <-. intros [= <- <-].
      cbn [db set_db sites portfolios results]. repeat split.
  - intros [= <- <-]. cbn [db set_db sites portfolios results]. repeat split.
Qed.

(** The same for [_process_forecast_job] as a whole. *)
Lemma process_frame self job h w r job' w' :
  _process_forecast_job self job h w = (r, job', w') ->
  same_catalog w w'
  /\ match r with
     | Ok _ =>
         exists portfolio added,
           Portfolio_objects_get (db w) (job_portfolio_id job) = Ok portfolio
           /\ results (db w') = results (db w) ++ added
           /\ Forall (fun x => result_job_id x = job_id job
                               /\ In (result_site_id x)
                                    (map Engine.site_id (portfolio_sites_all (db w) portfolio)))
                     added
     | Raise _ => results (db w') = results (db w)
     end.
Proof.
  unfold _process_forecast_job.
  destruct (process_try job h w) as [[job1 | e] w1] eqn:Et;
    pose proof (process_try_frame _ _ _ _ _ Et) as [[Hs Hp] Hr].
  - intros [= <- <- <-]. split; [split; assumption | exact Hr].
  - unfold bind. rewrite timezone_now_spec.
    match goal with
    | |- context [save ?j ?f ?ww] => destruct (save j f ww) as [[[] | e'] w3] eqn:Es2
    end.
    + destruct (save_ok_inv _ _ _ _ Es2) as [_ ->]. intros [= <- <- <-].
      cbn [db set_db sites portfolios results]. repeat split; assumption.
    + unfold save in Es2. destruct (existsb _ _); [discriminate |].
      injection Es2 as <- <-. intros [= <- <- <-].
      cbn [db sites portfolios results]. repeat split; assumption.
Qed.

End WriteSide.

Section TriggerFacts.
Context `{Mersenne}.
Import Service.

Lemma find_some_true {A} (p : A -> bool) (l : list A) x : find p l = Some x -> p x = true.
Proof. intros Hf. apply find_some in Hf. tauto. Qed.

Lemma Portfolio_objects_get_id d pid portfolio :
  Portfolio_objects_get d pid = Ok portfolio -> portfolio_id portfolio = pid.
Proof.
  unfold Portfolio_objects_get. destruct (find _ _) as [p |] eqn:Ef; [| discriminate].
  intros [= <-]. apply find_some_true in Ef. lia.
Qed.

Lemma finish_fresh jid st t msg (l : list ForecastJob) :
  existsb (fun row => job_id row =? jid) l = false -> map (finish jid st t msg) l = l.
Proof.
  induction l as [| x l IH]; simpl; [reflexivity |].
  intros Hex. apply orb_false_iff in Hex as [Hx Hl].
  unfold finish at 1. rewrite Hx, (IH Hl). reflexivity.
Qed.

Lemma find_fresh_app jid (l : list ForecastJob) row :
  existsb (fun r => job_id r =? jid) l = false -> job_id row = jid ->
  find (fun j => job_id j =? jid) (l ++ [row]) = Some row.
Proof.
  induction l as [| x l IH]; simpl.
  - intros _ ->. rewrite Z.eqb_refl. reflexivity.
  - intros Hex Hid. apply orb_false_iff in Hex as [Hx Hl]. rewrite Hx. apply IH; assumption.
Qed.

Lemma has_row_created portfolio hz w :
  has_row (uuid4 (db w)) (created_world portfolio hz w) = true.
Proof.
  unfold has_row, created_world. cbn [db jobs].
  rewrite existsb_app. cbn [existsb new_job job_id]. rewrite Z.eqb_refl.
  rewrite orb_true_r. reflexivity.
Qed.

(** Past its checks, the trigger is the creation of the row followed by
    the processing of the job; an error of the processing is wrapped. *)
Lemma trigger_unfold self pid fh w portfolio :
  Portfolio_objects_get (db w) pid = Ok portfolio ->
  portfolio_sites_all (db w) portfolio <> [] ->
  horizon_in_column (horizon_or_default self fh) ->
  let hz := horizon_or_default self fh in
  exists r job' w',
    _process_forecast_job self (new_job portfolio hz w) hz (created_world portfolio hz w)
    = (r, job', w')
    /\ process_outcome (new_job portfolio hz w) hz (created_world portfolio hz w) r job' w'
    /\ trigger_portfolio_forecast self pid fh w
       = match r with
         | Ok _ => (Ok job', w')
         | Raise e =>
             (Raise (ForecastServiceError ("Failed to trigger forecast: " +:+ str_exn e)), w')
         end.
Proof.
  intros Hget Hsites Hdefault hz.
  assert (Hc : (get_site_count (db w) portfolio =? 0)%nat = false).
  { unfold get_site_count. destruct (portfolio_sites_all (db w) portfolio);
      [contradiction | reflexivity]. }
  pose proof (process_forecast_job_outcome self (new_job portfolio hz w) hz
                (created_world portfolio hz w)) as Hout.
  unfold trigger_portfolio_forecast, try_except, bind, _get_portfolio_with_sites.
  fold (horizon_or_default self fh). fold hz.
  rewrite Hget, Hc.
  unfold atomic, ForecastJob_objects_create, bind. rewrite timezone_now_spec.
  rewrite (PositiveIntegerField_write_ok _ hz Hdefault). cbn [db].
  fold (new_job portfolio hz w).
  change (set_db _ _) with (created_world portfolio hz w).
  destruct (_process_forecast_job self (new_job portfolio hz w) hz
              (created_world portfolio hz w)) as [[r job'] w'] eqn:Ep.
  exists r, job', w'. split; [reflexivity |]. split; [exact Hout |].
  inversion Hout; subst; reflexivity.
Qed.

Lemma horizon_in_column_dec (horizon : Z) :
  {horizon_in_column horizon} + {~ horizon_in_column horizon}.
Proof.
  unfold horizon_in_column.
  destruct (Z_le_gt_dec 0 horizon); [| right; lia].
  destruct (Z_lt_ge_dec horizon (2 ^ 63)); [left | right]; lia.
Qed.

(** With a horizon the column refuses, the trigger ends at the creation
    of the row: nothing is written. *)
Lemma trigger_refused self pid fh w portfolio :
  Portfolio_objects_get (db w) pid = Ok portfolio ->
  portfolio_sites_all (db w) portfolio <> [] ->
  ~ horizon_in_column (horizon_or_default self fh) ->
  exists w',
    trigger_portfolio_forecast self pid fh w
    = (Raise (ForecastServiceError
                ("Failed to trigger forecast: "
                 +:+ refusal_message (horizon_or_default self fh))), w')
    /\ db w' = db w /\ model_registry w' = model_registry w.
Proof.
  intros Hget Hsites Hno.
  assert (Hc : (get_site_count (db w) portfolio =? 0)%nat = false).
  { unfold get_site_count. destruct (portfolio_sites_all (db w) portfolio);
      [contradiction | reflexivity]. }
  unfold trigger_portfolio_forecast, try_except, bind, _get_portfolio_with_sites.
  fold (horizon_or_default self fh).
  rewrite Hget, Hc.
  unfold atomic, ForecastJob_objects_create, bind. rewrite timezone_now_spec.
  rewrite (PositiveIntegerField_write_refused _ _ Hno). unfold refusal_message.
  destruct ((_ <? _) || (_ <=? _)); cbv beta iota; unfold raise;
    eexists; (split; [reflexivity | split; reflexivity]).
Qed.

(** X1.  A trigger for a portfolio that does not exist, or that has no
    site, raises the matching error of the service and leaves the world
    as it was: no row is written and the clock is not read. *)
Theorem trigger_rejects_missing_or_empty_portfolio self pid fh w :
  (find (fun p => portfolio_id p =? pid) (portfolios (db w)) = None ->
   trigger_portfolio_forecast self pid fh w
   = (Raise (PortfolioNotFoundError ("Portfolio with ID " +:+ pretty pid +:+ " not found")),
      w))
  /\ (forall portfolio,
        Portfolio_objects_get (db w) pid = Ok portfolio ->
        portfolio_sites_all (db w) portfolio = [] ->
        trigger_portfolio_forecast self pid fh w
        = (Raise (EmptyPortfolioError
                    ("Portfolio '" +:+ portfolio_name portfolio +:+ "' (ID: "
                     +:+ pretty pid +:+ ") has no sites")), w)).
Proof.
  split.
  - intros Hf.
    unfold trigger_portfolio_forecast, try_except, bind, _get_portfolio_with_sites,
      Portfolio_objects_get.
    rewrite Hf. reflexivity.
  - intros portfolio Hget Hs.
    unfold trigger_portfolio_forecast, try_except, bind, _get_portfolio_with_sites.
    rewrite Hget. unfold get_site_count. rewrite Hs. reflexivity.
Qed.

(** X2.  The job a trigger returns is the completed job: it is new, of the
    portfolio asked for, carries the horizon given (the default for none
    or 0), has its completion time and no error message, and the table
    holds exactly this job under its identifier. *)
Theorem trigger_returns_completed_job self pid fh w job w' :
  trigger_portfolio_forecast self pid fh w = (Ok job, w') ->
  status job = completed
  /\ (exists t, completed_at job = Some t)
  /\ error_message job = ""
  /\ job_portfolio_id job = pid
  /\ forecast_horizon job = horizon_or_default self fh
  /\ 0 <= forecast_horizon job
  /\ created_at job = clock w (ticks w)
  /\ has_row (job_id job) w = false
  /\ ForecastJob_objects_get (db w') (job_id job) = Ok job.
Proof.
  intros Ht.
  destruct (Portfolio_objects_get (db w) pid) as [portfolio | e] eqn:Hget.
  2:{ exfalso. revert Ht.
      unfold trigger_portfolio_forecast, try_except, bind, _get_portfolio_with_sites.
      rewrite Hget. destruct e; discriminate. }
  destruct (portfolio_sites_all (db w) portfolio) as [| s0 rest] eqn:Hs.
  { exfalso. revert Ht.
    unfold trigger_portfolio_forecast, try_except, bind, _get_portfolio_with_sites.
    rewrite Hget. unfold get_site_count. rewrite Hs. discriminate. }
  assert (Hne : portfolio_sites_all (db w) portfolio <> []) by (rewrite Hs; discriminate).
  destruct (horizon_in_column_dec (horizon_or_default self fh)) as [Hpos | Hneg].
  2:{ exfalso. destruct (trigger_refused self pid fh w portfolio Hget Hne Hneg)
        as (w1 & Htr & _).
      rewrite Htr in Ht. discriminate. }
  destruct (trigger_unfold self pid fh w portfolio Hget Hne Hpos)
    as (r & job' & w1 & Hp & Hout & Htr).
  rewrite Htr in Ht.
  inversion Hout as [t m m' w0 Hno Hdb | t w0 Hyes Hj | e w2 w0 Hyes Hte Hj Hres];
    subst; try discriminate.
  injection Ht as <- <-.
  cbn [with_state new_job status completed_at error_message job_portfolio_id
       forecast_horizon created_at job_id].
  repeat split.
  - eexists. reflexivity.
  - eapply Portfolio_objects_get_id. exact Hget.
  - exact (proj1 Hpos).
  - apply uuid4_fresh.
  - unfold ForecastJob_objects_get. rewrite Hj. cbn [created_world db jobs new_job job_id].
    rewrite find_finish.
    rewrite (find_fresh_app (uuid4 (db w)) (jobs (db w))
               (new_job portfolio (horizon_or_default self fh) w)
               (uuid4_fresh (db w)) eq_refl).
    unfold finish, new_job. cbn [option_map job_id]. rewrite Z.eqb_refl. reflexivity.
Qed.

(** X3.  A trigger that fails past its checks of the portfolio (which
    exists and has sites) fails in one of two ways.  When the horizon is
    one the column of [forecast_horizon] takes, it is the processing that
    failed: the caller gets a [ForecastServiceError] whose message wraps
    the message [msg] of the failure twice; the job stays in the table,
    failed, with [msg] and its completion time; and no result is kept.
    When the column refuses the horizon (a negative one, or one of more
    than 64 bits), the caller gets a [ForecastServiceError] that wraps the
    database's message, and no row at all is written. *)
Theorem trigger_failure_keeps_failed_job self pid fh w portfolio e w' :
  Portfolio_objects_get (db w) pid = Ok portfolio ->
  portfolio_sites_all (db w) portfolio <> [] ->
  trigger_portfolio_forecast self pid fh w = (Raise e, w') ->
  (horizon_in_column (horizon_or_default self fh) ->
   exists msg t row,
     e = ForecastServiceError
           ("Failed to trigger forecast: " +:+ ("Forecast processing failed: " +:+ msg))
     /\ ForecastJob_objects_get (db w') (uuid4 (db w)) = Ok row
     /\ status row = failed
     /\ completed_at row = Some t
     /\ error_message row = msg
     /\ forecast_horizon row = horizon_or_default self fh
     /\ results (db w') = results (db w))
  /\ (~ horizon_in_column (horizon_or_default self fh) ->
      e = ForecastServiceError
            ("Failed to trigger forecast: "
             +:+ (if (horizon_or_default self fh <? - 2 ^ 63)
                     || (2 ^ 63 <=? horizon_or_default self fh)
                  then "Python int too large to convert to SQLite INTEGER"
                  else "CHECK constraint failed: forecast_horizon"))
      /\ db w' = db w).
Proof.
  intros Hget Hne Ht. split.
  - intros Hpos.
    destruct (trigger_unfold self pid fh w portfolio Hget Hne Hpos)
      as (r & job' & w1 & Hp & Hout & Htr).
    rewrite Htr in Ht.
    inversion Hout as [t m m' w0 Hno Hdb | t w0 Hyes Hj | e0 w2 w0 Hyes Hte Hj Hres];
      subst; try discriminate.
    + cbn [new_job job_id] in Hno. rewrite has_row_created in Hno. discriminate.
    + injection Ht as <- <-.
      exists (str_exn e0), (clock w2 (ticks w2)).
      eexists. split; [reflexivity |].
      split.
      { unfold ForecastJob_objects_get. rewrite Hj.
        cbn [created_world db jobs new_job job_id].
        rewrite find_finish.
        rewrite (find_fresh_app (uuid4 (db w)) (jobs (db w))
                 (new_job portfolio (horizon_or_default self fh) w)
                 (uuid4_fresh (db w)) eq_refl).
        unfold finish, new_job. cbn [option_map job_id]. rewrite Z.eqb_refl. reflexivity. }
      cbn [status completed_at error_message forecast_horizon default].
      repeat split. exact Hres.
  - intros Hno.
    destruct (trigger_refused self pid fh w portfolio Hget Hne Hno) as (w1 & Htr & Hdb & _).
    rewrite Htr in Ht. injection Ht as <- <-. split; [reflexivity | exact Hdb].
Qed.

Lemma trigger_appends self pid fh w r w' :
  trigger_portfolio_forecast self pid fh w = (r, w') ->
  same_catalog w w'
  /\ exists new_rows added,
       jobs (db w') = jobs (db w) ++ new_rows
       /\ (length new_rows <= 1)%nat
       /\ Forall (fun row => job_id row = uuid4 (db w)) new_rows
       /\ results (db w') = results (db w) ++ added
       /\ Forall (fun x => result_job_id x = uuid4 (db w)) added.
Proof.
  intros Ht.
  assert (Hsame : db w' = db w ->
            same_catalog w w'
            /\ exists new_rows added,
                 jobs (db w') = jobs (db w) ++ new_rows
                 /\ (length new_rows <= 1)%nat
                 /\ Forall (fun row => job_id row = uuid4 (db w)) new_rows
                 /\ results (db w') = results (db w) ++ added
                 /\ Forall (fun x => result_job_id x = uuid4 (db w)) added).
  { intros Hd. unfold same_catalog. rewrite Hd. split; [split; reflexivity |].
    exists [], []. rewrite !app_nil_r.
    repeat split; solve [constructor | simpl; lia]. }
  destruct (Portfolio_objects_get (db w) pid) as [portfolio | e] eqn:Hget.
  2:{ apply Hsame. revert Ht.
      unfold trigger_portfolio_forecast, try_except, bind, _get_portfolio_with_sites.
      rewrite Hget. destruct e; intros [= <- <-]; reflexivity. }
  destruct (portfolio_sites_all (db w) portfolio) as [| s0 rest] eqn:Hs.
  { apply Hsame. revert Ht.
    unfold trigger_portfolio_forecast, try_except, bind, _get_portfolio_with_sites.
    rewrite Hget. unfold get_site_count. rewrite Hs. intros [= <- <-]. reflexivity. }
  assert (Hne : portfolio_sites_all (db w) portfolio <> []) by (rewrite Hs; discriminate).
  destruct (horizon_in_column_dec (horizon_or_default self fh)) as [Hpos | Hneg].
  2:{ apply Hsame.
      destruct (trigger_refused self pid fh w portfolio Hget Hne Hneg) as (w1 & Htr & Hdb & _).
      rewrite Htr in Ht. injection Ht as _ <-. exact Hdb. }
  destruct (trigger_unfold self pid fh w portfolio Hget Hne Hpos)
    as (r1 & job' & w1 & Hp & Hout & Htr).
  rewrite Htr in Ht.
  assert (Hw : w' = w1) by (destruct r1; congruence). subst w1.
  pose proof (process_frame _ _ _ _ _ _ _ Hp) as [[Hsi Hpo] Hres].
  cbn [created_world db sites portfolios results new_job job_id job_portfolio_id] in Hsi, Hpo, Hres.
  split; [split; assumption |].
  assert (Hjobs : exists row, jobs (db w') = jobs (db w) ++ [row]
                              /\ job_id row = uuid4 (db w)).
  { inversion Hout as [t m m' w0 Hno Hdb | t w0 Hyes Hj | e0 w2 w0 Hyes Hte Hj Hr0]; subst.
    - rewrite Hdb. eexists. split; reflexivity.
    - rewrite Hj. cbn [created_world db jobs new_job job_id].
      rewrite map_app, (finish_fresh _ _ _ _ _ (uuid4_fresh (db w))).
      eexists. split; [reflexivity |].
      unfold finish. cbn [map job_id]. rewrite Z.eqb_refl. reflexivity.
    - rewrite Hj. cbn [created_world db jobs new_job job_id].
      rewrite map_app, (finish_fresh _ _ _ _ _ (uuid4_fresh (db w))).
      eexists. split; [reflexivity |].
      unfold finish. cbn [map job_id]. rewrite Z.eqb_refl. reflexivity. }
  destruct Hjobs as (row & Hj & Hid).
  exists [row].
  destruct r1 as [[] | e1].
  - destruct Hres as (p1 & added & _ & Hr & Ha).
    exists added. split; [exact Hj |]. split; [simpl; lia |].
    split; [constructor; [exact Hid | constructor] |]. split; [exact Hr |].
    apply List.Forall_forall. intros x Hx.
    exact (proj1 (proj1 (List.Forall_forall _ _) Ha x Hx)).
  - exists []. rewrite app_nil_r. split; [exact Hj |]. split; [simpl; lia |].
    split; [constructor; [exact Hid | constructor] |]. split; [exact Hres | constructor].
Qed.

(** X4.  Whatever its outcome, a trigger changes no site, no portfolio, no
    existing job row and no existing result: the table of jobs grows by at
    most one row, that of the new identifier, and the table of results by
    rows of that job only. *)
Theorem trigger_only_appends self pid fh w :
  let w' := snd (trigger_portfolio_forecast self pid fh w) in
  same_catalog w w'
  /\ exists new_rows added,
       jobs (db w') = jobs (db w) ++ new_rows
       /\ (length new_rows <= 1)%nat
       /\ Forall (fun row => job_id row = uuid4 (db w)) new_rows
       /\ results (db w') = results (db w) ++ added
       /\ Forall (fun x => result_job_id x = uuid4 (db w)) added.
Proof.
  intros w'. apply (trigger_appends self pid fh w
                      (fst (trigger_portfolio_forecast self pid fh w))).
  apply surjective_pairing.
Qed.

End TriggerFacts.

Section CancelAndCleanup.
Context `{Mersenne}.
Import Service.

Lemma ForecastJob_objects_get_id d jid job :
  ForecastJob_objects_get d jid = Ok job -> job_id job = jid.
Proof.
  unfold ForecastJob_objects_get. destruct (find _ _) as [j |] eqn:Ef; [| discriminate].
  intros [= <-]. apply find_some_true in Ef. lia.
Qed.

Lemma ForecastJob_objects_get_row d jid job :
  ForecastJob_objects_get d jid = Ok job ->
  existsb (fun row => job_id row =? jid) (jobs d) = true.
Proof.
  unfold ForecastJob_objects_get. destruct (find _ _) as [j |] eqn:Ef; [| discriminate].
  intros _. apply find_some in Ef as [Hin Hid].
  apply existsb_exists. exists j. split; assumption.
Qed.

(** The rows a cancellation writes. *)
Lemma cancel_rows job jid t (l : list ForecastJob) :
  job_id job = jid ->
  map (fun row => if job_id row =? job_id (with_state job failed (Some t) "Job cancelled by user")
                  then update_fields [f_status; f_completed_at; f_error_message]
                         (with_state job failed (Some t) "Job cancelled by user") row
                  else row) l
  = map (finish jid failed t (Some "Job cancelled by user")) l.
Proof.
  intros <-. apply map_ext. intros row. unfold finish.
  change (job_id (with_state job failed (Some t) "Job cancelled by user")) with (job_id job).
  destruct (job_id row =? job_id job); reflexivity.
Qed.

Lemma cancel_live self jid w job :
  ForecastJob_objects_get (db w) jid = Ok job ->
  status job = pending \/ status job = running ->
  cancel_forecast_job self jid w
  = (Ok true,
     set_db {| sites := sites (db w); portfolios := portfolios (db w);
               jobs := map (finish jid failed (clock w (ticks w))
                              (Some "Job cancelled by user")) (jobs (db w));
               results := results (db w) |}
            {| db := db w; model_registry := model_registry w; clock := clock w;
               ticks := S (ticks w) |}).
Proof.
  intros Hget Hst.
  pose proof (ForecastJob_objects_get_id _ _ _ Hget) as Hid.
  pose proof (ForecastJob_objects_get_row _ _ _ Hget) as Hrow.
  unfold cancel_forecast_job, try_except, bind. rewrite Hget.
  assert (Hlive : (bind timezone_now (fun now =>
                     bind (save (with_state job failed (Some now) "Job cancelled by user")
                             [f_status; f_completed_at; f_error_message])
                          (fun _ => ret true))) w
                  = (Ok true,
                     set_db {| sites := sites (db w); portfolios := portfolios (db w);
                               jobs := map (finish jid failed (clock w (ticks w))
                                              (Some "Job cancelled by user")) (jobs (db w));
                               results := results (db w) |}
                            {| db := db w; model_registry := model_registry w;
                               clock := clock w; ticks := S (ticks w) |})).
  { unfold bind. rewrite timezone_now_spec.
    rewrite save_present.
    2:{ unfold has_row. cbn [db].
        change (job_id (with_state job failed _ _)) with (job_id job).
        rewrite Hid. exact Hrow. }
    cbn [db]. rewrite (cancel_rows job jid _ _ Hid). reflexivity. }
  unfold bind in Hlive.
  destruct Hst as [-> | ->]; rewrite Hlive; reflexivity.
Qed.

Lemma cancel_finished self jid w job :
  ForecastJob_objects_get (db w) jid = Ok job ->
  status job = completed \/ status job = failed ->
  cancel_forecast_job self jid w = (Ok false, w).
Proof.
  intros Hget Hst. unfold cancel_forecast_job, try_except, bind. rewrite Hget.
  destruct Hst as [-> | ->]; reflexivity.
Qed.

Lemma get_finished_row d jid st t msg job :
  ForecastJob_objects_get d jid = Ok job ->
  ForecastJob_objects_get
    {| sites := sites d; portfolios := portfolios d;
       jobs := map (finish jid st t msg) (jobs d); results := results d |} jid
  = Ok (finish jid st t msg job).
Proof.
  unfold ForecastJob_objects_get. cbn [jobs]. rewrite find_finish.
  destruct (find _ (jobs d)); [| discriminate].
  intros [= ->]. reflexivity.
Qed.

(** X5.  Cancelling a pending or running job returns [True] and marks
    every row of that identifier failed, with the reading of the clock as
    completion time and the message 'Job cancelled by user'; no other row,
    no result, no site and no portfolio changes. *)
Theorem cancel_marks_job_failed self jid w job :
  ForecastJob_objects_get (db w) jid = Ok job ->
  status job = pending \/ status job = running ->
  exists w' row,
    cancel_forecast_job self jid w = (Ok true, w')
    /\ jobs (db w')
       = map (finish jid failed (clock w (ticks w)) (Some "Job cancelled by user"))
             (jobs (db w))
    /\ results (db w') = results (db w)
    /\ same_catalog w w'
    /\ ForecastJob_objects_get (db w') jid = Ok row
    /\ status row = failed
    /\ completed_at row = Some (clock w (ticks w))
    /\ error_message row = "Job cancelled by user".
Proof.
  intros Hget Hst. rewrite (cancel_live self jid w job Hget Hst).
  pose proof (ForecastJob_objects_get_id _ _ _ Hget) as Hid.
  eexists. exists (finish jid failed (clock w (ticks w)) (Some "Job cancelled by user") job).
  split; [reflexivity |]. cbn [db set_db jobs results].
  split; [reflexivity |]. split; [reflexivity |]. split; [split; reflexivity |].
  split.
  - apply get_finished_row. exact Hget.
  - unfold finish. rewrite Hid, Z.eqb_refl. repeat split.
Qed.

(** X6.  Cancelling a job that does not exist raises [JobNotFoundError],
    and cancelling a job that is completed or failed returns [False]; in
    both cases the world is left as it was. *)
Theorem cancel_leaves_finished_and_missing_jobs self jid w :
  (find (fun j => job_id j =? jid) (jobs (db w)) = None ->
   cancel_forecast_job self jid w
   = (Raise (JobNotFoundError ("Forecast job with ID " +:+ pretty jid +:+ " not found")), w))
  /\ (forall job,
        ForecastJob_objects_get (db w) jid = Ok job ->
        status job = completed \/ status job = failed ->
        cancel_forecast_job self jid w = (Ok false, w)).
Proof.
  split.
  - intros Hf. unfold cancel_forecast_job, try_except, bind, ForecastJob_objects_get.
    rewrite Hf. reflexivity.
  - intros job Hget Hst. apply (cancel_finished self jid w job Hget Hst).
Qed.

(** X7.  A job can be cancelled once: after a cancellation that returned
    [True], a second one returns [False] and changes nothing. *)
Theorem cancel_twice self jid w w1 :
  cancel_forecast_job self jid w = (Ok true, w1) ->
  cancel_forecast_job self jid w1 = (Ok false, w1).
Proof.
  intros Hc.
  destruct (ForecastJob_objects_get (db w) jid) as [job | e] eqn:Hget.
  2:{ exfalso. revert Hc. unfold cancel_forecast_job, try_except, bind. rewrite Hget.
      destruct e; discriminate. }
  destruct (status job) eqn:Hst.
  3,4: exfalso; revert Hc; unfold cancel_forecast_job, try_except, bind;
       rewrite Hget, Hst; discriminate.
  all: assert (Hlive : status job = pending \/ status job = running) by (rewrite Hst; auto);
       rewrite (cancel_live self jid w job Hget Hlive) in Hc; injection Hc as <-;
       pose proof (ForecastJob_objects_get_id _ _ _ Hget) as Hid;
       eapply cancel_finished;
       [ cbn [db set_db]; apply get_finished_row; exact Hget
       | right; unfold finish; rewrite Hid, Z.eqb_refl; reflexivity ].
Qed.

Lemma filter_partition_length {A} (f : A -> bool) (l : list A) :
  length l = (length (List.filter f l) + length (List.filter (fun x => negb (f x)) l))%nat.
Proof.
  induction l as [| x l IH]; simpl; [reflexivity |].
  destruct (f x); simpl; lia.
Qed.

Lemma cleanup_spec self days_old w :
  cleanup_old_jobs self days_old w
  = let w1 := {| db := db w; model_registry := model_registry w; clock := clock w;
                 ticks := S (ticks w) |} in
    match Datetime.sub_days (clock w (ticks w)) days_old with
    | Raise e => (Raise e, w1)
    | Ok cutoff =>
        (Ok (length (List.filter (is_old cutoff) (jobs (db w)))),
         set_db {| sites := sites (db w); portfolios := portfolios (db w);
                   jobs := List.filter (fun j => negb (is_old cutoff j)) (jobs (db w));
                   results :=
                     List.filter
                       (fun r => negb (existsb (fun j => job_id j =? result_job_id r)
                                         (List.filter (is_old cutoff) (jobs (db w)))))
                       (results (db w)) |} w1)
    end.
Proof.
  unfold cleanup_old_jobs, bind, lift. rewrite timezone_now_spec.
  destruct (Datetime.sub_days (clock w (ticks w)) days_old); reflexivity.
Qed.

(** X8.  When the cutoff, [days_old] days before now, is a date of the
    calendar, [cleanup_old_jobs] returns the number of jobs it deletes; it
    deletes exactly the completed or failed jobs whose completion time is
    before the cutoff, never a pending or running one; it deletes exactly
    the results of the identifiers of deleted jobs; sites and portfolios
    are left alone.  When there is no such date (it would be before the
    year 1 or after the year 9999) the call raises [OverflowError] and
    deletes nothing. *)
Theorem cleanup_deletes_only_old_finished_jobs self days_old w :
  let cutoff := cutoff_date days_old w in
  let w' := snd (cleanup_old_jobs self days_old w) in
  (Datetime.valid (clock w (ticks w)) -> Datetime.valid cutoff ->
   (exists n, fst (cleanup_old_jobs self days_old w) = Ok n
              /\ length (jobs (db w)) = (n + length (jobs (db w')))%nat)
   /\ (forall j, In j (jobs (db w')) <->
                 In j (jobs (db w))
                 /\ ~ (is_complete j = true
                       /\ exists t, completed_at j = Some t /\ t < cutoff))
   /\ (forall j, In j (jobs (db w)) -> status j = pending \/ status j = running ->
                 In j (jobs (db w')))
   /\ (forall x, In x (results (db w')) <->
                 In x (results (db w))
                 /\ forall j, In j (jobs (db w)) -> job_id j = result_job_id x ->
                              In j (jobs (db w')))
   /\ same_catalog w w')
  /\ (~ Datetime.valid cutoff ->
      (exists m, fst (cleanup_old_jobs self days_old w) = Raise (OverflowError m))
      /\ db w' = db w).
Proof.
  intros cutoff w'. subst w'. rewrite cleanup_spec. cbv zeta. split.
  2:{ intros Hno.
      destruct (Datetime.sub_days (clock w (ticks w)) days_old) as [c | e] eqn:Es.
      - exfalso. apply Hno. exact (proj2 (sub_days_inv _ _ _ Es)).
      - destruct (sub_days_raise _ _ _ Es) as [m ->]. cbn [fst snd db].
        split; [exists m; reflexivity | reflexivity]. }
  intros Hnow Hcut. rewrite (sub_days_ok _ _ Hnow Hcut).
  fold (cutoff_date days_old w). fold cutoff.
  cbn [fst snd db set_db jobs results].
  assert (Hold : forall j, is_old cutoff j = true <->
                   is_complete j = true /\ exists t, completed_at j = Some t /\ t < cutoff).
  { intros j. unfold is_old. rewrite andb_true_iff. split.
    - intros [Hc Ht]. split; [exact Hc |]. destruct (completed_at j) as [t |]; [| discriminate].
      exists t. split; [reflexivity | lia].
    - intros [Hc (t & -> & Ht)]. split; [exact Hc | lia]. }
  assert (Hkeep : forall j, In j (List.filter (fun j => negb (is_old cutoff j)) (jobs (db w)))
                    <-> In j (jobs (db w))
                        /\ ~ (is_complete j = true
                              /\ exists t, completed_at j = Some t /\ t < cutoff)).
  { intros j. rewrite filter_In, <- Hold. rewrite negb_true_iff.
    destruct (is_old cutoff j); intuition congruence. }
  split; [| split; [| split; [| split]]].
  - eexists. split; [reflexivity |]. apply filter_partition_length.
  - exact Hkeep.
  - intros j Hin Hst. apply Hkeep. split; [exact Hin |].
    intros [Hc _]. unfold is_complete in Hc. destruct Hst as [Hs | Hs]; rewrite Hs in Hc;
      discriminate.
  - intros x. rewrite filter_In, negb_true_iff. split.
    + intros [Hin Hex]. split; [exact Hin |]. intros j Hj Hid.
      apply filter_In. split; [exact Hj |]. apply negb_true_iff.
      destruct (is_old cutoff j) eqn:Eo; [| reflexivity].
      exfalso. apply not_true_iff_false in Hex. apply Hex.
      apply existsb_exists. exists j. split; [| lia].
      apply filter_In. split; assumption.
    + intros [Hin Hall]. split; [exact Hin |].
      apply not_true_iff_false. intros Hex.
      apply existsb_exists in Hex as (j & Hj & Hid).
      apply filter_In in Hj as [Hj Ho].
      assert (Hk : In j (List.filter (fun j => negb (is_old cutoff j)) (jobs (db w)))).
      { apply Hall; [exact Hj | lia]. }
      apply filter_In in Hk as [_ Hk]. rewrite Ho in Hk. discriminate.
  - split; reflexivity.
Qed.

End CancelAndCleanup.

Section ProcessingFacts.
Context `{Mersenne}.
Import Service.

(** X9.  When [_process_forecast_job] succeeds, the table of results has
    grown, at its end, by rows of this job and of sites of its portfolio;
    no result that was there is changed or removed, sites and portfolios
    are as before, and the job (object and rows) is completed with its
    completion time. *)
Theorem process_success_appends_results self job h w job' w' :
  _process_forecast_job self job h w = (Ok tt, job', w') ->
  exists portfolio added t,
    Portfolio_objects_get (db w) (job_portfolio_id job) = Ok portfolio
    /\ results (db w') = results (db w) ++ added
    /\ Forall (fun x => result_job_id x = job_id job
                        /\ In (result_site_id x)
                             (map Engine.site_id (portfolio_sites_all (db w) portfolio)))
              added
    /\ same_catalog w w'
    /\ jobs (db w') = map (finish (job_id job) completed t None) (jobs (db w))
    /\ job' = with_state job completed (Some t) (error_message job).
Proof.
  intros Hp.
  pose proof (process_frame _ _ _ _ _ _ _ Hp) as [Hcat (portfolio & added & Hget & Hr & Ha)].
  pose proof (process_forecast_job_outcome self job h w) as Hout. rewrite Hp in Hout.
  inversion Hout as [| t w0 Hyes Hj |]; subst.
  exists portfolio, added, t. repeat split; try assumption; apply Hcat.
Qed.

(** ** Counting the results *)

Lemma store_model_random reg t m :
  random_registry reg -> random_registry (Engine.store_model reg t (Engine.RandomModel m)).
Proof.
  intros Hr u. unfold Engine.store_model, Engine.get_model.
  destruct (Engine._models reg !! PyStr.lower t) eqn:Et; cbn [Engine._models Engine._default_model].
  - destruct (decide (PyStr.lower t = PyStr.lower u)) as [<- | Hne].
    + rewrite lookup_insert_eq. eexists. reflexivity.
    + rewrite lookup_insert_ne by exact Hne. apply Hr.
  - destruct (Hr u) as [m0 Hm0]. unfold Engine.get_model in Hm0.
    destruct (Engine._models reg !! PyStr.lower u); simpl in *; eexists; [exact Hm0 | reflexivity].
Qed.

Lemma registry_predict_random site h w r w' :
  random_registry (model_registry w) ->
  registry_predict site h w = (r, w') ->
  random_registry (model_registry w')
  /\ db w' = db w
  /\ forall pts, r = Ok pts -> 0 < h /\ length pts = Z.to_nat h.
Proof.
  intros Hr. unfold registry_predict, bind. rewrite timezone_now_spec.
  cbn [model_registry db].
  destruct (Hr (Engine.site_type site)) as [m Hm]. rewrite Hm.
  unfold Engine.model_predict.
  destruct (Engine.predict m (Some site) h (clock w (ticks w))) as [r0 m'] eqn:Ep.
  intros [= <- <-]. cbn [model_registry db set_model_registry].
  split; [apply store_model_random; exact Hr |]. split; [reflexivity |].
  intros pts ->.
  destruct (predict_returns _ _ _ _ _ _ Ep) as (s & _ & Hpos & Hlen & _).
  split; assumption.
Qed.

Lemma create_results_count job site pts : forall w w',
  for_each pts (fun prediction => ForecastResult_objects_create job site prediction) w
  = (Ok tt, w') ->
  length (results (db w')) = (length (results (db w)) + length pts)%nat
  /\ model_registry w' = model_registry w.
Proof.
  induction pts as [| p pts IH]; intros w w'; simpl.
  - unfold ret. intros [= <-]. split; [lia | reflexivity].
  - unfold bind.
    destruct (ForecastResult_objects_create job site p w) as [[[] | e] w1] eqn:Ec;
      [| discriminate].
    intros Hrest. destruct (IH _ _ Hrest) as [Hl Hm].
    destruct (create_result_spec _ _ _ _ _ _ Ec)
      as (Hreg & [(e & He & _) | (row & _ & Hd & _)]); [discriminate |].
    rewrite Hd in Hl. cbn [results] in Hl.
    rewrite length_app in Hl. simpl in Hl. split; [lia | congruence].
Qed.

Lemma forecast_site_count job h site w w' :
  random_registry (model_registry w) ->
  forecast_site job h site w = (Ok tt, w') ->
  0 < h
  /\ random_registry (model_registry w')
  /\ length (results (db w')) = (length (results (db w)) + Z.to_nat h)%nat.
Proof.
  intros Hr. unfold forecast_site, bind.
  destruct (registry_predict site h w) as [[pts | e] w1] eqn:Ep; [| discriminate].
  destruct (registry_predict_random _ _ _ _ _ Hr Ep) as (Hr1 & Hd & Hlen).
  destruct (Hlen pts eq_refl) as [Hpos Hl].
  intros Hloop. destruct (create_results_count _ _ _ _ _ Hloop) as [Hc Hm].
  rewrite Hd, Hl in Hc. rewrite Hm. repeat split; assumption.
Qed.

Lemma forecast_sites_count job h sites : forall w w',
  random_registry (model_registry w) ->
  forecast_sites job h sites w = (Ok tt, w') ->
  (sites <> [] -> 0 < h)
  /\ length (results (db w'))
     = (length (results (db w)) + length sites * Z.to_nat h)%nat.
Proof.
  unfold forecast_sites.
  induction sites as [| site rest IH]; intros w w' Hr; simpl.
  - unfold ret. intros [= <-]. split; [congruence | lia].
  - unfold bind. destruct (forecast_site job h site w) as [[[] | e] w1] eqn:Es;
      [| discriminate].
    destruct (forecast_site_count _ _ _ _ _ Hr Es) as (Hpos & Hr1 & Hl).
    intros Hrest. destruct (IH _ _ Hr1 Hrest) as [_ Hl2].
    split; [intros _; exact Hpos | lia].
Qed.

Lemma process_count self job h w job' w' :
  random_registry (model_registry w) ->
  _process_forecast_job self job h w = (Ok tt, job', w') ->
  exists portfolio,
    Portfolio_objects_get (db w) (job_portfolio_id job) = Ok portfolio
    /\ 0 < h
    /\ length (results (db w'))
       = (length (results (db w))
          + length (portfolio_sites_all (db w) portfolio) * Z.to_nat h)%nat.
Proof.
  intros Hr. unfold _process_forecast_job.
  destruct (process_try job h w) as [[job1 | e] w1] eqn:Et.
  2:{ destruct (bind timezone_now _ w1) as [[[] | e'] w2]; discriminate. }
  intros [= <- <-]. revert Et. unfold process_try, bind.
  destruct (save (mark_running job) [f_status] w) as [[[] | e] w0] eqn:Es; [| discriminate].
  destruct (save_ok_inv _ _ _ _ Es) as [_ ->].
  cbn [db set_db sites portfolios results].
  change (job_portfolio_id (mark_running job)) with (job_portfolio_id job).
  change (Portfolio_objects_get _ (job_portfolio_id job))
    with (Portfolio_objects_get (db w) (job_portfolio_id job)).
  destruct (Portfolio_objects_get (db w) (job_portfolio_id job)) as [portfolio | e] eqn:Ep;
    [| discriminate].
  change (portfolio_sites_all _ portfolio) with (portfolio_sites_all (db w) portfolio).
  destruct (portfolio_sites_all (db w) portfolio) as [| s0 rest] eqn:Esites; [discriminate |].
  unfold atomic, bind.
  match goal with
  | |- context [forecast_sites ?j ?hh ?ss ?ww] =>
      destruct (forecast_sites j hh ss ww) as [[[] | e] w2] eqn:El; [| discriminate];
      pose proof (forecast_sites_count j hh ss ww w2 Hr El) as [Hpos Hl]
  end.
  rewrite timezone_now_spec.
  match goal with
  | |- context [save ?j ?f ?ww] => destruct (save j f ww) as [[[] | e] w3] eqn:Es2;
                                   [| discriminate]
  end.
  destruct (save_ok_inv _ _ _ _ Es2) as [_ ->]. unfold ret. intros [= _ <-].
  cbn [db set_db results] in *.
  exists portfolio. split; [reflexivity |]. split; [apply Hpos; discriminate |].
  rewrite ?Esites. exact Hl.
Qed.

(** X10.  With a registry of random models, a processing that succeeds was
    asked for a positive horizon and has written exactly one result per
    site of the portfolio and hour of the horizon. *)
Theorem process_success_result_count self job h w job' w' :
  random_registry (model_registry w) ->
  _process_forecast_job self job h w = (Ok tt, job', w') ->
  exists portfolio,
    Portfolio_objects_get (db w) (job_portfolio_id job) = Ok portfolio
    /\ 0 < h
    /\ length (results (db w'))
       = (length (results (db w))
          + length (portfolio_sites_all (db w) portfolio) * Z.to_nat h)%nat.
Proof. apply process_count. Qed.

End ProcessingFacts.

(* ===================================================================== *)
(** * The status of a job                                                *)
(* ===================================================================== *)

Section StatusFacts.
Context `{Mersenne}.
Import Service Queries.

Lemma select_related_get_finished d jid st t msg job portfolio :
  ForecastJob_objects_select_related_get d jid = Ok (job, portfolio) ->
  ForecastJob_objects_select_related_get
    {| sites := sites d; portfolios := portfolios d;
       jobs := map (finish jid st t msg) (jobs d); results := results d |} jid
  = Ok (finish jid st t msg job, portfolio).
Proof.
  unfold ForecastJob_objects_select_related_get. cbn [jobs portfolios].
  rewrite find_finish.
  destruct (find _ (jobs d)) as [j |]; [| discriminate]. cbn [option_map].
  assert (Hp : job_portfolio_id (finish jid st t msg j) = job_portfolio_id j).
  { unfold finish. destruct (job_id j =? jid); reflexivity. }
  rewrite Hp. destruct (find _ (portfolios d)); [| discriminate].
  intros [= -> ->]. reflexivity.
Qed.

(** X11.  [get_forecast_status] raises [JobNotFoundError] for an
    identifier with no job; and what it reports after a cancellation that
    returned [True] is a failed job, complete but not successful, with the
    message 'Job cancelled by user', the reading of the clock as
    completion time, and none of the keys of a successful job. *)
Theorem status_after_cancel self jid w :
  (find (fun j => job_id j =? jid) (jobs (db w)) = None ->
   get_forecast_status self jid w
   = Raise (JobNotFoundError ("Forecast job with ID " +:+ pretty jid +:+ " not found")))
  /\ (forall job portfolio w1,
        ForecastJob_objects_select_related_get (db w) jid = Ok (job, portfolio) ->
        cancel_forecast_job self jid w = (Ok true, w1) ->
        exists info,
          get_forecast_status self jid w1 = Ok info
          /\ si_status info = failed
          /\ si_is_complete info = true
          /\ si_is_successful info = false
          /\ si_error_message info = "Job cancelled by user"
          /\ si_completed_at info = Some (clock w (ticks w))
          /\ si_success info = None
          /\ si_portfolio_id info = portfolio_id portfolio
          /\ si_created_at info = created_at job).
Proof.
  split.
  - intros Hf. unfold get_forecast_status, ForecastJob_objects_select_related_get.
    rewrite Hf. reflexivity.
  - intros job portfolio w1 Hsel Hc.
    assert (Hget : ForecastJob_objects_get (db w) jid = Ok job).
    { revert Hsel. unfold ForecastJob_objects_select_related_get, ForecastJob_objects_get.
      destruct (find _ (jobs (db w))) as [j |]; [| discriminate].
      destruct (find _ (portfolios (db w))); [| discriminate].
      intros [= -> _]. reflexivity. }
    pose proof (ForecastJob_objects_get_id _ _ _ Hget) as Hid.
    destruct (status job) eqn:Hst.
    3,4: exfalso;
         rewrite (cancel_finished self jid w job Hget) in Hc by (rewrite Hst; auto);
         discriminate.
    all: rewrite (cancel_live self jid w job Hget) in Hc by (rewrite Hst; auto);
         injection Hc as <-;
         unfold get_forecast_status; cbn [db set_db];
         rewrite (select_related_get_finished _ _ _ _ _ _ _ Hsel);
         unfold finish; rewrite Hid, Z.eqb_refl;
         eexists; split; [reflexivity |]; cbn; repeat split.
Qed.

(** ** After a successful trigger *)

Lemma filter_none {A} (f : A -> bool) (l : list A) :
  Forall (fun x => f x = false) l -> List.filter f l = [].
Proof.
  induction 1 as [| x l Hx Hl IH]; simpl; [reflexivity |]. rewrite Hx. exact IH.
Qed.

Lemma filter_every {A} (f : A -> bool) (l : list A) :
  Forall (fun x => f x = true) l -> List.filter f l = l.
Proof.
  induction 1 as [| x l Hx Hl IH]; simpl; [reflexivity |]. rewrite Hx, IH. reflexivity.
Qed.

Lemma fresh_job_has_no_results d :
  results_have_jobs d ->
  List.filter (fun x => result_job_id x =? uuid4 d) (results d) = [].
Proof.
  intros Hi. apply filter_none.
  apply List.Forall_forall. intros x Hx.
  pose proof (proj1 (List.Forall_forall _ _) Hi x Hx) as Hrow. cbv beta in Hrow.
  destruct (result_job_id x =? uuid4 d) eqn:E; [| reflexivity].
  apply Z.eqb_eq in E. rewrite E in Hrow. rewrite uuid4_fresh in Hrow. discriminate.
Qed.

(** X12.  After a trigger that returned a job, in a world whose registry
    holds random models and whose results all belong to jobs of the table,
    [get_forecast_status] reports the job as completed and successful, with
    one result per site and hour: the count of results equals the expected
    count, and [results_complete] is true. *)
Theorem status_after_trigger self pid fh w job w' :
  random_registry (model_registry w) ->
  results_have_jobs (db w) ->
  trigger_portfolio_forecast self pid fh w = (Ok job, w') ->
  exists info success,
    get_forecast_status self (job_id job) w' = Ok info
    /\ si_status info = completed
    /\ si_is_complete info = true
    /\ si_is_successful info = true
    /\ si_portfolio_id info = pid
    /\ si_success info = Some success
    /\ si_forecast_horizon success = horizon_or_default self fh
    /\ 0 < si_forecast_horizon success
    /\ Z.of_nat (result_count success)
       = Z.of_nat (si_site_count success) * si_forecast_horizon success
    /\ expected_results success = Z.of_nat (result_count success)
    /\ results_complete success = true.
Proof.
  intros Hreg Hint Ht.
  destruct (Portfolio_objects_get (db w) pid) as [portfolio | e] eqn:Hget.
  2:{ exfalso. revert Ht.
      unfold trigger_portfolio_forecast, try_except, bind, _get_portfolio_with_sites.
      rewrite Hget. destruct e; discriminate. }
  destruct (portfolio_sites_all (db w) portfolio) as [| s0 rest] eqn:Hs.
  { exfalso. revert Ht.
    unfold trigger_portfolio_forecast, try_except, bind, _get_portfolio_with_sites.
    rewrite Hget. unfold get_site_count. rewrite Hs. discriminate. }
  assert (Hne : portfolio_sites_all (db w) portfolio <> []) by (rewrite Hs; discriminate).
  destruct (horizon_in_column_dec (horizon_or_default self fh)) as [Hpos | Hneg].
  2:{ exfalso. destruct (trigger_refused self pid fh w portfolio Hget Hne Hneg)
        as (w1 & Htr & _).
      rewrite Htr in Ht. discriminate. }
  destruct (trigger_unfold self pid fh w portfolio Hget Hne Hpos)
    as (r & job' & w1 & Hp & Hout & Htr).
  rewrite Htr in Ht.
  destruct r as [[] | e]; [| discriminate]. injection Ht as <- <-.
  set (hz := horizon_or_default self fh) in *.
  set (nj := new_job portfolio hz w) in *.
  set (cw := created_world portfolio hz w) in *.
  destruct (process_count self nj hz cw job' w1 Hreg Hp)
    as (p1 & Hget1 & Hhz & Hlen).
  pose proof (process_frame _ _ _ _ _ _ _ Hp) as [[Hsi Hpo] (p2 & added & _ & Hr & Ha)].
  inversion Hout as [| t w0 Hyes Hj |]; subst.
  cbn [cw created_world db sites portfolios results jobs nj new_job job_id job_portfolio_id]
    in Hget1, Hlen, Hsi, Hpo, Hr, Ha.
  cbn [cw created_world db jobs] in Hj. fold nj in Hj.
  change (job_id nj) with (uuid4 (db w)) in Hj.
  change (Portfolio_objects_get _ (portfolio_id portfolio))
    with (Portfolio_objects_get (db w) (portfolio_id portfolio)) in Hget1.
  rewrite (Portfolio_objects_get_id _ _ _ Hget), Hget in Hget1. injection Hget1 as <-.
  change (portfolio_sites_all _ portfolio) with (portfolio_sites_all (db w) portfolio) in Hlen.
  rewrite Hr, length_app in Hlen.
  assert (Hadded : length added
                   = (length (portfolio_sites_all (db w) portfolio) * Z.to_nat hz)%nat)
    by lia.
  assert (Hfind : find (fun j => job_id j =? uuid4 (db w)) (jobs (db w1))
                  = Some (with_state nj completed (Some t) "")).
  { rewrite Hj, find_finish.
    rewrite (find_fresh_app (uuid4 (db w)) (jobs (db w)) nj (uuid4_fresh (db w)) eq_refl).
    unfold finish, nj, new_job. cbn [option_map job_id]. rewrite Z.eqb_refl. reflexivity. }
  assert (Hport : find (fun p => portfolio_id p =? portfolio_id portfolio) (portfolios (db w1))
                  = Some portfolio).
  { rewrite Hpo. revert Hget. unfold Portfolio_objects_get.
    destruct (find _ (portfolios (db w))) as [p |] eqn:Ef; [| discriminate].
    intros [= ->]. pose proof (find_some_true _ _ _ Ef) as Hid.
    apply Z.eqb_eq in Hid. rewrite Hid. exact Ef. }
  assert (Hcount : job_results_count (db w1) (with_state nj completed (Some t) "")
                   = length added).
  { unfold job_results_count. rewrite Hr, List.filter_app.
    cbn [with_state job_id nj new_job].
    rewrite (fresh_job_has_no_results _ Hint). cbn [app].
    rewrite filter_every; [reflexivity |].
    apply List.Forall_forall. intros x Hx.
    destruct (proj1 (List.Forall_forall _ _) Ha x Hx) as [Hid _]. lia. }
  assert (Hsites : get_site_count (db w1) portfolio
                   = length (portfolio_sites_all (db w) portfolio)).
  { unfold get_site_count, portfolio_sites_all. rewrite Hsi. reflexivity. }
  unfold get_forecast_status, ForecastJob_objects_select_related_get.
  cbn [with_state job_id nj new_job].
  change (with_state (new_job portfolio hz w) completed (Some t)
            (error_message (new_job portfolio hz w)))
    with (with_state nj completed (Some t) "") in *.
  rewrite Hfind. cbn [with_state job_portfolio_id nj new_job]. rewrite Hport.
  eexists. eexists. split; [reflexivity |].
  cbn [si_status si_is_complete si_is_successful si_portfolio_id si_success
       status is_complete is_successful JobStatus_eqb portfolio_id].
  fold nj. rewrite Hcount, Hsites, Hadded.
  cbn [si_forecast_horizon result_count si_site_count expected_results results_complete
       forecast_horizon with_state nj new_job].
  split; [reflexivity |]. split; [reflexivity |]. split; [reflexivity |].
  split; [eapply Portfolio_objects_get_id; exact Hget |].
  split; [reflexivity |]. split; [reflexivity |]. split; [exact Hhz |].
  assert (Heq : Z.of_nat (length (portfolio_sites_all (db w) portfolio) * Z.to_nat hz)
                = Z.of_nat (length (portfolio_sites_all (db w) portfolio)) * hz).
  { rewrite Nat2Z.inj_mul, Z2Nat.id by lia. reflexivity. }
  split; [exact Heq |]. split; [symmetry; exact Heq |].
  apply Z.leb_le. lia.
Qed.

End StatusFacts.

(* ===================================================================== *)
(** * The read side: which job, which rows, which errors                 *)
(* ===================================================================== *)

Section PortfolioReads.
Context `{Mersenne} {aggregates : SqlAggregates}.
Import Service Aggregation AggregationFacts.

Lemma later_completed_some best j :
  exists b, later_completed (Some best) j = Some b
            /\ (b = best \/ b = j)
            /\ (forall t, completed_at best = Some t ->
                          exists t', completed_at b = Some t' /\ t <= t')
            /\ (forall t, completed_at j = Some t ->
                          exists t', completed_at b = Some t' /\ t <= t').
Proof.
  unfold later_completed.
  destruct (completed_at best) as [tb |] eqn:Eb, (completed_at j) as [tj |] eqn:Ej.
  - destruct (tb <? tj) eqn:E.
    + apply Z.ltb_lt in E. exists j. split; [reflexivity |]. split; [right; reflexivity |].
      rewrite Ej. split; intros t [= <-]; eexists; (split; [reflexivity | lia]).
    + apply Z.ltb_ge in E. exists best. split; [reflexivity |]. split; [left; reflexivity |].
      rewrite Eb. split; intros t [= <-]; eexists; (split; [reflexivity | lia]).
  - exists best. split; [reflexivity |]. split; [left; reflexivity |].
    rewrite Eb. split; [| discriminate]. intros t [= <-]. eexists. split; [reflexivity | lia].
  - exists j. split; [reflexivity |]. split; [right; reflexivity |].
    rewrite Ej. split; [discriminate |]. intros t [= <-]. eexists. split; [reflexivity | lia].
  - exists best. split; [reflexivity |]. split; [left; reflexivity |].
    rewrite Eb. split; discriminate.
Qed.

Lemma fold_later_completed_some (l : list ForecastJob) : forall best,
  exists b, fold_left later_completed l (Some best) = Some b
            /\ (b = best \/ In b l)
            /\ (forall t, completed_at best = Some t ->
                          exists t', completed_at b = Some t' /\ t <= t')
            /\ latest_among b l.
Proof.
  induction l as [| j l IH]; intros best; cbn [fold_left].
  - exists best. split; [reflexivity |]. split; [left; reflexivity |].
    split; [intros t Ht; exists t; split; [exact Ht | lia] |].
    intros j t [].
  - destruct (later_completed_some best j) as (b1 & -> & Hb1 & Hbest & Hj).
    destruct (IH b1) as (b & Hf & Hin & Hb1' & Hl).
    exists b. split; [exact Hf |]. split.
    { destruct Hin as [-> | Hin]; [| right; right; exact Hin].
      destruct Hb1 as [-> | ->]; [left; reflexivity | right; left; reflexivity]. }
    split.
    { intros t Ht. destruct (Hbest t Ht) as (t1 & Ht1 & Hle1).
      destruct (Hb1' t1 Ht1) as (t2 & Ht2 & Hle2). exists t2. split; [exact Ht2 | lia]. }
    intros j' t [<- | Hin'] Ht.
    + destruct (Hj t Ht) as (t1 & Ht1 & Hle1).
      destruct (Hb1' t1 Ht1) as (t2 & Ht2 & Hle2). exists t2. split; [exact Ht2 | lia].
    + exact (Hl j' t Hin' Ht).
Qed.

Lemma fold_later_completed (l : list ForecastJob) :
  match fold_left later_completed l None with
  | Some b => In b l /\ latest_among b l
  | None => l = []
  end.
Proof.
  destruct l as [| j l]; [reflexivity |]. cbn [fold_left later_completed].
  destruct (fold_later_completed_some l j) as (b & -> & Hin & Hj & Hl).
  split.
  - destruct Hin as [-> | Hin]; [left; reflexivity | right; exact Hin].
  - intros j' t [<- | Hin'] Ht; [exact (Hj t Ht) | exact (Hl j' t Hin' Ht)].
Qed.

(** X13.  The errors of [get_portfolio_forecast_results]: an unknown
    portfolio is a [PortfolioNotFoundError]; a job identifier that names no
    job of the portfolio, a portfolio with no completed job when no
    identifier is given, and a job without result rows are each a
    [JobNotFoundError], with the message of the case. *)
Theorem portfolio_results_errors self pid w :
  (find (fun p => portfolio_id p =? pid) (portfolios (db w)) = None ->
   forall jid,
     get_portfolio_forecast_results self pid jid w
     = Raise (PortfolioNotFoundError ("Portfolio with ID " +:+ pretty pid +:+ " not found")))
  /\ (forall portfolio,
        Portfolio_objects_get (db w) pid = Ok portfolio ->
        (forall jid,
           find (fun j => (job_id j =? jid)
                          && (job_portfolio_id j =? portfolio_id portfolio)) (jobs (db w))
           = None ->
           get_portfolio_forecast_results self pid (Some jid) w
           = Raise (JobNotFoundError "Forecast job not found"))
        /\ (completed_jobs_of (db w) portfolio = [] ->
            get_portfolio_forecast_results self pid None w
            = Raise (JobNotFoundError
                       ("No completed forecast jobs found for portfolio " +:+ pretty pid)))
        /\ (forall jid job,
              select_job (db w) portfolio jid = Ok job ->
              job_results (db w) job = [] ->
              get_portfolio_forecast_results self pid jid w
              = Raise (JobNotFoundError
                         ("No forecast results found for job " +:+ pretty (job_id job))))).
Proof.
  split.
  - intros Hf jid. unfold get_portfolio_forecast_results, Portfolio_objects_get.
    rewrite Hf. reflexivity.
  - intros portfolio Hget.
    pose proof (Portfolio_objects_get_id _ _ _ Hget) as Hid.
    split; [| split].
    + intros jid Hf. unfold get_portfolio_forecast_results. rewrite Hget.
      unfold select_job. rewrite Hf. reflexivity.
    + intros He. unfold get_portfolio_forecast_results. rewrite Hget.
      unfold select_job. fold (completed_jobs_of (db w) portfolio). rewrite He.
      cbn [fold_left]. rewrite Hid. reflexivity.
    + intros jid job Hsel Hres. unfold get_portfolio_forecast_results.
      rewrite Hget, Hsel, Hres. reflexivity.
Qed.

(** X14.  With no job identifier, [get_portfolio_forecast_results] reads a
    completed job of the portfolio, and the most recently completed one:
    in a table that keeps the invariant of the jobs, no completed job of
    the portfolio has a later completion time; the result carries that
    job's identifier and completion time. *)
Theorem portfolio_results_use_latest_job self pid w out :
  db_inv (db w) ->
  get_portfolio_forecast_results self pid None w = Ok out ->
  exists job t',
    In job (jobs (db w))
    /\ job_id job = pf_job_id out
    /\ job_portfolio_id job = pid
    /\ status job = completed
    /\ completed_at job = Some t'
    /\ forecast_generated_at out = Some t'
    /\ forall j t,
         In j (jobs (db w)) -> job_portfolio_id j = pid -> status j = completed ->
         completed_at j = Some t -> t <= t'.
Proof.
  intros Hinv Hout.
  destruct (read_side_full _ _ _ _ _ Hout)
    as (portfolio & job & Hget & Hsel & _ & Hjid & _ & Hgen & _).
  pose proof (Portfolio_objects_get_id _ _ _ Hget) as Hid.
  unfold select_job in Hsel. fold (completed_jobs_of (db w) portfolio) in Hsel.
  pose proof (fold_later_completed (completed_jobs_of (db w) portfolio)) as Hfold.
  destruct (fold_left later_completed (completed_jobs_of (db w) portfolio) None) as [b |];
    [| discriminate].
  injection Hsel as ->. destruct Hfold as [Hin Hlatest].
  unfold completed_jobs_of in Hin. apply filter_In in Hin as [Hin Hb].
  apply andb_true_iff in Hb as [Hp Hs].
  assert (Hst : status job = completed)
    by (destruct (status job); try discriminate; reflexivity).
  assert (Hc : exists t', completed_at job = Some t').
  { pose proof (proj1 (List.Forall_forall _ _) Hinv job Hin) as [Hnone _].
    destruct (completed_at job) as [t' |]; [exists t'; reflexivity |].
    destruct (Hnone eq_refl) as [E | E]; rewrite Hst in E; discriminate. }
  destruct Hc as (t' & Hc).
  exists job, t'. split; [exact Hin |]. split; [symmetry; exact Hjid |].
  split; [lia |]. split; [exact Hst |]. split; [exact Hc |].
  split; [rewrite Hgen; exact Hc |].
  intros j t Hj Hjp Hjs Ht.
  destruct (Hlatest j t) as (t1 & Ht1 & Hle); [| exact Ht |].
  - unfold completed_jobs_of. apply filter_In. split; [exact Hj |].
    apply andb_true_iff. split; [lia | rewrite Hjs; reflexivity].
  - rewrite Hc in Ht1. injection Ht1 as <-. exact Hle.
Qed.

(** X15.  [get_portfolio_forecast_results] neither drops nor repeats a
    row: the per-site series, one after the other, are exactly the result
    rows of the job read, in the order of the query; the number of series
    is [site_count], and no two series have the same site name. *)
Theorem portfolio_results_keep_every_row self pid jid w out :
  get_portfolio_forecast_results self pid jid w = Ok out ->
  exists job,
    pf_job_id out = job_id job
    /\ flat_map sf_forecasts (site_forecasts out)
       = map forecast_data_of (job_results (db w) job)
    /\ site_count out = length (site_forecasts out)
    /\ List.NoDup (map sf_site_name (site_forecasts out)).
Proof.
  intros Hout.
  destruct (read_side_full _ _ _ _ _ Hout)
    as (portfolio & job & _ & _ & _ & Hjid & _ & _ & Hcount & Hsf & _).
  exists job. split; [exact Hjid |].
  set (rows := job_results (db w) job) in *.
  pose proof (job_results_sorted (db w) job) as Hs. fold rows in Hs.
  destruct (sites_grouped rows) as [Hk Hv].
  set (sd := fold_left site_step rows []) in *.
  assert (Hb : flat_map (fun k => List.filter (fun r => String.eqb (row_name r) k) rows)
                 (first_keys String.eqb (map row_name rows)) = rows).
  { apply (blocks_of_sorted String.eqb String.eqb_eq row_name name_le name_le_antisym).
    eapply StronglySorted_weaken; [| exact Hs]. intros a b. apply row_le_name. }
  split; [| split; [exact Hcount |]].
  - rewrite Hsf, flat_map_map.
    rewrite (flat_map_ext_in _
               (fun kv => map forecast_data_of
                            (List.filter (fun r => String.eqb (row_name r) (fst kv)) rows))).
    2:{ intros kv Hin. exact (proj2 (proj1 (List.Forall_forall _ _) Hv kv Hin)). }
    transitivity
      (map forecast_data_of
         (flat_map (fun k => List.filter (fun r => String.eqb (row_name r) k) rows)
            (first_keys String.eqb (map row_name rows)))).
    + rewrite map_flat_map, <- Hk, flat_map_map. reflexivity.
    + rewrite Hb. reflexivity.
  - rewrite Hsf.
    assert (Hn : map sf_site_name (map snd sd) = map fst sd).
    { rewrite map_map. apply map_ext_in. intros kv Hin.
      exact (proj1 (proj1 (List.Forall_forall _ _) Hv kv Hin)). }
    rewrite Hn, Hk. apply first_keys_NoDup. apply String.eqb_eq.
Qed.

End PortfolioReads.

(* ===================================================================== *)
(** * The results of one site                                            *)
(* ===================================================================== *)

Section SiteReads.
Context `{Mersenne}.
Import Service Aggregation AggregationFacts Queries.

Lemma result_le_total : Total result_le.
Proof. intros a b. unfold result_le. lia. Qed.

Lemma result_le_trans : Transitive result_le.
Proof. intros a b c. unfold result_le. lia. Qed.

Lemma site_results_shape self sid jid w out :
  get_site_forecast_results self sid jid w = inr out ->
  exists site j,
    find (fun s => Engine.site_id s =? sid) (sites (db w)) = Some site
    /\ match jid with
       | Some j0 => j = j0
       | None => exists job, latest_job_for_site (db w) site = Some job /\ j = job_id job
       end
    /\ site_job_rows (db w) sid j <> []
    /\ sr_site_id out = sid
    /\ sr_site_name out = Engine.site_name site
    /\ forecast_count out = length (sr_forecasts out)
    /\ sr_forecasts out
       = map forecast_entry (merge_sort result_le (site_job_rows (db w) sid j)).
Proof.
  unfold get_site_forecast_results.
  destruct (find _ (sites (db w))) as [site |] eqn:Ef; [| discriminate].
  pose proof (find_some_true _ _ _ Ef) as Hid. apply Z.eqb_eq in Hid.
  assert (Hof : forall j,
            match merge_sort result_le
                    (List.filter (fun r => (result_site_id r =? Engine.site_id site)
                                           && (result_job_id r =? j)) (results (db w)))
            with
            | [] => inl (Site_JobNotFoundError
                           ("No forecast results found for site " +:+ pretty sid))
            | _ :: _ =>
                inr {| sr_site_id := Engine.site_id site;
                       sr_site_name := Engine.site_name site;
                       sr_site_type := Engine.site_type site;
                       sr_capacity_mw := float_or_0 (Engine.capacity_mw site);
                       forecast_count :=
                         length (map forecast_entry
                                   (merge_sort result_le
                                      (List.filter
                                         (fun r => (result_site_id r =? Engine.site_id site)
                                                   && (result_job_id r =? j))
                                         (results (db w)))));
                       sr_forecasts :=
                         map forecast_entry
                           (merge_sort result_le
                              (List.filter
                                 (fun r => (result_site_id r =? Engine.site_id site)
                                           && (result_job_id r =? j))
                                 (results (db w)))) |}
            end = inr out ->
            site_job_rows (db w) sid j <> []
            /\ sr_site_id out = sid
            /\ sr_site_name out = Engine.site_name site
            /\ forecast_count out = length (sr_forecasts out)
            /\ sr_forecasts out
               = map forecast_entry (merge_sort result_le (site_job_rows (db w) sid j))).
  { intros j. rewrite Hid. fold (site_job_rows (db w) sid j).
    destruct (merge_sort result_le (site_job_rows (db w) sid j)) as [| r0 rs] eqn:Em;
      [discriminate |].
    intros [= <-]. cbn [sr_site_id sr_site_name forecast_count sr_forecasts].
    split.
    { intros Hnil. rewrite Hnil in Em. discriminate. }
    repeat split. }
  destruct jid as [j0 |].
  - intros Hout. exists site, j0. split; [reflexivity |]. split; [reflexivity |].
    apply Hof. exact Hout.
  - destruct (latest_job_for_site (db w) site) as [job |] eqn:El; [| discriminate].
    intros Hout. exists site, (job_id job). split; [reflexivity |].
    split; [exists job; split; [exact El | reflexivity] |].
    apply Hof. exact Hout.
Qed.

(** X16.  What [get_site_forecast_results] returns is the series of one
    site and one job: the rows of the site and of the job named (or of the
    latest completed job of a portfolio that holds the site), each once, in
    the order of their timestamps; there is at least one, and
    [forecast_count] is their number. *)
Theorem site_results_sorted_and_counted self sid jid w out :
  get_site_forecast_results self sid jid w = inr out ->
  exists j,
    (forall j0, jid = Some j0 -> j = j0)
    /\ sr_site_id out = sid
    /\ Permutation (sr_forecasts out) (map forecast_entry (site_job_rows (db w) sid j))
    /\ StronglySorted Z.le (map fd_datetime (sr_forecasts out))
    /\ forecast_count out = length (sr_forecasts out)
    /\ (0 < forecast_count out)%nat.
Proof.
  intros Hout.
  destruct (site_results_shape _ _ _ _ _ Hout)
    as (site & j & _ & Hj & Hne & Hid & _ & Hc & Hf).
  exists j. split.
  { intros j0 ->. exact Hj. }
  split; [exact Hid |].
  pose proof (merge_sort_Permutation result_le (site_job_rows (db w) sid j)) as Hperm.
  split; [rewrite Hf; apply Permutation_map; exact Hperm |].
  split.
  { rewrite Hf, map_map. apply StronglySorted_map.
    exact (@StronglySorted_merge_sort _ result_le _ result_le_trans result_le_total _). }
  split; [exact Hc |].
  rewrite Hc, Hf, length_map, (Permutation_length Hperm).
  destruct (site_job_rows (db w) sid j); [contradiction | simpl; lia].
Qed.

(** X17.  The errors of [get_site_forecast_results]: [Site.DoesNotExist]
    for an unknown site; [JobNotFoundError] when no identifier is given and
    no portfolio that holds the site has a completed job, and when the
    site has no result row for the job -- also when the job named does
    not exist. *)
Theorem site_results_errors self sid w :
  (find (fun s => Engine.site_id s =? sid) (sites (db w)) = None ->
   forall jid,
     get_site_forecast_results self sid jid w
     = inl (Site_DoesNotExist ("Site with ID " +:+ pretty sid +:+ " not found")))
  /\ (forall site,
        find (fun s => Engine.site_id s =? sid) (sites (db w)) = Some site ->
        (latest_job_for_site (db w) site = None ->
         get_site_forecast_results self sid None w
         = inl (Site_JobNotFoundError
                  ("No completed forecast jobs found for site " +:+ pretty sid)))
        /\ (forall j,
              site_job_rows (db w) sid j = [] ->
              get_site_forecast_results self sid (Some j) w
              = inl (Site_JobNotFoundError
                       ("No forecast results found for site " +:+ pretty sid)))).
Proof.
  split.
  - intros Hf jid. unfold get_site_forecast_results. rewrite Hf. reflexivity.
  - intros site Hf.
    pose proof (find_some_true _ _ _ Hf) as Hid. apply Z.eqb_eq in Hid.
    split.
    + intros Hl. unfold get_site_forecast_results. rewrite Hf, Hl. reflexivity.
    + intros j Hnil. unfold get_site_forecast_results. rewrite Hf, Hid.
      fold (site_job_rows (db w) sid j). rewrite Hnil. reflexivity.
Qed.

End SiteReads.

(* ===================================================================== *)
(** * The two reads agree                                                *)
(* ===================================================================== *)

Section ReadsAgree.
Context `{Mersenne} {aggregates : SqlAggregates}.
Import Service Aggregation AggregationFacts Queries.

Lemma Permutation_filter_keep {A} (f : A -> bool) (l l' : list A) :
  Permutation l l' -> Permutation (List.filter f l) (List.filter f l').
Proof.
  induction 1 as [| x l l' Hp IH | x y l | l l' l'' H1 IH1 H2 IH2]; simpl.
  - constructor.
  - destruct (f x); [constructor |]; exact IH.
  - destruct (f x), (f y); try reflexivity. apply perm_swap.
  - eapply perm_trans; eassumption.
Qed.

Lemma NoDup_map_filter {A B} (g : A -> B) (f : A -> bool) (l : list A) :
  List.NoDup (map g l) -> List.NoDup (map g (List.filter f l)).
Proof.
  induction l as [| x l IH]; simpl; [intros _; constructor |].
  intros Hn. apply List.NoDup_cons_iff in Hn as [Hx Hl].
  destruct (f x); [| apply IH; exact Hl].
  simpl. apply List.NoDup_cons; [| apply IH; exact Hl].
  intros Hin. apply Hx. apply in_map_iff in Hin as (y & Hy & Hin).
  apply filter_In in Hin as [Hin _]. apply in_map_iff. exists y. split; assumption.
Qed.

(** Two lists with the same elements, both sorted by a key that no two
    elements share, are the same list. *)
Lemma sorted_permutation_unique {A} (key : A -> Z) (l1 : list A) : forall l2,
  StronglySorted Z.le (map key l1) -> StronglySorted Z.le (map key l2) ->
  Permutation l1 l2 -> List.NoDup (map key l1) -> l1 = l2.
Proof.
  induction l1 as [| a l1 IH]; intros l2 Hs1 Hs2 Hp Hn.
  - apply Permutation_nil in Hp. symmetry. exact Hp.
  - destruct l2 as [| b l2].
    { apply Permutation_sym, Permutation_nil in Hp. discriminate. }
    cbn [map] in Hs1, Hs2, Hn.
    apply StronglySorted_inv in Hs1 as [Hs1 Ha], Hs2 as [Hs2 Hb].
    apply List.NoDup_cons_iff in Hn as [Hna Hn].
    assert (Hab : a = b).
    { assert (Hbin : In b (a :: l1)).
      { apply (Permutation_in _ (Permutation_sym Hp)). left. reflexivity. }
      destruct Hbin as [-> | Hbin]; [reflexivity |].
      assert (Hain : In a (b :: l2)) by (apply (Permutation_in _ Hp); left; reflexivity).
      destruct Hain as [-> | Hain]; [reflexivity |].
      exfalso. apply Hna.
      assert (H1 : key a <= key b).
      { exact (proj1 (List.Forall_forall _ _) Ha (key b) (in_map key _ _ Hbin)). }
      assert (H2 : key b <= key a).
      { exact (proj1 (List.Forall_forall _ _) Hb (key a) (in_map key _ _ Hain)). }
      replace (key a) with (key b) by lia. apply in_map. exact Hbin. }
    subst b. f_equal. apply IH; try assumption.
    eapply Permutation_cons_inv. exact Hp.
Qed.

(** The rows of the portfolio read that carry the name of the site are
    the rows of the site read, before any sorting. *)
Lemma joined_rows_of_site (d : Database) job site sid :
  site_names_unique d ->
  find (fun s => Engine.site_id s =? sid) (sites d) = Some site ->
  map fst
    (List.filter (fun r : Row => String.eqb (row_name r) (Engine.site_name site))
       (flat_map (fun r =>
                    if result_job_id r =? job_id job then
                      match find (fun s => Engine.site_id s =? result_site_id r) (sites d) with
                      | Some s => [(r, s)]
                      | None => []
                      end
                    else [])
                 (results d)))
  = site_job_rows d sid (job_id job).
Proof.
  intros Hu Hf. unfold site_job_rows.
  pose proof (find_some _ _ Hf) as [Hsite Hsid]. apply Z.eqb_eq in Hsid.
  set (g := fun r : ForecastResult =>
              if result_job_id r =? job_id job then
                match find (fun s => Engine.site_id s =? result_site_id r) (sites d) with
                | Some s => [(r, s)]
                | None => []
                end
              else []).
  set (p := fun r : Row => String.eqb (row_name r) (Engine.site_name site)).
  set (q := fun r : ForecastResult => (result_site_id r =? sid) && (result_job_id r =? job_id job)).
  assert (Hone : forall r, map fst (List.filter p (g r)) = if q r then [r] else []).
  { intros r. unfold g, q.
    destruct (result_job_id r =? job_id job) eqn:Ej.
    2:{ rewrite andb_false_r. reflexivity. }
    rewrite andb_true_r.
    destruct (result_site_id r =? sid) eqn:Es.
    - apply Z.eqb_eq in Es. rewrite Es, Hf. unfold p, row_name. cbn [List.filter snd].
      rewrite String.eqb_refl. reflexivity.
    - destruct (find (fun s => Engine.site_id s =? result_site_id r) (sites d))
        as [s' |] eqn:Ef'; [| reflexivity].
      pose proof (find_some _ _ Ef') as [Hs' Hid']. apply Z.eqb_eq in Hid'.
      unfold p, row_name. cbn [List.filter snd].
      destruct (String.eqb (Engine.site_name s') (Engine.site_name site)) eqn:En;
        [| reflexivity].
      exfalso. apply String.eqb_eq in En.
      pose proof (Hu s' site Hs' Hsite En) as Heq.
      apply Z.eqb_neq in Es. lia. }
  induction (results d) as [| r rs IH]; [reflexivity |].
  change (map fst (List.filter p (flat_map g rs)) = List.filter q rs) in IH.
  change (map fst (List.filter p (g r ++ flat_map g rs)) = List.filter q (r :: rs)).
  transitivity ((if q r then [r] else []) ++ List.filter q rs).
  - rewrite List.filter_app, map_app. f_equal; [apply Hone | exact IH].
  - change (List.filter q (r :: rs))
      with (if q r then r :: List.filter q rs else List.filter q rs).
    destruct (q r); reflexivity.
Qed.

(** X18.  The two reads agree.  For a job named by its identifier, when no
    two sites have the same name and no two results the same job, site and
    timestamp, the series that [get_portfolio_forecast_results] returns
    under the name of a site is the series that
    [get_site_forecast_results] returns for that site. *)
Theorem site_series_agree self pid sid j w pout sout :
  site_names_unique (db w) ->
  results_unique (db w) ->
  get_portfolio_forecast_results self pid (Some j) w = Ok pout ->
  get_site_forecast_results self sid (Some j) w = inr sout ->
  exists sf,
    In sf (site_forecasts pout)
    /\ sf_site_name sf = sr_site_name sout
    /\ sf_forecasts sf = sr_forecasts sout.
Proof.
  intros Hnames Huniq Hp Hs.
  destruct (read_side_full _ _ _ _ _ Hp)
    as (portfolio & job & _ & Hsel & _ & _ & _ & _ & _ & Hsf & _).
  assert (Hjid : job_id job = j).
  { revert Hsel. unfold select_job.
    destruct (find _ (jobs (db w))) as [j' |] eqn:Ef; [| discriminate].
    intros [= ->]. apply find_some_true in Ef. apply andb_true_iff in Ef as [Ef _]. lia. }
  destruct (site_results_shape _ _ _ _ _ Hs)
    as (site & j' & Hfind & -> & Hne & _ & Hname & _ & Hfor).
  set (rows := job_results (db w) job) in *.
  pose proof (job_results_sorted (db w) job) as Hsorted. fold rows in Hsorted.
  destruct (sites_grouped rows) as [Hk Hv].
  set (sd := fold_left site_step rows []) in *.
  set (k := Engine.site_name site).
  set (mine := List.filter (fun r : Row => String.eqb (row_name r) k) rows).
  (* the rows of the name, as result rows *)
  assert (Hperm : Permutation (map fst mine) (site_job_rows (db w) sid j)).
  { rewrite <- Hjid.
    rewrite <- (joined_rows_of_site (db w) job site sid Hnames Hfind).
    apply Permutation_map. apply Permutation_filter_keep.
    unfold rows, job_results. apply merge_sort_Permutation. }
  assert (Hdt : List.NoDup (map forecast_datetime (site_job_rows (db w) sid j))).
  { apply (NoDup_map_inv (fun t => (j, sid, t))). rewrite map_map.
    unfold site_job_rows.
    rewrite (map_ext_in _ (fun r => (result_job_id r, result_site_id r, forecast_datetime r))).
    - apply NoDup_map_filter. exact Huniq.
    - intros r Hr. apply filter_In in Hr as [_ Hr]. apply andb_true_iff in Hr as [Hs1 Hj1].
      apply Z.eqb_eq in Hs1, Hj1. rewrite Hs1, Hj1. reflexivity. }
  assert (Heq : map fst mine = merge_sort result_le (site_job_rows (db w) sid j)).
  { apply (sorted_permutation_unique forecast_datetime).
    - rewrite map_map. apply (site_rows_by_datetime k rows Hsorted).
    - apply StronglySorted_map.
      exact (@StronglySorted_merge_sort _ result_le _ result_le_trans result_le_total _).
    - eapply perm_trans; [exact Hperm |].
      apply Permutation_sym, merge_sort_Permutation.
    - apply (Permutation_NoDup (Permutation_map forecast_datetime (Permutation_sym Hperm))).
      exact Hdt. }
  (* the name is a key of the dict *)
  assert (Hkey : In k (map fst sd)).
  { rewrite Hk. apply first_keys_In; [apply String.eqb_eq |].
    destruct mine as [| r0 rest] eqn:Em.
    - exfalso. apply Hne. apply Permutation_nil. exact Hperm.
    - assert (Hin : In r0 mine) by (rewrite Em; left; reflexivity).
      unfold mine in Hin. apply filter_In in Hin as [Hin Hn].
      apply String.eqb_eq in Hn. rewrite <- Hn. apply in_map. exact Hin. }
  apply in_map_iff in Hkey as ([k' sf] & Hk' & Hin). cbn [fst] in Hk'. subst k'.
  destruct (proj1 (List.Forall_forall _ _) Hv _ Hin) as [Hn Hf]. cbn [fst snd] in Hn, Hf.
  exists sf. split.
  { rewrite Hsf. apply in_map_iff. exists (k, sf). split; [reflexivity | exact Hin]. }
  split; [rewrite Hn, Hname; reflexivity |].
  rewrite Hf, Hfor, <- Heq, map_map. reflexivity.
Qed.

End ReadsAgree.

(* ===================================================================== *)
(** * More properties of the forecast engine                             *)
(* ===================================================================== *)

Section EngineLoop.
Context `{Mersenne}.
Import Engine.

Lemma predict_loop_app self site cap start (l1 l2 : list Z) :
  predict_loop self site cap start (l1 ++ l2)
  = match predict_loop self site cap start l1 with
    | (Raise e, self1) => (Raise e, self1)
    | (Ok ps1, self1) =>
        let '(ps2, self2) := predict_loop self1 site cap start l2 in
        (and_then ps2 (fun ps2 => Ok (ps1 ++ ps2)), self2)
    end.
Proof.
  revert self. induction l1 as [| x l1 IH]; intros self; cbn [predict_loop app].
  - destruct (predict_loop self site cap start l2) as [[ps2 | e] self2]; reflexivity.
  - destruct (predict_point self site cap start x) as [[p | e] self1]; [| reflexivity].
    rewrite IH.
    destruct (predict_loop self1 site cap start l1) as [[ps1 | e] self2]; [| reflexivity].
    destruct (predict_loop self2 site cap start l2) as [[ps2 | e] self3]; reflexivity.
Qed.

Lemma range_split (k h : Z) :
  0 <= k <= h ->
  range h = range k ++ map Z.of_nat (seq (Z.to_nat k) (Z.to_nat (h - k))).
Proof.
  intros Hk. unfold range.
  replace (Z.to_nat h) with (Z.to_nat k + Z.to_nat (h - k))%nat by lia.
  rewrite seq_app, map_app. reflexivity.
Qed.

(** X19.  A longer horizon extends the forecast of a shorter one: when the
    forecast over [h >= k] hours returns, its first [k] points are the
    forecast over [k] hours, from the same state of the model and the same
    clock reading; and when the forecast over [k] hours raises, the one
    over [h] hours raises the same exception. *)
Theorem longer_horizon_extends_forecast (self : RandomForecastModel) (site : Site)
    (k h : Z) (now : Datetime.t) :
  0 < k <= h ->
  (forall pts,
     fst (predict self (Some site) h now) = Ok pts ->
     fst (predict self (Some site) k now) = Ok (firstn (Z.to_nat k) pts))
  /\ (forall e,
        fst (predict self (Some site) k now) = Raise e ->
        fst (predict self (Some site) h now) = Raise e).
Proof.
  intros Hk. unfold predict.
  destruct (h <=? 0) eqn:Eh; [apply Z.leb_le in Eh; lia |].
  destruct (k <=? 0) eqn:Ek; [apply Z.leb_le in Ek; lia |].
  rewrite (range_split k h) by lia.
  rewrite predict_loop_app.
  match goal with
  | |- context [predict_loop ?s ?si ?c ?st (range k)] =>
      destruct (predict_loop s si c st (range k)) as [[ps1 | e1] self1] eqn:E1
  end.
  - pose proof (predict_loop_length _ _ _ _ _ _ _ E1) as Hlen. rewrite range_length in Hlen.
    split; [| discriminate].
    match goal with
    | |- context [predict_loop self1 ?si ?c ?st ?l] =>
        destruct (predict_loop self1 si c st l) as [[ps2 | e2] self2]
    end; cbn [fst and_then]; [| discriminate].
    intros pts [= <-].
    rewrite <- Hlen, firstn_app, Nat.sub_diag, firstn_all. cbn [firstn].
    rewrite app_nil_r. reflexivity.
  - split; [discriminate |]. cbn [fst]. intros e He. exact He.
Qed.

Lemma predict_point_site_type self s1 s2 cap start hour :
  site_type s1 = site_type s2 ->
  predict_point self s1 cap start hour = predict_point self s2 cap start hour.
Proof. intros E. unfold predict_point, generate_prediction. rewrite E. reflexivity. Qed.

Lemma predict_loop_site_type s1 s2 cap start hours :
  site_type s1 = site_type s2 ->
  forall self, predict_loop self s1 cap start hours = predict_loop self s2 cap start hours.
Proof.
  intros E. induction hours as [| x l IH]; intros self; cbn [predict_loop]; [reflexivity |].
  rewrite (predict_point_site_type self s1 s2 cap start x E).
  destruct (predict_point self s2 cap start x) as [[p | e] self1]; [| reflexivity].
  rewrite IH. reflexivity.
Qed.

(** X20.  A forecast depends on the site only through its type and its capacity,
    and a site whose capacity is missing or zero is forecast as a site of
    10.0 MW of the same type. *)
Theorem forecast_uses_type_and_capacity_only (self : RandomForecastModel)
    (s1 s2 : Site) (h : Z) (now : Datetime.t) :
  site_type s1 = site_type s2 ->
  capacity_mw s1 = capacity_mw s2
  \/ (capacity_unset s1 /\ capacity_mw s2 = Some Decimal.d10_0) ->
  predict self (Some s1) h now = predict self (Some s2) h now.
Proof.
  intros Et Hc. unfold predict.
  destruct (h <=? 0); [reflexivity |].
  assert (Ecap : match capacity_mw s1 with
                 | Some c => if Decimal.truthy c then c else Decimal.d10_0
                 | None => Decimal.d10_0
                 end
                 = match capacity_mw s2 with
                   | Some c => if Decimal.truthy c then c else Decimal.d10_0
                   | None => Decimal.d10_0
                   end).
  { destruct Hc as [-> | [[Hn | (c & Hc & Hz)] ->]]; [reflexivity | |].
    - rewrite Hn. reflexivity.
    - rewrite Hc. unfold Decimal.truthy. rewrite Hz. reflexivity. }
  rewrite Ecap, (predict_loop_site_type s1 s2 _ _ _ Et). reflexivity.
Qed.

Lemma advance_next n st : advance (S n) st = advance n (snd (mt_random st)).
Proof. unfold advance. rewrite Nat.iter_succ_r. reflexivity. Qed.

Lemma advance_add n m st : advance (n + m) st = advance m (advance n st).
Proof.
  revert st. induction n as [| n IH]; intros st; [reflexivity |].
  cbn [Nat.add]. rewrite !advance_next. apply IH.
Qed.

Lemma draws_cons site start x l :
  draws site start (x :: l) = (draws site start [x] + draws site start l)%nat.
Proof.
  unfold draws. destruct (String.eqb (site_type site) "solar"); [| reflexivity].
  cbn [List.filter]. destruct (in_daylight start x); reflexivity.
Qed.

(** The draws of one iteration: as many as the hour asks for, unless the
    timestamp of the hour is past the calendar, in which case none. *)
Lemma predict_point_draws self site cap start hour :
  exists n,
    (n <= draws site start [hour])%nat
    /\ _random (snd (predict_point self site cap start hour)) = advance n (_random self)
    /\ (forall p, fst (predict_point self site cap start hour) = Ok p ->
                  n = draws site start [hour]).
Proof.
  unfold predict_point.
  destruct (Datetime.add_hours start hour) as [dt | e] eqn:Ea.
  2:{ exists 0%nat. split; [lia |]. split; [reflexivity | discriminate]. }
  destruct (add_hours_inv _ _ _ Ea) as [-> _].
  exists (draws site start [hour]). split; [lia |].
  split; [| intros; reflexivity].
  unfold generate_prediction, draws.
  destruct (String.eqb (site_type site) "solar").
  - unfold _generate_solar_prediction. cbn [List.filter]. unfold in_daylight.
    destruct ((Datetime.hour (start + hour * Datetime.HOUR) <? 6)
              || (18 <? Datetime.hour (start + hour * Datetime.HOUR))); cbn [negb length].
    + reflexivity.
    + rewrite random_spec. reflexivity.
  - destruct (String.eqb (site_type site) "wind").
    + unfold _generate_wind_prediction. rewrite random_spec. reflexivity.
    + unfold _generate_generic_prediction. rewrite random_spec. reflexivity.
Qed.

Lemma predict_loop_draws site cap start hours : forall self,
  exists n,
    (n <= draws site start hours)%nat
    /\ _random (snd (predict_loop self site cap start hours)) = advance n (_random self)
    /\ (forall pts, fst (predict_loop self site cap start hours) = Ok pts ->
                    n = draws site start hours).
Proof.
  induction hours as [| x l IH]; intros self.
  - exists 0%nat. split; [lia |]. split; [reflexivity |]. intros _ _.
    unfold draws. destruct (String.eqb (site_type site) "solar"); reflexivity.
  - cbn [predict_loop]. rewrite (draws_cons site start x l).
    destruct (predict_point_draws self site cap start x) as (n1 & Hle1 & Hs1 & Heq1).
    destruct (predict_point self site cap start x) as [[p | e] self1].
    + specialize (Heq1 p eq_refl). cbn [snd] in Hs1.
      destruct (IH self1) as (n2 & Hle2 & Hs2 & Heq2).
      destruct (predict_loop self1 site cap start l) as [r self2]. cbn [fst snd] in *.
      exists (n1 + n2)%nat. split; [lia |].
      split; [rewrite Hs2, Hs1, advance_add; reflexivity |].
      intros pts Hp. destruct r as [ps | e]; [| discriminate].
      rewrite (Heq2 ps eq_refl). lia.
    + exists n1. cbn [fst snd] in *. split; [lia |]. split; [exact Hs1 | discriminate].
Qed.

(** X21.  A forecast over [h] hours that returns has called [random()] once
    per hour -- for a solar site once per hour of daylight (hours 6..18), so
    a solar forecast that lies in the night leaves the random source where
    it was.  A forecast that raises has drawn at most that many times, and
    rejected input draws nothing. *)
Theorem predict_draws_once_per_hour (self : RandomForecastModel) (site : Site)
    (h : Z) (now : Datetime.t) :
  let start := Datetime.replace_minute_second_microsecond_0 now in
  (forall pts,
     fst (predict self (Some site) h now) = Ok pts ->
     _random (snd (predict self (Some site) h now))
     = advance (draws site start (range h)) (_random self))
  /\ (exists n, (n <= draws site start (range h))%nat
                /\ _random (snd (predict self (Some site) h now)) = advance n (_random self))
  /\ (h <= 0 -> snd (predict self (Some site) h now) = self)
  /\ snd (predict self None h now) = self.
Proof.
  intros start. unfold predict. fold start.
  destruct (h <=? 0) eqn:E.
  - split; [discriminate |].
    split; [exists 0%nat; split; [lia | reflexivity] |]. split; reflexivity.
  - apply Z.leb_gt in E.
    match goal with
    | |- context [predict_loop ?s ?si ?c start ?hs] =>
        destruct (predict_loop_draws si c start hs s) as (n & Hle & Hs & Heq)
    end.
    split; [| split; [| split; [lia | reflexivity]]].
    + intros pts Hp. rewrite Hs, (Heq pts Hp). reflexivity.
    + exists n. split; assumption.
Qed.

End EngineLoop.

Section EngineValidation.
Context `{Mersenne}.
Import Engine Queries.

(** X22.  Every point the random model predicts makes a [ForecastResult] that
    [ForecastResult.clean] accepts: its bounds are in order and enclose the
    prediction (the site's capacity being a value of its column and the
    random source yielding draws of [0, 1)). *)
Theorem predicted_points_pass_clean (self : RandomForecastModel) (site : Site) (h : Z)
    (now : Datetime.t) (pts : list ForecastPoint) (p : ForecastPoint)
    (job : Service.ForecastJob) (created : Datetime.t) :
  capacity_in_column site ->
  random_source_bounded ->
  fst (predict self (Some site) h now) = Ok pts ->
  In p pts ->
  ForecastResult_clean (result_of_prediction job site p created) = Clean.
Proof.
  intros Hc Hr Hp Hin. unfold predict in Hp.
  destruct (h <=? 0); [discriminate |].
  match type of Hp with
  | context [predict_loop ?s ?si ?c ?st ?hs] =>
      destruct (predict_loop s si c st hs) as [r self'] eqn:El; cbn [fst] in Hp; subst r;
      pose proof (predict_loop_Forall
                    (fun q => ForecastResult_clean (result_of_prediction job site q created)
                              = Clean) si c st) as HF;
      assert (Hpt : forall self0 hour q self1,
                 predict_point self0 si c st hour = (Ok q, self1) ->
                 ForecastResult_clean (result_of_prediction job site q created) = Clean);
      [| specialize (HF Hpt hs s pts self' El)]
  end.
  - intros self0 hour q self1 Hq.
    destruct (predict_point_generated _ _ _ _ _ _ _ Hr (base_capacity_bounded site Hc) Hq)
      as (g & -> & Hg).
    unfold ForecastResult_clean, result_of_prediction, point_of.
    cbn [Service.confidence_interval_lower Service.confidence_interval_upper
         Service.predicted_generation_mwh Engine.predicted_generation_mwh
         Engine.confidence_interval_lower Engine.confidence_interval_upper].
    destruct (DecimalFacts.band_of_generated g Hg)
      as [(-> & Hl & Hu) | (n & Hn & -> & Hl & Hu)]; rewrite Hl, Hu.
    + reflexivity.
    + unfold Decimal.ltb, Decimal.leb, Decimal.rescale. cbn [Decimal.coefficient Decimal.exponent].
      change (Z.min (-4) (-4)) with (-4). change (Z.min (-4) (-3)) with (-4).
      change (Z.min (-3) (-4)) with (-4).
      change (10 ^ (-4 - -4)) with 1. change (10 ^ (-3 - -4)) with 10.
      replace (12 * n * 1 <? 8 * n * 1) with false by (symmetry; apply Z.ltb_ge; lia).
      replace (8 * n * 1 <=? n * 10) with true by (symmetry; apply Z.leb_le; lia).
      replace (n * 10 <=? 12 * n * 1) with true by (symmetry; apply Z.leb_le; lia).
      reflexivity.
  - rewrite List.Forall_forall in HF. exact (HF p Hin).
Qed.

End EngineValidation.

(* ===================================================================== *)
(** * More properties of the model registry                              *)
(* ===================================================================== *)

Section RegistryUpdates.
Context `{Mersenne}.
Import PyStr Engine.

(** X23.  Removing a site type: [unregister_model] reports whether the type
    (under any letter case) had an entry; afterwards every spelling of the
    type resolves to the default model, all other types resolve as before,
    and a second removal reports [False] and changes nothing. *)
Theorem unregister_model_effect (reg : ModelRegistry) (t : string) :
  let removed := fst (unregister_model reg t) in
  let reg' := snd (unregister_model reg t) in
  removed = bool_decide (is_Some (_models reg !! lower t))
  /\ (forall t', eq_ignoring_case t t' -> get_model reg' t' = _default_model reg)
  /\ (forall u, lower u <> lower t -> get_model reg' u = get_model reg u)
  /\ unregister_model reg' t = (false, reg').
Proof.
  cbv zeta. unfold unregister_model.
  destruct (_models reg !! lower t) as [m |] eqn:E; cbn [fst snd].
  - split; [reflexivity |]. split; [| split].
    + intros t' Ht. unfold get_model. cbn [_models _default_model].
      rewrite <- (eq_ignoring_case_lower _ _ Ht), lookup_delete_eq. reflexivity.
    + intros u Hu. unfold get_model. cbn [_models _default_model].
      rewrite lookup_delete_ne by congruence. reflexivity.
    + cbn [_models]. rewrite lookup_delete_eq. reflexivity.
  - split; [reflexivity |]. split; [| split].
    + intros t' Ht. unfold get_model.
      rewrite <- (eq_ignoring_case_lower _ _ Ht), E. reflexivity.
    + reflexivity.
    + rewrite E. reflexivity.
Qed.

(** X24.  Updates of the registry are local.  Registering a model for one type
    leaves the default and the lookups of every other type as they were;
    a new default model is what exactly the types without an entry resolve
    to afterwards; and both updates refuse, with a [TypeError], an object
    that is no [ForecastModel]. *)
Theorem registry_updates_are_local (reg : ModelRegistry) (t : string) (M : ForecastModel)
    (junk : string) :
  (exists reg',
     register_model reg t (ModelInstance M) = Ok reg'
     /\ _default_model reg' = _default_model reg
     /\ forall u, lower u <> lower t -> get_model reg' u = get_model reg u)
  /\ (exists reg',
        set_default_model reg (ModelInstance M) = Ok reg'
        /\ forall u, get_model reg' u
                     = match _models reg !! lower u with
                       | Some m => m
                       | None => M
                       end)
  /\ register_model reg t (OtherObject junk)
     = Raise (TypeError "Model must be an instance of ForecastModel")
  /\ set_default_model reg (OtherObject junk)
     = Raise (TypeError "Model must be an instance of ForecastModel").
Proof.
  split; [| split; [| split; reflexivity]].
  - eexists. split; [reflexivity |]. split; [reflexivity |].
    intros u Hu. unfold get_model. cbn [_models _default_model].
    rewrite lookup_insert_ne by congruence. reflexivity.
  - eexists. split; [reflexivity |].
    intros u. unfold get_model. cbn [_models _default_model].
    destruct (_models reg !! lower u); reflexivity.
Qed.

End RegistryUpdates.

(* ===================================================================== *)
(** * The endpoint that triggers a forecast                              *)
(* ===================================================================== *)

Section ViewFacts.
Context `{Mersenne} {PyValue : Type} (int : PyValue -> result Z).
Import Service.

(** For a request it accepts, the view is the call of the service
    followed by the choice of the response. *)
Lemma view_accepted self fh hz pid_text pid w :
  int pid_text = Ok pid ->
  Views.horizon_accepted int fh hz ->
  Views.trigger_portfolio_forecast int self fh pid_text w
  = match trigger_portfolio_forecast (Views.forecast_service self) pid hz w with
    | (Raise e, w') => (Views.on_exception e, w')
    | (Ok job, w') =>
        match Portfolio_objects_get (db w') (job_portfolio_id job) with
        | Raise e => (Views.on_exception e, w')
        | Ok portfolio =>
            (Ok {| Views.data :=
                     Views.JobCreated (job_id job) (portfolio_id portfolio)
                       (portfolio_name portfolio) (status job) (created_at job)
                       ("Forecast job created for portfolio " +:+ Views.double_quote
                        +:+ portfolio_name portfolio +:+ Views.double_quote);
                   Views.status_code := Views.HTTP_201_CREATED |}, w')
        end
    end.
Proof.
  intros Hp Hh. unfold Views.trigger_portfolio_forecast. rewrite Hp.
  destruct fh as [v |]; cbn [Views.horizon_accepted] in Hh.
  - destruct Hh as (h & Hv & Hpos & ->). rewrite Hv.
    destruct (h <=? 0) eqn:E; [apply Z.leb_le in E; lia |]. reflexivity.
  - subst hz. reflexivity.
Qed.

(** X26.  The view answers 400 to a horizon that [int] reads as zero or as
    a negative integer, and to one on which [int] raises a [ValueError] or a
    [TypeError], before it looks at the portfolio: the service is not
    called and nothing is written -- also for the horizon 0, for which the
    service itself would take its default. *)
Theorem view_refuses_unusable_horizon (self : Views.ForecastViewSet) (v pid_text : PyValue)
    (w : World) :
  (forall h, int v = Ok h -> h <= 0 ->
     Views.trigger_portfolio_forecast int self (Some v) pid_text w
     = (Ok {| Views.data := Views.ErrorData "Invalid forecast horizon"
                              (Some "Forecast horizon must be a positive integer");
              Views.status_code := 400 |}, w))
  /\ (forall e, int v = Raise e -> is_input_error e = true \/ (exists m, e = TypeError m) ->
        Views.trigger_portfolio_forecast int self (Some v) pid_text w
        = (Ok {| Views.data := Views.ErrorData "Invalid forecast horizon"
                                 (Some "Forecast horizon must be a valid integer");
                 Views.status_code := 400 |}, w)).
Proof.
  split.
  - intros h Hv Hh. unfold Views.trigger_portfolio_forecast. rewrite Hv.
    destruct (h <=? 0) eqn:E; [reflexivity | apply Z.leb_gt in E; lia].
  - intros e Hv He. unfold Views.trigger_portfolio_forecast. rewrite Hv.
    destruct He as [He | [m ->]]; [| reflexivity].
    destruct e; try discriminate He. reflexivity.
Qed.

(** X27.  The answers of the view to a request it accepts (a portfolio
    identifier that [int] reads, and no horizon or a positive one): 404 for
    a portfolio that does not exist and 400 for one without sites, the
    world being left as it was; otherwise, for a horizon below 2^63, 201
    with the new job, completed, under the portfolio's name, or 500 with
    the message of the failed processing; and for a horizon from 2^63 on,
    which the column of [forecast_horizon] refuses, 500 with the message of
    the database driver, nothing being written -- it returns a response in
    every case. *)
Theorem view_answers_by_outcome (fh : option PyValue) (hz : option Z)
    (pid_text : PyValue) (pid : Z) (w : World) :
  int pid_text = Ok pid ->
  Views.horizon_accepted int fh hz ->
  (find (fun p => portfolio_id p =? pid) (portfolios (db w)) = None ->
   Views.trigger_portfolio_forecast int Views.ForecastViewSet__init__ fh pid_text w
   = (Ok {| Views.data :=
              Views.ErrorData "Portfolio not found"
                (Some ("Portfolio with ID " +:+ pretty pid +:+ " not found"));
            Views.status_code := 404 |}, w))
  /\ (forall portfolio,
        Portfolio_objects_get (db w) pid = Ok portfolio ->
        (portfolio_sites_all (db w) portfolio = [] ->
         Views.trigger_portfolio_forecast int Views.ForecastViewSet__init__ fh pid_text w
         = (Ok {| Views.data :=
                    Views.ErrorData "Empty portfolio"
                      (Some ("Portfolio '" +:+ portfolio_name portfolio +:+ "' (ID: "
                             +:+ pretty pid +:+ ") has no sites"));
                  Views.status_code := 400 |}, w))
        /\ (portfolio_sites_all (db w) portfolio <> [] ->
            exists response,
              Views.trigger_portfolio_forecast int Views.ForecastViewSet__init__ fh pid_text w
              = (Ok response,
                 snd (trigger_portfolio_forecast (ForecastService__init__ None) pid hz w))
              /\ ((horizon_in_column (horizon_or_default (ForecastService__init__ None) hz)
                   /\ (response
                       = {| Views.data :=
                              Views.JobCreated (uuid4 (db w)) pid (portfolio_name portfolio)
                                completed (clock w (ticks w))
                                ("Forecast job created for portfolio " +:+ Views.double_quote
                                 +:+ portfolio_name portfolio +:+ Views.double_quote);
                            Views.status_code := 201 |}
                       \/ exists msg,
                            response
                            = {| Views.data :=
                                   Views.ErrorData "Forecast service error"
                                     (Some ("Failed to trigger forecast: "
                                            +:+ ("Forecast processing failed: " +:+ msg)));
                                 Views.status_code := 500 |}))
                  \/ (2 ^ 63 <= horizon_or_default (ForecastService__init__ None) hz
                      /\ response
                         = {| Views.data :=
                                Views.ErrorData "Forecast service error"
                                  (Some ("Failed to trigger forecast: "
                                         +:+ "Python int too large to convert to SQLite INTEGER"));
                              Views.status_code := 500 |}
                      /\ db (snd (trigger_portfolio_forecast (ForecastService__init__ None)
                                    pid hz w)) = db w)))).
Proof.
  intros Hp Hh.
  rewrite (view_accepted _ fh hz pid_text pid w Hp Hh).
  cbn [Views.forecast_service Views.ForecastViewSet__init__].
  set (self := ForecastService__init__ None).
  split.
  - intros Hf.
    unfold trigger_portfolio_forecast, try_except, bind, _get_portfolio_with_sites,
      Portfolio_objects_get.
    rewrite Hf. reflexivity.
  - intros portfolio Hget. split.
    + intros Hs.
      unfold trigger_portfolio_forecast, try_except, bind, _get_portfolio_with_sites.
      rewrite Hget. unfold get_site_count. rewrite Hs. reflexivity.
    + intros Hne.
      assert (Hpos : 0 <= horizon_or_default self hz).
      { destruct fh as [v |]; cbn [Views.horizon_accepted] in Hh.
        - destruct Hh as (h & _ & Hh & ->). unfold horizon_or_default.
          destruct (h =? 0); [unfold self; simpl |]; lia.
        - subst hz. unfold horizon_or_default, self. simpl. lia. }
      destruct (horizon_in_column_dec (horizon_or_default self hz)) as [Hcol | Hno].
      2:{ assert (Hbig : 2 ^ 63 <= horizon_or_default self hz)
            by (unfold horizon_in_column in Hno; lia).
          destruct (trigger_refused self pid hz w portfolio Hget Hne Hno)
            as (w1 & Htr & Hdb & _).
          rewrite Htr. cbn [snd].
          unfold refusal_message.
          replace ((horizon_or_default self hz <? - 2 ^ 63)
                   || (2 ^ 63 <=? horizon_or_default self hz)) with true
            by (symmetry; apply orb_true_iff; right; apply Z.leb_le; exact Hbig).
          eexists. split; [reflexivity |]. right.
          split; [exact Hbig |]. split; [reflexivity | exact Hdb]. }
      destruct (trigger_unfold self pid hz w portfolio Hget Hne Hcol)
        as (r & job' & w1 & Hproc & Hout & Htr).
      rewrite Htr.
      pose proof (process_frame _ _ _ _ _ _ _ Hproc) as [[_ Hpo] _].
      cbn [created_world db portfolios] in Hpo.
      inversion Hout as [t m m' w0 Hno Hdb | t w0 Hyes Hj | e0 w2 w0 Hyes Hte Hj Hres];
        subst.
      * cbn [new_job job_id] in Hno. rewrite has_row_created in Hno. discriminate.
      * cbn [snd with_state new_job job_portfolio_id job_id status created_at].
        assert (Hget' : Portfolio_objects_get (db w1) (portfolio_id portfolio) = Ok portfolio).
        { rewrite (Portfolio_objects_get_id _ _ _ Hget).
          unfold Portfolio_objects_get in *. rewrite Hpo. exact Hget. }
        rewrite Hget'. eexists. split; [reflexivity |]. left. split; [exact Hcol |]. left.
        rewrite (Portfolio_objects_get_id _ _ _ Hget). reflexivity.
      * cbn [snd]. eexists. split; [reflexivity |]. left. split; [exact Hcol |]. right.
        exists (str_exn e0). reflexivity.
Qed.

End ViewFacts.

(* ===================================================================== *)
(** * Worked examples of the further properties                          *)
(* ===================================================================== *)

(** The registry as [ModelRegistry.__init__] leaves it resolves every
    type to a random model. *)
Lemma fresh_registry_random `{Mersenne} (u0 u1 u2 : Z) :
  random_registry (Engine.ModelRegistry__init__ u0 u1 u2).
Proof.
  intros t. unfold Engine.get_model, Engine.ModelRegistry__init__.
  cbn [Engine._models Engine._default_model].
  destruct (decide (PyStr.lower t = "wind")) as [-> | Hw].
  { rewrite lookup_insert_eq. eexists. reflexivity. }
  rewrite lookup_insert_ne by congruence.
  destruct (decide (PyStr.lower t = "solar")) as [-> | Hs].
  { rewrite lookup_insert_eq. eexists. reflexivity. }
  rewrite lookup_insert_ne by congruence.
  rewrite lookup_empty. eexists. reflexivity.
Qed.

Section WriteSideExamples.
Import Service.

Lemma trigger_rejects_missing_or_empty_portfolio_witness :
  find (fun p => portfolio_id p =? 9) (portfolios (db catalog_world)) = None
  /\ trigger_portfolio_forecast sample_service 9 None catalog_world
     = (Raise (PortfolioNotFoundError ("Portfolio with ID " +:+ pretty 9 +:+ " not found")),
        catalog_world)
  /\ Portfolio_objects_get (db catalog_world) 2 = Ok empty_portfolio
  /\ portfolio_sites_all (db catalog_world) empty_portfolio = []
  /\ trigger_portfolio_forecast sample_service 2 None catalog_world
     = (Raise (EmptyPortfolioError
                 ("Portfolio '" +:+ portfolio_name empty_portfolio +:+ "' (ID: "
                  +:+ pretty 2 +:+ ") has no sites")), catalog_world).
Proof.
  destruct (trigger_rejects_missing_or_empty_portfolio sample_service 9 None catalog_world)
    as [H1 _].
  destruct (trigger_rejects_missing_or_empty_portfolio sample_service 2 None catalog_world)
    as [_ H2].
  assert (F : find (fun p => portfolio_id p =? 9) (portfolios (db catalog_world)) = None)
    by reflexivity.
  assert (G : Portfolio_objects_get (db catalog_world) 2 = Ok empty_portfolio)
    by reflexivity.
  assert (E : portfolio_sites_all (db catalog_world) empty_portfolio = [])
    by reflexivity.
  exact (conj F (conj (H1 F) (conj G (conj E (H2 _ G E))))).
Defined.

Lemma trigger_returns_completed_job_witness :
  exists w',
    trigger_portfolio_forecast sample_service 1 (Some 0) sample_world
    = (Ok zero_horizon_job, w')
    /\ status zero_horizon_job = completed
    /\ (exists t, completed_at zero_horizon_job = Some t)
    /\ error_message zero_horizon_job = ""
    /\ job_portfolio_id zero_horizon_job = 1
    /\ forecast_horizon zero_horizon_job = horizon_or_default sample_service (Some 0)
    /\ 0 <= forecast_horizon zero_horizon_job
    /\ created_at zero_horizon_job = clock sample_world (ticks sample_world)
    /\ has_row (job_id zero_horizon_job) sample_world = false
    /\ ForecastJob_objects_get (db w') (job_id zero_horizon_job) = Ok zero_horizon_job.
Proof.
  assert (F : fst (trigger_portfolio_forecast sample_service 1 (Some 0) sample_world)
              = Ok zero_horizon_job) by by_evaluation.
  assert (E : trigger_portfolio_forecast sample_service 1 (Some 0) sample_world
              = (Ok zero_horizon_job,
                 snd (trigger_portfolio_forecast sample_service 1 (Some 0) sample_world)))
    by (rewrite <- F; apply surjective_pairing).
  eexists. split; [exact E |].
  exact (trigger_returns_completed_job sample_service 1 (Some 0) sample_world _ _ E).
Defined.

Lemma trigger_failure_keeps_failed_job_witness :
  Portfolio_objects_get (db failing_world) 1 = Ok sample_portfolio
  /\ portfolio_sites_all (db failing_world) sample_portfolio <> []
  /\ horizon_in_column (horizon_or_default sample_service (Some 2))
  /\ (exists w',
        trigger_portfolio_forecast sample_service 1 (Some 2) failing_world
        = (Raise (ForecastServiceError
                    "Failed to trigger forecast: Forecast processing failed: Model failed"), w')
        /\ exists msg t row,
             ForecastServiceError
               "Failed to trigger forecast: Forecast processing failed: Model failed"
             = ForecastServiceError
                 ("Failed to trigger forecast: " +:+ ("Forecast processing failed: " +:+ msg))
             /\ ForecastJob_objects_get (db w') (uuid4 (db failing_world)) = Ok row
             /\ status row = failed
             /\ completed_at row = Some t
             /\ error_message row = msg
             /\ forecast_horizon row = horizon_or_default sample_service (Some 2)
             /\ results (db w') = results (db failing_world))
  /\ ~ horizon_in_column (horizon_or_default sample_service (Some (2 ^ 63)))
  /\ (exists w',
        trigger_portfolio_forecast sample_service 1 (Some (2 ^ 63)) failing_world
        = (Raise (ForecastServiceError
                    "Failed to trigger forecast: Python int too large to convert to SQLite INTEGER"),
           w')
        /\ db w' = db failing_world).
Proof.
  assert (H1 : Portfolio_objects_get (db failing_world) 1 = Ok sample_portfolio)
    by reflexivity.
  assert (H2 : portfolio_sites_all (db failing_world) sample_portfolio <> [])
    by (vm_compute; discriminate).
  assert (H3 : horizon_in_column (horizon_or_default sample_service (Some 2)))
    by (split; vm_compute; [discriminate | reflexivity]).
  assert (H4 : ~ horizon_in_column (horizon_or_default sample_service (Some (2 ^ 63))))
    by (intros [_ Hlt]; vm_compute in Hlt; discriminate).
  assert (F : fst (trigger_portfolio_forecast sample_service 1 (Some 2) failing_world)
              = Raise (ForecastServiceError
                         "Failed to trigger forecast: Forecast processing failed: Model failed"))
    by by_evaluation.
  assert (E : trigger_portfolio_forecast sample_service 1 (Some 2) failing_world
              = (Raise (ForecastServiceError
                          "Failed to trigger forecast: Forecast processing failed: Model failed"),
                 snd (trigger_portfolio_forecast sample_service 1 (Some 2) failing_world)))
    by (rewrite <- F; apply surjective_pairing).
  assert (Fb : fst (trigger_portfolio_forecast sample_service 1 (Some (2 ^ 63)) failing_world)
               = Raise (ForecastServiceError
                          "Failed to trigger forecast: Python int too large to convert to SQLite INTEGER"))
    by by_evaluation.
  assert (Eb : trigger_portfolio_forecast sample_service 1 (Some (2 ^ 63)) failing_world
               = (Raise (ForecastServiceError
                           "Failed to trigger forecast: Python int too large to convert to SQLite INTEGER"),
                  snd (trigger_portfolio_forecast sample_service 1 (Some (2 ^ 63))
                         failing_world)))
    by (rewrite <- Fb; apply surjective_pairing).
  split; [exact H1 |]. split; [exact H2 |]. split; [exact H3 |].
  split.
  { eexists. split; [exact E |].
    exact (proj1 (trigger_failure_keeps_failed_job sample_service 1 (Some 2) failing_world
                    sample_portfolio _ _ H1 H2 E) H3). }
  split; [exact H4 |].
  eexists. split; [exact Eb |].
  exact (proj2 (proj2 (trigger_failure_keeps_failed_job sample_service 1 (Some (2 ^ 63))
                         failing_world sample_portfolio _ _ H1 H2 Eb) H4)).
Defined.

Lemma process_success_appends_results_witness :
  exists job' w',
    _process_forecast_job sample_service sample_job 2 pending_world = (Ok tt, job', w')
    /\ exists portfolio added t,
         Portfolio_objects_get (db pending_world) (job_portfolio_id sample_job) = Ok portfolio
         /\ results (db w') = results (db pending_world) ++ added
         /\ Forall (fun x => result_job_id x = job_id sample_job
                             /\ In (result_site_id x)
                                  (map Engine.site_id
                                     (portfolio_sites_all (db pending_world) portfolio)))
                   added
         /\ same_catalog pending_world w'
         /\ jobs (db w')
            = map (finish (job_id sample_job) completed t None) (jobs (db pending_world))
         /\ job' = with_state sample_job completed (Some t) (error_message sample_job).
Proof.
  assert (F : fst (fst (_process_forecast_job sample_service sample_job 2 pending_world))
              = Ok tt) by by_evaluation.
  assert (E : _process_forecast_job sample_service sample_job 2 pending_world
              = (Ok tt,
                 snd (fst (_process_forecast_job sample_service sample_job 2 pending_world)),
                 snd (_process_forecast_job sample_service sample_job 2 pending_world))).
  { rewrite <- F. rewrite <- surjective_pairing. apply surjective_pairing. }
  eexists _, _. split; [exact E |].
  exact (process_success_appends_results sample_service sample_job 2 pending_world _ _ E).
Defined.

Lemma process_success_result_count_witness :
  random_registry (model_registry pending_world)
  /\ exists job' w',
       _process_forecast_job sample_service sample_job 2 pending_world = (Ok tt, job', w')
       /\ exists portfolio,
            Portfolio_objects_get (db pending_world) (job_portfolio_id sample_job)
            = Ok portfolio
            /\ 0 < 2
            /\ length (results (db w'))
               = (length (results (db pending_world))
                  + length (portfolio_sites_all (db pending_world) portfolio) * Z.to_nat 2)%nat.
Proof.
  assert (Hr : random_registry (model_registry pending_world))
    by exact (fresh_registry_random 1 2 3).
  assert (F : fst (fst (_process_forecast_job sample_service sample_job 2 pending_world))
              = Ok tt) by by_evaluation.
  assert (E : _process_forecast_job sample_service sample_job 2 pending_world
              = (Ok tt,
                 snd (fst (_process_forecast_job sample_service sample_job 2 pending_world)),
                 snd (_process_forecast_job sample_service sample_job 2 pending_world))).
  { rewrite <- F. rewrite <- surjective_pairing. apply surjective_pairing. }
  split; [exact Hr |]. eexists _, _. split; [exact E |].
  exact (process_success_result_count sample_service sample_job 2 pending_world _ _ Hr E).
Defined.

Lemma cancel_marks_job_failed_witness :
  ForecastJob_objects_get (db failing_world) 7 = Ok sample_job
  /\ (status sample_job = pending \/ status sample_job = running)
  /\ exists w' row,
       cancel_forecast_job sample_service 7 failing_world = (Ok true, w')
       /\ jobs (db w')
          = map (finish 7 failed (clock failing_world (ticks failing_world))
                   (Some "Job cancelled by user"))
                (jobs (db failing_world))
       /\ results (db w') = results (db failing_world)
       /\ same_catalog failing_world w'
       /\ ForecastJob_objects_get (db w') 7 = Ok row
       /\ status row = failed
       /\ completed_at row = Some (clock failing_world (ticks failing_world))
       /\ error_message row = "Job cancelled by user".
Proof.
  assert (H1 : ForecastJob_objects_get (db failing_world) 7 = Ok sample_job) by reflexivity.
  assert (H2 : status sample_job = pending \/ status sample_job = running)
    by (left; reflexivity).
  exact (conj H1 (conj H2 (cancel_marks_job_failed sample_service 7 failing_world sample_job
                             H1 H2))).
Defined.

Lemma cancel_leaves_finished_and_missing_jobs_witness :
  find (fun j => job_id j =? 7) (jobs (db sample_world)) = None
  /\ cancel_forecast_job sample_service 7 sample_world
     = (Raise (JobNotFoundError ("Forecast job with ID " +:+ pretty 7 +:+ " not found")),
        sample_world)
  /\ exists job,
       ForecastJob_objects_get (db forecast_world) 1 = Ok job
       /\ (status job = completed \/ status job = failed)
       /\ cancel_forecast_job sample_service 1 forecast_world = (Ok false, forecast_world).
Proof.
  destruct (cancel_leaves_finished_and_missing_jobs sample_service 7 sample_world) as [H1 _].
  destruct (cancel_leaves_finished_and_missing_jobs sample_service 1 forecast_world)
    as [_ H2].
  assert (F : find (fun j => job_id j =? 7) (jobs (db sample_world)) = None) by reflexivity.
  assert (G : exists job, ForecastJob_objects_get (db forecast_world) 1 = Ok job
                          /\ status job = completed).
  { eexists. split; [vm_compute; reflexivity | reflexivity]. }
  destruct G as (job & Hg & Hs).
  split; [exact F |]. split; [exact (H1 F) |].
  exists job. split; [exact Hg |]. split; [left; exact Hs |].
  exact (H2 job Hg (or_introl Hs)).
Defined.

Lemma cancel_twice_witness :
  cancel_forecast_job sample_service 7 failing_world = (Ok true, cancelled_world)
  /\ cancel_forecast_job sample_service 7 cancelled_world = (Ok false, cancelled_world).
Proof.
  assert (F : fst (cancel_forecast_job sample_service 7 failing_world) = Ok true)
    by by_evaluation.
  assert (E : cancel_forecast_job sample_service 7 failing_world = (Ok true, cancelled_world))
    by (rewrite <- F; apply surjective_pairing).
  exact (conj E (cancel_twice sample_service 7 failing_world cancelled_world E)).
Defined.

Lemma cleanup_deletes_only_old_finished_jobs_witness :
  Datetime.valid (clock cancelled_world (ticks cancelled_world))
  /\ Datetime.valid (cutoff_date 0 cancelled_world)
  /\ length (jobs (db cancelled_world)) = 1%nat
  /\ fst (cleanup_old_jobs sample_service 0 cancelled_world) = Ok 1%nat
  /\ (exists n, fst (cleanup_old_jobs sample_service 0 cancelled_world) = Ok n
                /\ length (jobs (db cancelled_world))
                   = (n + length (jobs (db (snd (cleanup_old_jobs sample_service 0
                                                   cancelled_world)))))%nat)
  /\ ~ Datetime.valid (cutoff_date 800000 cancelled_world)
  /\ (exists m, fst (cleanup_old_jobs sample_service 800000 cancelled_world)
                = Raise (OverflowError m))
  /\ db (snd (cleanup_old_jobs sample_service 800000 cancelled_world)) = db cancelled_world.
Proof.
  assert (Hn : Datetime.valid (clock cancelled_world (ticks cancelled_world)))
    by (split; vm_compute; discriminate).
  assert (Hc : Datetime.valid (cutoff_date 0 cancelled_world))
    by (split; vm_compute; discriminate).
  assert (Hno : ~ Datetime.valid (cutoff_date 800000 cancelled_world))
    by (intros [Hlo _]; vm_compute in Hlo; apply Hlo; reflexivity).
  split; [exact Hn |]. split; [exact Hc |].
  split; [by_evaluation |]. split; [by_evaluation |].
  split.
  { exact (proj1 (proj1 (cleanup_deletes_only_old_finished_jobs sample_service 0
                           cancelled_world) Hn Hc)). }
  split; [exact Hno |].
  exact (proj2 (cleanup_deletes_only_old_finished_jobs sample_service 800000 cancelled_world)
           Hno).
Defined.

End WriteSideExamples.

Section ReadSideExamples.
Import Service Aggregation Queries.
#[local] Existing Instance SampleAggregates.

Lemma status_after_cancel_witness :
  find (fun j => job_id j =? 7) (jobs (db sample_world)) = None
  /\ get_forecast_status sample_service 7 sample_world
     = Raise (JobNotFoundError ("Forecast job with ID " +:+ pretty 7 +:+ " not found"))
  /\ ForecastJob_objects_select_related_get (db failing_world) 7
     = Ok (sample_job, sample_portfolio)
  /\ cancel_forecast_job sample_service 7 failing_world = (Ok true, cancelled_world)
  /\ exists info,
       get_forecast_status sample_service 7 cancelled_world = Ok info
       /\ si_status info = failed
       /\ si_is_complete info = true
       /\ si_is_successful info = false
       /\ si_error_message info = "Job cancelled by user"
       /\ si_completed_at info = Some (clock failing_world (ticks failing_world))
       /\ si_success info = None
       /\ si_portfolio_id info = portfolio_id sample_portfolio
       /\ si_created_at info = created_at sample_job.
Proof.
  destruct (status_after_cancel sample_service 7 sample_world) as [H1 _].
  destruct (status_after_cancel sample_service 7 failing_world) as [_ H2].
  assert (F : find (fun j => job_id j =? 7) (jobs (db sample_world)) = None) by reflexivity.
  assert (G : ForecastJob_objects_select_related_get (db failing_world) 7
              = Ok (sample_job, sample_portfolio)) by reflexivity.
  assert (Fc : fst (cancel_forecast_job sample_service 7 failing_world) = Ok true)
    by by_evaluation.
  assert (E : cancel_forecast_job sample_service 7 failing_world = (Ok true, cancelled_world))
    by (rewrite <- Fc; apply surjective_pairing).
  exact (conj F (conj (H1 F) (conj G (conj E (H2 _ _ _ G E))))).
Defined.

Lemma status_after_trigger_witness :
  random_registry (model_registry sample_world)
  /\ results_have_jobs (db sample_world)
  /\ exists w',
       trigger_portfolio_forecast sample_service 1 (Some 0) sample_world
       = (Ok zero_horizon_job, w')
       /\ exists info success,
            get_forecast_status sample_service (job_id zero_horizon_job) w' = Ok info
            /\ si_status info = completed
            /\ si_is_complete info = true
            /\ si_is_successful info = true
            /\ si_portfolio_id info = 1
            /\ si_success info = Some success
            /\ si_forecast_horizon success = horizon_or_default sample_service (Some 0)
            /\ 0 < si_forecast_horizon success
            /\ Z.of_nat (result_count success)
               = Z.of_nat (si_site_count success) * si_forecast_horizon success
            /\ expected_results success = Z.of_nat (result_count success)
            /\ results_complete success = true.
Proof.
  assert (Hr : random_registry (model_registry sample_world))
    by exact (fresh_registry_random 1 2 3).
  assert (Hj : results_have_jobs (db sample_world)) by constructor.
  assert (F : fst (trigger_portfolio_forecast sample_service 1 (Some 0) sample_world)
              = Ok zero_horizon_job) by by_evaluation.
  assert (E : trigger_portfolio_forecast sample_service 1 (Some 0) sample_world
              = (Ok zero_horizon_job,
                 snd (trigger_portfolio_forecast sample_service 1 (Some 0) sample_world)))
    by (rewrite <- F; apply surjective_pairing).
  split; [exact Hr |]. split; [exact Hj |]. eexists. split; [exact E |].
  exact (status_after_trigger sample_service 1 (Some 0) sample_world _ _ Hr Hj E).
Defined.

Lemma portfolio_results_errors_witness :
  find (fun p => portfolio_id p =? 9) (portfolios (db failing_world)) = None
  /\ get_portfolio_forecast_results sample_service 9 None failing_world
     = Raise (PortfolioNotFoundError ("Portfolio with ID " +:+ pretty 9 +:+ " not found"))
  /\ Portfolio_objects_get (db failing_world) 1 = Ok sample_portfolio
  /\ find (fun j => (job_id j =? 5) && (job_portfolio_id j =? portfolio_id sample_portfolio))
          (jobs (db failing_world)) = None
  /\ get_portfolio_forecast_results sample_service 1 (Some 5) failing_world
     = Raise (JobNotFoundError "Forecast job not found")
  /\ completed_jobs_of (db failing_world) sample_portfolio = []
  /\ get_portfolio_forecast_results sample_service 1 None failing_world
     = Raise (JobNotFoundError
                ("No completed forecast jobs found for portfolio " +:+ pretty 1))
  /\ select_job (db failing_world) sample_portfolio (Some 7) = Ok sample_job
  /\ job_results (db failing_world) sample_job = []
  /\ get_portfolio_forecast_results sample_service 1 (Some 7) failing_world
     = Raise (JobNotFoundError
                ("No forecast results found for job " +:+ pretty (job_id sample_job))).
Proof.
  destruct (portfolio_results_errors sample_service 9 failing_world) as [H1 _].
  destruct (portfolio_results_errors sample_service 1 failing_world) as [_ H2].
  assert (F : find (fun p => portfolio_id p =? 9) (portfolios (db failing_world)) = None)
    by reflexivity.
  assert (G : Portfolio_objects_get (db failing_world) 1 = Ok sample_portfolio)
    by reflexivity.
  destruct (H2 sample_portfolio G) as (Ha & Hb & Hc).
  assert (Fa : find (fun j => (job_id j =? 5)
                              && (job_portfolio_id j =? portfolio_id sample_portfolio))
                    (jobs (db failing_world)) = None) by reflexivity.
  assert (Fb : completed_jobs_of (db failing_world) sample_portfolio = []) by reflexivity.
  assert (Fc : select_job (db failing_world) sample_portfolio (Some 7) = Ok sample_job)
    by reflexivity.
  assert (Fd : job_results (db failing_world) sample_job = []) by reflexivity.
  exact (conj F (conj (H1 F None) (conj G (conj Fa (conj (Ha 5 Fa) (conj Fb (conj (Hb Fb)
           (conj Fc (conj Fd (Hc (Some 7) sample_job Fc Fd)))))))))).
Defined.

Lemma forecast_world_inv : db_inv (db forecast_world).
Proof.
  unfold db_inv.
  remember (jobs (db forecast_world)) as rows eqn:Ej. vm_compute in Ej. subst rows.
  constructor; [| constructor].
  unfold job_inv. cbn [status completed_at].
  split; [discriminate | intros [E | E]; discriminate E].
Qed.

Lemma portfolio_results_use_latest_job_witness :
  db_inv (db forecast_world)
  /\ exists out,
       get_portfolio_forecast_results sample_service 1 None forecast_world = Ok out
       /\ exists job t',
            In job (jobs (db forecast_world))
            /\ job_id job = pf_job_id out
            /\ job_portfolio_id job = 1
            /\ status job = completed
            /\ completed_at job = Some t'
            /\ forecast_generated_at out = Some t'
            /\ forall j t,
                 In j (jobs (db forecast_world)) -> job_portfolio_id j = 1 ->
                 status j = completed -> completed_at j = Some t -> t <= t'.
Proof.
  assert (Hex : exists out,
             get_portfolio_forecast_results sample_service 1 None forecast_world = Ok out).
  { eexists. vm_compute. reflexivity. }
  destruct Hex as (out & Hout).
  split; [exact forecast_world_inv |].
  exists out. split; [exact Hout |].
  exact (portfolio_results_use_latest_job sample_service 1 forecast_world out
           forecast_world_inv Hout).
Defined.

Lemma portfolio_results_keep_every_row_witness :
  exists out,
    get_portfolio_forecast_results sample_service 1 (Some 1) forecast_world = Ok out
    /\ length (site_forecasts out) = 2%nat
    /\ exists job,
         pf_job_id out = job_id job
         /\ flat_map sf_forecasts (site_forecasts out)
            = map forecast_data_of (job_results (db forecast_world) job)
         /\ site_count out = length (site_forecasts out)
         /\ List.NoDup (map sf_site_name (site_forecasts out)).
Proof.
  assert (Hex : exists out,
             get_portfolio_forecast_results sample_service 1 (Some 1) forecast_world = Ok out
             /\ length (site_forecasts out) = 2%nat).
  { eexists. split; [vm_compute; reflexivity | reflexivity]. }
  destruct Hex as (out & Hout & Hlen).
  exists out. split; [exact Hout |]. split; [exact Hlen |].
  exact (portfolio_results_keep_every_row sample_service 1 (Some 1) forecast_world out Hout).
Defined.

Lemma site_results_errors_witness :
  find (fun s => Engine.site_id s =? 9) (sites (db sample_world)) = None
  /\ get_site_forecast_results sample_service 9 None sample_world
     = inl (Site_DoesNotExist ("Site with ID " +:+ pretty 9 +:+ " not found"))
  /\ find (fun s => Engine.site_id s =? 1) (sites (db sample_world)) = Some sample_solar_site
  /\ latest_job_for_site (db sample_world) sample_solar_site = None
  /\ get_site_forecast_results sample_service 1 None sample_world
     = inl (Site_JobNotFoundError
              ("No completed forecast jobs found for site " +:+ pretty 1))
  /\ site_job_rows (db sample_world) 1 5 = []
  /\ get_site_forecast_results sample_service 1 (Some 5) sample_world
     = inl (Site_JobNotFoundError ("No forecast results found for site " +:+ pretty 1)).
Proof.
  destruct (site_results_errors sample_service 9 sample_world) as [H1 _].
  destruct (site_results_errors sample_service 1 sample_world) as [_ H2].
  assert (F : find (fun s => Engine.site_id s =? 9) (sites (db sample_world)) = None)
    by reflexivity.
  assert (G : find (fun s => Engine.site_id s =? 1) (sites (db sample_world))
              = Some sample_solar_site) by reflexivity.
  destruct (H2 sample_solar_site G) as (Ha & Hb).
  assert (Fa : latest_job_for_site (db sample_world) sample_solar_site = None)
    by reflexivity.
  assert (Fb : site_job_rows (db sample_world) 1 5 = []) by reflexivity.
  exact (conj F (conj (H1 F None) (conj G (conj Fa (conj (Ha Fa) (conj Fb (Hb 5 Fb))))))).
Defined.

Lemma site_results_sorted_and_counted_witness :
  exists out,
    get_site_forecast_results sample_service 1 None forecast_world = inr out
    /\ forecast_count out = 2%nat
    /\ exists j,
         (forall j0, @None Z = Some j0 -> j = j0)
         /\ sr_site_id out = 1
         /\ Permutation (sr_forecasts out)
              (map forecast_entry (site_job_rows (db forecast_world) 1 j))
         /\ StronglySorted Z.le (map fd_datetime (sr_forecasts out))
         /\ forecast_count out = length (sr_forecasts out)
         /\ (0 < forecast_count out)%nat.
Proof.
  assert (Hex : exists out,
             get_site_forecast_results sample_service 1 None forecast_world = inr out
             /\ forecast_count out = 2%nat).
  { eexists. split; [vm_compute; reflexivity | reflexivity]. }
  destruct Hex as (out & Hout & Hn).
  exists out. split; [exact Hout |]. split; [exact Hn |].
  exact (site_results_sorted_and_counted sample_service 1 None forecast_world out Hout).
Defined.

Lemma sample_names_unique : site_names_unique (db forecast_world).
Proof.
  assert (Es : sites (db forecast_world) = [sample_solar_site; sample_wind_site])
    by by_evaluation.
  unfold site_names_unique. rewrite Es.
  intros s1 s2 [<- | [<- | []]] [<- | [<- | []]] E;
    first [reflexivity | discriminate E].
Qed.

Lemma sample_results_unique : results_unique (db forecast_world).
Proof.
  unfold results_unique.
  remember (map (fun r => (result_job_id r, result_site_id r, forecast_datetime r))
                (results (db forecast_world))) as keys eqn:Ek.
  vm_compute in Ek. subst keys.
  repeat (apply List.NoDup_cons; [simpl; intuition discriminate |]).
  apply List.NoDup_nil.
Qed.

Lemma site_series_agree_witness :
  site_names_unique (db forecast_world)
  /\ results_unique (db forecast_world)
  /\ exists pout sout,
       get_portfolio_forecast_results sample_service 1 (Some 1) forecast_world = Ok pout
       /\ get_site_forecast_results sample_service 2 (Some 1) forecast_world = inr sout
       /\ forecast_count sout = 2%nat
       /\ exists sf,
            In sf (site_forecasts pout)
            /\ sf_site_name sf = sr_site_name sout
            /\ sf_forecasts sf = sr_forecasts sout.
Proof.
  assert (Hp : exists pout,
             get_portfolio_forecast_results sample_service 1 (Some 1) forecast_world
             = Ok pout).
  { eexists. vm_compute. reflexivity. }
  assert (Hs : exists sout,
             get_site_forecast_results sample_service 2 (Some 1) forecast_world = inr sout
             /\ forecast_count sout = 2%nat).
  { eexists. split; [vm_compute; reflexivity | reflexivity]. }
  destruct Hp as (pout & Hp). destruct Hs as (sout & Hs & Hn).
  split; [exact sample_names_unique |]. split; [exact sample_results_unique |].
  exists pout, sout. split; [exact Hp |]. split; [exact Hs |]. split; [exact Hn |].
  exact (site_series_agree sample_service 1 2 1 forecast_world pout sout
           sample_names_unique sample_results_unique Hp Hs).
Defined.

End ReadSideExamples.

Section EngineExamples.
Import Engine Queries.

Lemma longer_horizon_extends_forecast_witness :
  0 < 2 <= 3
  /\ fst (predict (__init__ (Some 42) 0) (Some sample_solar_site) 3 sample_now)
     = Ok (sample_forecast 3)
  /\ length (sample_forecast 3) = 3%nat
  /\ fst (predict (__init__ (Some 42) 0) (Some sample_solar_site) 2 sample_now)
     = Ok (firstn (Z.to_nat 2) (sample_forecast 3))
  /\ 0 < 3 <= 5
  /\ fst (predict (__init__ (Some 42) 0) (Some sample_solar_site) 3 sample_last_evening)
     = Raise (OverflowError "date value out of range")
  /\ fst (predict (__init__ (Some 42) 0) (Some sample_solar_site) 5 sample_last_evening)
     = Raise (OverflowError "date value out of range").
Proof.
  assert (Hk : 0 < 2 <= 3) by lia.
  assert (Hk' : 0 < 3 <= 5) by lia.
  assert (Hp := sample_forecast_ok 3 eq_refl ltac:(lia)).
  assert (Hl : length (sample_forecast 3) = 3%nat) by (vm_compute; reflexivity).
  assert (Hr : fst (predict (__init__ (Some 42) 0) (Some sample_solar_site) 3
                      sample_last_evening)
               = Raise (OverflowError "date value out of range"))
    by (vm_compute; reflexivity).
  exact (conj Hk (conj Hp (conj Hl
           (conj (proj1 (longer_horizon_extends_forecast (__init__ (Some 42) 0)
                           sample_solar_site 2 3 sample_now Hk) _ Hp)
              (conj Hk' (conj Hr
                 (proj2 (longer_horizon_extends_forecast (__init__ (Some 42) 0)
                           sample_solar_site 3 5 sample_last_evening Hk') _ Hr))))))).
Defined.

Lemma predict_draws_once_per_hour_witness :
  fst (predict (__init__ (Some 42) 0) (Some sample_solar_site) 14 sample_now)
  = Ok (sample_forecast 14)
  /\ draws sample_solar_site (Datetime.replace_minute_second_microsecond_0 sample_now)
       (range 14) = 13%nat
  /\ _random (snd (predict (__init__ (Some 42) 0) (Some sample_solar_site) 14 sample_now))
     = advance 13 (_random (__init__ (Some 42) 0)).
Proof.
  assert (Hp := sample_forecast_ok 14 eq_refl ltac:(lia)).
  assert (Hd : draws sample_solar_site (Datetime.replace_minute_second_microsecond_0 sample_now)
                 (range 14) = 13%nat) by (vm_compute; reflexivity).
  split; [exact Hp |]. split; [exact Hd |].
  rewrite <- Hd.
  exact (proj1 (predict_draws_once_per_hour (__init__ (Some 42) 0) sample_solar_site 14
                  sample_now) _ Hp).
Defined.

Lemma forecast_uses_type_and_capacity_only_witness :
  site_type sample_hydro_site = site_type sample_hydro_site_10
  /\ capacity_unset sample_hydro_site
  /\ capacity_mw sample_hydro_site_10 = Some Decimal.d10_0
  /\ predict (__init__ (Some 42) 0) (Some sample_hydro_site) 3 sample_now
     = predict (__init__ (Some 42) 0) (Some sample_hydro_site_10) 3 sample_now.
Proof.
  assert (Ht : site_type sample_hydro_site = site_type sample_hydro_site_10) by reflexivity.
  assert (Hu : capacity_unset sample_hydro_site) by (left; reflexivity).
  assert (Hc : capacity_mw sample_hydro_site_10 = Some Decimal.d10_0) by reflexivity.
  exact (conj Ht (conj Hu (conj Hc
           (forecast_uses_type_and_capacity_only (__init__ (Some 42) 0) sample_hydro_site
              sample_hydro_site_10 3 sample_now Ht (or_intror (conj Hu Hc)))))).
Defined.

Lemma predicted_points_pass_clean_witness :
  capacity_in_column sample_solar_site
  /\ random_source_bounded
  /\ fst (predict (__init__ (Some 42) 0) (Some sample_solar_site) 3 sample_now)
     = Ok (sample_forecast 3)
  /\ In (sample_point 3 1) (sample_forecast 3)
  /\ ForecastResult_clean
       (result_of_prediction sample_job sample_solar_site (sample_point 3 1) sample_now)
     = Clean.
Proof.
  assert (Hp := sample_forecast_ok 3 eq_refl ltac:(lia)).
  assert (Hin := sample_point_In 3 1 ltac:(vm_compute; reflexivity)).
  exact (conj sample_solar_capacity (conj sample_source_bounded (conj Hp (conj Hin
           (predicted_points_pass_clean _ _ _ _ _ _ sample_job sample_now
              sample_solar_capacity sample_source_bounded Hp Hin))))).
Defined.

Lemma unregister_model_effect_witness :
  PyStr.eq_ignoring_case "Solar" "SOLAR"
  /\ PyStr.lower "wind" <> PyStr.lower "Solar"
  /\ fst (unregister_model sample_registry "Solar") = true
  /\ get_model (snd (unregister_model sample_registry "Solar")) "SOLAR"
     = _default_model sample_registry
  /\ get_model (snd (unregister_model sample_registry "Solar")) "wind"
     = get_model sample_registry "wind"
  /\ unregister_model (snd (unregister_model sample_registry "Solar")) "Solar"
     = (false, snd (unregister_model sample_registry "Solar")).
Proof.
  assert (E : PyStr.eq_ignoring_case "Solar" "SOLAR").
  { repeat constructor;
      solve [ left; reflexivity
            | right; right; split; reflexivity ]. }
  assert (N : PyStr.lower "wind" <> PyStr.lower "Solar") by (vm_compute; discriminate).
  destruct (unregister_model_effect sample_registry "Solar") as (H1 & H2 & H3 & H4).
  split; [exact E |]. split; [exact N |].
  split; [rewrite H1; vm_compute; reflexivity |].
  split; [exact (H2 "SOLAR" E) |]. split; [exact (H3 "wind" N) | exact H4].
Defined.

Lemma registry_updates_are_local_witness :
  PyStr.lower "solar" <> PyStr.lower "Hydro"
  /\ (exists reg',
        register_model sample_registry "Hydro" (ModelInstance mock_model) = Ok reg'
        /\ _default_model reg' = _default_model sample_registry
        /\ get_model reg' "solar" = get_model sample_registry "solar")
  /\ (exists reg',
        set_default_model sample_registry (ModelInstance mock_model) = Ok reg'
        /\ get_model reg' "hydro" = mock_model).
Proof.
  assert (N : PyStr.lower "solar" <> PyStr.lower "Hydro") by (vm_compute; discriminate).
  destruct (registry_updates_are_local sample_registry "Hydro" mock_model "a string")
    as ((r1 & E1 & D1 & G1) & (r2 & E2 & G2) & _).
  split; [exact N |]. split.
  - exists r1. split; [exact E1 |]. split; [exact D1 | exact (G1 "solar" N)].
  - assert (L : _models sample_registry !! PyStr.lower "hydro" = None)
      by (vm_compute; reflexivity).
    exists r2. split; [exact E2 |]. rewrite G2, L. reflexivity.
Defined.

End EngineExamples.

Section ViewExamples.
Import Service.

Lemma view_refuses_unusable_horizon_witness :
  sample_int "0" = Ok 0
  /\ 0 <= 0
  /\ Views.trigger_portfolio_forecast sample_int Views.ForecastViewSet__init__ (Some "0") "1"
       sample_world
     = (Ok {| Views.data := Views.ErrorData "Invalid forecast horizon"
                              (Some "Forecast horizon must be a positive integer");
              Views.status_code := 400 |}, sample_world)
  /\ sample_int "soon" = Raise (ValueError "invalid literal for int() with base 10: 'soon'")
  /\ Views.trigger_portfolio_forecast sample_int Views.ForecastViewSet__init__ (Some "soon")
       "1" sample_world
     = (Ok {| Views.data := Views.ErrorData "Invalid forecast horizon"
                              (Some "Forecast horizon must be a valid integer");
              Views.status_code := 400 |}, sample_world).
Proof.
  destruct (view_refuses_unusable_horizon sample_int Views.ForecastViewSet__init__ "0" "1"
              sample_world) as [H1 _].
  destruct (view_refuses_unusable_horizon sample_int Views.ForecastViewSet__init__ "soon" "1"
              sample_world) as [_ H2].
  assert (E0 : sample_int "0" = Ok 0) by reflexivity.
  assert (L0 : 0 <= 0) by lia.
  assert (E1 : sample_int "soon"
               = Raise (ValueError "invalid literal for int() with base 10: 'soon'"))
    by reflexivity.
  exact (conj E0 (conj L0 (conj (H1 0 E0 L0) (conj E1 (H2 _ E1 (or_introl eq_refl)))))).
Defined.

Lemma view_answers_by_outcome_witness :
  sample_int "9" = Ok 9
  /\ sample_int "2" = Ok 2
  /\ sample_int "1" = Ok 1
  /\ Views.horizon_accepted sample_int (Some "2") (Some 2)
  /\ find (fun p => portfolio_id p =? 9) (portfolios (db catalog_world)) = None
  /\ Views.trigger_portfolio_forecast sample_int Views.ForecastViewSet__init__ (Some "2") "9"
       catalog_world
     = (Ok {| Views.data :=
                Views.ErrorData "Portfolio not found"
                  (Some ("Portfolio with ID " +:+ pretty 9 +:+ " not found"));
              Views.status_code := 404 |}, catalog_world)
  /\ Portfolio_objects_get (db catalog_world) 2 = Ok empty_portfolio
  /\ portfolio_sites_all (db catalog_world) empty_portfolio = []
  /\ Views.trigger_portfolio_forecast sample_int Views.ForecastViewSet__init__ (Some "2") "2"
       catalog_world
     = (Ok {| Views.data :=
                Views.ErrorData "Empty portfolio"
                  (Some ("Portfolio '" +:+ portfolio_name empty_portfolio +:+ "' (ID: "
                         +:+ pretty 2 +:+ ") has no sites"));
              Views.status_code := 400 |}, catalog_world)
  /\ Portfolio_objects_get (db sample_world) 1 = Ok sample_portfolio
  /\ portfolio_sites_all (db sample_world) sample_portfolio <> []
  /\ exists response,
       Views.trigger_portfolio_forecast sample_int Views.ForecastViewSet__init__ (Some "2")
         "1" sample_world
       = (Ok response, forecast_world)
       /\ response
          = {| Views.data :=
                 Views.JobCreated 1 1 "Test Portfolio" completed sample_now
                   ("Forecast job created for portfolio " +:+ Views.double_quote
                    +:+ "Test Portfolio" +:+ Views.double_quote);
               Views.status_code := 201 |}
       /\ sample_int "9223372036854775808" = Ok (2 ^ 63)
       /\ Views.horizon_accepted sample_int (Some "9223372036854775808") (Some (2 ^ 63))
       /\ exists refusal,
            Views.trigger_portfolio_forecast sample_int Views.ForecastViewSet__init__
              (Some "9223372036854775808") "1" sample_world
            = (Ok refusal,
               snd (trigger_portfolio_forecast (ForecastService__init__ None) 1
                      (Some (2 ^ 63)) sample_world))
            /\ refusal
               = {| Views.data :=
                      Views.ErrorData "Forecast service error"
                        (Some ("Failed to trigger forecast: "
                               +:+ "Python int too large to convert to SQLite INTEGER"));
                    Views.status_code := 500 |}
            /\ db (snd (trigger_portfolio_forecast (ForecastService__init__ None) 1
                          (Some (2 ^ 63)) sample_world)) = db sample_world.
Proof.
  assert (E9 : sample_int "9" = Ok 9) by reflexivity.
  assert (E2 : sample_int "2" = Ok 2) by reflexivity.
  assert (E1 : sample_int "1" = Ok 1) by reflexivity.
  assert (Hh : Views.horizon_accepted sample_int (Some "2") (Some 2)).
  { exists 2. split; [reflexivity |]. split; [lia | reflexivity]. }
  destruct (view_answers_by_outcome sample_int (Some "2") (Some 2) "9" 9 catalog_world E9 Hh)
    as [Ha _].
  destruct (view_answers_by_outcome sample_int (Some "2") (Some 2) "2" 2 catalog_world E2 Hh)
    as [_ Hb].
  destruct (view_answers_by_outcome sample_int (Some "2") (Some 2) "1" 1 sample_world E1 Hh)
    as [_ Hc].
  assert (F : find (fun p => portfolio_id p =? 9) (portfolios (db catalog_world)) = None)
    by reflexivity.
  assert (G : Portfolio_objects_get (db catalog_world) 2 = Ok empty_portfolio)
    by reflexivity.
  assert (S0 : portfolio_sites_all (db catalog_world) empty_portfolio = []) by reflexivity.
  assert (G1 : Portfolio_objects_get (db sample_world) 1 = Ok sample_portfolio)
    by reflexivity.
  assert (S1 : portfolio_sites_all (db sample_world) sample_portfolio <> [])
    by (vm_compute; discriminate).
  split; [exact E9 |]. split; [exact E2 |]. split; [exact E1 |]. split; [exact Hh |].
  split; [exact F |]. split; [exact (Ha F) |].
  split; [exact G |]. split; [exact S0 |]. split; [exact (proj1 (Hb _ G) S0) |].
  split; [exact G1 |]. split; [exact S1 |].
  destruct (proj2 (Hc _ G1) S1) as (response & Hv & Hr).
  exists response. split; [exact Hv |].
  assert (Fv : fst (Views.trigger_portfolio_forecast sample_int Views.ForecastViewSet__init__
                     (Some "2") "1" sample_world)
              = Ok {| Views.data :=
                        Views.JobCreated 1 1 "Test Portfolio" completed sample_now
                          ("Forecast job created for portfolio " +:+ Views.double_quote
                           +:+ "Test Portfolio" +:+ Views.double_quote);
                      Views.status_code := 201 |}) by by_evaluation.
  rewrite Hv in Fv. cbn [fst] in Fv. injection Fv as ->.
  split; [reflexivity |].
  assert (Eb : sample_int "9223372036854775808" = Ok (2 ^ 63)) by reflexivity.
  assert (Hhb : Views.horizon_accepted sample_int (Some "9223372036854775808")
                  (Some (2 ^ 63))).
  { exists (2 ^ 63). split; [exact Eb |]. split; [reflexivity | reflexivity]. }
  split; [exact Eb |]. split; [exact Hhb |].
  destruct (view_answers_by_outcome sample_int (Some "9223372036854775808") (Some (2 ^ 63))
              "1" 1 sample_world E1 Hhb) as [_ Hd].
  destruct (proj2 (Hd _ G1) S1) as (refusal & Hvb & [[Hcol _] | (_ & Hrb & Hdb)]).
  { exfalso. destruct Hcol as [_ Hlt]. vm_compute in Hlt. discriminate. }
  exists refusal. split; [exact Hvb |]. split; [exact Hrb | exact Hdb].
Defined.

End ViewExamples.
